(** * pf-migration-eval: diff ingestion, file matching, detection, noise and scoring

    A shallow embedding of the evaluation pipeline of the repository
    (diff parser, file matcher, detector registry, the theme-dark-removal
    detector, noise detector and scoring engine) together with the
    properties its specification states about them.

    Conventions of the embedding.
    - A JavaScript string is a [string]: a sequence of code units, here
      restricted to the range 0..255 of [ascii].
    - Line numbers and other integral JavaScript numbers are [Z]: they are
      exact, as integers below 2^53 are in JavaScript.
    - Fractional JavaScript numbers are kept abstract behind the class
      [JsNumber]; the functions of the scoring engine and of the noise
      detector are written once against that class.  The universal
      statements are proved for the exact instance ([Q]); the concrete
      scenarios are re-evaluated on IEEE-754 binary64 ([float]), which is
      what the program runs on.
    - [Map<string, _>] is [gmap string _], [Set<string>] is [gset string].
    - The module-level array of the registry lives in an explicit heap of
      arrays, so that aliasing between the catalog and the arrays handed
      out by [getPatterns] can be stated. *)

From Stdlib Require Import ZArith QArith Qround Qminmax Lqa Floats.
From Stdlib Require Import List Ascii String Bool Lia Permutation Sorted.
From stdpp Require Import gmap strings list sorting.

Set Default Proof Using "Type".
Local Open Scope Z_scope.

(* ===================================================================== *)
(** * Part I: the embedding                                              *)
(* ===================================================================== *)

(** ** JavaScript numbers *)

(** The operations on [number] the sources use.  [lit n d] is the decimal
    literal n/d (for instance [0.20] is [lit 20 100]). *)
Class JsNumber (num : Type) := {
  lit : Z -> positive -> num;
  add : num -> num -> num;
  sub : num -> num -> num;
  mul : num -> num -> num;
  div : num -> num -> num;
  strict_eq : num -> num -> bool;
  Math_min : num -> num -> num;
  Math_round : num -> num;
}.

Declare Scope js_scope.
Delimit Scope js_scope with js.
Infix "+" := add : js_scope.
Infix "-" := sub : js_scope.
Infix "*" := mul : js_scope.
Infix "/" := div : js_scope.
Infix "===" := strict_eq (at level 70, no associativity) : js_scope.

(** An array length, or any other small integer, as a number. *)
Definition of_nat {num : Type} `{JsNumber num} (n : nat) : num :=
  lit (Z.of_nat n) 1.

(** Exact arithmetic.  Division by zero is never reached by the sources
    modelled here (each division is guarded by a test against zero). *)
#[export] Instance Q_JsNumber : JsNumber Q := {|
  lit n d := n # d;
  add := Qplus;
  sub := Qminus;
  mul := Qmult;
  div := Qdiv;
  strict_eq := Qeq_bool;
  Math_min := Qmin;
  Math_round x := inject_Z (Qfloor (x + (1 # 2)));
|}.

(** IEEE-754 binary64, the numbers of the running program. *)
Module IEEE.

Definition float_of_Z (z : Z) : float :=
  if z <? 0 then PrimFloat.opp (PrimFloat.of_uint63 (Uint63.of_Z (- z)))
  else PrimFloat.of_uint63 (Uint63.of_Z z).

(** [Math.min]: NaN if either argument is NaN, and -0 below +0. *)
Definition min (x y : float) : float :=
  if PrimFloat.ltb x y then x
  else if PrimFloat.ltb y x then y
  else if PrimFloat.eqb x y then
    match PrimFloat.classify x with
    | NZero => x
    | _ => y
    end
  else PrimFloat.nan.

(** [Math.round]: the closest integer, ties towards +infinity.  A finite
    value is [(-1)^s * m * 2^e]; with [e >= 0] it is an integer already. *)
Definition round (x : float) : float :=
  match Prim2SF x with
  | S754_finite s m e =>
      if 0 <=? e then x
      else
        let v := if s then Z.neg m else Z.pos m in
        let r := (2 * v + 2 ^ (- e)) / 2 ^ (1 - e) in
        if (r =? 0) && s then PrimFloat.opp PrimFloat.zero
        else float_of_Z r
  | _ => x
  end.

End IEEE.

#[export] Instance float_JsNumber : JsNumber float := {|
  lit n d := PrimFloat.div (IEEE.float_of_Z n) (IEEE.float_of_Z (Z.pos d));
  add := PrimFloat.add;
  sub := PrimFloat.sub;
  mul := PrimFloat.mul;
  div := PrimFloat.div;
  strict_eq := PrimFloat.eqb;
  Math_min := IEEE.min;
  Math_round := IEEE.round;
|}.

(** ** types.ts *)

Inductive DetectionStatus :=
  | CORRECT
  | MISSING
  | INCORRECT
  | UNNECESSARY
  | FILE_MISSING
  | NOT_APPLICABLE.

#[export] Instance DetectionStatus_eq_dec : EqDecision DetectionStatus.
Proof. solve_decision. Defined.

Record DiffLine := {
  lineNumber : Z;
  content : string;
}.

Record DiffHunk := {
  oldStart : Z;
  oldCount : Z;
  newStart : Z;
  newCount : Z;
  lines : list string;
}.

Record FileDiff := {
  filePath : string;
  oldPath : option string;
  addedLines : list DiffLine;
  removedLines : list DiffLine;
  hunks : list DiffHunk;
  isBinary : bool;
  isRenamed : bool;
}.

Record DetectionResult := {
  patternId : string;
  status : DetectionStatus;
  message : string;
  details : option (list string);
}.

Record MatchedPair := {
  golden : FileDiff;
  migration : FileDiff;
}.

Record MatchResult := {
  matched : list MatchedPair;
  missedFiles : list FileDiff;
  extraFiles : list FileDiff;
}.

Inductive NoiseType :=
  | unnecessary_change
  | formatting_only
  | incorrect_migration
  | artifact
  | placeholder_token.

#[export] Instance NoiseType_eq_dec : EqDecision NoiseType.
Proof. solve_decision. Defined.

Record NoiseInstance (num : Type) := {
  type : NoiseType;
  file : string;
  line : option Z;
  description : string;
  penalty : num;
}.
Arguments type {num} _.
Arguments file {num} _.
Arguments line {num} _.
Arguments description {num} _.
Arguments penalty {num} _.

#[export] Instance DiffLine_eq_dec : EqDecision DiffLine.
Proof. solve_decision. Defined.
#[export] Instance DiffHunk_eq_dec : EqDecision DiffHunk.
Proof. solve_decision. Defined.
#[export] Instance FileDiff_eq_dec : EqDecision FileDiff.
Proof. solve_decision. Defined.

(** ** scoring/engine.ts *)

Module Engine.
Section WithNumbers.
Context {num : Type} `{JsNumber num}.
Local Open Scope js_scope.

Record WeightedDetectionResult := {
  result : DetectionResult;
  weight : num;
}.

Record ScoreInput := {
  matchResult : MatchResult;
  weightedResults : list WeightedDetectionResult;
  noiseInstances : list (NoiseInstance num);
}.

Record ScoreBreakdown := {
  overallScore : num;
  fileCoverage : num;
  patternScore : num;
  noisePenalty : num;
}.

(** [CREDIT] is a partial table: UNNECESSARY and NOT_APPLICABLE have no
    entry. *)
Definition CREDIT (s : DetectionStatus) : option num :=
  match s with
  | CORRECT => Some (lit 1 1)
  | INCORRECT => Some (lit 25 100)
  | MISSING => Some (lit 0 1)
  | FILE_MISSING => Some (lit 0 1)
  | UNNECESSARY | NOT_APPLICABLE => None
  end.

Definition computeFileCoverage (matchResult : MatchResult) : num :=
  let goldenTotal :=
    (length (matched matchResult) + length (missedFiles matchResult))%nat in
  if (goldenTotal =? 0)%nat then lit 1 1
  else of_nat (length (matched matchResult)) / of_nat goldenTotal.

(** The body of the [for ... of] loop, on the two accumulators
    [(weightedCredit, weightedExpected)]. *)
Definition patternScore_step (acc : num * num) (r : WeightedDetectionResult)
  : num * num :=
  let '(weightedCredit, weightedExpected) := acc in
  if decide (status (result r) = NOT_APPLICABLE) then acc
  else
    let credit := default (lit 0 1) (CREDIT (status (result r))) in
    (weightedCredit + weight r * credit,
     weightedExpected + weight r * lit 1 1).

Definition computePatternScore (results : list WeightedDetectionResult) : num :=
  let '(weightedCredit, weightedExpected) :=
    fold_left patternScore_step results (lit 0 1, lit 0 1) in
  if weightedExpected === lit 0 1 then lit 1 1
  else weightedCredit / weightedExpected.

Definition computeNoisePenalty (noiseInstances : list (NoiseInstance num)) : num :=
  let totalPenalty :=
    fold_left (fun sum n => sum + penalty n) noiseInstances (lit 0 1) in
  Math_min (lit 1 1) totalPenalty.

Definition round (value : num) : num :=
  Math_round (value * lit 100 1) / lit 100 1.

Definition computeScore (input : ScoreInput) : ScoreBreakdown :=
  let fileCoverage := computeFileCoverage (matchResult input) in
  let patternScore := computePatternScore (weightedResults input) in
  let noisePenalty := computeNoisePenalty (noiseInstances input) in
  let overallScore :=
    (lit 20 100 * fileCoverage) + (lit 65 100 * patternScore)
    + (lit 15 100 * (lit 1 1 - noisePenalty)) in
  {| overallScore := round (overallScore * lit 100 1);
     fileCoverage := round (fileCoverage * lit 100 1);
     patternScore := round (patternScore * lit 100 1);
     noisePenalty := round (noisePenalty * lit 100 1) |}.

End WithNumbers.
Arguments WeightedDetectionResult : clear implicits.
Arguments ScoreInput : clear implicits.
Arguments ScoreBreakdown : clear implicits.
End Engine.

(** ** JavaScript strings *)

Module JsString.
Local Open Scope string_scope.

(** [s.startsWith(p)] *)
Definition startsWith (s p : string) : bool := String.prefix p s.

(** [s.slice(n)], for [n >= 0] *)
Fixpoint slice_from (n : nat) (s : string) : string :=
  match n, s with
  | O, _ => s
  | S _, EmptyString => EmptyString
  | S n', String _ s' => slice_from n' s'
  end.

(** [s.slice(a, b)], for [0 <= a] and [0 <= b] *)
Definition slice (a b : nat) (s : string) : string :=
  String.substring a (b - a) s.

(** [s.indexOf(p)], with [None] for -1 *)
Definition indexOf (s p : string) : option nat := String.index 0 p s.

(** [s.includes(p)] *)
Definition includes (s p : string) : bool := bool_decide (is_Some (indexOf s p)).

(** [s.split(sep)] for a one-character separator *)
Fixpoint split (sep : ascii) (s : string) : list string :=
  match s with
  | EmptyString => [EmptyString]
  | String c s' =>
      if Ascii.eqb c sep then EmptyString :: split sep s'
      else
        match split sep s' with
        | [] => [String c EmptyString]
        | h :: t => String c h :: t
        end
  end.

(** [parts.join(sep)] *)
Definition join (sep : string) (parts : list string) : string :=
  String.concat sep parts.

(** [s.replace(p, r)] with a string pattern: the first occurrence only *)
Definition replace (p r s : string) : string :=
  match indexOf s p with
  | Some i => String.substring 0 i s ++ r ++ slice_from (i + String.length p) s
  | None => s
  end.

Fixpoint map_chars (f : ascii -> ascii) (s : string) : string :=
  match s with
  | EmptyString => EmptyString
  | String c s' => String (f c) (map_chars f s')
  end.

Fixpoint filter_chars (f : ascii -> bool) (s : string) : string :=
  match s with
  | EmptyString => EmptyString
  | String c s' => if f c then String c (filter_chars f s') else filter_chars f s'
  end.

(** The character classes of ECMAScript regular expressions, on the code
    units 0..255: [\s] is TAB, LF, VT, FF, CR, SPACE and NBSP. *)
Definition is_whitespace (c : ascii) : bool :=
  let n := nat_of_ascii c in
  ((9 <=? n) && (n <=? 13) || (n =? 32) || (n =? 160))%nat.

Definition is_digit (c : ascii) : bool :=
  let n := nat_of_ascii c in ((48 <=? n) && (n <=? 57))%nat.

Definition is_word (c : ascii) : bool :=
  let n := nat_of_ascii c in
  (is_digit c || (65 <=? n) && (n <=? 90) || (97 <=? n) && (n <=? 122)
   || (n =? 95))%nat.

Fixpoint trimStart (s : string) : string :=
  match s with
  | EmptyString => EmptyString
  | String c s' => if is_whitespace c then trimStart s' else s
  end.

Fixpoint trimEnd (s : string) : string :=
  match s with
  | EmptyString => EmptyString
  | String c s' =>
      match trimEnd s' with
      | EmptyString => if is_whitespace c then EmptyString else String c EmptyString
      | t => String c t
      end
  end.

(** [s.trim()] *)
Definition trim (s : string) : string := trimEnd (trimStart s).

(** [parseInt(s, 10)] on a string of decimal digits (the only use in the
    sources is on a [\d+] capture group). *)
Definition parseInt (s : string) : Z :=
  fold_left (fun acc c => 10 * acc + Z.of_nat (nat_of_ascii c - 48))
            (list_ascii_of_string s) 0.

(** The longest prefix of digits and what follows it. *)
Fixpoint span_digits (s : string) : string * string :=
  match s with
  | EmptyString => (EmptyString, EmptyString)
  | String c s' =>
      if is_digit c then
        let '(d, rest) := span_digits s' in (String c d, rest)
      else (EmptyString, s)
  end.

(** [s] without the prefix [p], if it starts with it. *)
Definition strip_prefix (p s : string) : option string :=
  if startsWith s p then Some (slice_from (String.length p) s) else None.

End JsString.

(** ** Regular expressions

    The fragment of ECMAScript regular expressions the sources use, with
    [RegExp.prototype.test] (an unanchored search). *)

Module JsRegExp.
Import JsString.

Inductive regex :=
  | Eps
  | Chr (c : ascii)
  | Cls (p : ascii -> bool)
  | Seq (r1 r2 : regex)
  | Alt (r1 r2 : regex)
  | Star (r : regex)
  | Eol
  | WordB.

(** A literal string. *)
Fixpoint Str (s : string) : regex :=
  match s with
  | EmptyString => Eps
  | String c s' => Seq (Chr c) (Str s')
  end.

Definition Plus (r : regex) : regex := Seq r (Star r).

(** A position in the subject: the code unit before it, if any, and the
    rest of the subject. *)
Definition pos : Type := option ascii * string.

Definition at_word_boundary (p : pos) : bool :=
  let before := from_option is_word false (fst p) in
  let after := match snd p with String c _ => is_word c | EmptyString => false end in
  xorb before after.

(** All the positions at which a match of [r] starting at [p] can end. *)
Fixpoint run (r : regex) (p : pos) : list pos :=
  match r with
  | Eps => [p]
  | Chr c =>
      match snd p with
      | String c' s' => if Ascii.eqb c c' then [(Some c', s')] else []
      | EmptyString => []
      end
  | Cls f =>
      match snd p with
      | String c' s' => if f c' then [(Some c', s')] else []
      | EmptyString => []
      end
  | Seq r1 r2 => flat_map (run r2) (run r1 p)
  | Alt r1 r2 => run r1 p ++ run r2 p
  | Star r' =>
      (fix iter (fuel : nat) (p : pos) : list pos :=
         p :: match fuel with
              | O => []
              | S fuel' =>
                  flat_map
                    (fun q =>
                       if (String.length (snd q) <? String.length (snd p))%nat
                       then iter fuel' q else [])
                    (run r' p)
              end) (String.length (snd p)) p
  | Eol => match snd p with EmptyString => [p] | _ => [] end
  | WordB => if at_word_boundary p then [p] else []
  end.

Definition matches_at (r : regex) (p : pos) : bool :=
  match run r p with [] => false | _ => true end.

(** [r.test(s)]: is there a match starting anywhere in [s]? *)
Fixpoint search (r : regex) (before : option ascii) (s : string) : bool :=
  matches_at r (before, s) ||
  match s with
  | EmptyString => false
  | String c s' => search r (Some c) s'
  end.

Definition test (r : regex) (s : string) : bool := search r None s.

End JsRegExp.

(** ** input/diff-parser.ts *)

Module DiffParser.
Import JsString.
Local Open Scope string_scope.
Local Open Scope list_scope.

(** The line terminator ["\n"]. *)
Definition LF : ascii := "010"%char.
Definition nl : string := String LF EmptyString.

(** ['\\ No newline at end of file'] *)
Definition no_newline_marker : string :=
  String "092"%char " No newline at end of file".

Definition stripABPrefix (path : string) : string :=
  if startsWith path "a/" || startsWith path "b/" then slice_from 2 path
  else path.

(** Returns the pair [(oldPath, newPath)]. *)
Definition parseGitDiffPaths (gitDiffLine : string) : string * string :=
  let withoutPrefix := slice_from (String.length "diff --git ") gitDiffLine in
  match indexOf withoutPrefix " b/" with
  | None =>
      let parts := split " " withoutPrefix in
      let oldPath := stripABPrefix (nth 0 parts "") in
      let newPath := stripABPrefix (nth (length parts - 1) parts "") in
      (oldPath, newPath)
  | Some bIndex =>
      let oldPath := stripABPrefix (slice 0 bIndex withoutPrefix) in
      let newPath := stripABPrefix (slice_from (bIndex + 1) withoutPrefix) in
      (oldPath, newPath)
  end.

(** One or more digits at the head of [s]. *)
Definition digits1 (s : string) : option (string * string) :=
  let '(d, rest) := span_digits s in
  if String.eqb d "" then None else Some (d, rest).

(** The optional group [(?:,(\d+))?]. *)
Definition optional_count (s : string) : option string * string :=
  match strip_prefix "," s ≫= digits1 with
  | Some (d, rest) => (Some d, rest)
  | None => (None, s)
  end.

(** [line.match(/^@@ -(\d+)(?:,(\d+))? \+(\d+)(?:,(\d+))? @@/)]: the four
    capture groups, the second and fourth possibly undefined. *)
Definition hunkMatch (line : string)
  : option (string * option string * string * option string) :=
  rest ← strip_prefix "@@ -" line;
  '(g1, rest) ← digits1 rest;
  let '(g2, rest) := optional_count rest in
  rest ← strip_prefix " +" rest;
  '(g3, rest) ← digits1 rest;
  let '(g4, rest) := optional_count rest in
  _ ← strip_prefix " @@" rest;
  Some (g1, g2, g3, g4).

Definition push_line (h : DiffHunk) (line : string) : DiffHunk :=
  {| oldStart := oldStart h; oldCount := oldCount h;
     newStart := newStart h; newCount := newCount h;
     lines := lines h ++ [line] |}.

(** The first loop of [parseFileChunk], on [(hunks, currentHunk)]. *)
Definition hunk_step (st : list DiffHunk * option DiffHunk) (line : string)
  : list DiffHunk * option DiffHunk :=
  let '(hunks, currentHunk) := st in
  match hunkMatch line with
  | Some (g1, g2, g3, g4) =>
      let hunks :=
        match currentHunk with
        | Some h => hunks ++ [h]
        | None => hunks
        end in
      (hunks,
       Some {| oldStart := parseInt g1;
               oldCount := from_option parseInt 1 g2;
               newStart := parseInt g3;
               newCount := from_option parseInt 1 g4;
               lines := [line] |})
  | None =>
      match currentHunk with
      | Some h =>
          if startsWith line "+" && negb (startsWith line "+++") then
            (hunks, Some (push_line h line))
          else if startsWith line "-" && negb (startsWith line "---") then
            (hunks, Some (push_line h line))
          else if startsWith line " " then
            (hunks, Some (push_line h line))
          else if String.eqb line no_newline_marker then
            (hunks, Some (push_line h line))
          else st
      | None => st
      end
  end.

Definition parseHunks (chunk_lines : list string) : list DiffHunk :=
  let '(hunks, currentHunk) := fold_left hunk_step chunk_lines ([], None) in
  match currentHunk with
  | Some h => hunks ++ [h]
  | None => hunks
  end.

(** The body of the inner loop of the second pass, on
    [(oldLineNum, newLineNum, addedLines, removedLines)]. *)
Definition extract_line (st : Z * Z * list DiffLine * list DiffLine)
  (line : string) : Z * Z * list DiffLine * list DiffLine :=
  let '(oldLineNum, newLineNum, addedLines, removedLines) := st in
  if startsWith line "@@" then st
  else if String.eqb line no_newline_marker then st
  else if startsWith line "+" then
    (oldLineNum, newLineNum + 1,
     addedLines ++ [{| lineNumber := newLineNum; content := slice_from 1 line |}],
     removedLines)
  else if startsWith line "-" then
    (oldLineNum + 1, newLineNum,
     addedLines,
     removedLines ++ [{| lineNumber := oldLineNum; content := slice_from 1 line |}])
  else if startsWith line " " then
    (oldLineNum + 1, newLineNum + 1, addedLines, removedLines)
  else st.

Definition extract_hunk (acc : list DiffLine * list DiffLine) (hunk : DiffHunk)
  : list DiffLine * list DiffLine :=
  let '(addedLines, removedLines) := acc in
  let '(_, _, addedLines, removedLines) :=
    fold_left extract_line (lines hunk)
              (oldStart hunk, newStart hunk, addedLines, removedLines) in
  (addedLines, removedLines).

Definition extractLines (hunks : list DiffHunk) : list DiffLine * list DiffLine :=
  fold_left extract_hunk hunks ([], []).

Definition parseFileChunk (chunk : string) : option FileDiff :=
  let lines := split LF chunk in
  match List.find (fun l => startsWith l "diff --git ") lines with
  | None => None
  | Some gitDiffLine =>
      if existsb (fun l => startsWith l "Binary files "
                           || includes l "GIT binary patch") lines
      then
        let '(oldPath, newPath) := parseGitDiffPaths gitDiffLine in
        Some {| filePath := newPath;
                oldPath := if String.eqb oldPath newPath then None else Some oldPath;
                addedLines := [];
                removedLines := [];
                hunks := [];
                isBinary := true;
                isRenamed := negb (String.eqb oldPath newPath) |}
      else
        let renameLine := List.find (fun l => startsWith l "rename from ") lines in
        let renameToLine := List.find (fun l => startsWith l "rename to ") lines in
        let '(filePath, oldPath, isRenamed) :=
          match renameLine, renameToLine with
          | Some renameLine, Some renameToLine =>
              (replace "rename to " "" renameToLine,
               Some (replace "rename from " "" renameLine),
               true)
          | _, _ =>
              let minusLine := List.find (fun l => startsWith l "--- ") lines in
              let plusLine := List.find (fun l => startsWith l "+++ ") lines in
              let usable (marker : option string) (null : string) : option string :=
                match marker with
                | Some l => if String.eqb l null then None else Some l
                | None => None
                end in
              let filePath :=
                match usable plusLine "+++ /dev/null" with
                | Some plusLine => stripABPrefix (slice_from 4 plusLine)
                | None =>
                    match usable minusLine "--- /dev/null" with
                    | Some minusLine => stripABPrefix (slice_from 4 minusLine)
                    | None => snd (parseGitDiffPaths gitDiffLine)
                    end
                end in
              let oldPath :=
                match usable minusLine "--- /dev/null" with
                | Some minusLine =>
                    let minusPath := stripABPrefix (slice_from 4 minusLine) in
                    if String.eqb minusPath filePath then None else Some minusPath
                | None => None
                end in
              (filePath, oldPath, false)
          end in
        let hunks := parseHunks lines in
        let '(addedLines, removedLines) := extractLines hunks in
        Some {| filePath := filePath;
                oldPath := oldPath;
                addedLines := addedLines;
                removedLines := removedLines;
                hunks := hunks;
                isBinary := false;
                isRenamed := isRenamed |}
  end.

(** The loop of [splitIntoFileChunks], on [(chunks, currentChunk)]. *)
Definition chunk_step (st : list string * list string) (line : string)
  : list string * list string :=
  let '(chunks, currentChunk) := st in
  let '(chunks, currentChunk) :=
    if startsWith line "diff --git " && (0 <? length currentChunk)%nat
    then (chunks ++ [join nl currentChunk], [])
    else (chunks, currentChunk) in
  (chunks, currentChunk ++ [line]).

Definition splitIntoFileChunks (diffText : string) : list string :=
  let lines := split LF diffText in
  let '(chunks, currentChunk) := fold_left chunk_step lines ([], []) in
  if (0 <? length currentChunk)%nat then chunks ++ [join nl currentChunk]
  else chunks.

Definition parseDiff (diffText : string) : list FileDiff :=
  if String.eqb (trim diffText) "" then []
  else
    let fileChunks := splitIntoFileChunks diffText in
    fold_left
      (fun files chunk =>
         match parseFileChunk chunk with
         | Some fileDiff => files ++ [fileDiff]
         | None => files
         end)
      fileChunks [].

End DiffParser.

(** ** analysis/file-matcher.ts *)

Module FileMatcher.
Import JsString JsRegExp.
Local Open Scope string_scope.
Local Open Scope list_scope.

(** [/\.snap$/], [/package-lock\.json$/], [/yarn\.lock$/],
    [/pnpm-lock\.yaml$/] *)
Definition EXCLUDED_PATTERNS : list regex :=
  [ Seq (Str ".snap") Eol;
    Seq (Str "package-lock.json") Eol;
    Seq (Str "yarn.lock") Eol;
    Seq (Str "pnpm-lock.yaml") Eol ].

Definition backslash : ascii := "092"%char.

Definition normalizePath (filePath : string) : string :=
  let p :=
    if startsWith filePath "a/" || startsWith filePath "b/"
    then slice_from 2 filePath else filePath in
  map_chars (fun c => if Ascii.eqb c backslash then "/"%char else c) p.

Definition isExcluded (filePath : string) : bool :=
  let normalized := normalizePath filePath in
  existsb (fun pattern => test pattern normalized) EXCLUDED_PATTERNS.

(** The loop that fills [migrationMap]. *)
Definition buildMigrationMap (migrationFiltered : list FileDiff)
  : gmap string FileDiff :=
  fold_left (fun m diff => <[normalizePath (filePath diff) := diff]> m)
            migrationFiltered ∅.

(** The body of the loop over [goldenFiltered], on
    [(matched, missedFiles, matchedMigrationPaths)]. *)
Definition match_step (migrationMap : gmap string FileDiff)
  (st : list MatchedPair * list FileDiff * gset string) (goldenDiff : FileDiff)
  : list MatchedPair * list FileDiff * gset string :=
  let '(matched, missedFiles, matchedMigrationPaths) := st in
  let normalizedPath := normalizePath (filePath goldenDiff) in
  match migrationMap !! normalizedPath with
  | Some migrationDiff =>
      (matched ++ [{| golden := goldenDiff; migration := migrationDiff |}],
       missedFiles,
       matchedMigrationPaths ∪ {[ normalizedPath ]})
  | None =>
      (matched, missedFiles ++ [goldenDiff], matchedMigrationPaths)
  end.

Definition matchFiles (goldenDiffs migrationDiffs : list FileDiff) : MatchResult :=
  let goldenFiltered :=
    List.filter (fun d => negb (isExcluded (filePath d))) goldenDiffs in
  let migrationFiltered :=
    List.filter (fun d => negb (isExcluded (filePath d))) migrationDiffs in
  let migrationMap := buildMigrationMap migrationFiltered in
  let '(matched, missedFiles, matchedMigrationPaths) :=
    fold_left (match_step migrationMap) goldenFiltered ([], [], ∅) in
  let extraFiles :=
    List.filter
      (fun d => negb (bool_decide (normalizePath (filePath d) ∈ matchedMigrationPaths)))
      migrationFiltered in
  {| matched := matched; missedFiles := missedFiles; extraFiles := extraFiles |}.

End FileMatcher.

(** ** [Array.prototype.sort] on strings

    The default comparison orders strings by their code units, which is
    [String.le]; the sorted arrangement of a list of strings is unique, so
    any sorting algorithm returns the list the engine returns. *)

Definition sort_strings (l : list string) : list string :=
  merge_sort String.le l.

(** ** scoring/noise-detector.ts *)

Module NoiseDetector.
Import JsString JsRegExp.
Local Open Scope string_scope.
Local Open Scope list_scope.

Definition word (s : string) : regex := Seq WordB (Seq (Str s) WordB).

(** [/\bt_temp_dev_tbd\b/], [/\bTEMP_PLACEHOLDER\b/], [/\bPLACEHOLDER\b/],
    [/\bFIXME\b/], [/\bHACK\b/], [/\bXXX\b/] *)
Definition PLACEHOLDER_PATTERNS : list regex :=
  [ word "t_temp_dev_tbd";
    word "TEMP_PLACEHOLDER";
    word "PLACEHOLDER";
    word "FIXME";
    word "HACK";
    word "XXX" ].

(** [/\bconsole\.log\(/], [/\bconsole\.debug\(/], [/\/\/\s*TODO\b/],
    [/\/\/\s*@ts-ignore\b/], [/\bdebugger\b/] *)
Definition ARTIFACT_PATTERNS : list regex :=
  [ Seq WordB (Str "console.log(");
    Seq WordB (Str "console.debug(");
    Seq (Str "//") (Seq (Star (Cls is_whitespace)) (Seq (Str "TODO") WordB));
    Seq (Str "//") (Seq (Star (Cls is_whitespace)) (Seq (Str "@ts-ignore") WordB));
    word "debugger" ].

(** [content.replace(/\s+/g, '').trim()] *)
Definition normalizeLine (l : DiffLine) : string :=
  trim (filter_chars (fun c => negb (is_whitespace c)) (content l)).

Definition isFormattingOnly (diff : FileDiff) : bool :=
  let removedNormalized := map normalizeLine (removedLines diff) in
  let addedNormalized := map normalizeLine (addedLines diff) in
  if negb (length removedNormalized =? length addedNormalized)%nat then false
  else
    let removedSorted := sort_strings removedNormalized in
    let addedSorted := sort_strings addedNormalized in
    forallb id
      (imap (fun i line => bool_decide (addedSorted !! i = Some line))
            removedSorted).

Section WithNumbers.
Context {num : Type} `{JsNumber num}.

(** The table [PENALTY]. *)
Definition PENALTY (t : NoiseType) : num :=
  match t with
  | unnecessary_change => lit 1 100
  | formatting_only => lit 2 100
  | incorrect_migration => lit 3 100
  | artifact => lit 5 100
  | placeholder_token => lit 5 100
  end.

Record NoiseDetectorInput := {
  matchResult : MatchResult;
  migrationDiffs : list FileDiff;
  detectionResults : list DetectionResult;
}.

Definition detectUnnecessaryChanges (matchResult : MatchResult)
  : list (NoiseInstance num) :=
  map (fun diff =>
         {| type := unnecessary_change;
            file := filePath diff;
            line := None;
            description := "File changed in migration but not in golden PR";
            penalty := PENALTY unnecessary_change |})
      (extraFiles matchResult).

(** What one iteration of the loop of [detectFormattingOnlyChanges]
    pushes. *)
Definition formattingOnly_step (matchedMigrationPaths : gset string)
  (diff : FileDiff) : list (NoiseInstance num) :=
  if negb (bool_decide (filePath diff ∈ matchedMigrationPaths)) then []
  else if (length (addedLines diff) =? 0)%nat
          && (length (removedLines diff) =? 0)%nat then []
  else if isFormattingOnly diff then
    [ {| type := formatting_only;
         file := filePath diff;
         line := None;
         description := "Changes appear to be formatting/whitespace only";
         penalty := PENALTY formatting_only |} ]
  else [].

Definition detectFormattingOnlyChanges (migrationDiffs : list FileDiff)
  (matchResult : MatchResult) : list (NoiseInstance num) :=
  let matchedMigrationPaths : gset string :=
    list_to_set (map (fun m => filePath (migration m)) (matched matchResult)) in
  fold_left (fun instances diff =>
               instances ++ formattingOnly_step matchedMigrationPaths diff)
            migrationDiffs [].

Definition detectIncorrectMigrations (results : list DetectionResult)
  : list (NoiseInstance num) :=
  map (fun r =>
         {| type := incorrect_migration;
            file := patternId r;
            line := None;
            description :=
              String.append "Incorrect migration for pattern: " (message r);
            penalty := PENALTY incorrect_migration |})
      (List.filter (fun r => bool_decide (status r = INCORRECT)) results).

(** The innermost loop of [detectArtifacts] and [detectPlaceholderTokens]:
    the first pattern that matches pushes one instance and breaks. *)
Definition scan_line (patterns : list regex) (t : NoiseType) (prefix : string)
  (diff : FileDiff) (l : DiffLine) : list (NoiseInstance num) :=
  match List.find (fun pattern => test pattern (content l)) patterns with
  | Some _ =>
      [ {| type := t;
           file := filePath diff;
           line := Some (lineNumber l);
           description := String.append prefix (trim (content l));
           penalty := PENALTY t |} ]
  | None => []
  end.

Definition detectArtifacts (migrationDiffs : list FileDiff)
  : list (NoiseInstance num) :=
  fold_left
    (fun instances diff =>
       fold_left
         (fun instances l =>
            instances ++ scan_line ARTIFACT_PATTERNS artifact
                                   "Artifact detected: " diff l)
         (addedLines diff) instances)
    migrationDiffs [].

Definition detectPlaceholderTokens (migrationDiffs : list FileDiff)
  : list (NoiseInstance num) :=
  fold_left
    (fun instances diff =>
       fold_left
         (fun instances l =>
            instances ++ scan_line PLACEHOLDER_PATTERNS placeholder_token
                                   "Placeholder token detected: " diff l)
         (addedLines diff) instances)
    migrationDiffs [].

Definition detectNoise (input : NoiseDetectorInput) : list (NoiseInstance num) :=
  let instances := [] in
  let instances := instances ++ detectUnnecessaryChanges (matchResult input) in
  let instances :=
    instances ++ detectFormattingOnlyChanges (migrationDiffs input)
                                             (matchResult input) in
  let instances := instances ++ detectIncorrectMigrations (detectionResults input) in
  let instances := instances ++ detectArtifacts (migrationDiffs input) in
  let instances := instances ++ detectPlaceholderTokens (migrationDiffs input) in
  instances.

End WithNumbers.

End NoiseDetector.

(** ** patterns/theme-dark-removal.ts *)

Module ThemeDarkRemoval.
Import JsString JsRegExp.
Local Open Scope string_scope.
Local Open Scope list_scope.

Definition PATTERN_ID : string := "theme-dark-removal".

(** The double and the single quote. *)
Definition dq : ascii := "034"%char.
Definition sq : ascii := "039"%char.

(** [/theme\s*=\s*(?:"dark"|{'dark'}|'dark'|\{['"]dark['"]\}|\{ThemeVariant\.dark\})/] *)
Definition THEME_DARK_RE : regex :=
  let ws := Star (Cls is_whitespace) in
  let quote := Cls (fun c => Ascii.eqb c sq || Ascii.eqb c dq) in
  Seq (Str "theme") (Seq ws (Seq (Chr "=") (Seq ws
    (Alt (Seq (Chr dq) (Seq (Str "dark") (Chr dq)))
    (Alt (Seq (Chr "{") (Seq (Chr sq) (Seq (Str "dark") (Seq (Chr sq) (Chr "}")))))
    (Alt (Seq (Chr sq) (Seq (Str "dark") (Chr sq)))
    (Alt (Seq (Chr "{") (Seq quote (Seq (Str "dark") (Seq quote (Chr "}")))))
         (Str "{ThemeVariant.dark}")))))))).

Definition hasThemeDark (lines : list DiffLine) : bool :=
  existsb (fun l => test THEME_DARK_RE (content l)) lines.

(** [theme="dark"], as it appears in the messages. *)
Definition theme_dark_text : string :=
  String.append "theme=" (String dq (String.append "dark" (String dq ""))).

Definition detect (goldenDiff : FileDiff) (migrationDiff : option FileDiff)
  : DetectionResult :=
  let goldenRemovesThemeDark := hasThemeDark (removedLines goldenDiff) in
  if negb goldenRemovesThemeDark then
    {| patternId := PATTERN_ID;
       status := NOT_APPLICABLE;
       message := String.append "No " (String.append theme_dark_text
                                         " removal in golden diff");
       details := None |}
  else
    match migrationDiff with
    | None =>
        {| patternId := PATTERN_ID;
           status := FILE_MISSING;
           message := "Migration file is missing";
           details := None |}
    | Some migrationDiff =>
        let migrationRemovesThemeDark := hasThemeDark (removedLines migrationDiff) in
        if migrationRemovesThemeDark then
          let migrationAddsThemeDark := hasThemeDark (addedLines migrationDiff) in
          if migrationAddsThemeDark then
            {| patternId := PATTERN_ID;
               status := INCORRECT;
               message := String.append theme_dark_text
                            " was removed but re-added in migration";
               details := None |}
          else
            {| patternId := PATTERN_ID;
               status := CORRECT;
               message := String.append theme_dark_text " prop correctly removed";
               details := None |}
        else
          {| patternId := PATTERN_ID;
             status := MISSING;
             message := String.append theme_dark_text
                          " prop removal not found in migration";
             details := None |}
    end.

End ThemeDarkRemoval.

(** ** patterns/registry.ts

    The module holds one array, [patterns].  Arrays are objects: they live
    in a heap and are handled through references, so that [getPatterns]
    returning a copy (and not the catalog itself) is observable.  The
    elements are kept as values: sharing of the definitions themselves
    between the catalog and its copies is not modelled. *)

Module Registry.
Local Open Scope list_scope.

Inductive Complexity := trivial | moderate | complex.

#[export] Instance Complexity_eq_dec : EqDecision Complexity.
Proof. solve_decision. Defined.

Record ImportDeclaration := {
  moduleSpecifier : string;
  namedImports : list string;
  defaultImport : option string;
}.

Record JSXProp := {
  prop_name : string;
  prop_value : option string;
}.

Record JSXComponentUsage := {
  tagName : string;
  props : list JSXProp;
  children : list string;
}.

Record ASTRepresentation := {
  imports : list ImportDeclaration;
  jsxComponents : list JSXComponentUsage;
  ast_filePath : string;
  parseErrors : list string;
}.

Record PatternDefinition := {
  id : string;
  name : string;
  complexity : Complexity;
  weight : Z;
  description : string;
  detect : FileDiff -> option FileDiff ->
           option ASTRepresentation -> option ASTRepresentation ->
           DetectionResult;
}.

(** References to arrays of definitions, and the heap they live in. *)
Definition ref : Type := nat.

Record Heap := {
  arrays : gmap nat (list PatternDefinition);
  next : ref;
}.

Definition read (r : ref) (h : Heap) : list PatternDefinition :=
  default [] (arrays h !! r).

(** Any in-place update of the array behind [r]: [push], [pop], [splice],
    an assignment to an index or to [length], ... *)
Definition mutate (r : ref) (f : list PatternDefinition -> list PatternDefinition)
  (h : Heap) : Heap :=
  {| arrays := alter f r (arrays h); next := next h |}.

(** A new array. *)
Definition alloc (l : list PatternDefinition) (h : Heap) : ref * Heap :=
  (next h, {| arrays := <[next h := l]> (arrays h); next := S (next h) |}).

(** [const patterns: PatternDefinition[] = [];] *)
Definition patterns : ref := 0%nat.
Definition initial : Heap := {| arrays := {[ patterns := [] ]}; next := 1%nat |}.

Definition registerPattern (pattern : PatternDefinition) (h : Heap) : Heap :=
  mutate patterns (fun l => l ++ [pattern]) h.

(** [return [...patterns];] *)
Definition getPatterns (h : Heap) : ref * Heap :=
  alloc (read patterns h) h.

Definition getPatternsByComplexity (c : Complexity) (h : Heap) : ref * Heap :=
  alloc (List.filter (fun p => bool_decide (complexity p = c)) (read patterns h)) h.

(** [patterns.length = 0;] *)
Definition clearPatterns (h : Heap) : Heap :=
  mutate patterns (take 0) h.

(** What a client of the module can do: call one of its functions, and
    update in place an array it was handed. *)
Inductive Call :=
  | CallRegister (pattern : PatternDefinition)
  | CallGetPatterns (then_mutate : list PatternDefinition -> list PatternDefinition)
  | CallGetPatternsByComplexity (c : Complexity)
      (then_mutate : list PatternDefinition -> list PatternDefinition)
  | CallClear.

Definition exec (h : Heap) (c : Call) : Heap :=
  match c with
  | CallRegister pattern => registerPattern pattern h
  | CallGetPatterns f => let '(r, h') := getPatterns h in mutate r f h'
  | CallGetPatternsByComplexity c f =>
      let '(r, h') := getPatternsByComplexity c h in mutate r f h'
  | CallClear => clearPatterns h
  end.

Definition run (calls : list Call) : Heap := fold_left exec calls initial.

(** The catalog the specification describes, "append-only" and
    "explicitly resettable": registering appends, clearing empties, and
    nothing else changes it. *)
Definition catalog_after (calls : list Call) : list PatternDefinition :=
  fold_left (fun catalog c =>
               match c with
               | CallRegister pattern => catalog ++ [pattern]
               | CallClear => []
               | _ => catalog
               end) calls [].

(** The heaps the module can be in: the catalog is allocated, and every
    array in use lies below the next free reference. *)
Definition well_formed (h : Heap) : Prop :=
  is_Some (arrays h !! patterns) /\
  forall r : ref, is_Some (arrays h !! r) -> (r < next h)%nat.

End Registry.

(** ** The specification's wording

    Second definitions, written after the sentences of the specification
    and compared below with the functions above. *)

Module SpecWords.
Import Engine.
Local Open Scope Q_scope.

(** "credit is 1.0 for CORRECT, 0.25 for INCORRECT, 0 for MISSING and
    FILE_MISSING"; UNNECESSARY is given no credit. *)
Definition credit (s : DetectionStatus) : Q :=
  match s with
  | CORRECT => 1
  | INCORRECT => 1 # 4
  | MISSING | FILE_MISSING => 0
  | UNNECESSARY | NOT_APPLICABLE => 0
  end.

Definition graded (r : WeightedDetectionResult Q) : bool :=
  negb (bool_decide (status (result r) = NOT_APPLICABLE)).

(** "Σ over non-NOT_APPLICABLE outcomes of weight × credit" *)
Definition sum_credit (results : list (WeightedDetectionResult Q)) : Q :=
  fold_right (fun r s => weight r * credit (status (result r)) + s) 0
             (List.filter graded results).

(** "Σ over the same set of weight" *)
Definition sum_weight (results : list (WeightedDetectionResult Q)) : Q :=
  fold_right (fun r s => weight r + s) 0 (List.filter graded results).

Definition patternScore (results : list (WeightedDetectionResult Q)) : Q :=
  if Qeq_bool (sum_weight results) 0 then 1
  else sum_credit results / sum_weight results.

(** An outcome "with positive credit". *)
Definition positive_credit (r : WeightedDetectionResult Q) : Prop :=
  status (result r) = CORRECT \/ status (result r) = INCORRECT.

(** "matched-pair count ÷ (matched-pair count + missed-count); defined as
    1.0 when that denominator is zero" *)
Definition fileCoverage (matched_count missed_count : nat) : Q :=
  if (matched_count + missed_count =? 0)%nat then 1
  else inject_Z (Z.of_nat matched_count)
       / inject_Z (Z.of_nat (matched_count + missed_count)).

(** "min(1.0, Σ of all Noise Instance penalties)" *)
Definition sum_penalties (instances : list (NoiseInstance Q)) : Q :=
  fold_right (fun n s => penalty n + s) 0 instances.

Definition noisePenalty (instances : list (NoiseInstance Q)) : Q :=
  Qmin 1 (sum_penalties instances).



(** [r] is [v] "rounded to two decimal places": a whole number of
    hundredths, the nearest to [v], a tie going up. *)
Definition rounded_2dp (r v : Q) : Prop :=
  (exists k : Z, r == k # 100) /\ v - (1 # 200) < r /\ r <= v + (1 # 200).


End SpecWords.

(** ** The specification's wording, for the diff parser *)

Module ParserSpec.
Import JsString DiffParser.
Local Open Scope string_scope.
Local Open Scope list_scope.

(** The state of a single pass over the lines of a chunk: the two running
    counters (none before the first hunk header), the added-line entries
    and the removed-line entries. *)
Definition scan_state : Type := option (Z * Z) * list DiffLine * list DiffLine.

Definition entry (n : Z) (line : string) : DiffLine :=
  {| lineNumber := n; content := slice_from 1 line |}.



(** The same pass, with the two guards of the parser: inside a hunk a line
    beginning with +++ or with --- is dropped, and moves no counter. *)
Definition guarded_step (st : scan_state) (line : string) : scan_state :=
  let '(counters, added, removed) := st in
  match hunkMatch line with
  | Some (g1, _, g3, _) => (Some (parseInt g1, parseInt g3), added, removed)
  | None =>
      match counters with
      | None => st
      | Some (old, new) =>
          if String.eqb line no_newline_marker then st
          else if startsWith line "+" && negb (startsWith line "+++") then
            (Some (old, new + 1), added ++ [entry new line], removed)
          else if startsWith line "-" && negb (startsWith line "---") then
            (Some (old + 1, new), added, removed ++ [entry old line])
          else if startsWith line " " then
            (Some (old + 1, new + 1), added, removed)
          else st
      end
  end.

Definition guarded_scan (chunk_lines : list string) : scan_state :=
  fold_left guarded_step chunk_lines (None, [], []).

(** What the first pass of the parser keeps of the lines of a hunk. *)
Definition kept (line : string) : bool :=
  startsWith line "+" && negb (startsWith line "+++")
  || startsWith line "-" && negb (startsWith line "---")
  || startsWith line " "
  || String.eqb line no_newline_marker.





(** "strictly increasing in list order" *)
Fixpoint strictly_increasing (l : list Z) : bool :=
  match l with
  | a :: (b :: _) as t => (a <? b)%Z && strictly_increasing t
  | _ => true
  end.

(** The entries of one hunk taken alone, and the values of the two
    counters after its last line. *)
Definition hunk_scan (h : DiffHunk) : Z * Z * list DiffLine * list DiffLine :=
  fold_left extract_line (lines h) (oldStart h, newStart h, [], []).

Definition hunk_added (h : DiffHunk) : list DiffLine := snd (fst (hunk_scan h)).
Definition hunk_removed (h : DiffHunk) : list DiffLine := snd (hunk_scan h).
Definition hunk_old_end (h : DiffHunk) : Z := fst (fst (fst (hunk_scan h))).
Definition hunk_new_end (h : DiffHunk) : Z := snd (fst (fst (hunk_scan h))).

(** Each hunk starts, on both sides, no earlier than the preceding hunk
    ended: what a version-control tool writes. *)
Fixpoint hunks_advance (hs : list DiffHunk) : bool :=
  match hs with
  | h1 :: (h2 :: _) as t =>
      (hunk_old_end h1 <=? oldStart h2)%Z && (hunk_new_end h1 <=? newStart h2)%Z
      && hunks_advance t
  | _ => true
  end.

(** The parser after some lines of a chunk, against the single pass after
    the same lines: the entries of the closed hunks and of the lines kept so
    far of the open one are the entries of the single pass, and the
    counters agree. *)
Definition sim (ps : list DiffHunk * option DiffHunk) (ss : scan_state) : Prop :=
  match snd ps with
  | None => fst ps = [] /\ ss = (None, [], [])
  | Some h =>
      exists o n A R,
        ss = (Some (o, n), A, R) /\
        fold_left extract_line (lines h)
          (oldStart h, newStart h,
           fst (extractLines (fst ps)), snd (extractLines (fst ps)))
        = (o, n, A, R)
  end.

(** The entries of a run of lines: increasing, and between the value of
    their counter before the run and its value after it. *)
Definition run_ok (o n : Z) (res : Z * Z * list DiffLine * list DiffLine) : Prop :=
  let '(o', n', a, r) := res in
  o <= o' /\ n <= n' /\
  StronglySorted Z.lt (map lineNumber a) /\
  Forall (fun x => n <= x < n') (map lineNumber a) /\
  StronglySorted Z.lt (map lineNumber r) /\
  Forall (fun x => o <= x < o') (map lineNumber r).

(** Scenario A of the specification. *)
Definition scenarioA : string :=
  String.concat nl
    [ "diff --git a/f b/f"; "--- a/f"; "+++ b/f"; "@@ -1,2 +1,2 @@";
      "-old"; "+new"; " unchanged"; "" ].



(** The record the specification expects for Scenario A. *)
Definition recordA : FileDiff :=
  {| filePath := "f";
     oldPath := None;
     addedLines := [ {| lineNumber := 1; content := "new" |} ];
     removedLines := [ {| lineNumber := 1; content := "old" |} ];
     hunks := [ {| oldStart := 1; oldCount := 2; newStart := 1; newCount := 2;
                   lines := [ "@@ -1,2 +1,2 @@"; "-old"; "+new"; " unchanged" ] |} ];
     isBinary := false;
     isRenamed := false |}.



(** The diff of the test "handles multiple hunks in a single file" of the
    test suite of the parser. *)
Definition diff_test_multiple_hunks : string :=
  String.concat nl
    [ "diff --git a/src/big.ts b/src/big.ts";
      "index abc1234..def5678 100644";
      "--- a/src/big.ts"; "+++ b/src/big.ts";
      "@@ -1,3 +1,4 @@";
      " line1"; "+inserted at top"; " line2"; " line3";
      "@@ -20,3 +21,3 @@";
      " line20"; "-old line 21"; "+new line 21"; " line22"; "" ].

End ParserSpec.

(** ** Sample data for the scenarios *)

Module Samples.

Definition outcome (s : DetectionStatus) : DetectionResult :=
  {| patternId := "p"; status := s; message := ""; details := None |}.

Definition noise_of (p : float) : NoiseInstance float :=
  {| type := artifact; file := "f"; line := None; description := "";
     penalty := p |}.

Definition file_of (path : string) : FileDiff :=
  {| filePath := path; oldPath := None; addedLines := []; removedLines := [];
     hunks := []; isBinary := false; isRenamed := false |}.

(** A match result with the given numbers of matched and missed files. *)
Definition match_result_of (matchedCount missedCount : nat) : MatchResult :=
  {| matched := repeat {| golden := file_of "g"; migration := file_of "g" |}
                       matchedCount;
     missedFiles := repeat (file_of "m") missedCount;
     extraFiles := [] |}.

(** A line of a diff. *)
Definition diff_line (n : Z) (text : string) : DiffLine :=
  {| lineNumber := n; content := text |}.

(** A file with the given added and removed lines. *)
Definition changed_file (path : string) (added removed : list DiffLine) : FileDiff :=
  {| filePath := path; oldPath := None; addedLines := added;
     removedLines := removed; hunks := []; isBinary := false;
     isRenamed := false |}.

End Samples.

(** ** The specification's wording, for the file matcher *)

Module MatcherSpec.
Import FileMatcher Samples.
Local Open Scope string_scope.
Local Open Scope list_scope.

Definition matched_goldens (mr : MatchResult) : list FileDiff :=
  map golden (matched mr).

Definition matched_migrations (mr : MatchResult) : list FileDiff :=
  map migration (matched mr).

(** The normalized path of a record. *)
Definition path_of (r : FileDiff) : string := normalizePath (filePath r).

(** "appears in exactly one of" two collections. *)
Definition exactly_one (P Q : Prop) : Prop := (P /\ ~ Q) \/ (~ P /\ Q).

(** No other record of the list, among those that are not excluded, has
    the normalized path of [r]. *)
Definition sole_for_path (rs : list FileDiff) (r : FileDiff) : Prop :=
  forall r' : FileDiff,
    In r' rs -> isExcluded (filePath r') = false -> path_of r' = path_of r ->
    r' = r.

(** The records that pass the exclusion filter. *)
Definition kept_records (rs : list FileDiff) : list FileDiff :=
  List.filter (fun d => negb (isExcluded (filePath d))) rs.

(** What the loop over the golden records has built after the records
    [gs], for the map [M] of the candidate records. *)
Definition matched_of (M : gmap string FileDiff) (gs : list FileDiff)
  : list MatchedPair :=
  flat_map (fun g => match M !! path_of g with
                     | Some m => [ {| golden := g; migration := m |} ]
                     | None => []
                     end) gs.

Definition missed_of (M : gmap string FileDiff) (gs : list FileDiff)
  : list FileDiff :=
  List.filter (fun g => bool_decide (M !! path_of g = None)) gs.

Definition paths_of (M : gmap string FileDiff) (gs : list FileDiff)
  : gset string :=
  list_to_set (map path_of (List.filter (fun g => bool_decide (is_Some (M !! path_of g))) gs)).

(** A candidate diff that touches both [a/foo.ts] and [foo.ts]: a file in
    a directory named [a], and a file of the same name at the root. *)
Definition golden_foo : list FileDiff := [ file_of "foo.ts" ].
Definition candidate_a_foo : FileDiff :=
  changed_file "a/foo.ts" [ diff_line 1 "export {};" ] [].
Definition candidates_foo : list FileDiff := [ candidate_a_foo; file_of "foo.ts" ].

(** A golden and a candidate diff with one file in common. *)
Definition golden_app : list FileDiff :=
  [ file_of "a/src/App.tsx"; file_of "docs/guide.md" ].
Definition candidates_app : list FileDiff :=
  [ file_of "b/src/App.tsx"; file_of "extra.ts"; file_of "package-lock.json" ].

End MatcherSpec.

(** ** The specification's wording, for the noise detector *)

Module NoiseSpec.
Import JsString DiffParser FileMatcher NoiseDetector MatcherSpec Samples.
Local Open Scope string_scope.
Local Open Scope list_scope.




(** The instance of the rule, "penalty 0.02". *)
Definition formatting_instance (r : FileDiff) : NoiseInstance Q :=
  {| type := formatting_only;
     file := filePath r;
     line := None;
     description := "Changes appear to be formatting/whitespace only";
     penalty := 2 # 100 |}.


(** The raw paths of the matched candidate records. *)
Definition matched_paths (mr : MatchResult) : gset string :=
  list_to_set (map (fun m => filePath (migration m)) (matched mr)).



(** A change of indentation only. *)
Definition reindented : FileDiff :=
  changed_file "app.ts" [ diff_line 1 "  const x = 1;" ] [ diff_line 1 "const x = 1;" ].

(** A golden diff of one source file, and a candidate diff of that file
    and of a snapshot in which a line calls [console.log]. *)
Definition golden_text : string :=
  String.concat nl
    [ "diff --git a/src/App.tsx b/src/App.tsx";
      "--- a/src/App.tsx"; "+++ b/src/App.tsx";
      "@@ -1 +1 @@"; "-<Page variant=light>"; "+<Page>"; "" ].

Definition snapshot_path : string := "src/__snapshots__/App.test.tsx.snap".

Definition candidate_text : string :=
  String.concat nl
    [ "diff --git a/src/App.tsx b/src/App.tsx";
      "--- a/src/App.tsx"; "+++ b/src/App.tsx";
      "@@ -1 +1 @@"; "-<Page variant=light>"; "+<Page>";
      "diff --git a/src/__snapshots__/App.test.tsx.snap b/src/__snapshots__/App.test.tsx.snap";
      "--- a/src/__snapshots__/App.test.tsx.snap";
      "+++ b/src/__snapshots__/App.test.tsx.snap";
      "@@ -7 +7 @@"; "-  onClick={[Function]}";
      "+  onClick={() => console.log(1)}"; "" ].

Definition snapshot_instance : NoiseInstance Q :=
  {| type := artifact;
     file := snapshot_path;
     line := Some 7;
     description := "Artifact detected: onClick={() => console.log(1)}";
     penalty := 5 # 100 |}.

End NoiseSpec.

(** ** Sample data and auxiliary definitions for the detector *)

Module DetectorSpec.
Import JsString ThemeDarkRemoval Samples.
Local Open Scope string_scope.
Local Open Scope list_scope.

(** The code unit before a position that lies after [pre]. *)
Fixpoint last_before (before : option ascii) (pre : string) : option ascii :=
  match pre with
  | EmptyString => before
  | String c pre' => last_before (Some c) pre'
  end.






End DetectorSpec.

(** ** Words for the further properties of the diff parser *)

Module ChunkSpec.
Import JsString DiffParser.
Local Open Scope string_scope.
Local Open Scope list_scope.

(** The line that opens the section of a file. *)
Definition is_git_header (l : string) : bool := startsWith l "diff --git ".

(** A string without line terminator. *)
Definition single_line (l : string) : bool :=
  forallb (fun c => negb (Ascii.eqb c LF)) (list_ascii_of_string l).

(** The chunks are runs of lines: none is empty, a file header is found
    at the head of a run only, and every run after the first has one. *)
Definition runs_ok (runs : list (list string)) : Prop :=
  Forall (fun g => g <> []) runs /\
  Forall (fun g => forallb (fun l => negb (is_git_header l)) (tail g) = true) runs /\
  Forall (fun g => is_git_header (hd "" g) = true) (tail runs).

(** Only whitespace. *)
Definition blank (s : string) : bool :=
  forallb is_whitespace (list_ascii_of_string s).

End ChunkSpec.

(** ** patterns/css-class-prefix.ts *)

Module CssClassPrefix.
Import JsString JsRegExp.
Local Open Scope string_scope.
Local Open Scope list_scope.

Definition PATTERN_ID : string := "css-class-prefix".

(** The class [[\w-]] *)
Definition word_or_dash (c : ascii) : bool := is_word c || Ascii.eqb c "-".

(** [/\bpf-v5-[\w-]+/] and [/\bpf-v6-[\w-]+/] *)
Definition PF5_CLASS_RE : regex :=
  Seq WordB (Seq (Str "pf-v5-") (Plus (Cls word_or_dash))).
Definition PF6_CLASS_RE : regex :=
  Seq WordB (Seq (Str "pf-v6-") (Plus (Cls word_or_dash))).

Definition detect (goldenDiff : FileDiff) (migrationDiff : option FileDiff)
  : DetectionResult :=
  let goldenRemovesPF5 :=
    existsb (fun l => test PF5_CLASS_RE (content l)) (removedLines goldenDiff) in
  let goldenAddsPF6 :=
    existsb (fun l => test PF6_CLASS_RE (content l)) (addedLines goldenDiff) in
  if negb goldenRemovesPF5 && negb goldenAddsPF6 then
    {| patternId := PATTERN_ID;
       status := NOT_APPLICABLE;
       message := "No pf-v5/pf-v6 class prefix changes in golden diff";
       details := None |}
  else
    match migrationDiff with
    | None =>
        {| patternId := PATTERN_ID;
           status := FILE_MISSING;
           message := "Migration file is missing";
           details := None |}
    | Some migrationDiff =>
        let migrationRemovesPF5 :=
          existsb (fun l => test PF5_CLASS_RE (content l))
                  (removedLines migrationDiff) in
        let migrationAddsPF6 :=
          existsb (fun l => test PF6_CLASS_RE (content l))
                  (addedLines migrationDiff) in
        if migrationRemovesPF5 && migrationAddsPF6 then
          {| patternId := PATTERN_ID;
             status := CORRECT;
             message := "pf-v5-* classes correctly renamed to pf-v6-*";
             details := None |}
        else if migrationAddsPF6 && negb migrationRemovesPF5 then
          {| patternId := PATTERN_ID;
             status := CORRECT;
             message := "pf-v6-* classes added in migration";
             details := None |}
        else if negb migrationRemovesPF5 && negb migrationAddsPF6 then
          {| patternId := PATTERN_ID;
             status := MISSING;
             message := "pf-v5-* to pf-v6-* class prefix rename not found in migration";
             details := None |}
        else
          {| patternId := PATTERN_ID;
             status := INCORRECT;
             message := "pf-v5-* classes removed but pf-v6-* replacements not added";
             details := None |}
    end.

Definition pattern : Registry.PatternDefinition :=
  {| Registry.id := PATTERN_ID;
     Registry.name := "CSS Class Prefix Rename";
     Registry.complexity := Registry.trivial;
     Registry.weight := 1;
     Registry.description := "Detects pf-v5-* to pf-v6-* CSS class prefix renames";
     Registry.detect := fun goldenDiff migrationDiff _ _ =>
                          detect goldenDiff migrationDiff |}.

End CssClassPrefix.

(** ** patterns/utility-class-rename.ts *)

Module UtilityClassRename.
Import JsString JsRegExp.
Local Open Scope string_scope.
Local Open Scope list_scope.

Definition PATTERN_ID : string := "utility-class-rename".

(** [/\bpf-v5-u-[\w-]+/] and [/\bpf-v6-u-[\w-]+/] *)
Definition PF5_UTILITY_RE : regex :=
  Seq WordB (Seq (Str "pf-v5-u-") (Plus (Cls CssClassPrefix.word_or_dash))).
Definition PF6_UTILITY_RE : regex :=
  Seq WordB (Seq (Str "pf-v6-u-") (Plus (Cls CssClassPrefix.word_or_dash))).

Definition detect (goldenDiff : FileDiff) (migrationDiff : option FileDiff)
  : DetectionResult :=
  let goldenRemovesPF5 :=
    existsb (fun l => test PF5_UTILITY_RE (content l)) (removedLines goldenDiff) in
  let goldenAddsPF6 :=
    existsb (fun l => test PF6_UTILITY_RE (content l)) (addedLines goldenDiff) in
  if negb goldenRemovesPF5 && negb goldenAddsPF6 then
    {| patternId := PATTERN_ID;
       status := NOT_APPLICABLE;
       message := "No pf-v5-u/pf-v6-u utility class changes in golden diff";
       details := None |}
  else
    match migrationDiff with
    | None =>
        {| patternId := PATTERN_ID;
           status := FILE_MISSING;
           message := "Migration file is missing";
           details := None |}
    | Some migrationDiff =>
        let migrationRemovesPF5 :=
          existsb (fun l => test PF5_UTILITY_RE (content l))
                  (removedLines migrationDiff) in
        let migrationAddsPF6 :=
          existsb (fun l => test PF6_UTILITY_RE (content l))
                  (addedLines migrationDiff) in
        if migrationRemovesPF5 && migrationAddsPF6 then
          {| patternId := PATTERN_ID;
             status := CORRECT;
             message := "pf-v5-u-* utility classes correctly renamed to pf-v6-u-*";
             details := None |}
        else if migrationAddsPF6 && negb migrationRemovesPF5 then
          {| patternId := PATTERN_ID;
             status := CORRECT;
             message := "pf-v6-u-* utility classes added in migration";
             details := None |}
        else if negb migrationRemovesPF5 && negb migrationAddsPF6 then
          {| patternId := PATTERN_ID;
             status := MISSING;
             message := "pf-v5-u-* to pf-v6-u-* utility class rename not found in migration";
             details := None |}
        else
          {| patternId := PATTERN_ID;
             status := INCORRECT;
             message := "pf-v5-u-* utility classes removed but pf-v6-u-* replacements not added";
             details := None |}
    end.

Definition pattern : Registry.PatternDefinition :=
  {| Registry.id := PATTERN_ID;
     Registry.name := "Utility Class Rename";
     Registry.complexity := Registry.trivial;
     Registry.weight := 1;
     Registry.description := "Detects pf-v5-u-* to pf-v6-u-* utility class renames";
     Registry.detect := fun goldenDiff migrationDiff _ _ =>
                          detect goldenDiff migrationDiff |}.

End UtilityClassRename.

(** ** patterns/ouia-component-id.ts *)

Module OuiaComponentId.
Import JsString JsRegExp.
Local Open Scope string_scope.
Local Open Scope list_scope.

Definition PATTERN_ID : string := "ouia-component-id".

(** [/\bdata-ouia-component-id\b/] and [/\bouiaId\b/] *)
Definition DATA_OUIA_RE : regex :=
  Seq WordB (Seq (Str "data-ouia-component-id") WordB).
Definition OUIA_ID_RE : regex := Seq WordB (Seq (Str "ouiaId") WordB).

Definition hasDataOuia (lines : list DiffLine) : bool :=
  existsb (fun l => test DATA_OUIA_RE (content l)) lines.

Definition hasOuiaId (lines : list DiffLine) : bool :=
  existsb (fun l => test OUIA_ID_RE (content l)) lines.

Definition detect (goldenDiff : FileDiff) (migrationDiff : option FileDiff)
  : DetectionResult :=
  let goldenRemovesDataOuia := hasDataOuia (removedLines goldenDiff) in
  if negb goldenRemovesDataOuia then
    {| patternId := PATTERN_ID;
       status := NOT_APPLICABLE;
       message := "No data-ouia-component-id removal in golden diff";
       details := None |}
  else
    match migrationDiff with
    | None =>
        {| patternId := PATTERN_ID;
           status := FILE_MISSING;
           message := "Migration file is missing";
           details := None |}
    | Some migrationDiff =>
        let migrationRemovesDataOuia := hasDataOuia (removedLines migrationDiff) in
        let migrationAddsOuiaId := hasOuiaId (addedLines migrationDiff) in
        if migrationRemovesDataOuia && migrationAddsOuiaId then
          {| patternId := PATTERN_ID;
             status := CORRECT;
             message := "data-ouia-component-id correctly renamed to ouiaId";
             details := None |}
        else if migrationRemovesDataOuia && negb migrationAddsOuiaId then
          {| patternId := PATTERN_ID;
             status := INCORRECT;
             message := "data-ouia-component-id removed but ouiaId not added";
             details := None |}
        else
          {| patternId := PATTERN_ID;
             status := MISSING;
             message := "data-ouia-component-id -> ouiaId rename not found in migration";
             details := None |}
    end.

Definition pattern : Registry.PatternDefinition :=
  {| Registry.id := PATTERN_ID;
     Registry.name := "OUIA Component ID Rename";
     Registry.complexity := Registry.trivial;
     Registry.weight := 1;
     Registry.description := "Detects data-ouia-component-id -> ouiaId renames";
     Registry.detect := fun goldenDiff migrationDiff _ _ =>
                          detect goldenDiff migrationDiff |}.

End OuiaComponentId.

(** ** patterns/split-button-items.ts *)

Module SplitButtonItems.
Import JsString JsRegExp.
Local Open Scope string_scope.
Local Open Scope list_scope.

Definition PATTERN_ID : string := "split-button-items".

(** [/\bsplitButtonOptions\b/] and [/\bsplitButtonItems\b/] *)
Definition SPLIT_BUTTON_OPTIONS_RE : regex :=
  Seq WordB (Seq (Str "splitButtonOptions") WordB).
Definition SPLIT_BUTTON_ITEMS_RE : regex :=
  Seq WordB (Seq (Str "splitButtonItems") WordB).

Definition hasSplitButtonOptions (lines : list DiffLine) : bool :=
  existsb (fun l => test SPLIT_BUTTON_OPTIONS_RE (content l)) lines.

Definition hasSplitButtonItems (lines : list DiffLine) : bool :=
  existsb (fun l => test SPLIT_BUTTON_ITEMS_RE (content l)) lines.

Definition detect (goldenDiff : FileDiff) (migrationDiff : option FileDiff)
  : DetectionResult :=
  let goldenRemovesSplitButtonOptions :=
    hasSplitButtonOptions (removedLines goldenDiff) in
  if negb goldenRemovesSplitButtonOptions then
    {| patternId := PATTERN_ID;
       status := NOT_APPLICABLE;
       message := "No splitButtonOptions removal in golden diff";
       details := None |}
  else
    match migrationDiff with
    | None =>
        {| patternId := PATTERN_ID;
           status := FILE_MISSING;
           message := "Migration file is missing";
           details := None |}
    | Some migrationDiff =>
        let migrationRemovesSplitButtonOptions :=
          hasSplitButtonOptions (removedLines migrationDiff) in
        let migrationAddsSplitButtonItems :=
          hasSplitButtonItems (addedLines migrationDiff) in
        if migrationRemovesSplitButtonOptions && migrationAddsSplitButtonItems then
          {| patternId := PATTERN_ID;
             status := CORRECT;
             message := "splitButtonOptions correctly renamed to splitButtonItems";
             details := None |}
        else if migrationRemovesSplitButtonOptions
                && negb migrationAddsSplitButtonItems then
          {| patternId := PATTERN_ID;
             status := INCORRECT;
             message := "splitButtonOptions removed but splitButtonItems not added";
             details := None |}
        else
          {| patternId := PATTERN_ID;
             status := MISSING;
             message := "splitButtonOptions -> splitButtonItems rename not found in migration";
             details := None |}
    end.

Definition pattern : Registry.PatternDefinition :=
  {| Registry.id := PATTERN_ID;
     Registry.name := "SplitButton Options to Items Rename";
     Registry.complexity := Registry.trivial;
     Registry.weight := 1;
     Registry.description := "Detects splitButtonOptions -> splitButtonItems renames";
     Registry.detect := fun goldenDiff migrationDiff _ _ =>
                          detect goldenDiff migrationDiff |}.

End SplitButtonItems.

(** ** patterns/modal-import-path.ts *)

Module ModalImportPath.
Import JsString JsRegExp.
Local Open Scope string_scope.
Local Open Scope list_scope.

Definition PATTERN_ID : string := "modal-import-path".

(** The class of the two quotes, single and double. *)
Definition quote : regex :=
  Cls (fun c => Ascii.eqb c ThemeDarkRemoval.sq || Ascii.eqb c ThemeDarkRemoval.dq).

(** [/from\s+['"]@patternfly\/react-core['"]/] *)
Definition MODAL_MAIN_IMPORT_RE : regex :=
  Seq (Str "from") (Seq (Plus (Cls is_whitespace))
    (Seq quote (Seq (Str "@patternfly/react-core") quote))).

(** [/from\s+['"]@patternfly\/react-core\/deprecated['"]/] *)
Definition MODAL_DEPRECATED_IMPORT_RE : regex :=
  Seq (Str "from") (Seq (Plus (Cls is_whitespace))
    (Seq quote (Seq (Str "@patternfly/react-core/deprecated") quote))).

(** [/\bModal\b/] *)
Definition MODAL_SPECIFIER_RE : regex := Seq WordB (Seq (Str "Modal") WordB).

Definition hasModalMainImport (lines : list DiffLine) : bool :=
  existsb (fun l => test MODAL_SPECIFIER_RE (content l)
                    && test MODAL_MAIN_IMPORT_RE (content l)) lines.

Definition hasModalDeprecatedImport (lines : list DiffLine) : bool :=
  existsb (fun l => test MODAL_SPECIFIER_RE (content l)
                    && test MODAL_DEPRECATED_IMPORT_RE (content l)) lines.

Definition detect (goldenDiff : FileDiff) (migrationDiff : option FileDiff)
  : DetectionResult :=
  let goldenRemovesModalMain := hasModalMainImport (removedLines goldenDiff) in
  if negb goldenRemovesModalMain then
    {| patternId := PATTERN_ID;
       status := NOT_APPLICABLE;
       message := "No Modal import path change in golden diff";
       details := None |}
  else
    match migrationDiff with
    | None =>
        {| patternId := PATTERN_ID;
           status := FILE_MISSING;
           message := "Migration file is missing";
           details := None |}
    | Some migrationDiff =>
        let migrationRemovesModalMain :=
          hasModalMainImport (removedLines migrationDiff) in
        let migrationAddsModalDeprecated :=
          hasModalDeprecatedImport (addedLines migrationDiff) in
        if migrationRemovesModalMain && migrationAddsModalDeprecated then
          {| patternId := PATTERN_ID;
             status := CORRECT;
             message := "Modal import correctly moved to deprecated path";
             details := None |}
        else if migrationRemovesModalMain && negb migrationAddsModalDeprecated then
          {| patternId := PATTERN_ID;
             status := INCORRECT;
             message := "Modal removed from main import but not added to deprecated path";
             details := None |}
        else
          {| patternId := PATTERN_ID;
             status := MISSING;
             message := "Modal import path change not found in migration";
             details := None |}
    end.

Definition pattern : Registry.PatternDefinition :=
  {| Registry.id := PATTERN_ID;
     Registry.name := "Modal Import Path Change";
     Registry.complexity := Registry.trivial;
     Registry.weight := 1;
     Registry.description := "Detects Modal import path change to deprecated path";
     Registry.detect := fun goldenDiff migrationDiff _ _ =>
                          detect goldenDiff migrationDiff |}.

End ModalImportPath.

(** ** patterns/toolbar-variant.ts *)

Module ToolbarVariant.
Import JsString JsRegExp.
Local Open Scope string_scope.
Local Open Scope list_scope.

Definition PATTERN_ID : string := "toolbar-variant".

(** [/variant\s*=\s*(?:"|'|\{['"])NAME(?:"|'|\}|['"])/] *)
Definition variant_re (name : string) : regex :=
  let ws := Star (Cls is_whitespace) in
  let dq := Chr ThemeDarkRemoval.dq in
  let sq := Chr ThemeDarkRemoval.sq in
  Seq (Str "variant") (Seq ws (Seq (Chr "=") (Seq ws
    (Seq (Alt dq (Alt sq (Seq (Chr "{") ModalImportPath.quote)))
    (Seq (Str name)
         (Alt dq (Alt sq (Alt (Chr "}") ModalImportPath.quote)))))))).

Definition CHIP_GROUP_VARIANT_RE : regex := variant_re "chip-group".
Definition BULK_SELECT_VARIANT_RE : regex := variant_re "bulk-select".
Definition OVERFLOW_MENU_VARIANT_RE : regex := variant_re "overflow-menu".
Definition SEARCH_FILTER_VARIANT_RE : regex := variant_re "search-filter".
Definition LABEL_GROUP_VARIANT_RE : regex := variant_re "label-group".

Definition hasOldVariants (lines : list DiffLine) : bool :=
  existsb (fun l => test CHIP_GROUP_VARIANT_RE (content l)
                    || test BULK_SELECT_VARIANT_RE (content l)
                    || test OVERFLOW_MENU_VARIANT_RE (content l)
                    || test SEARCH_FILTER_VARIANT_RE (content l)) lines.

Definition detect (goldenDiff : FileDiff) (migrationDiff : option FileDiff)
  : DetectionResult :=
  let goldenRemovesOldVariants := hasOldVariants (removedLines goldenDiff) in
  if negb goldenRemovesOldVariants then
    {| patternId := PATTERN_ID;
       status := NOT_APPLICABLE;
       message := "No ToolbarItem variant changes in golden diff";
       details := None |}
  else
    match migrationDiff with
    | None =>
        {| patternId := PATTERN_ID;
           status := FILE_MISSING;
           message := "Migration file is missing";
           details := None |}
    | Some migrationDiff =>
        let migRemovesOldVariants := hasOldVariants (removedLines migrationDiff) in
        if negb migRemovesOldVariants then
          {| patternId := PATTERN_ID;
             status := MISSING;
             message := "ToolbarItem variant changes not found in migration";
             details := None |}
        else
          let details : list string := [] in
          let goldenHasChipGroup :=
            existsb (fun l => test CHIP_GROUP_VARIANT_RE (content l))
                    (removedLines goldenDiff) in
          let details :=
            if goldenHasChipGroup then
              let migRemovesChipGroup :=
                existsb (fun l => test CHIP_GROUP_VARIANT_RE (content l))
                        (removedLines migrationDiff) in
              let migAddsLabelGroup :=
                existsb (fun l => test LABEL_GROUP_VARIANT_RE (content l))
                        (addedLines migrationDiff) in
              if migRemovesChipGroup && negb migAddsLabelGroup then
                details ++ ["chip-group variant removed but label-group not added"]
              else details
            else details in
          let migAddsOldVariants := hasOldVariants (addedLines migrationDiff) in
          let details :=
            if migAddsOldVariants then
              details ++ ["Old variant values re-added in migration"]
            else details in
          if (0 <? length details)%nat then
            {| patternId := PATTERN_ID;
               status := INCORRECT;
               message := "ToolbarItem variant partially migrated";
               details := Some details |}
          else
            {| patternId := PATTERN_ID;
               status := CORRECT;
               message := "ToolbarItem variant props correctly updated";
               details := None |}
    end.

Definition pattern : Registry.PatternDefinition :=
  {| Registry.id := PATTERN_ID;
     Registry.name := "Toolbar Variant";
     Registry.complexity := Registry.moderate;
     Registry.weight := 2;
     Registry.description :=
       "Detects ToolbarItem variant prop changes (chip-group->label-group, removal of bulk-select/overflow-menu/search-filter)";
     Registry.detect := fun goldenDiff migrationDiff _ _ =>
                          detect goldenDiff migrationDiff |}.

End ToolbarVariant.

(** ** patterns/chips-to-labels.ts *)

Module ChipsToLabels.
Import JsString JsRegExp.
Local Open Scope string_scope.
Local Open Scope list_scope.

Definition PATTERN_ID : string := "chips-to-labels".

(** [/\b(chips|deleteChip|Chip|ChipGroup)\b/] *)
Definition CHIPS_RE : regex :=
  Seq WordB
    (Seq (Alt (Str "chips") (Alt (Str "deleteChip") (Alt (Str "Chip") (Str "ChipGroup"))))
         WordB).

(** [/\b(labels|deleteLabel|Label|LabelGroup)\b/] *)
Definition LABELS_RE : regex :=
  Seq WordB
    (Seq (Alt (Str "labels") (Alt (Str "deleteLabel") (Alt (Str "Label") (Str "LabelGroup"))))
         WordB).

Definition hasChips (lines : list DiffLine) : bool :=
  existsb (fun l => test CHIPS_RE (content l)) lines.

Definition hasLabels (lines : list DiffLine) : bool :=
  existsb (fun l => test LABELS_RE (content l)) lines.

Definition detect (goldenDiff : FileDiff) (migrationDiff : option FileDiff)
  : DetectionResult :=
  let goldenRemovesChips := hasChips (removedLines goldenDiff) in
  if negb goldenRemovesChips then
    {| patternId := PATTERN_ID;
       status := NOT_APPLICABLE;
       message := "No chips/deleteChip removal in golden diff";
       details := None |}
  else
    match migrationDiff with
    | None =>
        {| patternId := PATTERN_ID;
           status := FILE_MISSING;
           message := "Migration file is missing";
           details := None |}
    | Some migrationDiff =>
        let migrationRemovesChips := hasChips (removedLines migrationDiff) in
        let migrationAddsLabels := hasLabels (addedLines migrationDiff) in
        if migrationRemovesChips && migrationAddsLabels then
          {| patternId := PATTERN_ID;
             status := CORRECT;
             message := "chips/deleteChip correctly renamed to labels/deleteLabel";
             details := None |}
        else if migrationRemovesChips && negb migrationAddsLabels then
          {| patternId := PATTERN_ID;
             status := INCORRECT;
             message := "chips/deleteChip removed but labels/deleteLabel not added";
             details := None |}
        else
          {| patternId := PATTERN_ID;
             status := MISSING;
             message := "chips/deleteChip -> labels/deleteLabel rename not found in migration";
             details := None |}
    end.

Definition pattern : Registry.PatternDefinition :=
  {| Registry.id := PATTERN_ID;
     Registry.name := "Chips to Labels Rename";
     Registry.complexity := Registry.trivial;
     Registry.weight := 1;
     Registry.description := "Detects chips/deleteChip -> labels/deleteLabel renames";
     Registry.detect := fun goldenDiff migrationDiff _ _ =>
                          detect goldenDiff migrationDiff |}.

End ChipsToLabels.

(** ** patterns/inner-ref-to-ref.ts *)

Module InnerRefToRef.
Import JsString JsRegExp.
Local Open Scope string_scope.
Local Open Scope list_scope.

Definition PATTERN_ID : string := "inner-ref-to-ref".

(** The class [[={]] *)
Definition eq_or_brace (c : ascii) : bool := Ascii.eqb c "=" || Ascii.eqb c "{".

(** [/\binnerRef\s*[={]/] and [/\bref\s*[={]/] *)
Definition INNER_REF_RE : regex :=
  Seq WordB (Seq (Str "innerRef")
    (Seq (Star (Cls is_whitespace)) (Cls eq_or_brace))).
Definition REF_RE : regex :=
  Seq WordB (Seq (Str "ref")
    (Seq (Star (Cls is_whitespace)) (Cls eq_or_brace))).

Definition hasInnerRef (lines : list DiffLine) : bool :=
  existsb (fun l => test INNER_REF_RE (content l)) lines.

Definition hasRef (lines : list DiffLine) : bool :=
  existsb (fun l => test REF_RE (content l)) lines.

Definition detect (goldenDiff : FileDiff) (migrationDiff : option FileDiff)
  : DetectionResult :=
  let goldenRemovesInnerRef := hasInnerRef (removedLines goldenDiff) in
  if negb goldenRemovesInnerRef then
    {| patternId := PATTERN_ID;
       status := NOT_APPLICABLE;
       message := "No innerRef removal in golden diff";
       details := None |}
  else
    match migrationDiff with
    | None =>
        {| patternId := PATTERN_ID;
           status := FILE_MISSING;
           message := "Migration file is missing";
           details := None |}
    | Some migrationDiff =>
        let migrationRemovesInnerRef := hasInnerRef (removedLines migrationDiff) in
        let migrationAddsRef := hasRef (addedLines migrationDiff) in
        if migrationRemovesInnerRef && migrationAddsRef then
          {| patternId := PATTERN_ID;
             status := CORRECT;
             message := "innerRef correctly renamed to ref";
             details := None |}
        else if migrationRemovesInnerRef && negb migrationAddsRef then
          {| patternId := PATTERN_ID;
             status := INCORRECT;
             message := "innerRef removed but ref not added";
             details := None |}
        else
          {| patternId := PATTERN_ID;
             status := MISSING;
             message := "innerRef -> ref rename not found in migration";
             details := None |}
    end.

Definition pattern : Registry.PatternDefinition :=
  {| Registry.id := PATTERN_ID;
     Registry.name := "InnerRef to Ref Rename";
     Registry.complexity := Registry.trivial;
     Registry.weight := 1;
     Registry.description := "Detects innerRef -> ref prop renames";
     Registry.detect := fun goldenDiff migrationDiff _ _ =>
                          detect goldenDiff migrationDiff |}.

End InnerRefToRef.

(** ** patterns/is-action-cell.ts *)

Module IsActionCell.
Import JsString JsRegExp.
Local Open Scope string_scope.
Local Open Scope list_scope.

Definition PATTERN_ID : string := "is-action-cell".

(** [/\bisActionCell\b/] and [/\bhasAction\b/] *)
Definition IS_ACTION_CELL_RE : regex := Seq WordB (Seq (Str "isActionCell") WordB).
Definition HAS_ACTION_RE : regex := Seq WordB (Seq (Str "hasAction") WordB).

Definition hasIsActionCell (lines : list DiffLine) : bool :=
  existsb (fun l => test IS_ACTION_CELL_RE (content l)) lines.

Definition hasHasAction (lines : list DiffLine) : bool :=
  existsb (fun l => test HAS_ACTION_RE (content l)) lines.

Definition detect (goldenDiff : FileDiff) (migrationDiff : option FileDiff)
  : DetectionResult :=
  let goldenRemovesIsActionCell := hasIsActionCell (removedLines goldenDiff) in
  if negb goldenRemovesIsActionCell then
    {| patternId := PATTERN_ID;
       status := NOT_APPLICABLE;
       message := "No isActionCell removal in golden diff";
       details := None |}
  else
    match migrationDiff with
    | None =>
        {| patternId := PATTERN_ID;
           status := FILE_MISSING;
           message := "Migration file is missing";
           details := None |}
    | Some migrationDiff =>
        let migrationRemovesIsActionCell :=
          hasIsActionCell (removedLines migrationDiff) in
        let migrationAddsHasAction := hasHasAction (addedLines migrationDiff) in
        if migrationRemovesIsActionCell && migrationAddsHasAction then
          {| patternId := PATTERN_ID;
             status := CORRECT;
             message := "isActionCell correctly renamed to hasAction";
             details := None |}
        else if migrationRemovesIsActionCell && negb migrationAddsHasAction then
          {| patternId := PATTERN_ID;
             status := INCORRECT;
             message := "isActionCell removed but hasAction not added";
             details := None |}
        else
          {| patternId := PATTERN_ID;
             status := MISSING;
             message := "isActionCell -> hasAction rename not found in migration";
             details := None |}
    end.

Definition pattern : Registry.PatternDefinition :=
  {| Registry.id := PATTERN_ID;
     Registry.name := "IsActionCell to HasAction Rename";
     Registry.complexity := Registry.trivial;
     Registry.weight := 1;
     Registry.description := "Detects isActionCell -> hasAction prop renames";
     Registry.detect := fun goldenDiff migrationDiff _ _ =>
                          detect goldenDiff migrationDiff |}.

End IsActionCell.

(** ** patterns/css-logical-properties.ts *)

Module CssLogicalProperties.
Import JsString JsRegExp.
Local Open Scope string_scope.
Local Open Scope list_scope.

Definition PATTERN_ID : string := "css-logical-properties".

Definition PHYSICAL_PROPS : list string :=
  [ "PaddingTop"; "PaddingBottom"; "PaddingLeft"; "PaddingRight";
    "MarginTop"; "MarginBottom"; "MarginLeft"; "MarginRight" ].

Definition LOGICAL_PROPS : list string :=
  [ "PaddingBlockStart"; "PaddingBlockEnd"; "PaddingInlineStart"; "PaddingInlineEnd";
    "MarginBlockStart"; "MarginBlockEnd"; "MarginInlineStart"; "MarginInlineEnd" ].

Definition hasPhysicalProperties (lines : list DiffLine) : bool :=
  existsb (fun l => existsb (fun prop => includes (content l) prop) PHYSICAL_PROPS)
          lines.

Definition hasLogicalProperties (lines : list DiffLine) : bool :=
  existsb (fun l => existsb (fun prop => includes (content l) prop) LOGICAL_PROPS)
          lines.

Definition detect (goldenDiff : FileDiff) (migrationDiff : option FileDiff)
  : DetectionResult :=
  let goldenRemovesPhysical := hasPhysicalProperties (removedLines goldenDiff) in
  let goldenAddsLogical := hasLogicalProperties (addedLines goldenDiff) in
  if negb goldenRemovesPhysical && negb goldenAddsLogical then
    {| patternId := PATTERN_ID;
       status := NOT_APPLICABLE;
       message := "No physical-to-logical CSS property changes in golden diff";
       details := None |}
  else
    match migrationDiff with
    | None =>
        {| patternId := PATTERN_ID;
           status := FILE_MISSING;
           message := "Migration file is missing";
           details := None |}
    | Some migrationDiff =>
        let migrationRemovesPhysical :=
          hasPhysicalProperties (removedLines migrationDiff) in
        let migrationAddsLogical :=
          hasLogicalProperties (addedLines migrationDiff) in
        if migrationRemovesPhysical && migrationAddsLogical then
          {| patternId := PATTERN_ID;
             status := CORRECT;
             message := "Physical CSS properties correctly replaced with logical equivalents";
             details := None |}
        else if migrationAddsLogical && negb migrationRemovesPhysical then
          {| patternId := PATTERN_ID;
             status := CORRECT;
             message := "Logical CSS properties added in migration";
             details := None |}
        else if negb migrationRemovesPhysical && negb migrationAddsLogical then
          {| patternId := PATTERN_ID;
             status := MISSING;
             message := "Physical-to-logical CSS property rename not found in migration";
             details := None |}
        else
          {| patternId := PATTERN_ID;
             status := INCORRECT;
             message := "Physical CSS properties removed but logical replacements not added";
             details := None |}
    end.

Definition pattern : Registry.PatternDefinition :=
  {| Registry.id := PATTERN_ID;
     Registry.name := "CSS Logical Properties";
     Registry.complexity := Registry.trivial;
     Registry.weight := 1;
     Registry.description :=
       "Detects physical-to-logical CSS property renames (e.g., --PaddingTop -> --PaddingBlockStart)";
     Registry.detect := fun goldenDiff migrationDiff _ _ =>
                          detect goldenDiff migrationDiff |}.

End CssLogicalProperties.

(** ** patterns/page-section-variant.ts *)

Module PageSectionVariant.
Import JsString JsRegExp.
Local Open Scope string_scope.
Local Open Scope list_scope.

Definition PATTERN_ID : string := "page-section-variant".

(** [/variant\s*=\s*(?:"|'|\{['"]|{PageSectionVariants\.)NAME(?:"|'|\}|['"]|})/] *)
Definition variant_re (name : string) : regex :=
  let ws := Star (Cls is_whitespace) in
  let dq := Chr ThemeDarkRemoval.dq in
  let sq := Chr ThemeDarkRemoval.sq in
  Seq (Str "variant") (Seq ws (Seq (Chr "=") (Seq ws
    (Seq (Alt dq (Alt sq (Alt (Seq (Chr "{") ModalImportPath.quote)
                              (Str "{PageSectionVariants."))))
    (Seq (Str name)
         (Alt dq (Alt sq (Alt (Chr "}") (Alt ModalImportPath.quote (Chr "}")))))))))).

Definition VARIANT_LIGHT_RE : regex := variant_re "light".
Definition VARIANT_DARK_RE : regex := variant_re "dark".
Definition VARIANT_DARKER_RE : regex := variant_re "darker".

(** [/\bPageSectionVariants\b/] and [/\bPageSection\b/] *)
Definition PAGE_SECTION_VARIANTS_RE : regex :=
  Seq WordB (Seq (Str "PageSectionVariants") WordB).
Definition PAGE_SECTION_RE : regex := Seq WordB (Seq (Str "PageSection") WordB).

Definition hasOldVariants (lines : list DiffLine) : bool :=
  existsb (fun l => test VARIANT_LIGHT_RE (content l)
                    || test VARIANT_DARK_RE (content l)
                    || test VARIANT_DARKER_RE (content l)
                    || (test PAGE_SECTION_VARIANTS_RE (content l)
                        && test PAGE_SECTION_RE (content l))) lines.

(** The second test is [/import/]. *)
Definition hasVariantImportRemoval (lines : list DiffLine) : bool :=
  existsb (fun l => test PAGE_SECTION_VARIANTS_RE (content l)
                    && test (Str "import") (content l)) lines.

Definition detect (goldenDiff : FileDiff) (migrationDiff : option FileDiff)
  : DetectionResult :=
  let goldenRemovesOldVariants := hasOldVariants (removedLines goldenDiff) in
  let goldenRemovesVariantImport :=
    hasVariantImportRemoval (removedLines goldenDiff) in
  if negb goldenRemovesOldVariants && negb goldenRemovesVariantImport then
    {| patternId := PATTERN_ID;
       status := NOT_APPLICABLE;
       message := "No PageSection variant changes in golden diff";
       details := None |}
  else
    match migrationDiff with
    | None =>
        {| patternId := PATTERN_ID;
           status := FILE_MISSING;
           message := "Migration file is missing";
           details := None |}
    | Some migrationDiff =>
        let migRemovesOldVariants := hasOldVariants (removedLines migrationDiff) in
        let migRemovesVariantImport :=
          hasVariantImportRemoval (removedLines migrationDiff) in
        if negb migRemovesOldVariants && negb migRemovesVariantImport then
          {| patternId := PATTERN_ID;
             status := MISSING;
             message := "PageSection variant changes not found in migration";
             details := None |}
        else
          let details : list string := [] in
          let migAddsOldVariants := hasOldVariants (addedLines migrationDiff) in
          let details :=
            if migAddsOldVariants then
              details ++ ["Old PageSection variant values re-added in migration"]
            else details in
          let migAddsVariantImport :=
            hasVariantImportRemoval (addedLines migrationDiff) in
          let details :=
            if migAddsVariantImport then
              details ++ ["PageSectionVariants import re-added in migration"]
            else details in
          if (0 <? length details)%nat then
            {| patternId := PATTERN_ID;
               status := INCORRECT;
               message := "PageSection variant partially migrated";
               details := Some details |}
          else
            {| patternId := PATTERN_ID;
               status := CORRECT;
               message := "PageSection variant props correctly updated";
               details := None |}
    end.

Definition pattern : Registry.PatternDefinition :=
  {| Registry.id := PATTERN_ID;
     Registry.name := "PageSection Variant";
     Registry.complexity := Registry.moderate;
     Registry.weight := 2;
     Registry.description :=
       "Detects PageSection variant changes (removal of light/dark/darker variants and PageSectionVariants enum)";
     Registry.detect := fun goldenDiff migrationDiff _ _ =>
                          detect goldenDiff migrationDiff |}.

End PageSectionVariant.

(** ** patterns/react-tokens-icon-status.ts *)

Module ReactTokensIconStatus.
Import JsString JsRegExp.
Local Open Scope string_scope.
Local Open Scope list_scope.

Definition PATTERN_ID : string := "react-tokens-icon-status".

(** [from\s+Q], the head of the patterns for the imports, where Q is the
    class of the two quotes *)
Definition from_quote (rest : regex) : regex :=
  Seq (Str "from") (Seq (Plus (Cls is_whitespace)) (Seq ModalImportPath.quote rest)).

(** [/from\s+Q@patternfly\/react-tokensQ/] and [/\bglobal_/] *)
Definition OLD_TOKENS_IMPORT_RE : regex :=
  from_quote (Seq (Str "@patternfly/react-tokens") ModalImportPath.quote).
Definition OLD_GLOBAL_TOKEN_RE : regex := Seq WordB (Str "global_").

(** [/from\s+Q@patternfly\/react-tokens\/dist\b/] and [/\bt_/] *)
Definition NEW_TOKENS_IMPORT_RE : regex :=
  from_quote (Seq (Str "@patternfly/react-tokens/dist") WordB).
Definition NEW_TOKEN_FORMAT_RE : regex := Seq WordB (Str "t_").

(** [/from\s+Q@patternfly\/react-icons\/dist\/(?:js|esm)\/icons\b/] *)
Definition OLD_ICON_IMPORT_RE : regex :=
  from_quote (Seq (Str "@patternfly/react-icons/dist/")
                  (Seq (Alt (Str "js") (Str "esm")) (Seq (Str "/icons") WordB))).

(** [/from\s+Q@patternfly\/react-icons\b/] *)
Definition NEW_ICON_IMPORT_RE : regex :=
  from_quote (Seq (Str "@patternfly/react-icons") WordB).

(** [/from\s+Q@patternfly\/react-icons\/dist\b/] *)
Definition OLD_STATUS_IMPORT_RE : regex :=
  from_quote (Seq (Str "@patternfly/react-icons/dist") WordB).

Definition hasOldTokenOrIconPatterns (lines : list DiffLine) : bool :=
  existsb (fun l => test OLD_TOKENS_IMPORT_RE (content l)
                    || test OLD_GLOBAL_TOKEN_RE (content l)
                    || test OLD_ICON_IMPORT_RE (content l)
                    || test OLD_STATUS_IMPORT_RE (content l)) lines.

Definition hasNewTokenOrIconPatterns (lines : list DiffLine) : bool :=
  existsb (fun l => test NEW_TOKENS_IMPORT_RE (content l)
                    || test NEW_TOKEN_FORMAT_RE (content l)
                    || test NEW_ICON_IMPORT_RE (content l)) lines.

Definition detect (goldenDiff : FileDiff) (migrationDiff : option FileDiff)
  : DetectionResult :=
  let goldenRemovesOld := hasOldTokenOrIconPatterns (removedLines goldenDiff) in
  let goldenAddsNew := hasNewTokenOrIconPatterns (addedLines goldenDiff) in
  if negb goldenRemovesOld && negb goldenAddsNew then
    {| patternId := PATTERN_ID;
       status := NOT_APPLICABLE;
       message := "No react-tokens or icon/status import changes in golden diff";
       details := None |}
  else
    match migrationDiff with
    | None =>
        {| patternId := PATTERN_ID;
           status := FILE_MISSING;
           message := "Migration file is missing";
           details := None |}
    | Some migrationDiff =>
        let migRemovesOld := hasOldTokenOrIconPatterns (removedLines migrationDiff) in
        let migAddsNew := hasNewTokenOrIconPatterns (addedLines migrationDiff) in
        if negb migRemovesOld && negb migAddsNew then
          {| patternId := PATTERN_ID;
             status := MISSING;
             message := "react-tokens/icon/status import changes not found in migration";
             details := None |}
        else
          let details : list string := [] in
          let details :=
            if goldenAddsNew && migRemovesOld && negb migAddsNew then
              details ++ ["Old import paths removed but new import paths not added"]
            else details in
          let migAddsOld := hasOldTokenOrIconPatterns (addedLines migrationDiff) in
          let details :=
            if migAddsOld then
              details ++ ["Old react-tokens/icon import paths re-added in migration"]
            else details in
          if (0 <? length details)%nat then
            {| patternId := PATTERN_ID;
               status := INCORRECT;
               message := "react-tokens/icon/status imports partially migrated";
               details := Some details |}
          else
            {| patternId := PATTERN_ID;
               status := CORRECT;
               message := "react-tokens/icon/status imports correctly updated";
               details := None |}
    end.

Definition pattern : Registry.PatternDefinition :=
  {| Registry.id := PATTERN_ID;
     Registry.name := "React Tokens/Icon/Status";
     Registry.complexity := Registry.moderate;
     Registry.weight := 2;
     Registry.description :=
       "Detects react-tokens and icon/status import path changes";
     Registry.detect := fun goldenDiff migrationDiff _ _ =>
                          detect goldenDiff migrationDiff |}.

End ReactTokensIconStatus.

(** ** patterns/button-icon-prop.ts *)

Module ButtonIconProp.
Import JsString JsRegExp.
Local Open Scope string_scope.
Local Open Scope list_scope.

Definition PATTERN_ID : string := "button-icon-prop".

(** [/\bButton\b/] *)
Definition BUTTON_TAG_RE : regex := Seq WordB (Seq (Str "Button") WordB).

(** [/\bicon\s*=\s*\{/] *)
Definition ICON_PROP_RE : regex :=
  let ws := Star (Cls is_whitespace) in
  Seq WordB (Seq (Str "icon") (Seq ws (Seq (Chr "=") (Seq ws (Chr "{"))))).

(** [/variant\s*=\s*(?:Q1|Q2|\{Q)plain(?:Q1|Q2|\}|Q)/], where Q1 and Q2
    are the double and the single quote and Q the class of the two *)
Definition VARIANT_PLAIN_RE : regex := ToolbarVariant.variant_re "plain".

Definition hasButtonIconChanges (removedLines addedLines : list DiffLine) : bool :=
  let removedHasButton :=
    existsb (fun l => test BUTTON_TAG_RE (content l)) removedLines in
  let addedHasIconProp :=
    existsb (fun l => test BUTTON_TAG_RE (content l)
                      && test ICON_PROP_RE (content l)) addedLines in
  removedHasButton && addedHasIconProp.

Definition detectWithAST (goldenAST migrationAST : Registry.ASTRepresentation)
  : option DetectionResult :=
  let goldenButtons :=
    List.filter (fun c => String.eqb (Registry.tagName c) "Button")
                (Registry.jsxComponents goldenAST) in
  let migButtons :=
    List.filter (fun c => String.eqb (Registry.tagName c) "Button")
                (Registry.jsxComponents migrationAST) in
  if (length goldenButtons =? 0)%nat then None
  else
    let migHasIconProp :=
      existsb (fun c => existsb (fun p => String.eqb (Registry.prop_name p) "icon")
                                (Registry.props c)) migButtons in
    if migHasIconProp then
      Some {| patternId := PATTERN_ID;
              status := CORRECT;
              message := "Button icon correctly restructured to icon prop";
              details := None |}
    else
      let migHasPlainVariant :=
        existsb (fun c =>
                   existsb (fun p =>
                              String.eqb (Registry.prop_name p) "variant"
                              && match Registry.prop_value p with
                                 | Some v => includes v "plain"
                                 | None => false
                                 end)
                           (Registry.props c)) migButtons in
      if migHasPlainVariant && negb migHasIconProp then
        Some {| patternId := PATTERN_ID;
                status := INCORRECT;
                message := "Button still uses children for icon instead of icon prop";
                details := None |}
      else None.

(** The last part of [detect], on the two records only. *)
Definition detectFromDiff (migrationDiff : FileDiff) : DetectionResult :=
  let migHasIconChanges :=
    hasButtonIconChanges (removedLines migrationDiff) (addedLines migrationDiff) in
  if migHasIconChanges then
    {| patternId := PATTERN_ID;
       status := CORRECT;
       message := "Button icon correctly restructured to icon prop";
       details := None |}
  else
    let migAddsIconProp :=
      existsb (fun l => test BUTTON_TAG_RE (content l)
                        && test ICON_PROP_RE (content l))
              (addedLines migrationDiff) in
    if migAddsIconProp then
      {| patternId := PATTERN_ID;
         status := CORRECT;
         message := "Button icon prop added in migration";
         details := None |}
    else
      let migHasButtonChanges :=
        existsb (fun l => test BUTTON_TAG_RE (content l))
                (removedLines migrationDiff) in
      let migStillHasPlainVariant :=
        existsb (fun l => test BUTTON_TAG_RE (content l)
                          && test VARIANT_PLAIN_RE (content l))
                (addedLines migrationDiff) in
      let missing :=
        {| patternId := PATTERN_ID;
           status := MISSING;
           message := "Button icon prop restructuring not found in migration";
           details := None |} in
      if migHasButtonChanges then
        if migStillHasPlainVariant then
          {| patternId := PATTERN_ID;
             status := INCORRECT;
             message := "Button modified but icon still used as children";
             details :=
               Some [ String.append "Button variant="
                        (String ThemeDarkRemoval.dq
                           (String.append "plain"
                              (String ThemeDarkRemoval.dq
                                 " exists but icon not moved to icon prop"))) ] |}
        else missing
      else missing.

Definition detect (goldenDiff : FileDiff) (migrationDiff : option FileDiff)
  (goldenAST migrationAST : option Registry.ASTRepresentation) : DetectionResult :=
  let goldenHasIconChanges :=
    hasButtonIconChanges (removedLines goldenDiff) (addedLines goldenDiff) in
  if negb goldenHasIconChanges then
    {| patternId := PATTERN_ID;
       status := NOT_APPLICABLE;
       message := "No Button icon prop changes in golden diff";
       details := None |}
  else
    match migrationDiff with
    | None =>
        {| patternId := PATTERN_ID;
           status := FILE_MISSING;
           message := "Migration file is missing";
           details := None |}
    | Some migrationDiff =>
        let astResult :=
          match goldenAST, migrationAST with
          | Some goldenAST, Some migrationAST => detectWithAST goldenAST migrationAST
          | _, _ => None
          end in
        match astResult with
        | Some astResult => astResult
        | None => detectFromDiff migrationDiff
        end
    end.

Definition pattern : Registry.PatternDefinition :=
  {| Registry.id := PATTERN_ID;
     Registry.name := "Button Icon Prop";
     Registry.complexity := Registry.moderate;
     Registry.weight := 2;
     Registry.description :=
       "Detects Button icon prop restructuring (icon as children -> icon prop)";
     Registry.detect := detect |}.

End ButtonIconProp.

(** ** patterns/empty-state-restructure.ts *)

Module EmptyStateRestructure.
Import JsString JsRegExp.
Local Open Scope string_scope.
Local Open Scope list_scope.

Definition PATTERN_ID : string := "empty-state-restructure".

(** [/\bEmptyStateHeader\b/], [/\bEmptyStateIcon\b/], [/\btitleText\b/]
    and [/\bheadingLevel\b/] *)
Definition EMPTY_STATE_HEADER_RE : regex :=
  Seq WordB (Seq (Str "EmptyStateHeader") WordB).
Definition EMPTY_STATE_ICON_RE : regex :=
  Seq WordB (Seq (Str "EmptyStateIcon") WordB).
Definition TITLE_TEXT_PROP_RE : regex := Seq WordB (Seq (Str "titleText") WordB).
Definition HEADING_LEVEL_PROP_RE : regex :=
  Seq WordB (Seq (Str "headingLevel") WordB).

Definition hasEmptyStateChildren (lines : list DiffLine) : bool :=
  existsb (fun l => test EMPTY_STATE_HEADER_RE (content l)
                    || test EMPTY_STATE_ICON_RE (content l)) lines.

Definition hasEmptyStatePropsPattern (lines : list DiffLine) : bool :=
  existsb (fun l => test TITLE_TEXT_PROP_RE (content l)) lines.

(** The test of the lines that take the two components out of an import;
    the last test is [/import/]. *)
Definition removesImports (lines : list DiffLine) : bool :=
  existsb (fun l => (test EMPTY_STATE_HEADER_RE (content l)
                     || test EMPTY_STATE_ICON_RE (content l))
                    && test (Str "import") (content l)) lines.

Definition hasTag (tag : string) (components : list Registry.JSXComponentUsage)
  : bool :=
  existsb (fun c => String.eqb (Registry.tagName c) tag) components.

Definition detectWithAST (goldenAST migrationAST : Registry.ASTRepresentation)
  : option DetectionResult :=
  let goldenHasHeader := hasTag "EmptyStateHeader" (Registry.jsxComponents goldenAST) in
  let goldenHasIcon := hasTag "EmptyStateIcon" (Registry.jsxComponents goldenAST) in
  if negb goldenHasHeader && negb goldenHasIcon then None
  else
    let migEmptyState :=
      List.filter (fun c => String.eqb (Registry.tagName c) "EmptyState")
                  (Registry.jsxComponents migrationAST) in
    let hasTitleTextProp :=
      existsb (fun c => existsb (fun p => String.eqb (Registry.prop_name p) "titleText")
                                (Registry.props c)) migEmptyState in
    let hasIconProp :=
      existsb (fun c => existsb (fun p => String.eqb (Registry.prop_name p) "icon")
                                (Registry.props c)) migEmptyState in
    let migStillHasHeader :=
      hasTag "EmptyStateHeader" (Registry.jsxComponents migrationAST) in
    let migStillHasIcon :=
      hasTag "EmptyStateIcon" (Registry.jsxComponents migrationAST) in
    if migStillHasHeader || migStillHasIcon then
      let details : list string := [] in
      let details :=
        if migStillHasHeader
        then details ++ ["EmptyStateHeader still used as child component"]
        else details in
      let details :=
        if migStillHasIcon
        then details ++ ["EmptyStateIcon still used as child component"]
        else details in
      Some {| patternId := PATTERN_ID;
              status := INCORRECT;
              message := "EmptyState partially restructured";
              details := Some details |}
    else if hasTitleTextProp || hasIconProp then
      Some {| patternId := PATTERN_ID;
              status := CORRECT;
              message := "EmptyState children correctly restructured to props";
              details := None |}
    else None.

(** The last part of [detect], on the two records only. *)
Definition detectFromDiff (migrationDiff : FileDiff) : DetectionResult :=
  let migRemovesChildren := hasEmptyStateChildren (removedLines migrationDiff) in
  let migAddsProps := hasEmptyStatePropsPattern (addedLines migrationDiff) in
  let migRemovesImports := removesImports (removedLines migrationDiff) in
  if (migRemovesChildren || migRemovesImports) && migAddsProps then
    let migStillAddsChildren := hasEmptyStateChildren (addedLines migrationDiff) in
    if migStillAddsChildren then
      {| patternId := PATTERN_ID;
         status := INCORRECT;
         message := "EmptyState partially restructured - still uses child components";
         details := None |}
    else
      {| patternId := PATTERN_ID;
         status := CORRECT;
         message := "EmptyState children correctly restructured to props";
         details := None |}
  else if migRemovesChildren || migRemovesImports then
    {| patternId := PATTERN_ID;
       status := INCORRECT;
       message := "EmptyState children removed but props not properly added";
       details := None |}
  else
    {| patternId := PATTERN_ID;
       status := MISSING;
       message := "EmptyState restructuring not found in migration";
       details := None |}.

Definition detect (goldenDiff : FileDiff) (migrationDiff : option FileDiff)
  (goldenAST migrationAST : option Registry.ASTRepresentation) : DetectionResult :=
  let goldenRemovesChildren := hasEmptyStateChildren (removedLines goldenDiff) in
  let goldenAddsProps := hasEmptyStatePropsPattern (addedLines goldenDiff) in
  let goldenRemovesImports := removesImports (removedLines goldenDiff) in
  if negb goldenRemovesChildren && negb goldenRemovesImports then
    {| patternId := PATTERN_ID;
       status := NOT_APPLICABLE;
       message := "No EmptyState restructuring in golden diff";
       details := None |}
  else
    match migrationDiff with
    | None =>
        {| patternId := PATTERN_ID;
           status := FILE_MISSING;
           message := "Migration file is missing";
           details := None |}
    | Some migrationDiff =>
        let astResult :=
          match goldenAST, migrationAST with
          | Some goldenAST, Some migrationAST => detectWithAST goldenAST migrationAST
          | _, _ => None
          end in
        match astResult with
        | Some astResult => astResult
        | None => detectFromDiff migrationDiff
        end
    end.

Definition pattern : Registry.PatternDefinition :=
  {| Registry.id := PATTERN_ID;
     Registry.name := "EmptyState Restructure";
     Registry.complexity := Registry.moderate;
     Registry.weight := 2;
     Registry.description :=
       "Detects EmptyState children restructuring (EmptyStateHeader/EmptyStateIcon moved to props)";
     Registry.detect := detect |}.

End EmptyStateRestructure.

(** ** patterns/masthead-reorganization.ts *)

Module MastheadReorganization.
Import JsString JsRegExp.
Local Open Scope string_scope.
Local Open Scope list_scope.

Definition PATTERN_ID : string := "masthead-reorganization".

(** [/\bMastheadToggle\b/] and the like *)
Definition MASTHEAD_TOGGLE_RE : regex := Seq WordB (Seq (Str "MastheadToggle") WordB).
Definition MASTHEAD_MAIN_RE : regex := Seq WordB (Seq (Str "MastheadMain") WordB).
Definition MASTHEAD_BRAND_RE : regex := Seq WordB (Seq (Str "MastheadBrand") WordB).
Definition MASTHEAD_CONTENT_RE : regex := Seq WordB (Seq (Str "MastheadContent") WordB).
Definition MASTHEAD_LOGO_RE : regex := Seq WordB (Seq (Str "MastheadLogo") WordB).

Definition hasMastheadSubComponents (lines : list DiffLine) : bool :=
  existsb (fun l => test MASTHEAD_TOGGLE_RE (content l)
                    || test MASTHEAD_MAIN_RE (content l)
                    || test MASTHEAD_BRAND_RE (content l)
                    || test MASTHEAD_CONTENT_RE (content l)) lines.

Definition hasMastheadLogo (lines : list DiffLine) : bool :=
  existsb (fun l => test MASTHEAD_LOGO_RE (content l)) lines.

Definition hasReorganizationSignals (removedLines addedLines : list DiffLine)
  : bool :=
  let addsMastheadLogo := hasMastheadLogo addedLines in
  let removesSubComponents := hasMastheadSubComponents removedLines in
  let addsSubComponents := hasMastheadSubComponents addedLines in
  let restructured := removesSubComponents && addsSubComponents in
  addsMastheadLogo || restructured.

(** [components.includes(tag)] *)
Definition has (components : list string) (tag : string) : bool :=
  existsb (String.eqb tag) components.

Definition detectWithAST (goldenAST migrationAST : Registry.ASTRepresentation)
  : option DetectionResult :=
  let goldenComponents := map Registry.tagName (Registry.jsxComponents goldenAST) in
  let migComponents := map Registry.tagName (Registry.jsxComponents migrationAST) in
  let goldenHasToggle := has goldenComponents "MastheadToggle" in
  let goldenHasMain := has goldenComponents "MastheadMain" in
  let goldenHasBrand := has goldenComponents "MastheadBrand" in
  if negb goldenHasToggle && negb goldenHasMain && negb goldenHasBrand then None
  else
    let migHasLogo := has migComponents "MastheadLogo" in
    let migHasToggle := has migComponents "MastheadToggle" in
    let migHasMain := has migComponents "MastheadMain" in
    let migHasBrand := has migComponents "MastheadBrand" in
    if migHasLogo then
      Some {| patternId := PATTERN_ID;
              status := CORRECT;
              message := "Masthead hierarchy correctly reorganized with MastheadLogo";
              details := None |}
    else if migHasToggle && migHasMain && migHasBrand then
      Some {| patternId := PATTERN_ID;
              status := INCORRECT;
              message := "Masthead partially reorganized - missing MastheadLogo";
              details :=
                Some ["MastheadLogo component not introduced (PF6 requires MastheadLogo inside MastheadBrand)"] |}
    else None.

(** The last part of [detect], on the two records only. *)
Definition detectFromDiff (goldenDiff migrationDiff : FileDiff) : DetectionResult :=
  let goldenAddsMastheadLogo := hasMastheadLogo (addedLines goldenDiff) in
  let migAddsMastheadLogo := hasMastheadLogo (addedLines migrationDiff) in
  let migRestructures :=
    hasMastheadSubComponents (removedLines migrationDiff)
    && hasMastheadSubComponents (addedLines migrationDiff) in
  if migAddsMastheadLogo then
    {| patternId := PATTERN_ID;
       status := CORRECT;
       message := "Masthead hierarchy correctly reorganized with MastheadLogo";
       details := None |}
  else if migRestructures then
    let details : list string := [] in
    let details :=
      if goldenAddsMastheadLogo
      then details ++ ["MastheadLogo component not introduced (PF6 requires MastheadLogo inside MastheadBrand)"]
      else details in
    if (0 <? length details)%nat then
      {| patternId := PATTERN_ID;
         status := INCORRECT;
         message := "Masthead partially reorganized - missing MastheadLogo";
         details := Some details |}
    else
      {| patternId := PATTERN_ID;
         status := CORRECT;
         message := "Masthead hierarchy correctly reorganized";
         details := None |}
  else
    {| patternId := PATTERN_ID;
       status := MISSING;
       message := "Masthead hierarchy reorganization not found in migration";
       details := None |}.

Definition detect (goldenDiff : FileDiff) (migrationDiff : option FileDiff)
  (goldenAST migrationAST : option Registry.ASTRepresentation) : DetectionResult :=
  if negb (hasReorganizationSignals (removedLines goldenDiff) (addedLines goldenDiff))
  then
    {| patternId := PATTERN_ID;
       status := NOT_APPLICABLE;
       message := "No Masthead hierarchy reorganization in golden diff";
       details := None |}
  else
    match migrationDiff with
    | None =>
        {| patternId := PATTERN_ID;
           status := FILE_MISSING;
           message := "Migration file is missing";
           details := None |}
    | Some migrationDiff =>
        let astResult :=
          match goldenAST, migrationAST with
          | Some goldenAST, Some migrationAST => detectWithAST goldenAST migrationAST
          | _, _ => None
          end in
        match astResult with
        | Some astResult => astResult
        | None => detectFromDiff goldenDiff migrationDiff
        end
    end.

Definition pattern : Registry.PatternDefinition :=
  {| Registry.id := PATTERN_ID;
     Registry.name := "Masthead Reorganization";
     Registry.complexity := Registry.complex;
     Registry.weight := 3;
     Registry.description :=
       "Detects Masthead component hierarchy reorganization from PF5 to PF6 (MastheadToggle moves into MastheadMain, MastheadLogo introduced)";
     Registry.detect := detect |}.

End MastheadReorganization.

(** ** Patterns that end with a negative lookahead *)

Module JsLookahead.
Import JsString JsRegExp.

(** [r(?!n)] at a position: some match of [r] ends where [n] finds no
    match. *)
Definition matches_at_unless (r n : regex) (p : pos) : bool :=
  existsb (fun q => negb (matches_at n q)) (run r p).

Fixpoint search_unless (r n : regex) (before : option ascii) (s : string) : bool :=
  matches_at_unless r n (before, s) ||
  match s with
  | EmptyString => false
  | String c s' => search_unless r n (Some c) s'
  end.

(** [/r(?!n)/.test(s)] *)
Definition test_unless (r n : regex) (s : string) : bool :=
  search_unless r n None s.

End JsLookahead.

(** ** patterns/align-right-to-end.ts *)

Module AlignRightToEnd.
Import JsString JsRegExp.
Local Open Scope string_scope.
Local Open Scope list_scope.

Definition PATTERN_ID : string := "align-right-to-end".

(** [/\balignRight\b/] and [/\balignEnd\b/] *)
Definition ALIGN_RIGHT_RE : regex := Seq WordB (Seq (Str "alignRight") WordB).
Definition ALIGN_END_RE : regex := Seq WordB (Seq (Str "alignEnd") WordB).

Definition hasAlignRight (lines : list DiffLine) : bool :=
  existsb (fun l => test ALIGN_RIGHT_RE (content l)) lines.

Definition hasAlignEnd (lines : list DiffLine) : bool :=
  existsb (fun l => test ALIGN_END_RE (content l)) lines.

Definition detect (goldenDiff : FileDiff) (migrationDiff : option FileDiff)
  : DetectionResult :=
  let goldenRemovesAlignRight := hasAlignRight (removedLines goldenDiff) in
  if negb goldenRemovesAlignRight then
    {| patternId := PATTERN_ID;
       status := NOT_APPLICABLE;
       message := "No alignRight removal in golden diff";
       details := None |}
  else
    match migrationDiff with
    | None =>
        {| patternId := PATTERN_ID;
           status := FILE_MISSING;
           message := "Migration file is missing";
           details := None |}
    | Some migrationDiff =>
        let migrationRemovesAlignRight := hasAlignRight (removedLines migrationDiff) in
        let migrationAddsAlignEnd := hasAlignEnd (addedLines migrationDiff) in
        if migrationRemovesAlignRight && migrationAddsAlignEnd then
          {| patternId := PATTERN_ID;
             status := CORRECT;
             message := "alignRight correctly renamed to alignEnd";
             details := None |}
        else if migrationRemovesAlignRight && negb migrationAddsAlignEnd then
          {| patternId := PATTERN_ID;
             status := INCORRECT;
             message := "alignRight removed but alignEnd not added";
             details := None |}
        else
          {| patternId := PATTERN_ID;
             status := MISSING;
             message := "alignRight -> alignEnd rename not found in migration";
             details := None |}
    end.

Definition pattern : Registry.PatternDefinition :=
  {| Registry.id := PATTERN_ID;
     Registry.name := "AlignRight to AlignEnd Rename";
     Registry.complexity := Registry.trivial;
     Registry.weight := 1;
     Registry.description := "Detects alignRight -> alignEnd prop renames";
     Registry.detect := fun goldenDiff migrationDiff _ _ =>
                          detect goldenDiff migrationDiff |}.

End AlignRightToEnd.

(** ** patterns/space-items-removal.ts *)

Module SpaceItemsRemoval.
Import JsString JsRegExp.
Local Open Scope string_scope.
Local Open Scope list_scope.

Definition PATTERN_ID : string := "space-items-removal".

(** [/\bspaceItems\s*[={]/] *)
Definition SPACE_ITEMS_RE : regex :=
  Seq WordB (Seq (Str "spaceItems")
    (Seq (Star (Cls is_whitespace)) (Cls InnerRefToRef.eq_or_brace))).

Definition hasSpaceItems (lines : list DiffLine) : bool :=
  existsb (fun l => test SPACE_ITEMS_RE (content l)) lines.

Definition detect (goldenDiff : FileDiff) (migrationDiff : option FileDiff)
  : DetectionResult :=
  let goldenRemovesSpaceItems := hasSpaceItems (removedLines goldenDiff) in
  if negb goldenRemovesSpaceItems then
    {| patternId := PATTERN_ID;
       status := NOT_APPLICABLE;
       message := "No spaceItems removal in golden diff";
       details := None |}
  else
    match migrationDiff with
    | None =>
        {| patternId := PATTERN_ID;
           status := FILE_MISSING;
           message := "Migration file is missing";
           details := None |}
    | Some migrationDiff =>
        let migrationRemovesSpaceItems := hasSpaceItems (removedLines migrationDiff) in
        if migrationRemovesSpaceItems then
          let migrationAddsSpaceItems := hasSpaceItems (addedLines migrationDiff) in
          if migrationAddsSpaceItems then
            {| patternId := PATTERN_ID;
               status := INCORRECT;
               message := "spaceItems was removed but re-added in migration";
               details := None |}
          else
            {| patternId := PATTERN_ID;
               status := CORRECT;
               message := "spaceItems prop correctly removed";
               details := None |}
        else
          {| patternId := PATTERN_ID;
             status := MISSING;
             message := "spaceItems prop removal not found in migration";
             details := None |}
    end.

Definition pattern : Registry.PatternDefinition :=
  {| Registry.id := PATTERN_ID;
     Registry.name := "SpaceItems Removal";
     Registry.complexity := Registry.trivial;
     Registry.weight := 1;
     Registry.description := "Detects removal of spaceItems prop";
     Registry.detect := fun goldenDiff migrationDiff _ _ =>
                          detect goldenDiff migrationDiff |}.

End SpaceItemsRemoval.

(** ** patterns/toolbar-gap.ts *)

Module ToolbarGap.
Import JsString JsRegExp.
Local Open Scope string_scope.
Local Open Scope list_scope.

Definition PATTERN_ID : string := "toolbar-gap".

(** [/\bNAME\s*=\s*\{/] *)
Definition prop_brace_re (name : string) : regex :=
  let ws := Star (Cls is_whitespace) in
  Seq WordB (Seq (Str name) (Seq ws (Seq (Chr "=") (Seq ws (Chr "{"))))).

Definition SPACER_PROP_RE : regex := prop_brace_re "spacer".
Definition SPACE_ITEMS_PROP_RE : regex := prop_brace_re "spaceItems".
Definition GAP_PROP_RE : regex := prop_brace_re "gap".
Definition COLUMN_GAP_PROP_RE : regex := prop_brace_re "columnGap".
Definition ROW_GAP_PROP_RE : regex := prop_brace_re "rowGap".

Definition hasOldSpacerPatterns (lines : list DiffLine) : bool :=
  existsb (fun l => test SPACER_PROP_RE (content l)
                    || test SPACE_ITEMS_PROP_RE (content l)) lines.

Definition hasNewGapPatterns (lines : list DiffLine) : bool :=
  existsb (fun l => test GAP_PROP_RE (content l)
                    || test COLUMN_GAP_PROP_RE (content l)
                    || test ROW_GAP_PROP_RE (content l)) lines.

Definition detect (goldenDiff : FileDiff) (migrationDiff : option FileDiff)
  : DetectionResult :=
  let goldenRemovesSpacers := hasOldSpacerPatterns (removedLines goldenDiff) in
  let goldenAddsGaps := hasNewGapPatterns (addedLines goldenDiff) in
  if negb goldenRemovesSpacers && negb goldenAddsGaps then
    {| patternId := PATTERN_ID;
       status := NOT_APPLICABLE;
       message := "No Toolbar gap/spacer changes in golden diff";
       details := None |}
  else
    match migrationDiff with
    | None =>
        {| patternId := PATTERN_ID;
           status := FILE_MISSING;
           message := "Migration file is missing";
           details := None |}
    | Some migrationDiff =>
        let migRemovesSpacers := hasOldSpacerPatterns (removedLines migrationDiff) in
        let migAddsGaps := hasNewGapPatterns (addedLines migrationDiff) in
        if negb migRemovesSpacers && negb migAddsGaps then
          {| patternId := PATTERN_ID;
             status := MISSING;
             message := "Toolbar gap/spacer changes not found in migration";
             details := None |}
        else
          let details : list string := [] in
          let details :=
            if goldenAddsGaps && migRemovesSpacers && negb migAddsGaps then
              details ++ ["spacer props removed but gap props not added"]
            else details in
          let migAddsSpacers := hasOldSpacerPatterns (addedLines migrationDiff) in
          let details :=
            if migAddsSpacers then
              details ++ ["Old spacer props re-added in migration"]
            else details in
          if (0 <? length details)%nat then
            {| patternId := PATTERN_ID;
               status := INCORRECT;
               message := "Toolbar gap/spacer partially migrated";
               details := Some details |}
          else
            {| patternId := PATTERN_ID;
               status := CORRECT;
               message := "Toolbar gap/spacer props correctly updated";
               details := None |}
    end.

Definition pattern : Registry.PatternDefinition :=
  {| Registry.id := PATTERN_ID;
     Registry.name := "Toolbar Gap";
     Registry.complexity := Registry.moderate;
     Registry.weight := 2;
     Registry.description :=
       "Detects Toolbar gap/spacer changes (spacer/spaceItems -> gap/columnGap/rowGap)";
     Registry.detect := fun goldenDiff migrationDiff _ _ =>
                          detect goldenDiff migrationDiff |}.

End ToolbarGap.

(** ** patterns/page-masthead.ts *)

Module PageMasthead.
Import JsString JsRegExp JsLookahead.
Local Open Scope string_scope.
Local Open Scope list_scope.

Definition PATTERN_ID : string := "page-masthead".

(** [/\bheader\s*=\s*\{/] and [/\bPageHeader\b/] *)
Definition PAGE_HEADER_PROP_RE : regex := ToolbarGap.prop_brace_re "header".
Definition PAGE_HEADER_COMPONENT_RE : regex :=
  Seq WordB (Seq (Str "PageHeader") WordB).

(** [/\bmasthead\s*=\s*\{/] *)
Definition PAGE_MASTHEAD_PROP_RE : regex := ToolbarGap.prop_brace_re "masthead".

(** [/\bMasthead\b(?!Content|Brand|Toggle|Main)/]: the pattern, and what
    must not follow. *)
Definition MASTHEAD_COMPONENT_RE : regex * regex :=
  (Seq WordB (Seq (Str "Masthead") WordB),
   Alt (Str "Content") (Alt (Str "Brand") (Alt (Str "Toggle") (Str "Main")))).

Definition hasOldHeaderPatterns (lines : list DiffLine) : bool :=
  existsb (fun l => test PAGE_HEADER_PROP_RE (content l)
                    || test PAGE_HEADER_COMPONENT_RE (content l)) lines.

Definition hasNewMastheadPatterns (lines : list DiffLine) : bool :=
  existsb (fun l => test PAGE_MASTHEAD_PROP_RE (content l)
                    || test_unless (fst MASTHEAD_COMPONENT_RE)
                                   (snd MASTHEAD_COMPONENT_RE) (content l)) lines.

Definition detect (goldenDiff : FileDiff) (migrationDiff : option FileDiff)
  : DetectionResult :=
  let goldenRemovesHeader := hasOldHeaderPatterns (removedLines goldenDiff) in
  let goldenAddsMasthead := hasNewMastheadPatterns (addedLines goldenDiff) in
  if negb goldenRemovesHeader && negb goldenAddsMasthead then
    {| patternId := PATTERN_ID;
       status := NOT_APPLICABLE;
       message := "No Page masthead prop changes in golden diff";
       details := None |}
  else
    match migrationDiff with
    | None =>
        {| patternId := PATTERN_ID;
           status := FILE_MISSING;
           message := "Migration file is missing";
           details := None |}
    | Some migrationDiff =>
        let migRemovesHeader := hasOldHeaderPatterns (removedLines migrationDiff) in
        let migAddsMasthead := hasNewMastheadPatterns (addedLines migrationDiff) in
        if negb migRemovesHeader && negb migAddsMasthead then
          {| patternId := PATTERN_ID;
             status := MISSING;
             message := "Page masthead prop migration not found in migration";
             details := None |}
        else
          let details : list string := [] in
          let details :=
            if goldenAddsMasthead && migRemovesHeader && negb migAddsMasthead then
              details ++ ["header prop removed but masthead prop not added"]
            else details in
          let migAddsHeader := hasOldHeaderPatterns (addedLines migrationDiff) in
          let details :=
            if migAddsHeader then
              details ++ ["Old PageHeader/header prop re-added in migration"]
            else details in
          if (0 <? length details)%nat then
            {| patternId := PATTERN_ID;
               status := INCORRECT;
               message := "Page masthead migration partially completed";
               details := Some details |}
          else
            {| patternId := PATTERN_ID;
               status := CORRECT;
               message := "Page masthead prop correctly migrated";
               details := None |}
    end.

Definition pattern : Registry.PatternDefinition :=
  {| Registry.id := PATTERN_ID;
     Registry.name := "Page Masthead";
     Registry.complexity := Registry.moderate;
     Registry.weight := 2;
     Registry.description :=
       "Detects Page masthead prop migration (header/PageHeader -> masthead/Masthead)";
     Registry.detect := fun goldenDiff migrationDiff _ _ =>
                          detect goldenDiff migrationDiff |}.

End PageMasthead.

(** ** patterns/text-content-consolidation.ts *)

Module TextContentConsolidation.
Import JsString JsRegExp JsLookahead.
Local Open Scope string_scope.
Local Open Scope list_scope.

Definition PATTERN_ID : string := "text-content-consolidation".

(** [/\b(TextContent|TextListItem|TextList|TextVariants|TextListVariants|TextListItemVariants|TextProps)\b/] *)
Definition PF5_TEXT_NAMES : regex :=
  Seq WordB
    (Seq (Alt (Str "TextContent") (Alt (Str "TextListItem") (Alt (Str "TextList")
           (Alt (Str "TextVariants") (Alt (Str "TextListVariants")
             (Alt (Str "TextListItemVariants") (Str "TextProps")))))))
         WordB).

(** [/\bText\b(?!Content|List|Variants|Props)/]: the pattern, and what
    must not follow. *)
Definition PF5_TEXT_COMPONENT : regex * regex :=
  (Seq WordB (Seq (Str "Text") WordB),
   Alt (Str "Content") (Alt (Str "List") (Alt (Str "Variants") (Str "Props")))).

(** [/\bContent\b(?!Variants|Props)/] *)
Definition PF6_CONTENT : regex * regex :=
  (Seq WordB (Seq (Str "Content") WordB), Alt (Str "Variants") (Str "Props")).

(** [/\b(Content|ContentVariants|ContentProps)\b/] *)
Definition PF6_CONTENT_NAMES : regex :=
  Seq WordB
    (Seq (Alt (Str "Content") (Alt (Str "ContentVariants") (Str "ContentProps")))
         WordB).

(** [/\bisVisited\b/], [/\bisVisitedLink\b/], [/\bisPlain\b/] and
    [/\bisPlainList\b/] *)
Definition PF5_IS_VISITED : regex := Seq WordB (Seq (Str "isVisited") WordB).
Definition PF6_IS_VISITED_LINK : regex := Seq WordB (Seq (Str "isVisitedLink") WordB).
Definition PF5_IS_PLAIN : regex := Seq WordB (Seq (Str "isPlain") WordB).
Definition PF6_IS_PLAIN_LIST : regex := Seq WordB (Seq (Str "isPlainList") WordB).

Definition hasTextComponents (lines : list DiffLine) : bool :=
  existsb (fun l => test PF5_TEXT_NAMES (content l)
                    || test_unless (fst PF5_TEXT_COMPONENT) (snd PF5_TEXT_COMPONENT)
                                   (content l)) lines.

Definition hasContentComponent (lines : list DiffLine) : bool :=
  existsb (fun l => test_unless (fst PF6_CONTENT) (snd PF6_CONTENT) (content l)
                    || test PF6_CONTENT_NAMES (content l)) lines.

(** [removed.some(l => OLD.test(l.content)) && added.some(l => NEW.test(l.content))] *)
Definition hasRename (old new : regex) (diff : FileDiff) : bool :=
  existsb (fun l => test old (content l)) (removedLines diff)
  && existsb (fun l => test new (content l)) (addedLines diff).

Definition detect (goldenDiff : FileDiff) (migrationDiff : option FileDiff)
  : DetectionResult :=
  let goldenRemovesText := hasTextComponents (removedLines goldenDiff) in
  let goldenAddsContent := hasContentComponent (addedLines goldenDiff) in
  if negb goldenRemovesText || negb goldenAddsContent then
    {| patternId := PATTERN_ID;
       status := NOT_APPLICABLE;
       message := "No Text->Content consolidation in golden diff";
       details := None |}
  else
    match migrationDiff with
    | None =>
        {| patternId := PATTERN_ID;
           status := FILE_MISSING;
           message := "Migration file is missing";
           details := None |}
    | Some migrationDiff =>
        let migRemovesText := hasTextComponents (removedLines migrationDiff) in
        let migAddsContent := hasContentComponent (addedLines migrationDiff) in
        if migRemovesText && migAddsContent then
          let details : list string := [] in
          let goldenHasVisitedRename :=
            hasRename PF5_IS_VISITED PF6_IS_VISITED_LINK goldenDiff in
          let details :=
            if goldenHasVisitedRename then
              let migHasVisitedRename :=
                hasRename PF5_IS_VISITED PF6_IS_VISITED_LINK migrationDiff in
              if negb migHasVisitedRename
              then details ++ ["Missing isVisited -> isVisitedLink rename"]
              else details
            else details in
          let goldenHasPlainRename :=
            hasRename PF5_IS_PLAIN PF6_IS_PLAIN_LIST goldenDiff in
          let details :=
            if goldenHasPlainRename then
              let migHasPlainRename :=
                hasRename PF5_IS_PLAIN PF6_IS_PLAIN_LIST migrationDiff in
              if negb migHasPlainRename
              then details ++ ["Missing isPlain -> isPlainList rename"]
              else details
            else details in
          if (0 <? length details)%nat then
            {| patternId := PATTERN_ID;
               status := INCORRECT;
               message := "Text components partially consolidated to Content";
               details := Some details |}
          else
            {| patternId := PATTERN_ID;
               status := CORRECT;
               message := "Text/TextContent/TextList components correctly consolidated to Content";
               details := None |}
        else if migRemovesText && negb migAddsContent then
          {| patternId := PATTERN_ID;
             status := INCORRECT;
             message := "Text components removed but Content not added";
             details := None |}
        else
          {| patternId := PATTERN_ID;
             status := MISSING;
             message := "Text->Content consolidation not found in migration";
             details := None |}
    end.

Definition pattern : Registry.PatternDefinition :=
  {| Registry.id := PATTERN_ID;
     Registry.name := "Text Content Consolidation";
     Registry.complexity := Registry.moderate;
     Registry.weight := 2;
     Registry.description :=
       "Detects consolidation of Text, TextContent, TextList, TextListItem into Content component";
     Registry.detect := fun goldenDiff migrationDiff _ _ =>
                          detect goldenDiff migrationDiff |}.

End TextContentConsolidation.

(** ** patterns/avatar-adoption.ts *)

Module AvatarAdoption.
Import JsString JsRegExp.
Local Open Scope string_scope.
Local Open Scope list_scope.

Definition PATTERN_ID : string := "avatar-adoption".

(** [/\bAvatar\b/] and [/\bisBordered\b/] *)
Definition AVATAR_TAG_RE : regex := Seq WordB (Seq (Str "Avatar") WordB).
Definition AVATAR_BORDER_RE : regex := Seq WordB (Seq (Str "isBordered") WordB).

(** [/\bNAME\s*=\s*(?:\{|Q1|Q2)/], where Q1 and Q2 are the double and the
    single quote *)
Definition prop_value_re (name : string) : regex :=
  let ws := Star (Cls is_whitespace) in
  Seq WordB (Seq (Str name) (Seq ws (Seq (Chr "=") (Seq ws
    (Alt (Chr "{") (Alt (Chr ThemeDarkRemoval.dq) (Chr ThemeDarkRemoval.sq))))))).

Definition OLD_AVATAR_SRC_RE : regex := prop_value_re "src".
Definition OLD_AVATAR_ALT_RE : regex := prop_value_re "alt".
Definition AVATAR_SIZE_RE : regex := prop_value_re "size".

Definition hasAvatarChanges (removedLines addedLines : list DiffLine) : bool :=
  let removedHasAvatar :=
    existsb (fun l => test AVATAR_TAG_RE (content l)) removedLines in
  let addedHasAvatar :=
    existsb (fun l => test AVATAR_TAG_RE (content l)) addedLines in
  removedHasAvatar || addedHasAvatar.

(** [avatars.some(c => c.props.some(p => p.name === name))] *)
Definition hasProp (name : string) (avatars : list Registry.JSXComponentUsage)
  : bool :=
  existsb (fun c => existsb (fun p => String.eqb (Registry.prop_name p) name)
                            (Registry.props c)) avatars.

Definition detectWithAST (goldenAST migrationAST : Registry.ASTRepresentation)
  : option DetectionResult :=
  let goldenAvatars :=
    List.filter (fun c => String.eqb (Registry.tagName c) "Avatar")
                (Registry.jsxComponents goldenAST) in
  let migAvatars :=
    List.filter (fun c => String.eqb (Registry.tagName c) "Avatar")
                (Registry.jsxComponents migrationAST) in
  if (length goldenAvatars =? 0)%nat then None
  else if (length migAvatars =? 0)%nat then
    Some {| patternId := PATTERN_ID;
            status := MISSING;
            message := "Avatar component not found in migration AST";
            details := None |}
  else
    let migHasBorder := hasProp "isBordered" migAvatars in
    let migHasSize := hasProp "size" migAvatars in
    let goldenHasBorder := hasProp "isBordered" goldenAvatars in
    let goldenHasSize := hasProp "size" goldenAvatars in
    if (goldenHasBorder || goldenHasSize) && (migHasBorder || migHasSize) then
      Some {| patternId := PATTERN_ID;
              status := CORRECT;
              message := "Avatar component correctly adopted with PF6 props";
              details := None |}
    else if (goldenHasBorder || goldenHasSize) && negb migHasBorder && negb migHasSize
    then
      Some {| patternId := PATTERN_ID;
              status := INCORRECT;
              message := "Avatar component present but missing PF6 props";
              details := Some ["Avatar missing isBordered or size props from golden"] |}
    else None.

(** The last part of [detect], on the two records only. *)
Definition detectFromDiff (goldenDiff migrationDiff : FileDiff) : DetectionResult :=
  let migHasAvatarChanges :=
    hasAvatarChanges (removedLines migrationDiff) (addedLines migrationDiff) in
  if negb migHasAvatarChanges then
    {| patternId := PATTERN_ID;
       status := MISSING;
       message := "Avatar component changes not found in migration";
       details := None |}
  else
    let migAddsAvatar :=
      List.filter (fun l => test AVATAR_TAG_RE (content l)) (addedLines migrationDiff) in
    let goldenAddsAvatar :=
      List.filter (fun l => test AVATAR_TAG_RE (content l)) (addedLines goldenDiff) in
    let migHasBorder :=
      existsb (fun l => test AVATAR_BORDER_RE (content l)) migAddsAvatar in
    let migHasSize :=
      existsb (fun l => test AVATAR_SIZE_RE (content l)) migAddsAvatar in
    let goldenHasBorder :=
      existsb (fun l => test AVATAR_BORDER_RE (content l)) goldenAddsAvatar in
    let goldenHasSize :=
      existsb (fun l => test AVATAR_SIZE_RE (content l)) goldenAddsAvatar in
    let correct :=
      {| patternId := PATTERN_ID;
         status := CORRECT;
         message := "Avatar component correctly adopted";
         details := None |} in
    if goldenHasBorder || goldenHasSize then
      let details : list string := [] in
      let details :=
        if goldenHasBorder && negb migHasBorder
        then details ++ ["Missing isBordered prop on Avatar"]
        else details in
      let details :=
        if goldenHasSize && negb migHasSize
        then details ++ ["Missing size prop on Avatar"]
        else details in
      if (0 <? length details)%nat then
        {| patternId := PATTERN_ID;
           status := INCORRECT;
           message := "Avatar partially migrated - missing PF6 props";
           details := Some details |}
      else correct
    else correct.

Definition detect (goldenDiff : FileDiff) (migrationDiff : option FileDiff)
  (goldenAST migrationAST : option Registry.ASTRepresentation) : DetectionResult :=
  let goldenHasAvatarChanges :=
    hasAvatarChanges (removedLines goldenDiff) (addedLines goldenDiff) in
  if negb goldenHasAvatarChanges then
    {| patternId := PATTERN_ID;
       status := NOT_APPLICABLE;
       message := "No Avatar component changes in golden diff";
       details := None |}
  else
    match migrationDiff with
    | None =>
        {| patternId := PATTERN_ID;
           status := FILE_MISSING;
           message := "Migration file is missing";
           details := None |}
    | Some migrationDiff =>
        let astResult :=
          match goldenAST, migrationAST with
          | Some goldenAST, Some migrationAST => detectWithAST goldenAST migrationAST
          | _, _ => None
          end in
        match astResult with
        | Some astResult => astResult
        | None => detectFromDiff goldenDiff migrationDiff
        end
    end.

Definition pattern : Registry.PatternDefinition :=
  {| Registry.id := PATTERN_ID;
     Registry.name := "Avatar Adoption";
     Registry.complexity := Registry.moderate;
     Registry.weight := 2;
     Registry.description :=
       "Detects Avatar component adoption patterns (PF5 to PF6 prop changes)";
     Registry.detect := detect |}.

End AvatarAdoption.

(** ** patterns/select-rewrite.ts *)

Module SelectRewrite.
Import JsString JsRegExp JsLookahead.
Local Open Scope string_scope.
Local Open Scope list_scope.

Definition PATTERN_ID : string := "select-rewrite".

(** [/\bSelect\b(?!Option|List|Group|Variant)/]: the pattern, and what
    must not follow. *)
Definition SELECT_TAG_RE : regex * regex :=
  (Seq WordB (Seq (Str "Select") WordB),
   Alt (Str "Option") (Alt (Str "List") (Alt (Str "Group") (Str "Variant")))).

(** [/\bonToggle\b/], [/\bisOpen\b/], [/\bselections\b/],
    [/\bplaceholderText\b/] and [/\bSelectVariant\b/] *)
Definition PF5_ON_TOGGLE_RE : regex := Seq WordB (Seq (Str "onToggle") WordB).
Definition PF5_IS_OPEN_RE : regex := Seq WordB (Seq (Str "isOpen") WordB).
Definition PF5_SELECTIONS_RE : regex := Seq WordB (Seq (Str "selections") WordB).
Definition PF5_PLACEHOLDER_RE : regex :=
  Seq WordB (Seq (Str "placeholderText") WordB).
Definition PF5_SELECT_VARIANT_RE : regex :=
  Seq WordB (Seq (Str "SelectVariant") WordB).

(** [/\bMenuToggle\b/], [/\bSelectList\b/], [/\btoggle\s*=\s*\{/] and
    [/\bonOpenChange\b/] *)
Definition MENU_TOGGLE_RE : regex := Seq WordB (Seq (Str "MenuToggle") WordB).
Definition SELECT_LIST_RE : regex := Seq WordB (Seq (Str "SelectList") WordB).
Definition TOGGLE_PROP_RE : regex := ToolbarGap.prop_brace_re "toggle".
Definition ON_OPEN_CHANGE_RE : regex := Seq WordB (Seq (Str "onOpenChange") WordB).

Definition hasOldSelectAPI (lines : list DiffLine) : bool :=
  existsb (fun l => test PF5_ON_TOGGLE_RE (content l)
                    || test PF5_IS_OPEN_RE (content l)
                    || test PF5_SELECTIONS_RE (content l)
                    || test PF5_PLACEHOLDER_RE (content l)
                    || test PF5_SELECT_VARIANT_RE (content l)) lines.

Definition hasNewSelectAPI (lines : list DiffLine) : bool :=
  existsb (fun l => test MENU_TOGGLE_RE (content l)
                    || test SELECT_LIST_RE (content l)
                    || test TOGGLE_PROP_RE (content l)
                    || test ON_OPEN_CHANGE_RE (content l)) lines.

Definition hasSelectUsage (lines : list DiffLine) : bool :=
  existsb (fun l => test_unless (fst SELECT_TAG_RE) (snd SELECT_TAG_RE) (content l))
          lines.

(** [p.name === 'onToggle' || p.name === 'isOpen' || p.name === 'selections'
    || p.name === 'placeholderText'], the test that [detectWithAST] writes
    out three times *)
Definition isOldProp (p : Registry.JSXProp) : bool :=
  String.eqb (Registry.prop_name p) "onToggle"
  || String.eqb (Registry.prop_name p) "isOpen"
  || String.eqb (Registry.prop_name p) "selections"
  || String.eqb (Registry.prop_name p) "placeholderText".

(** [[...new Set(xs)]]: the distinct strings, each where it first occurs *)
Definition distinct (xs : list string) : list string :=
  fold_left (fun seen x => if existsb (String.eqb x) seen then seen else seen ++ [x])
            xs [].

Definition detectWithAST (goldenAST migrationAST : Registry.ASTRepresentation)
  : option DetectionResult :=
  let goldenSelects :=
    List.filter (fun c => String.eqb (Registry.tagName c) "Select")
                (Registry.jsxComponents goldenAST) in
  if (length goldenSelects =? 0)%nat then None
  else
    let goldenHasOldProps :=
      existsb (fun c => existsb isOldProp (Registry.props c)) goldenSelects in
    if negb goldenHasOldProps then None
    else
      let migSelects :=
        List.filter (fun c => String.eqb (Registry.tagName c) "Select")
                    (Registry.jsxComponents migrationAST) in
      let migHasMenuToggle :=
        existsb (fun c => String.eqb (Registry.tagName c) "MenuToggle")
                (Registry.jsxComponents migrationAST) in
      let migHasSelectList :=
        existsb (fun c => String.eqb (Registry.tagName c) "SelectList")
                (Registry.jsxComponents migrationAST) in
      let migHasToggleProp :=
        existsb (fun c => existsb (fun p => String.eqb (Registry.prop_name p) "toggle")
                                  (Registry.props c)) migSelects in
      let migStillHasOldProps :=
        existsb (fun c => existsb isOldProp (Registry.props c)) migSelects in
      if migStillHasOldProps then
        let oldProps :=
          map Registry.prop_name
              (List.filter isOldProp (flat_map Registry.props migSelects)) in
        Some {| patternId := PATTERN_ID;
                status := INCORRECT;
                message := "Select partially rewritten - still uses PF5 API props";
                details :=
                  Some [ String.append "PF5 Select props still present: "
                           (join ", " (distinct oldProps)) ] |}
      else if migHasMenuToggle || migHasSelectList || migHasToggleProp then
        Some {| patternId := PATTERN_ID;
                status := CORRECT;
                message := "Select correctly rewritten to PF6 API";
                details := None |}
      else None.

(** The last part of [detect], on the candidate's record only. *)
Definition detectFromDiff (migrationDiff : FileDiff) : DetectionResult :=
  let migRemovesOldAPI := hasOldSelectAPI (removedLines migrationDiff) in
  let migAddsNewAPI := hasNewSelectAPI (addedLines migrationDiff) in
  let migStillAddsOldAPI := hasOldSelectAPI (addedLines migrationDiff) in
  if migStillAddsOldAPI && negb migAddsNewAPI then
    let details : list string := [] in
    let details :=
      if existsb (fun l => test PF5_ON_TOGGLE_RE (content l)) (addedLines migrationDiff)
      then details ++ ["onToggle prop still used (PF5 API)"] else details in
    let details :=
      if existsb (fun l => test PF5_IS_OPEN_RE (content l)) (addedLines migrationDiff)
      then details ++ ["isOpen prop still used (PF5 API)"] else details in
    let details :=
      if existsb (fun l => test PF5_SELECTIONS_RE (content l)) (addedLines migrationDiff)
      then details ++ ["selections prop still used (PF5 API)"] else details in
    let details :=
      if existsb (fun l => test PF5_PLACEHOLDER_RE (content l)) (addedLines migrationDiff)
      then details ++ ["placeholderText prop still used (PF5 API)"] else details in
    {| patternId := PATTERN_ID;
       status := INCORRECT;
       message := "Select partially rewritten - still uses PF5 API";
       details := Some details |}
  else if migRemovesOldAPI && migAddsNewAPI then
    {| patternId := PATTERN_ID;
       status := CORRECT;
       message := "Select correctly rewritten to PF6 API";
       details := None |}
  else if migAddsNewAPI then
    {| patternId := PATTERN_ID;
       status := CORRECT;
       message := "Select rewritten to use PF6 API components";
       details := None |}
  else if migRemovesOldAPI then
    {| patternId := PATTERN_ID;
       status := INCORRECT;
       message := "Select old API removed but PF6 API not properly added";
       details :=
         Some ["Old Select props removed but MenuToggle/SelectList not introduced"] |}
  else
    {| patternId := PATTERN_ID;
       status := MISSING;
       message := "Select rewrite not found in migration";
       details := None |}.

Definition detect (goldenDiff : FileDiff) (migrationDiff : option FileDiff)
  (goldenAST migrationAST : option Registry.ASTRepresentation) : DetectionResult :=
  let goldenHasSelect :=
    hasSelectUsage (removedLines goldenDiff) || hasSelectUsage (addedLines goldenDiff) in
  let goldenRemovesOldAPI := hasOldSelectAPI (removedLines goldenDiff) in
  let goldenAddsNewAPI := hasNewSelectAPI (addedLines goldenDiff) in
  if negb goldenHasSelect || (negb goldenRemovesOldAPI && negb goldenAddsNewAPI) then
    {| patternId := PATTERN_ID;
       status := NOT_APPLICABLE;
       message := "No Select component rewrite in golden diff";
       details := None |}
  else
    match migrationDiff with
    | None =>
        {| patternId := PATTERN_ID;
           status := FILE_MISSING;
           message := "Migration file is missing";
           details := None |}
    | Some migrationDiff =>
        let astResult :=
          match goldenAST, migrationAST with
          | Some goldenAST, Some migrationAST => detectWithAST goldenAST migrationAST
          | _, _ => None
          end in
        match astResult with
        | Some astResult => astResult
        | None => detectFromDiff migrationDiff
        end
    end.

Definition pattern : Registry.PatternDefinition :=
  {| Registry.id := PATTERN_ID;
     Registry.name := "Select Rewrite";
     Registry.complexity := Registry.complex;
     Registry.weight := 3;
     Registry.description :=
       "Detects Select component rewrite from PF5 API (onToggle, isOpen, selections) to PF6 API (MenuToggle, SelectList, toggle prop)";
     Registry.detect := detect |}.

End SelectRewrite.

(** ** patterns/test-selector-rewrite.ts *)

Module TestSelectorRewrite.
Import JsString JsRegExp.
Local Open Scope string_scope.
Local Open Scope list_scope.

Definition PATTERN_ID : string := "test-selector-rewrite".

(** [/\bdata-testid\b/] and [/\baria-label\b/] *)
Definition DATA_TESTID_RE : regex := Seq WordB (Seq (Str "data-testid") WordB).
Definition ARIA_LABEL_RE : regex := Seq WordB (Seq (Str "aria-label") WordB).

(** [/\.pf-v5-c-/] and [/\.pf-v6-c-/] *)
Definition PF5_CSS_SELECTOR_RE : regex := Str ".pf-v5-c-".
Definition PF6_CSS_SELECTOR_RE : regex := Str ".pf-v6-c-".

(** [/pf-v5-c-[\w-]+/] and [/pf-v6-c-[\w-]+/] *)
Definition PF5_CLASS_SELECTOR_RE : regex :=
  Seq (Str "pf-v5-c-") (Plus (Cls CssClassPrefix.word_or_dash)).
Definition PF6_CLASS_SELECTOR_RE : regex :=
  Seq (Str "pf-v6-c-") (Plus (Cls CssClassPrefix.word_or_dash)).

(** [/getByNAME|queryByNAME|findByNAME|getAllByNAME|queryAllByNAME|findAllByNAME/] *)
Definition query_re (name : string) : regex :=
  Alt (Str (String.append "getBy" name))
    (Alt (Str (String.append "queryBy" name))
      (Alt (Str (String.append "findBy" name))
        (Alt (Str (String.append "getAllBy" name))
          (Alt (Str (String.append "queryAllBy" name))
               (Str (String.append "findAllBy" name)))))).

Definition GET_BY_TESTID_RE : regex := query_re "TestId".
Definition GET_BY_ROLE_RE : regex := query_re "Role".
Definition GET_BY_LABEL_RE : regex := query_re "LabelText".

(** [/cy\.get\s*\(/] *)
Definition CY_GET_RE : regex :=
  Seq (Str "cy.get") (Seq (Star (Cls is_whitespace)) (Chr "(")).

Definition hasTestSelectorChanges (removedLines addedLines : list DiffLine) : bool :=
  let removesSelectors :=
    existsb (fun l => test DATA_TESTID_RE (content l)
                      || test ARIA_LABEL_RE (content l)
                      || test PF5_CSS_SELECTOR_RE (content l)
                      || test PF5_CLASS_SELECTOR_RE (content l)) removedLines in
  let addsSelectors :=
    existsb (fun l => test DATA_TESTID_RE (content l)
                      || test ARIA_LABEL_RE (content l)
                      || test PF6_CSS_SELECTOR_RE (content l)
                      || test PF6_CLASS_SELECTOR_RE (content l)) addedLines in
  let removesTestQueries :=
    existsb (fun l => test GET_BY_TESTID_RE (content l)
                      || test GET_BY_ROLE_RE (content l)
                      || test GET_BY_LABEL_RE (content l)
                      || test CY_GET_RE (content l)) removedLines in
  let addsTestQueries :=
    existsb (fun l => test GET_BY_TESTID_RE (content l)
                      || test GET_BY_ROLE_RE (content l)
                      || test GET_BY_LABEL_RE (content l)
                      || test CY_GET_RE (content l)) addedLines in
  let removesPF5Selectors :=
    existsb (fun l => test PF5_CSS_SELECTOR_RE (content l)) removedLines in
  let addsPF6Selectors :=
    existsb (fun l => test PF6_CSS_SELECTOR_RE (content l)) addedLines in
  (removesSelectors && addsSelectors)
  || (removesTestQueries && addsTestQueries)
  || (removesPF5Selectors && addsPF6Selectors).

Definition hasPF5CSSSelectors (lines : list DiffLine) : bool :=
  existsb (fun l => test PF5_CSS_SELECTOR_RE (content l)) lines.

Definition hasPF6CSSSelectors (lines : list DiffLine) : bool :=
  existsb (fun l => test PF6_CSS_SELECTOR_RE (content l)) lines.

Definition hasTestIdChanges (removedLines addedLines : list DiffLine) : bool :=
  let removesTestId :=
    existsb (fun l => test DATA_TESTID_RE (content l)) removedLines in
  let addsTestId := existsb (fun l => test DATA_TESTID_RE (content l)) addedLines in
  removesTestId && addsTestId.

Definition hasAriaLabelChanges (removedLines addedLines : list DiffLine) : bool :=
  let removesAriaLabel :=
    existsb (fun l => test ARIA_LABEL_RE (content l)) removedLines in
  let addsAriaLabel := existsb (fun l => test ARIA_LABEL_RE (content l)) addedLines in
  removesAriaLabel && addsAriaLabel.

Definition hasTestQueryChanges (removedLines addedLines : list DiffLine) : bool :=
  let allQueryREs := [GET_BY_TESTID_RE; GET_BY_ROLE_RE; GET_BY_LABEL_RE; CY_GET_RE] in
  let removesQueries :=
    existsb (fun l => existsb (fun re => test re (content l)) allQueryREs)
            removedLines in
  let addsQueries :=
    existsb (fun l => existsb (fun re => test re (content l)) allQueryREs)
            addedLines in
  removesQueries && addsQueries.

(** The three variables that [detect] updates, and one of its four
    blocks [if (golden) { expectedCount++; if (mig) matchedCount++; else
    missingChanges.push(msg) }]. *)
Record Tally := {
  missingChanges : list string;
  matchedCount : nat;
  expectedCount : nat;
}.

Definition expect (golden mig : bool) (msg : string) (t : Tally) : Tally :=
  if golden then
    if mig then
      {| missingChanges := missingChanges t;
         matchedCount := S (matchedCount t);
         expectedCount := S (expectedCount t) |}
    else
      {| missingChanges := missingChanges t ++ [msg];
         matchedCount := matchedCount t;
         expectedCount := S (expectedCount t) |}
  else t.

Definition detect (goldenDiff : FileDiff) (migrationDiff : option FileDiff)
  : DetectionResult :=
  if negb (hasTestSelectorChanges (removedLines goldenDiff) (addedLines goldenDiff))
  then
    {| patternId := PATTERN_ID;
       status := NOT_APPLICABLE;
       message := "No test selector changes in golden diff";
       details := None |}
  else
    match migrationDiff with
    | None =>
        {| patternId := PATTERN_ID;
           status := FILE_MISSING;
           message := "Migration file is missing";
           details := None |}
    | Some migrationDiff =>
        let goldenHasTestIdChanges :=
          hasTestIdChanges (removedLines goldenDiff) (addedLines goldenDiff) in
        let goldenHasAriaLabelChanges :=
          hasAriaLabelChanges (removedLines goldenDiff) (addedLines goldenDiff) in
        let goldenHasCSSChanges :=
          hasPF5CSSSelectors (removedLines goldenDiff)
          && hasPF6CSSSelectors (addedLines goldenDiff) in
        let goldenHasQueryChanges :=
          hasTestQueryChanges (removedLines goldenDiff) (addedLines goldenDiff) in
        let migHasTestIdChanges :=
          hasTestIdChanges (removedLines migrationDiff) (addedLines migrationDiff) in
        let migHasAriaLabelChanges :=
          hasAriaLabelChanges (removedLines migrationDiff) (addedLines migrationDiff) in
        let migHasCSSChanges :=
          hasPF5CSSSelectors (removedLines migrationDiff)
          && hasPF6CSSSelectors (addedLines migrationDiff) in
        let migHasQueryChanges :=
          hasTestQueryChanges (removedLines migrationDiff) (addedLines migrationDiff) in
        let migStillAddsPF5 := hasPF5CSSSelectors (addedLines migrationDiff) in
        let t := {| missingChanges := []; matchedCount := 0; expectedCount := 0 |} in
        let t := expect goldenHasTestIdChanges migHasTestIdChanges
                   "data-testid updates not found in migration" t in
        let t := expect goldenHasAriaLabelChanges migHasAriaLabelChanges
                   "aria-label updates not found in migration" t in
        let t := expect goldenHasCSSChanges migHasCSSChanges
                   (String.append "PF5 CSS selector updates (pf-v5-c-* -> pf-v6-c-*"
                                  ") not found in migration") t in
        let t := expect goldenHasQueryChanges migHasQueryChanges
                   "Test query function updates not found in migration" t in
        if goldenHasCSSChanges && migStillAddsPF5 && negb migHasCSSChanges then
          {| patternId := PATTERN_ID;
             status := INCORRECT;
             message :=
               "Test selectors partially updated - PF5 CSS selectors still present";
             details :=
               Some ("Migration adds pf-v5-c-* selectors instead of pf-v6-c-*"
                     :: missingChanges t) |}
        else if (matchedCount t =? expectedCount t)%nat then
          {| patternId := PATTERN_ID;
             status := CORRECT;
             message := "Test selectors correctly updated";
             details := None |}
        else if (0 <? matchedCount t)%nat then
          {| patternId := PATTERN_ID;
             status := INCORRECT;
             message := "Test selectors partially updated";
             details := Some (missingChanges t) |}
        else
          {| patternId := PATTERN_ID;
             status := MISSING;
             message := "Test selector updates not found in migration";
             details := None |}
    end.

Definition pattern : Registry.PatternDefinition :=
  {| Registry.id := PATTERN_ID;
     Registry.name := "Test Selector Rewrite";
     Registry.complexity := Registry.complex;
     Registry.weight := 3;
     Registry.description :=
       "Detects test selector updates (data-testid, aria-label, CSS selectors) from PF5 to PF6";
     Registry.detect := fun goldenDiff migrationDiff _ _ =>
                          detect goldenDiff migrationDiff |}.

End TestSelectorRewrite.

(** ** What the driver relies on *)

Module DetectorFamily.
Local Open Scope list_scope.

(** The detectors of the files above, and of theme-dark-removal, with
    their identifiers: those that read the two records only. *)
Definition detectors
  : list (string * (FileDiff -> option FileDiff -> DetectionResult)) :=
  [ (CssClassPrefix.PATTERN_ID, CssClassPrefix.detect);
    (UtilityClassRename.PATTERN_ID, UtilityClassRename.detect);
    (ThemeDarkRemoval.PATTERN_ID, ThemeDarkRemoval.detect);
    (OuiaComponentId.PATTERN_ID, OuiaComponentId.detect);
    (SplitButtonItems.PATTERN_ID, SplitButtonItems.detect);
    (ModalImportPath.PATTERN_ID, ModalImportPath.detect);
    (ToolbarVariant.PATTERN_ID, ToolbarVariant.detect);
    (ChipsToLabels.PATTERN_ID, ChipsToLabels.detect);
    (InnerRefToRef.PATTERN_ID, InnerRefToRef.detect);
    (IsActionCell.PATTERN_ID, IsActionCell.detect);
    (CssLogicalProperties.PATTERN_ID, CssLogicalProperties.detect);
    (PageSectionVariant.PATTERN_ID, PageSectionVariant.detect);
    (ReactTokensIconStatus.PATTERN_ID, ReactTokensIconStatus.detect);
    (AlignRightToEnd.PATTERN_ID, AlignRightToEnd.detect);
    (SpaceItemsRemoval.PATTERN_ID, SpaceItemsRemoval.detect);
    (ToolbarGap.PATTERN_ID, ToolbarGap.detect);
    (PageMasthead.PATTERN_ID, PageMasthead.detect);
    (TextContentConsolidation.PATTERN_ID, TextContentConsolidation.detect);
    (TestSelectorRewrite.PATTERN_ID, TestSelectorRewrite.detect) ].

(** A detector is applicable to a golden record, whatever the candidate. *)
Definition applicable (detect : FileDiff -> option FileDiff -> DetectionResult)
  (goldenDiff : FileDiff) : Prop :=
  status (detect goldenDiff None) <> NOT_APPLICABLE.

(** What the driver and the engine can rely on, for a detector and its
    identifier: the outcome carries the identifier; it is never
    UNNECESSARY; it is NOT_APPLICABLE for one candidate exactly when it is
    for no candidate at all; for a missing file it is NOT_APPLICABLE or
    FILE_MISSING, and it is FILE_MISSING for a missing file only; and the
    golden record measured against itself is never MISSING. *)
Definition contract (id : string)
  (detect : FileDiff -> option FileDiff -> DetectionResult) : Prop :=
  forall (g : FileDiff) (m : option FileDiff),
    patternId (detect g m) = id /\
    status (detect g m) <> UNNECESSARY /\
    (status (detect g m) = NOT_APPLICABLE
     <-> status (detect g None) = NOT_APPLICABLE) /\
    (status (detect g None) = NOT_APPLICABLE
     \/ status (detect g None) = FILE_MISSING) /\
    (status (detect g m) = FILE_MISSING -> m = None) /\
    (status (detect g (Some g)) = NOT_APPLICABLE
     \/ status (detect g (Some g)) = CORRECT
     \/ status (detect g (Some g)) = INCORRECT).

(** The definition at the end of theme-dark-removal.ts. *)
Definition theme_dark_removal : Registry.PatternDefinition :=
  {| Registry.id := ThemeDarkRemoval.PATTERN_ID;
     Registry.name := "Theme Dark Removal";
     Registry.complexity := Registry.trivial;
     Registry.weight := 1;
     Registry.description :=
       String.append "Detects removal of theme="
         (String ThemeDarkRemoval.dq
            (String.append "dark" (String ThemeDarkRemoval.dq " prop")));
     Registry.detect := fun goldenDiff migrationDiff _ _ =>
                          ThemeDarkRemoval.detect goldenDiff migrationDiff |}.

(** The definitions that the files above register. *)
Definition definitions : list Registry.PatternDefinition :=
  [ CssClassPrefix.pattern; UtilityClassRename.pattern; theme_dark_removal;
    OuiaComponentId.pattern; SplitButtonItems.pattern;
    ModalImportPath.pattern; ToolbarVariant.pattern;
    ChipsToLabels.pattern; InnerRefToRef.pattern; IsActionCell.pattern;
    CssLogicalProperties.pattern; PageSectionVariant.pattern;
    ReactTokensIconStatus.pattern; AlignRightToEnd.pattern;
    SpaceItemsRemoval.pattern; ToolbarGap.pattern; PageMasthead.pattern;
    TextContentConsolidation.pattern; TestSelectorRewrite.pattern;
    ButtonIconProp.pattern; EmptyStateRestructure.pattern;
    MastheadReorganization.pattern; AvatarAdoption.pattern;
    SelectRewrite.pattern ].

(** The weight that goes with a complexity. *)
Definition weight_of (c : Registry.Complexity) : Z :=
  match c with
  | Registry.trivial => 1
  | Registry.moderate => 2
  | Registry.complex => 3
  end.

(** The contract, for a definition and with the syntax trees: whether
    the definition applies is read from the golden record alone, and the
    golden record and tree measured against themselves are never
    MISSING. *)
Definition sound (pattern : Registry.PatternDefinition) : Prop :=
  forall (g : FileDiff) (m : option FileDiff)
         (goldenAST migrationAST : option Registry.ASTRepresentation),
    let outcome := Registry.detect pattern g m goldenAST migrationAST in
    patternId outcome = Registry.id pattern /\
    status outcome <> UNNECESSARY /\
    (status outcome = NOT_APPLICABLE
     <-> status (Registry.detect pattern g None None None) = NOT_APPLICABLE) /\
    (m = None ->
     status outcome = NOT_APPLICABLE \/ status outcome = FILE_MISSING) /\
    (status outcome = FILE_MISSING -> m = None) /\
    (m = Some g -> migrationAST = goldenAST -> status outcome <> MISSING).

End DetectorFamily.

(** ** Words for the properties of the regular expressions *)

Module RegExpSpec.
Import JsString JsRegExp.
Local Open Scope string_scope.
Local Open Scope list_scope.

(** The iteration that [run] performs for [Star r], with its fuel. *)
Definition star_iter (r : regex) : nat -> pos -> list pos :=
  fix iter (fuel : nat) (p : pos) : list pos :=
    p :: match fuel with
         | O => []
         | S fuel' =>
             flat_map
               (fun q =>
                  if (String.length (snd q) <? String.length (snd p))%nat
                  then iter fuel' q else [])
               (run r p)
         end.

(** Every code unit of [w] is in the class [f]. *)
Definition all_chars (f : ascii -> bool) (w : string) : bool :=
  forallb f (list_ascii_of_string w).

(** The pattern finds a match in the subject at the position that follows
    [pre]. *)
Definition matches_after (r : regex) (pre post : string) : Prop :=
  matches_at r (DetectorSpec.last_before None pre, post) = true.

(** [s] ends with [suffix]. *)
Definition ends_with (s suffix : string) : Prop :=
  exists pre : string, s = String.append pre suffix.

(** The spellings of the value [dark] that [THEME_DARK_RE] lists: between
    double quotes, between single quotes, and between braces with either
    quote on each side or as [ThemeVariant.dark]. *)
Definition dark_values : list string :=
  let dq := String ThemeDarkRemoval.dq "" in
  let sq := String ThemeDarkRemoval.sq "" in
  [ String.append dq (String.append "dark" dq);
    String.append sq (String.append "dark" sq);
    String.append "{" (String.append sq (String.append "dark" (String.append sq "}")));
    String.append "{" (String.append dq (String.append "dark" (String.append dq "}")));
    String.append "{" (String.append sq (String.append "dark" (String.append dq "}")));
    String.append "{" (String.append dq (String.append "dark" (String.append sq "}")));
    "{ThemeVariant.dark}" ].

(** The four endings of the paths that the matcher excludes. *)
Definition excluded_suffixes : list string :=
  [ ".snap"; "package-lock.json"; "yarn.lock"; "pnpm-lock.yaml" ].

End RegExpSpec.

(** ** Words for the further properties of the noise detector *)

Module NoiseCount.
Import JsString JsRegExp NoiseDetector.
Local Open Scope string_scope.
Local Open Scope list_scope.

(** The instances of one rule. *)
Definition of_type (t : NoiseType) (ns : list (NoiseInstance Q))
  : list (NoiseInstance Q) :=
  List.filter (fun n => bool_decide (type n = t)) ns.

(** How many instances of one rule, as a number. *)
Definition count (t : NoiseType) (ns : list (NoiseInstance Q)) : Q :=
  inject_Z (Z.of_nat (length (of_type t ns))).

(** The added lines, record after record, in which one at least of the
    patterns finds a match. *)
Definition flagged (patterns : list regex) (diffs : list FileDiff)
  : list (FileDiff * DiffLine) :=
  flat_map
    (fun diff =>
       map (pair diff)
           (List.filter
              (fun l => existsb (fun pattern => test pattern (content l)) patterns)
              (addedLines diff)))
    diffs.

End NoiseCount.

(** ** Comparison of JavaScript numbers *)

(** [a >= b] and [a > b] *)
Class JsOrder (num : Type) := {
  ge : num -> num -> bool;
  gt : num -> num -> bool;
}.

#[export] Instance Q_JsOrder : JsOrder Q := {|
  ge a b := Qle_bool b a;
  gt a b := negb (Qle_bool a b);
|}.

(** On binary64 a comparison with NaN is false. *)
#[export] Instance float_JsOrder : JsOrder float := {|
  ge a b := PrimFloat.leb b a;
  gt a b := PrimFloat.ltb b a;
|}.

(** ** reporting/markdown-reporter.ts: the letter grade *)

Module MarkdownReporter.
Section WithNumbers.
Context {num : Type} `{JsNumber num} `{JsOrder num}.
Local Open Scope string_scope.

Definition scoreToGrade (score : num) : string :=
  if ge score (lit 90 1) then "A"
  else if ge score (lit 80 1) then "B"
  else if ge score (lit 70 1) then "C"
  else if ge score (lit 60 1) then "D"
  else "F".

End WithNumbers.
End MarkdownReporter.

(** ** analysis/ast-analyzer.ts: the text rebuilt from a diff *)

Module AstAnalyzer.
Import JsString.
Local Open Scope list_scope.

(** [lines.sort((a, b) => a.lineNumber - b.lineNumber)]: the sort of an
    array is stable, so the result is the one of any stable sort by line
    number; here, insertion from the right. *)
Fixpoint insert_by_line (x : DiffLine) (l : list DiffLine) : list DiffLine :=
  match l with
  | [] => [x]
  | y :: l' =>
      if (lineNumber x <=? lineNumber y)%Z then x :: l
      else y :: insert_by_line x l'
  end.

Definition sort_by_line (l : list DiffLine) : list DiffLine :=
  fold_right insert_by_line [] l.

(** The sort is in place: the function returns the text and leaves the
    record with its added lines sorted.  The pair is (text, record
    afterwards). *)
Definition reconstructContentFromDiff (diff : FileDiff) : string * FileDiff :=
  let sorted := sort_by_line (addedLines diff) in
  (join DiffParser.nl (map content sorted),
   {| filePath := filePath diff;
      oldPath := oldPath diff;
      addedLines := sorted;
      removedLines := removedLines diff;
      hunks := hunks diff;
      isBinary := isBinary diff;
      isRenamed := isRenamed diff |}).

Section WithParser.
(** [analyzeAST], the parse of a source text by the TypeScript compiler,
    is taken as given. *)
Variable analyzeAST : string -> string -> Registry.ASTRepresentation.

Definition analyzeFileDiff (diff : FileDiff)
  : Registry.ASTRepresentation * FileDiff :=
  let '(content, diff) := reconstructContentFromDiff diff in
  (analyzeAST content (filePath diff), diff).

End WithParser.

(** The entries of one line number. *)
Definition at_line (n : Z) (l : list DiffLine) : list DiffLine :=
  List.filter (fun x => (lineNumber x =? n)%Z) l.

(** The line numbers never go down. *)
Definition in_line_order (l : list DiffLine) : Prop :=
  Sorted (fun a b => (lineNumber a <= lineNumber b)%Z) l.

End AstAnalyzer.

(** ** Words for the letter grades *)

Module GradeSpec.
Local Open Scope string_scope.

(** The place of a grade, from F (0) to A (4). *)
Definition rank (grade : string) : nat :=
  if String.eqb grade "A" then 4
  else if String.eqb grade "B" then 3
  else if String.eqb grade "C" then 2
  else if String.eqb grade "D" then 1
  else 0.

End GradeSpec.

(** ** cli.ts: from the two lists of records to the report

    The action of the command reads the two diffs, then works on them in
    memory; this is the part modelled here (steps 2 to 6, and the grade it
    prints).  The records are objects: [matchFiles] hands out references
    to them, and [analyzeFileDiff] sorts the added lines of the record it
    is given in place, so what the noise detector reads later depends on
    which objects the loops have gone through.  The two arrays are kept as
    a store, and a record is referred to by its index in its array. *)

Module Cli.
Import JsString FileMatcher.
Local Open Scope string_scope.
Local Open Scope list_scope.

#[export] Instance FileDiff_inhabited : Inhabited FileDiff :=
  populate {| filePath := ""; oldPath := None; addedLines := [];
              removedLines := []; hunks := []; isBinary := false;
              isRenamed := false |}.

(** The objects of an array, each with its index. *)
Definition objects (l : list FileDiff) : list (nat * FileDiff) := imap pair l.

(** The result of [matchFiles], as references. *)
Record MatchRefs := {
  matchedRefs : list (nat * nat);
  missedRefs : list nat;
  extraRefs : list nat;
}.

(** [matchFiles], keeping track of which object each record is: the map
    holds references, *)
Definition buildMigrationRefs (migrationFiltered : list (nat * FileDiff))
  : gmap string nat :=
  fold_left (fun m o => <[normalizePath (filePath (snd o)) := fst o]> m)
            migrationFiltered ∅.

(** the loop over the golden records collects references, *)
Definition match_ref_step (migrationMap : gmap string nat)
  (st : list (nat * nat) * list nat * gset string) (o : nat * FileDiff)
  : list (nat * nat) * list nat * gset string :=
  let '(matched, missedFiles, matchedMigrationPaths) := st in
  let normalizedPath := normalizePath (filePath (snd o)) in
  match migrationMap !! normalizedPath with
  | Some j =>
      (matched ++ [(fst o, j)], missedFiles,
       matchedMigrationPaths ∪ {[ normalizedPath ]})
  | None => (matched, missedFiles ++ [fst o], matchedMigrationPaths)
  end.

(** and so does the result. *)
Definition matchFileRefs (goldenDiffs migrationDiffs : list FileDiff) : MatchRefs :=
  let goldenFiltered :=
    List.filter (fun o => negb (isExcluded (filePath (snd o))))
                (objects goldenDiffs) in
  let migrationFiltered :=
    List.filter (fun o => negb (isExcluded (filePath (snd o))))
                (objects migrationDiffs) in
  let migrationMap := buildMigrationRefs migrationFiltered in
  let '(matched, missedFiles, matchedMigrationPaths) :=
    fold_left (match_ref_step migrationMap) goldenFiltered ([], [], ∅) in
  let extraFiles :=
    List.filter
      (fun o => negb (bool_decide (normalizePath (filePath (snd o))
                                   ∈ matchedMigrationPaths)))
      migrationFiltered in
  {| matchedRefs := matched; missedRefs := missedFiles;
     extraRefs := map fst extraFiles |}.

(** The records behind the references, in the arrays as they are. *)
Definition deref (goldenObjs migrationObjs : list FileDiff) (mr : MatchRefs)
  : MatchResult :=
  {| matched := map (fun ij => {| golden := goldenObjs !!! fst ij;
                                  migration := migrationObjs !!! snd ij |})
                    (matchedRefs mr);
     missedFiles := map (fun i => goldenObjs !!! i) (missedRefs mr);
     extraFiles := map (fun j => migrationObjs !!! j) (extraRefs mr) |}.

Section WithNumbers.
Context {num : Type} `{JsNumber num} `{JsOrder num}.

Record FileResult := {
  fr_filePath : string;
  fr_detections : list DetectionResult;
  fr_noiseInstances : list (NoiseInstance num);
}.

(** What the action builds: the report (without its metadata), the grade
    it prints, and the two arrays as it leaves them. *)
Record Evaluation := {
  summary : Engine.ScoreBreakdown num;
  fileResults : list FileResult;
  patternBreakdown : list DetectionResult;
  noiseInstances : list (NoiseInstance num);
  grade : string;
  goldenAfter : list FileDiff;
  migrationAfter : list FileDiff;
}.

Section WithInputs.
Variable analyzeAST : string -> string -> Registry.ASTRepresentation.
(** The contents of the files, in local directory mode. *)
Variable goldenFileContents migrationFileContents : option (gmap string string).

(** [contents?.has(path) ? analyzeAST(contents.get(path)!, path)
                         : analyzeFileDiff(diff)] *)
Definition astFor (contents : option (gmap string string)) (diff : FileDiff)
  : Registry.ASTRepresentation * FileDiff :=
  match contents ≫= (fun c => c !! filePath diff) with
  | Some text => (analyzeAST text (filePath diff), diff)
  | None => AstAnalyzer.analyzeFileDiff analyzeAST diff
  end.

(** The accumulators of the two loops, with the store. *)
Record Loop := {
  goldenObjs : list FileDiff;
  migrationObjs : list FileDiff;
  allWeightedResults : list (Engine.WeightedDetectionResult num);
  allDetectionResults : list DetectionResult;
  loopFileResults : list FileResult;
}.

(** What one pass over the detectors pushes to [allWeightedResults]. *)
Definition weighted (patterns : list Registry.PatternDefinition)
  (run : Registry.PatternDefinition -> DetectionResult)
  : list (Engine.WeightedDetectionResult num) :=
  map (fun pattern =>
         {| Engine.result := run pattern;
            Engine.weight := lit (Registry.weight pattern) 1 |})
      patterns.

(** The body of the loop over the matched pairs. *)
Definition matched_step (patterns : list Registry.PatternDefinition)
  (st : Loop) (pair : nat * nat) : Loop :=
  let '(goldenAST, golden) := astFor goldenFileContents (goldenObjs st !!! fst pair) in
  let '(migrationAST, migration) :=
    astFor migrationFileContents (migrationObjs st !!! snd pair) in
  let run pattern :=
    Registry.detect pattern golden (Some migration)
                    (Some goldenAST) (Some migrationAST) in
  let fileDetections := map run patterns in
  {| goldenObjs := <[fst pair := golden]> (goldenObjs st);
     migrationObjs := <[snd pair := migration]> (migrationObjs st);
     allWeightedResults := allWeightedResults st ++ weighted patterns run;
     allDetectionResults := allDetectionResults st ++ fileDetections;
     loopFileResults :=
       loopFileResults st
       ++ [ {| fr_filePath := filePath golden;
               fr_detections := fileDetections;
               fr_noiseInstances := [] |} ] |}.

(** The body of the loop over the missed files. *)
Definition missed_step (patterns : list Registry.PatternDefinition)
  (st : Loop) (i : nat) : Loop :=
  let '(goldenAST, goldenDiff) :=
    AstAnalyzer.analyzeFileDiff analyzeAST (goldenObjs st !!! i) in
  let run pattern :=
    Registry.detect pattern goldenDiff None (Some goldenAST) None in
  let fileDetections := map run patterns in
  {| goldenObjs := <[i := goldenDiff]> (goldenObjs st);
     migrationObjs := migrationObjs st;
     allWeightedResults := allWeightedResults st ++ weighted patterns run;
     allDetectionResults := allDetectionResults st ++ fileDetections;
     loopFileResults := loopFileResults st |}.

(** [const fr = fileResults.find(f => f.filePath === noise.file);
     if (fr) fr.noiseInstances.push(noise);] *)
Fixpoint assign_noise (noise : NoiseInstance num) (fileResults : list FileResult)
  : list FileResult :=
  match fileResults with
  | [] => []
  | fr :: rest =>
      if String.eqb (fr_filePath fr) (file noise) then
        {| fr_filePath := fr_filePath fr;
           fr_detections := fr_detections fr;
           fr_noiseInstances := fr_noiseInstances fr ++ [noise] |} :: rest
      else fr :: assign_noise noise rest
  end.

(** The grade printed on the console. *)
Definition printed_grade (overallScore : num) : string :=
  if ge overallScore (lit 90 1) then "A"
  else if ge overallScore (lit 80 1) then "B"
  else if ge overallScore (lit 70 1) then "C"
  else if ge overallScore (lit 60 1) then "D"
  else "F".

Definition evaluate (registry : Registry.Heap)
  (goldenDiffs migrationDiffs : list FileDiff) : Evaluation :=
  (* Step 2: match files *)
  let matchResult := matchFileRefs goldenDiffs migrationDiffs in
  (* Step 3: run pattern detection *)
  let '(r, registry) := Registry.getPatterns registry in
  let patterns := Registry.read r registry in
  let st :=
    {| goldenObjs := goldenDiffs; migrationObjs := migrationDiffs;
       allWeightedResults := []; allDetectionResults := [];
       loopFileResults := [] |} in
  let st := fold_left (matched_step patterns) (matchedRefs matchResult) st in
  let st := fold_left (missed_step patterns) (missedRefs matchResult) st in
  (* Step 4: detect noise *)
  let matchResultNow := deref (goldenObjs st) (migrationObjs st) matchResult in
  let noiseInstances :=
    NoiseDetector.detectNoise
      {| NoiseDetector.matchResult := matchResultNow;
         NoiseDetector.migrationDiffs := migrationObjs st;
         NoiseDetector.detectionResults := allDetectionResults st |} in
  let fileResults :=
    fold_left (fun frs noise => assign_noise noise frs) noiseInstances
              (loopFileResults st) in
  (* Step 5: compute score *)
  let scoreBreakdown :=
    Engine.computeScore
      {| Engine.matchResult := matchResultNow;
         Engine.weightedResults := allWeightedResults st;
         Engine.noiseInstances := noiseInstances |} in
  {| summary := scoreBreakdown;
     fileResults := fileResults;
     patternBreakdown := allDetectionResults st;
     noiseInstances := noiseInstances;
     grade := printed_grade (Engine.overallScore scoreBreakdown);
     goldenAfter := goldenObjs st;
     migrationAfter := migrationObjs st |}.

End WithInputs.
End WithNumbers.

Arguments FileResult : clear implicits.
Arguments Evaluation : clear implicits.
Arguments Loop : clear implicits.

(** A record, or the record with its added lines sorted. *)
Definition touched (before after : FileDiff) : Prop :=
  after = before \/ after = snd (AstAnalyzer.reconstructContentFromDiff before).

(** A record as the loop over the matched pairs can have left it, for
    the contents [contents]: as it was, or, when the contents do not hold
    its path, with its added lines sorted. *)
Definition kept_by (contents : option (gmap string string))
  (before after : FileDiff) : Prop :=
  after = before \/
  (contents ≫= (fun c => c !! filePath before) = None /\
   after = snd (AstAnalyzer.reconstructContentFromDiff before)).

(** The answers of the detectors for a matched pair and for a missed
    file, from the records as they were read. *)
Definition outcomes_pair
  (analyzeAST : string -> string -> Registry.ASTRepresentation)
  (goldenFileContents migrationFileContents : option (gmap string string))
  (patterns : list Registry.PatternDefinition) (pair : MatchedPair)
  : list DetectionResult :=
  let '(goldenAST, goldenDiff) :=
    astFor analyzeAST goldenFileContents (golden pair) in
  let '(migrationAST, migrationDiff) :=
    astFor analyzeAST migrationFileContents (migration pair) in
  map (fun pattern =>
         Registry.detect pattern goldenDiff (Some migrationDiff)
                         (Some goldenAST) (Some migrationAST))
      patterns.

Definition outcomes_missed
  (analyzeAST : string -> string -> Registry.ASTRepresentation)
  (patterns : list Registry.PatternDefinition) (missed : FileDiff)
  : list DetectionResult :=
  let '(goldenAST, goldenDiff) := AstAnalyzer.analyzeFileDiff analyzeAST missed in
  map (fun pattern =>
         Registry.detect pattern goldenDiff None (Some goldenAST) None)
      patterns.

(** What the missed-file loop needs of a definition: for a missing file
    its detector answers NOT_APPLICABLE or FILE_MISSING. *)
Definition answers_missing (pattern : Registry.PatternDefinition) : Prop :=
  forall (goldenDiff : FileDiff) (goldenAST : option Registry.ASTRepresentation),
    status (Registry.detect pattern goldenDiff None goldenAST None) = NOT_APPLICABLE
    \/ status (Registry.detect pattern goldenDiff None goldenAST None) = FILE_MISSING.

(** What the two loops have collected after the matched pairs [pairs] and
    the missed files [missed]. *)
Definition results_done
  (analyzeAST : string -> string -> Registry.ASTRepresentation)
  (goldenFileContents migrationFileContents : option (gmap string string))
  (patterns : list Registry.PatternDefinition)
  (pairs : list MatchedPair) (missed : list FileDiff) (st : Loop Q) : Prop :=
  let outcomes :=
    outcomes_pair analyzeAST goldenFileContents migrationFileContents patterns in
  loopFileResults st
  = map (fun pair => {| fr_filePath := filePath (golden pair);
                        fr_detections := outcomes pair;
                        fr_noiseInstances := [] |}) pairs /\
  allDetectionResults st
  = concat (map outcomes pairs)
    ++ concat (map (outcomes_missed analyzeAST patterns) missed) /\
  map Engine.result (allWeightedResults st) = allDetectionResults st /\
  Forall (fun w => exists pattern,
                     In pattern patterns /\
                     Engine.weight w = lit (Registry.weight pattern) 1)
         (allWeightedResults st) /\
  map Engine.weight (allWeightedResults st)
  = concat (replicate (length pairs + length missed)
                      (map (fun pattern => lit (Registry.weight pattern) 1)
                           patterns)).

(** The noise that ends up in the file result of path [path], when the
    file results before it have the paths [seen]: the search stops at the
    first file result of the path. *)
Definition noise_for (noise : list (NoiseInstance Q)) (seen : list string)
  (path : string) : list (NoiseInstance Q) :=
  if existsb (String.eqb path) seen then []
  else List.filter (fun n => String.eqb path (file n)) noise.

Fixpoint attach (noise : list (NoiseInstance Q)) (seen : list string)
  (fileResults : list (FileResult Q)) : list (FileResult Q) :=
  match fileResults with
  | [] => []
  | fr :: rest =>
      {| fr_filePath := fr_filePath fr;
         fr_detections := fr_detections fr;
         fr_noiseInstances :=
           fr_noiseInstances fr ++ noise_for noise seen (fr_filePath fr) |}
      :: attach noise (fr_filePath fr :: seen) rest
  end.

End Cli.

(** A run with one detector: the golden diff renames a class prefix in one
    file; one candidate does the same, the other is empty. *)
Module CliSamples.
Import Samples.
Local Open Scope string_scope.
Local Open Scope list_scope.

(** A parser that finds nothing. *)
Definition no_ast (text path : string) : Registry.ASTRepresentation :=
  {| Registry.imports := []; Registry.jsxComponents := [];
     Registry.ast_filePath := path; Registry.parseErrors := [] |}.

Definition registry_css : Registry.Heap :=
  Registry.registerPattern CssClassPrefix.pattern Registry.initial.

Definition golden_button : list FileDiff :=
  [ changed_file "src/Button.tsx"
      [ diff_line 3 "className=pf-v6-c-button" ]
      [ diff_line 3 "className=pf-v5-c-button" ] ].

Definition candidate_button : list FileDiff :=
  [ changed_file "b/src/Button.tsx"
      [ diff_line 3 "className=pf-v6-c-button" ]
      [ diff_line 3 "className=pf-v5-c-button" ];
    file_of "notes.txt" ].

End CliSamples.

(** ** input/pr-fetcher.ts: the check of the URL *)

Module PrFetcher.
Import JsString JsRegExp.
Local Open Scope string_scope.
Local Open Scope list_scope.

(** The class [[\w.-]] *)
Definition name_char (c : ascii) : bool :=
  is_word c || Ascii.eqb c "." || Ascii.eqb c "-".

(** [/^https:\/\/github\.com\/[\w.-]+\/[\w.-]+\/pull\/\d+\/?$/], after
    its [^]. *)
Definition PR_URL_RE : regex :=
  Seq (Str "https://github.com/")
   (Seq (Plus (Cls name_char))
    (Seq (Str "/")
     (Seq (Plus (Cls name_char))
      (Seq (Str "/pull/")
       (Seq (Plus (Cls is_digit))
        (Seq (Alt (Str "/") Eps) Eol)))))).

(** The pattern begins with [^] and has no flag: a match can only start
    at the head of the subject. *)
Definition isValidPRUrl (url : string) : bool :=
  matches_at PR_URL_RE (None, url).

(** The address of a pull request, from its parts. *)
Definition pr_url (owner repo number slash : string) : string :=
  String.append "https://github.com/"
   (String.append owner
    (String.append "/"
     (String.append repo
      (String.append "/pull/"
       (String.append number slash))))).

End PrFetcher.

(* ===================================================================== *)
(** * Part II: properties                                                *)
(* ===================================================================== *)

(** ** The scoring engine on exact numbers *)

Section EngineFacts.
Import Engine.
Local Open Scope Q_scope.

Lemma credit_lookup (s : DetectionStatus) :
  default (lit 0 1) (CREDIT s) == SpecWords.credit s.
Proof. destruct s; reflexivity. Qed.

(** One iteration: a graded outcome adds its weighted credit and its
    weight, a NOT_APPLICABLE one adds nothing. *)
Lemma patternScore_step_spec (acc : Q * Q) (r : WeightedDetectionResult Q) :
  fst (patternScore_step acc r)
  == fst acc + (if SpecWords.graded r
                then weight r * SpecWords.credit (status (result r)) else 0) /\
  snd (patternScore_step acc r)
  == snd acc + (if SpecWords.graded r then weight r else 0).
Proof.
  destruct acc as [c e]. unfold patternScore_step, SpecWords.graded.
  destruct (decide (status (result r) = NOT_APPLICABLE)) as [E|E].
  - rewrite (bool_decide_eq_true_2 _ E). simpl. split; ring.
  - rewrite (bool_decide_eq_false_2 _ E). simpl. split.
    + pose proof (credit_lookup (status (result r))) as C. simpl in C.
      rewrite C. reflexivity.
    + ring.
Qed.

(** The loop adds, to each accumulator, the sum over the graded
    outcomes. *)
Lemma patternScore_loop (l : list (WeightedDetectionResult Q)) :
  forall acc : Q * Q,
    fst (fold_left patternScore_step l acc) == fst acc + SpecWords.sum_credit l /\
    snd (fold_left patternScore_step l acc) == snd acc + SpecWords.sum_weight l.
Proof.
  induction l as [|r l IH]; intros acc.
  - unfold SpecWords.sum_credit, SpecWords.sum_weight; simpl. split; ring.
  - change (fold_left patternScore_step (r :: l) acc)
      with (fold_left patternScore_step l (patternScore_step acc r)).
    destruct (IH (patternScore_step acc r)) as [IH1 IH2].
    destruct (patternScore_step_spec acc r) as [S1 S2].
    split.
    + eapply Qeq_trans; [exact IH1|].
      eapply Qeq_trans; [apply Qplus_inj_r; exact S1|].
      unfold SpecWords.sum_credit. simpl.
      destruct (SpecWords.graded r); simpl; ring.
    + eapply Qeq_trans; [exact IH2|].
      eapply Qeq_trans; [apply Qplus_inj_r; exact S2|].
      unfold SpecWords.sum_weight. simpl.
      destruct (SpecWords.graded r); simpl; ring.
Qed.

Lemma Qeq_bool_proper (a b c d : Q) :
  a == b -> c == d -> Qeq_bool a c = Qeq_bool b d.
Proof.
  intros E1 E2. destruct (Qeq_bool b d) eqn:E.
  - apply Qeq_bool_iff. apply Qeq_bool_iff in E. now rewrite E1, E2.
  - destruct (Qeq_bool a c) eqn:E'; [|reflexivity].
    apply Qeq_bool_iff in E'. rewrite E1, E2 in E'.
    apply Qeq_bool_iff in E'. congruence.
Qed.

Lemma computePatternScore_spec (l : list (WeightedDetectionResult Q)) :
  computePatternScore l == SpecWords.patternScore l.
Proof.
  unfold computePatternScore, SpecWords.patternScore.
  destruct (patternScore_loop l (lit 0 1, lit 0 1)) as [Hc He].
  destruct (fold_left patternScore_step l (lit 0 1, lit 0 1)) as [c e].
  simpl in *.
  assert (Hc' : c == SpecWords.sum_credit l) by (rewrite Hc; ring).
  assert (He' : e == SpecWords.sum_weight l) by (rewrite He; ring).
  rewrite (Qeq_bool_proper e (SpecWords.sum_weight l) (0 # 1) 0 He' ltac:(reflexivity)).
  destruct (Qeq_bool (SpecWords.sum_weight l) 0); [reflexivity|].
  now rewrite Hc', He'.
Qed.

Lemma noisePenalty_loop (l : list (NoiseInstance Q)) :
  forall s : Q,
    fold_left (fun sum n => (sum + penalty n)%js) l s
    == s + SpecWords.sum_penalties l.
Proof.
  induction l as [|n l IH]; intros s; simpl.
  - ring.
  - rewrite IH. ring.
Qed.

Lemma computeNoisePenalty_spec (l : list (NoiseInstance Q)) :
  computeNoisePenalty l == SpecWords.noisePenalty l.
Proof.
  unfold computeNoisePenalty, SpecWords.noisePenalty. simpl.
  rewrite noisePenalty_loop.
  apply Q.min_compat; [reflexivity | ring].
Qed.

Lemma computeFileCoverage_spec (mr : MatchResult) :
  computeFileCoverage mr
  == SpecWords.fileCoverage (length (matched mr)) (length (missedFiles mr)).
Proof.
  unfold computeFileCoverage, SpecWords.fileCoverage.
  destruct (length (matched mr) + length (missedFiles mr) =? 0)%nat;
    reflexivity.
Qed.


Lemma round_proper (a b : Q) : a == b -> round a == round b.
Proof.
  intros E.
  change (inject_Z (Qfloor (a * (100 # 1) + (1 # 2))) / (100 # 1)
          == inject_Z (Qfloor (b * (100 # 1) + (1 # 2))) / (100 # 1)).
  now rewrite E.
Qed.

Lemma rounded_2dp_proper (r v v' : Q) :
  v == v' -> SpecWords.rounded_2dp r v -> SpecWords.rounded_2dp r v'.
Proof.
  intros E (Hk & H1 & H2). split; [exact Hk|]. rewrite <- E. now split.
Qed.

Lemma noisePenalty_le_1 (l : list (NoiseInstance Q)) :
  SpecWords.noisePenalty l <= 1.
Proof. apply Q.le_min_l. Qed.

End EngineFacts.

Section EngineClaims.
Import Engine.
Local Open Scope Q_scope.

Lemma sum_credit_app (l1 l2 : list (WeightedDetectionResult Q)) :
  SpecWords.sum_credit (l1 ++ l2)
  == SpecWords.sum_credit l1 + SpecWords.sum_credit l2.
Proof.
  unfold SpecWords.sum_credit. induction l1 as [|r l1 IH]; simpl.
  - ring.
  - destruct (SpecWords.graded r); simpl; rewrite ?IH; ring.
Qed.

Lemma sum_weight_app (l1 l2 : list (WeightedDetectionResult Q)) :
  SpecWords.sum_weight (l1 ++ l2)
  == SpecWords.sum_weight l1 + SpecWords.sum_weight l2.
Proof.
  unfold SpecWords.sum_weight. induction l1 as [|r l1 IH]; simpl.
  - ring.
  - destruct (SpecWords.graded r); simpl; rewrite ?IH; ring.
Qed.

Lemma credit_nonneg (s : DetectionStatus) : 0 <= SpecWords.credit s.
Proof. destruct s; simpl; unfold Qle; simpl; lia. Qed.

Lemma sum_credit_nonneg (l : list (WeightedDetectionResult Q)) :
  Forall (fun r => 0 < weight r) l -> 0 <= SpecWords.sum_credit l.
Proof.
  unfold SpecWords.sum_credit. induction 1 as [|r l Hr _ IH]; simpl.
  - lra.
  - destruct (SpecWords.graded r); simpl; [|exact IH].
    pose proof (credit_nonneg (status (result r))). nra.
Qed.

Lemma sum_weight_nonneg (l : list (WeightedDetectionResult Q)) :
  Forall (fun r => 0 < weight r) l -> 0 <= SpecWords.sum_weight l.
Proof.
  unfold SpecWords.sum_weight. induction 1 as [|r l Hr _ IH]; simpl.
  - lra.
  - destruct (SpecWords.graded r); simpl; lra.
Qed.

Lemma sum_positive (l : list (WeightedDetectionResult Q)) :
  Forall (fun r => 0 < weight r) l ->
  Exists SpecWords.positive_credit l ->
  0 < SpecWords.sum_credit l /\ 0 < SpecWords.sum_weight l.
Proof.
  intros Hw Hex. induction Hex as [r l Hr | r l _ IH].
  - inversion Hw as [|? ? Hwr Hwl]; subst.
    pose proof (sum_credit_nonneg l Hwl) as Hc.
    pose proof (sum_weight_nonneg l Hwl) as He.
    unfold SpecWords.sum_credit, SpecWords.sum_weight in *. simpl.
    assert (G : SpecWords.graded r = true).
    { unfold SpecWords.graded. destruct Hr as [E|E]; rewrite E; reflexivity. }
    rewrite G. simpl.
    assert (0 < SpecWords.credit (status (result r))).
    { destruct Hr as [E|E]; rewrite E; reflexivity. }
    split; nra.
  - inversion Hw as [|? ? Hwr Hwl]; subst.
    destruct (IH Hwl) as [Hc He].
    unfold SpecWords.sum_credit, SpecWords.sum_weight in *. simpl.
    destruct (SpecWords.graded r); simpl; [|now split].
    pose proof (credit_nonneg (status (result r))). split; nra.
Qed.

Lemma patternScore_nonzero (l : list (WeightedDetectionResult Q)) :
  ~ SpecWords.sum_weight l == 0 ->
  SpecWords.patternScore l == SpecWords.sum_credit l / SpecWords.sum_weight l.
Proof.
  intros Hn. unfold SpecWords.patternScore.
  destruct (Qeq_bool (SpecWords.sum_weight l) 0) eqn:E; [|reflexivity].
  apply Qeq_bool_iff in E. contradiction.
Qed.



Lemma fileCoverage_bounds (m k : nat) :
  0 <= SpecWords.fileCoverage m k /\ SpecWords.fileCoverage m k <= 1.
Proof.
  unfold SpecWords.fileCoverage.
  destruct (m + k =? 0)%nat eqn:E; [split; lra|].
  apply Nat.eqb_neq in E.
  assert (Hd : 0 < inject_Z (Z.of_nat (m + k))).
  { change 0 with (inject_Z 0). rewrite <- Zlt_Qlt. lia. }
  split.
  - apply Qle_shift_div_l; [exact Hd|]. rewrite Qmult_0_l.
    change 0 with (inject_Z 0). rewrite <- Zle_Qle. lia.
  - apply Qle_shift_div_r; [exact Hd|]. rewrite Qmult_1_l.
    rewrite <- Zle_Qle. lia.
Qed.



End EngineClaims.

Section PatternScoreClaims.
Import Engine.
Local Open Scope Q_scope.

(** C4.  For every list of weighted outcomes the pattern score is the sum,
    over the outcomes that are not NOT_APPLICABLE, of weight times credit,
    divided by the sum of the weights of the same outcomes, and 1 when that
    sum of weights is zero; the credit read from the table is 1 for
    CORRECT, 1/4 for INCORRECT and 0 for MISSING and FILE_MISSING.  One
    CORRECT outcome of weight 3 together with one MISSING outcome of
    weight 1 scores 3/4. *)
Theorem C4_pattern_score :
  (forall results : list (WeightedDetectionResult Q),
     computePatternScore results == SpecWords.patternScore results) /\
  (default (lit 0 1) (CREDIT CORRECT) == 1 /\
   default (lit 0 1) (CREDIT INCORRECT) == 25 # 100 /\
   default (lit 0 1) (CREDIT MISSING) == 0 /\
   default (lit 0 1) (CREDIT FILE_MISSING) == 0) /\
  (forall results : list (WeightedDetectionResult Q),
     SpecWords.sum_weight results == 0 -> computePatternScore results == 1) /\
  (forall (id1 id2 msg1 msg2 : string) (det1 det2 : option (list string)),
     computePatternScore
       [ {| result := {| patternId := id1; status := CORRECT;
                         message := msg1; details := det1 |};
            weight := 3 |};
         {| result := {| patternId := id2; status := MISSING;
                         message := msg2; details := det2 |};
            weight := 1 |} ]
     == 3 # 4).
Proof.
  split; [exact computePatternScore_spec|].
  split; [repeat split|].
  split.
  - intros results Hz. rewrite computePatternScore_spec.
    unfold SpecWords.patternScore.
    apply Qeq_bool_iff in Hz. rewrite Hz. reflexivity.
  - intros. reflexivity.
Qed.

Lemma C4_pattern_score_witness :
  let results : list (WeightedDetectionResult Q) :=
    [ {| result := {| patternId := "p"; status := NOT_APPLICABLE;
                      message := ""; details := None |};
         weight := 2 |} ] in
  SpecWords.sum_weight results == 0 /\ computePatternScore results == 1.
Proof.
  split.
  - reflexivity.
  - apply (proj1 (proj2 (proj2 C4_pattern_score))). reflexivity.
Defined.

(** C10.  An UNNECESSARY outcome is graded, unlike a NOT_APPLICABLE one:
    the loop adds its whole weight to the expected total and weight times
    0 to the credit.  Hence, among outcomes of positive weight of which one
    at least is CORRECT or INCORRECT, inserting an UNNECESSARY outcome of
    positive weight anywhere strictly lowers the pattern score. *)
Theorem C10_unnecessary_is_graded
  (l1 l2 : list (WeightedDetectionResult Q)) (u : WeightedDetectionResult Q) :
  status (result u) = UNNECESSARY ->
  0 < weight u ->
  Forall (fun r => 0 < weight r) (l1 ++ l2) ->
  Exists SpecWords.positive_credit (l1 ++ l2) ->
  (forall c e : Q,
     patternScore_step (c, e) u
     = ((c + weight u * lit 0 1)%js, (e + weight u * lit 1 1)%js)) /\
  (forall (acc : Q * Q) (r : WeightedDetectionResult Q),
     status (result r) = NOT_APPLICABLE -> patternScore_step acc r = acc) /\
  SpecWords.sum_weight (l1 ++ u :: l2)
  == SpecWords.sum_weight (l1 ++ l2) + weight u /\
  SpecWords.sum_credit (l1 ++ u :: l2) == SpecWords.sum_credit (l1 ++ l2) /\
  computePatternScore (l1 ++ u :: l2) < computePatternScore (l1 ++ l2).
Proof.
  intros Hu Hw Hall Hex.
  assert (Gu : SpecWords.graded u = true).
  { unfold SpecWords.graded. rewrite Hu. reflexivity. }
  assert (HW : SpecWords.sum_weight (l1 ++ u :: l2)
               == SpecWords.sum_weight (l1 ++ l2) + weight u).
  { rewrite !sum_weight_app. unfold SpecWords.sum_weight at 2. simpl.
    rewrite Gu. simpl. fold (SpecWords.sum_weight l2). ring. }
  assert (HC : SpecWords.sum_credit (l1 ++ u :: l2)
               == SpecWords.sum_credit (l1 ++ l2)).
  { rewrite !sum_credit_app. unfold SpecWords.sum_credit at 2. simpl.
    rewrite Gu. simpl. fold (SpecWords.sum_credit l2). rewrite Hu. simpl. ring. }
  split; [|split; [|split; [exact HW|split; [exact HC|]]]].
  - intros c e. unfold patternScore_step. rewrite Hu. reflexivity.
  - intros [c e] r Hr. unfold patternScore_step. rewrite Hr. reflexivity.
  - destruct (sum_positive (l1 ++ l2) Hall Hex) as [Hc He].
    rewrite !computePatternScore_spec.
    rewrite (patternScore_nonzero (l1 ++ l2)) by lra.
    rewrite (patternScore_nonzero (l1 ++ u :: l2)) by (rewrite HW; lra).
    rewrite HW, HC.
    revert Hc He. generalize (SpecWords.sum_credit (l1 ++ l2)).
    generalize (SpecWords.sum_weight (l1 ++ l2)). intros E C Hc He.
    apply Qlt_shift_div_r; [lra|].
    assert (X : C / E * (E + weight u) == C + C * weight u / E) by (field; lra).
    rewrite X.
    assert (0 < C * weight u / E).
    { apply Qlt_shift_div_l; [lra|]. nra. }
    lra.
Qed.

Lemma C10_unnecessary_is_graded_witness :
  let d s := {| patternId := "p"; status := s; message := ""; details := None |} in
  let c : WeightedDetectionResult Q := {| result := d CORRECT; weight := 3 |} in
  let u : WeightedDetectionResult Q := {| result := d UNNECESSARY; weight := 1 |} in
  computePatternScore ([c] ++ u :: []) < computePatternScore ([c] ++ []).
Proof.
  intros d c u.
  refine (proj2 (proj2 (proj2 (proj2
    (C10_unnecessary_is_graded [c] [] u _ _ _ _))))).
  - reflexivity.
  - reflexivity.
  - repeat constructor.
  - constructor. left. reflexivity.
Defined.

End PatternScoreClaims.

(** ** The scenarios on IEEE-754 binary64

    The same functions, run on the numbers of the program: the scenarios
    of the specification give the values the exact model gives. *)

Section EngineIEEE.
Import Engine Samples.
Local Open Scope float_scope.

(** Scenario E on binary64: weights 3 (CORRECT) and 1 (MISSING). *)
Example patternScore_scenario_ieee :
  @computePatternScore float _
    [ {| result := outcome CORRECT; weight := lit 3 1 |};
      {| result := outcome MISSING; weight := lit 1 1 |} ]
  = 0.75%float.
Proof. vm_compute. reflexivity. Qed.

(** Scenario F on binary64: the 25 penalties add up to a little more than
    1.25, the penalty is clamped to 1 and reported as 100. *)
Example noisePenalty_scenario_ieee :
  @computeNoisePenalty float _ (repeat (noise_of (lit 5 100)) 25) = 1%float /\
  noisePenalty
    (@computeScore float _
       {| matchResult := {| matched := []; missedFiles := []; extraFiles := [] |};
          weightedResults := [];
          noiseInstances := repeat (noise_of (lit 5 100)) 25 |})
  = 100%float.
Proof. split; vm_compute; reflexivity. Qed.

(** Scenario D on binary64: 7 matched and 3 missed files. *)
Example fileCoverage_scenario_ieee :
  @computeFileCoverage float _ (match_result_of 7 3) = lit 7 10 /\
  fileCoverage
    (@computeScore float _
       {| matchResult := match_result_of 7 3;
          weightedResults := [];
          noiseInstances := [] |})
  = 70%float.
Proof. split; vm_compute; reflexivity. Qed.

(** Three cases of the test suite of the engine, with the numbers it
    expects: a partial migration, heavy noise, and an INCORRECT outcome. *)
Example computeScore_tests_ieee :
  @computeScore float _
    {| matchResult := match_result_of 5 5;
       weightedResults :=
         [ {| result := outcome CORRECT; weight := lit 2 1 |};
           {| result := outcome MISSING; weight := lit 2 1 |} ];
       noiseInstances := [ noise_of (lit 1 10) ] |}
  = {| overallScore := 56; fileCoverage := 50; patternScore := 50;
       noisePenalty := 10 |} /\
  @computeScore float _
    {| matchResult := match_result_of 10 0;
       weightedResults := [ {| result := outcome CORRECT; weight := lit 1 1 |} ];
       noiseInstances := repeat (noise_of (lit 5 100)) 25 |}
  = {| overallScore := 85; fileCoverage := 100; patternScore := 100;
       noisePenalty := 100 |} /\
  @computeScore float _
    {| matchResult := match_result_of 10 0;
       weightedResults := [ {| result := outcome INCORRECT; weight := lit 2 1 |} ];
       noiseInstances := [] |}
  = {| overallScore := 51.25; fileCoverage := 100; patternScore := 25;
       noisePenalty := 0 |}.
Proof. repeat split; vm_compute; reflexivity. Qed.

End EngineIEEE.

(** ** The diff parser *)

Section ParserFacts.
Import JsString DiffParser ParserSpec.
Local Open Scope string_scope.
Local Open Scope list_scope.

(** *** First characters *)

Lemma startsWith_empty (s : string) : startsWith s "" = true.
Proof. destruct s; reflexivity. Qed.

Lemma startsWith_of_empty (c : ascii) (p : string) :
  startsWith "" (String c p) = false.
Proof. reflexivity. Qed.

Lemma startsWith_String (c c' : ascii) (p s : string) :
  startsWith (String c' s) (String c p) = Ascii.eqb c c' && startsWith s p.
Proof.
  unfold startsWith. cbn [String.prefix].
  destruct (ascii_dec c c') as [->|Hne].
  - now rewrite Ascii.eqb_refl.
  - apply Ascii.eqb_neq in Hne. now rewrite Hne.
Qed.

Ltac first_chars :=
  repeat (rewrite ?startsWith_String, ?startsWith_empty, ?startsWith_of_empty;
          cbn [Ascii.eqb Bool.eqb andb orb negb]).

(** A hunk header begins with two at-signs. *)
Lemma hunkMatch_startsWith (line : string) :
  is_Some (hunkMatch line) -> startsWith line "@@" = true.
Proof.
  intros [x Hx]. unfold hunkMatch, strip_prefix in Hx.
  destruct (startsWith line "@@ -") eqn:E; [|done].
  clear Hx. destruct line as [|c1 [|c2 s]]; [done| |].
  - rewrite !startsWith_String, startsWith_of_empty in E.
    now rewrite andb_false_r in E.
  - rewrite !startsWith_String in E. rewrite !startsWith_String, startsWith_empty.
    apply andb_prop in E as [-> E]. apply andb_prop in E as [-> _]. reflexivity.
Qed.

(** The effect of a kept line in the second pass is the effect the guarded
    single pass gives it. *)
Lemma extract_line_kept (line : string) (o n : Z) (A R : list DiffLine) :
  hunkMatch line = None ->
  guarded_step (Some (o, n), A, R) line
  = (if kept line
     then let '(o', n', A', R') := extract_line (o, n, A, R) line in
          (Some (o', n'), A', R')
     else (Some (o, n), A, R)).
Proof.
  intros Hm. unfold guarded_step, kept, extract_line, entry. rewrite Hm.
  destruct line as [|c s].
  { reflexivity. }
  destruct (String.eqb (String c s) no_newline_marker) eqn:E.
  { apply String.eqb_eq in E. rewrite E. reflexivity. }
  destruct (Ascii.eqb "+" c) eqn:Ep.
  { apply Ascii.eqb_eq in Ep. subst c. first_chars.
    destruct (startsWith s "++"); reflexivity. }
  destruct (Ascii.eqb "-" c) eqn:Em.
  { apply Ascii.eqb_eq in Em. subst c. first_chars.
    destruct (startsWith s "--"); reflexivity. }
  destruct (Ascii.eqb " " c) eqn:Es.
  { apply Ascii.eqb_eq in Es. subst c. first_chars. reflexivity. }
  rewrite !startsWith_String, Ep, Em, Es. cbn [andb orb].
  destruct (Ascii.eqb "@" c && startsWith s "@"); reflexivity.
Qed.


Lemma hunk_step_kept (hs : list DiffHunk) (h : DiffHunk) (line : string) :
  hunkMatch line = None ->
  hunk_step (hs, Some h) line
  = if kept line then (hs, Some (push_line h line)) else (hs, Some h).
Proof.
  intros Hm. unfold hunk_step, kept. rewrite Hm.
  destruct (startsWith line "+" && negb (startsWith line "+++")); [reflexivity|].
  destruct (startsWith line "-" && negb (startsWith line "---")); [reflexivity|].
  destruct (startsWith line " "); [reflexivity|].
  destruct (String.eqb line no_newline_marker); reflexivity.
Qed.

Lemma extractLines_snoc (hs : list DiffHunk) (h : DiffHunk) :
  extractLines (hs ++ [h]) = extract_hunk (extractLines hs) h.
Proof. unfold extractLines. now rewrite fold_left_app. Qed.

(** *** The two passes of the parser against the single pass *)

Lemma hunk_step_header (hs : list DiffHunk) (cur : option DiffHunk)
  (line g1 g3 : string) (g2 g4 : option string) :
  hunkMatch line = Some (g1, g2, g3, g4) ->
  hunk_step (hs, cur) line
  = (hs ++ option_list cur,
     Some {| oldStart := parseInt g1; oldCount := from_option parseInt 1 g2;
             newStart := parseInt g3; newCount := from_option parseInt 1 g4;
             lines := [line] |}).
Proof.
  intros Hm. unfold hunk_step. rewrite Hm.
  destruct cur; simpl; [reflexivity|now rewrite app_nil_r].
Qed.

Lemma guarded_step_header (st : scan_state) (line g1 g3 : string)
  (g2 g4 : option string) :
  hunkMatch line = Some (g1, g2, g3, g4) ->
  guarded_step st line = (Some (parseInt g1, parseInt g3), snd (fst st), snd st).
Proof.
  intros Hm. destruct st as [[c A] R]. unfold guarded_step. now rewrite Hm.
Qed.

Lemma extract_line_header (line : string) (st : Z * Z * list DiffLine * list DiffLine) :
  is_Some (hunkMatch line) -> extract_line st line = st.
Proof.
  intros Hm. apply hunkMatch_startsWith in Hm.
  destruct st as [[[o n] A] R]. unfold extract_line. now rewrite Hm.
Qed.

Lemma sim_step (ps : list DiffHunk * option DiffHunk) (ss : scan_state)
  (line : string) :
  sim ps ss -> sim (hunk_step ps line) (guarded_step ss line).
Proof.
  destruct ps as [hs cur]. intros Hsim. unfold sim in Hsim. cbn [fst snd] in Hsim.
  destruct (hunkMatch line) as [[[[g1 g2] g3] g4]|] eqn:Hm.
  - (* a hunk header closes the current hunk and opens the next one *)
    rewrite (hunk_step_header _ _ _ _ _ _ _ Hm).
    rewrite (guarded_step_header _ _ _ _ _ _ Hm).
    unfold sim. cbn [fst snd lines oldStart newStart].
    exists (parseInt g1), (parseInt g3), (snd (fst ss)), (snd ss).
    split; [reflexivity|].
    cbn [fold_left]. rewrite extract_line_header by (rewrite Hm; eauto).
    destruct cur as [h|].
    + destruct Hsim as (o & n & A & R & -> & Hf).
      change (option_list (Some h)) with [h]. cbn [fst snd].
      rewrite extractLines_snoc. unfold extract_hunk.
      destruct (extractLines hs) as [A0 R0]. cbn [fst snd] in Hf. rewrite Hf.
      reflexivity.
    + destruct Hsim as [-> ->]. reflexivity.
  - destruct cur as [h|].
    + destruct Hsim as (o & n & A & R & -> & Hf).
      rewrite hunk_step_kept, extract_line_kept by exact Hm.
      destruct (kept line).
      * destruct (extract_line (o, n, A, R) line) as [[[o' n'] A'] R'] eqn:He.
        unfold sim. cbn [fst snd].
        exists o', n', A', R'. split; [reflexivity|].
        unfold push_line. cbn [lines oldStart newStart].
        rewrite fold_left_app. cbn [fold_left]. rewrite Hf. exact He.
      * unfold sim. cbn [fst snd].
        exists o, n, A, R. split; [reflexivity|exact Hf].
    + destruct Hsim as [-> ->]. unfold hunk_step, guarded_step. rewrite Hm.
      unfold sim. cbn [fst snd]. split; reflexivity.
Qed.

Lemma sim_fold (ls : list string) :
  forall ps ss, sim ps ss ->
    sim (fold_left hunk_step ls ps) (fold_left guarded_step ls ss).
Proof.
  induction ls as [|line ls IH]; intros ps ss Hsim; simpl.
  - exact Hsim.
  - apply IH, sim_step, Hsim.
Qed.

(** The entries the two passes of the parser produce are those of the
    guarded single pass. *)
Lemma extractLines_parseHunks (ls : list string) :
  extractLines (parseHunks ls)
  = (snd (fst (guarded_scan ls)), snd (guarded_scan ls)).
Proof.
  pose proof (sim_fold ls ([], None) (None, [], [])) as Hsim.
  unfold parseHunks, guarded_scan.
  destruct (fold_left hunk_step ls ([], None)) as [hs cur].
  unfold sim in Hsim. simpl in Hsim.
  destruct cur as [h|].
  - destruct Hsim as (o & n & A & R & -> & Hf); [split; reflexivity|].
    rewrite extractLines_snoc. unfold extract_hunk.
    destruct (extractLines hs) as [A0 R0]. simpl in Hf. now rewrite Hf.
  - destruct Hsim as [-> ->]; [split; reflexivity|]. reflexivity.
Qed.

End ParserFacts.

Section ParserInvariants.
Import JsString DiffParser ParserSpec.
Local Open Scope string_scope.
Local Open Scope list_scope.

(** *** Hunks and their headers *)








(** *** The record of a chunk *)

Lemma parseFileChunk_lines (chunk : string) (fd : FileDiff) :
  parseFileChunk chunk = Some fd ->
  (addedLines fd, removedLines fd) = extractLines (hunks fd) /\
  (isBinary fd = false -> hunks fd = parseHunks (split LF chunk)) /\
  (isBinary fd = true -> hunks fd = []).
Proof.
  unfold parseFileChunk. intros H.
  repeat (case_match; simplify_eq); cbn [addedLines removedLines hunks isBinary];
    (split; [|split]); try done; congruence.
Qed.

(** Every record of [parseDiff] is the record of one of the chunks of the
    text. *)
Lemma parseDiff_chunks (text : string) (fd : FileDiff) :
  In fd (parseDiff text) ->
  exists chunk, In chunk (splitIntoFileChunks text) /\ parseFileChunk chunk = Some fd.
Proof.
  unfold parseDiff. destruct (String.eqb (trim text) ""); [intros []|].
  generalize (splitIntoFileChunks text). intros chunks.
  assert (G : forall acc,
    In fd (fold_left
             (fun files chunk =>
                match parseFileChunk chunk with
                | Some fileDiff => files ++ [fileDiff]
                | None => files
                end) chunks acc) ->
    In fd acc \/ exists chunk, In chunk chunks /\ parseFileChunk chunk = Some fd).
  { induction chunks as [|c chunks IH]; intros acc Hin; cbn [fold_left] in Hin.
    - now left.
    - apply IH in Hin as [Hin|(chunk & Hc & Hp)].
      + destruct (parseFileChunk c) as [fd'|] eqn:Hp.
        * apply in_app_or in Hin as [Hin|[<-|[]]]; [now left|].
          right. exists c. split; [now left|exact Hp].
        * now left.
      + right. exists chunk. split; [now right|exact Hp]. }
  intros Hin. apply G in Hin as [[]|Hin]. exact Hin.
Qed.

End ParserInvariants.

Section ParserOrder.
Import JsString DiffParser ParserSpec.
Local Open Scope string_scope.
Local Open Scope list_scope.

(** *** Line numbers *)

Lemma strictly_increasing_sorted (l : list Z) :
  strictly_increasing l = true <-> StronglySorted Z.lt l.
Proof.
  split.
  - intros H. apply Sorted_StronglySorted; [intros x y z; lia|].
    induction l as [|a [|b l] IH]; [constructor|repeat constructor|].
    cbn [strictly_increasing] in H. apply andb_prop in H as [Hab H].
    constructor; [apply IH, H|]. constructor. lia.
  - intros H. apply StronglySorted_Sorted in H.
    induction l as [|a [|b l] IH]; [reflexivity..|].
    inversion H as [|? ? Hs Hh]; subst. inversion Hh; subst.
    cbn [strictly_increasing]. apply andb_true_intro. split; [lia|].
    apply IH, Hs.
Qed.

(** One line moves each counter by at most one, and an entry carries the
    value its counter had before the line. *)
Lemma extract_line_cases (o n : Z) (line : string) :
  extract_line (o, n, [], []) line = (o, n, [], [])
  \/ extract_line (o, n, [], []) line = (o, n + 1, [entry n line], [])
  \/ extract_line (o, n, [], []) line = (o + 1, n, [], [entry o line])
  \/ extract_line (o, n, [], []) line = (o + 1, n + 1, [], []).
Proof.
  unfold extract_line, entry.
  destruct (startsWith line "@@"); [now left|].
  destruct (String.eqb line no_newline_marker); [now left|].
  destruct (startsWith line "+"); [right; left; reflexivity|].
  destruct (startsWith line "-"); [right; right; left; reflexivity|].
  destruct (startsWith line " "); [right; right; right; reflexivity|now left].
Qed.

Lemma extract_line_acc (o n : Z) (A R : list DiffLine) (line : string) :
  extract_line (o, n, A, R) line
  = let '(o', n', a, r) := extract_line (o, n, [], []) line in
    (o', n', A ++ a, R ++ r).
Proof.
  unfold extract_line.
  destruct (startsWith line "@@"); [now rewrite !app_nil_r|].
  destruct (String.eqb line no_newline_marker); [now rewrite !app_nil_r|].
  destruct (startsWith line "+"); [now rewrite !app_nil_r|].
  destruct (startsWith line "-"); [now rewrite !app_nil_r|].
  destruct (startsWith line " "); now rewrite !app_nil_r.
Qed.

Lemma fold_extract_acc (ls : list string) :
  forall (o n : Z) (A R : list DiffLine),
    fold_left extract_line ls (o, n, A, R)
    = let '(o', n', a, r) := fold_left extract_line ls (o, n, [], []) in
      (o', n', A ++ a, R ++ r).
Proof.
  induction ls as [|line ls IH]; intros o n A R; cbn [fold_left].
  - now rewrite !app_nil_r.
  - rewrite extract_line_acc.
    destruct (extract_line (o, n, [], []) line) as [[[o1 n1] a1] r1].
    rewrite IH. rewrite (IH o1 n1 a1 r1).
    destruct (fold_left extract_line ls (o1, n1, [], [])) as [[[o2 n2] a2] r2].
    now rewrite !app_assoc.
Qed.

Lemma sorted_cons_bounds (x lo hi : Z) (l : list Z) :
  x < lo -> StronglySorted Z.lt l -> Forall (fun y => lo <= y < hi) l ->
  StronglySorted Z.lt (x :: l).
Proof.
  intros Hx Hs Hb. constructor; [exact Hs|].
  eapply Forall_impl; [exact Hb|]. cbn. intros y Hy. lia.
Qed.

Lemma fold_extract_ok (ls : list string) :
  forall o n : Z, run_ok o n (fold_left extract_line ls (o, n, [], [])).
Proof.
  induction ls as [|line ls IH]; intros o n; cbn [fold_left].
  - unfold run_ok. repeat split; try lia; constructor.
  - destruct (extract_line_cases o n line) as [E|[E|[E|E]]]; rewrite E.
    + apply IH.
    + rewrite fold_extract_acc. specialize (IH o (n + 1)).
      destruct (fold_left extract_line ls (o, n + 1, [], [])) as [[[o' n'] a] r].
      unfold run_ok in *. destruct IH as (H1 & H2 & H3 & H4 & H5 & H6).
      cbn [app map lineNumber entry].
      split; [lia|]. split; [lia|]. split; [|split; [|split; [exact H5|exact H6]]].
      * eapply sorted_cons_bounds; [|exact H3|exact H4]. lia.
      * constructor; [lia|].
        eapply Forall_impl; [exact H4|]. cbn. intros y Hy. lia.
    + rewrite fold_extract_acc. specialize (IH (o + 1) n).
      destruct (fold_left extract_line ls (o + 1, n, [], [])) as [[[o' n'] a] r].
      unfold run_ok in *. destruct IH as (H1 & H2 & H3 & H4 & H5 & H6).
      cbn [app map lineNumber entry].
      split; [lia|]. split; [lia|]. split; [exact H3|]. split; [exact H4|]. split.
      * eapply sorted_cons_bounds; [|exact H5|exact H6]. lia.
      * constructor; [lia|].
        eapply Forall_impl; [exact H6|]. cbn. intros y Hy. lia.
    + specialize (IH (o + 1) (n + 1)).
      destruct (fold_left extract_line ls (o + 1, n + 1, [], [])) as [[[o' n'] a] r].
      unfold run_ok in *. destruct IH as (H1 & H2 & H3 & H4 & H5 & H6).
      split; [lia|]. split; [lia|]. split; [exact H3|]. split; [|split; [exact H5|]].
      * eapply Forall_impl; [exact H4|]. cbn. intros y Hy. lia.
      * eapply Forall_impl; [exact H6|]. cbn. intros y Hy. lia.
Qed.

Lemma hunk_scan_ok (h : DiffHunk) :
  oldStart h <= hunk_old_end h /\ newStart h <= hunk_new_end h /\
  StronglySorted Z.lt (map lineNumber (hunk_added h)) /\
  Forall (fun x => newStart h <= x < hunk_new_end h) (map lineNumber (hunk_added h)) /\
  StronglySorted Z.lt (map lineNumber (hunk_removed h)) /\
  Forall (fun x => oldStart h <= x < hunk_old_end h) (map lineNumber (hunk_removed h)).
Proof.
  pose proof (fold_extract_ok (lines h) (oldStart h) (newStart h)) as H.
  unfold hunk_old_end, hunk_new_end, hunk_added, hunk_removed, hunk_scan.
  destruct (fold_left extract_line (lines h) (oldStart h, newStart h, [], []))
    as [[[o n] a] r]. exact H.
Qed.

(** The entries of a record are those of its hunks, hunk after hunk. *)
Lemma extract_hunks_acc (hs : list DiffHunk) :
  forall A R : list DiffLine,
    fold_left extract_hunk hs (A, R)
    = (A ++ concat (map hunk_added hs), R ++ concat (map hunk_removed hs)).
Proof.
  induction hs as [|h hs IH]; intros A R; cbn [fold_left map concat].
  - now rewrite !app_nil_r.
  - unfold extract_hunk at 2. rewrite fold_extract_acc.
    unfold hunk_added at 1, hunk_removed at 1, hunk_scan.
    destruct (fold_left extract_line (lines h) (oldStart h, newStart h, [], []))
      as [[[o n] a] r]. cbn [fst snd].
    rewrite IH. now rewrite !app_assoc.
Qed.

Lemma extractLines_concat (hs : list DiffHunk) :
  extractLines hs = (concat (map hunk_added hs), concat (map hunk_removed hs)).
Proof. unfold extractLines. now rewrite extract_hunks_acc. Qed.

(** When the hunks advance, every entry of the hunks after [h] lies at or
    beyond the end of [h]. *)
Lemma hunks_advance_bounds (hs : list DiffHunk) :
  forall h : DiffHunk,
    hunks_advance (h :: hs) = true ->
    Forall (fun x => hunk_new_end h <= x) (map lineNumber (concat (map hunk_added hs))) /\
    Forall (fun x => hunk_old_end h <= x) (map lineNumber (concat (map hunk_removed hs))).
Proof.
  induction hs as [|h2 hs IH]; intros h Hadv.
  - split; constructor.
  - cbn [hunks_advance] in Hadv.
    apply andb_prop in Hadv as [Hadv Hrest]. apply andb_prop in Hadv as [Ho Hn].
    destruct (IH h2 Hrest) as [IHa IHr].
    destruct (hunk_scan_ok h2) as (B1 & B2 & _ & B4 & _ & B6).
    cbn [map concat]. rewrite !map_app. split; apply Forall_app; split.
    + eapply Forall_impl; [exact B4|]. cbn. intros y Hy. lia.
    + eapply Forall_impl; [exact IHa|]. cbn. intros y Hy. lia.
    + eapply Forall_impl; [exact B6|]. cbn. intros y Hy. lia.
    + eapply Forall_impl; [exact IHr|]. cbn. intros y Hy. lia.
Qed.

Lemma hunks_advance_tail (h : DiffHunk) (hs : list DiffHunk) :
  hunks_advance (h :: hs) = true -> hunks_advance hs = true.
Proof.
  destruct hs as [|h2 hs]; [reflexivity|]. cbn [hunks_advance].
  intros H. now apply andb_prop in H as [_ H].
Qed.

Lemma hunks_advance_sorted (hs : list DiffHunk) :
  hunks_advance hs = true ->
  StronglySorted Z.lt (map lineNumber (concat (map hunk_added hs))) /\
  StronglySorted Z.lt (map lineNumber (concat (map hunk_removed hs))).
Proof.
  induction hs as [|h hs IH]; intros Hadv.
  - split; constructor.
  - destruct (IH (hunks_advance_tail _ _ Hadv)) as [IHa IHr].
    destruct (hunks_advance_bounds hs h Hadv) as [Ba Br].
    destruct (hunk_scan_ok h) as (_ & _ & S3 & B4 & S5 & B6).
    cbn [map concat]. rewrite !map_app.
    rewrite Forall_forall in Ba, Br, B4, B6.
    split; apply StronglySorted_app_2; try assumption.
    + intros x1 x2 H1 H2.
      specialize (B4 _ H1). specialize (Ba _ H2). lia.
    + intros x1 x2 H1 H2.
      specialize (B6 _ H1). specialize (Br _ H2). lia.
Qed.

End ParserOrder.

Section ParserClaims.
Import JsString DiffParser ParserSpec.
Local Open Scope string_scope.
Local Open Scope list_scope.







(** The parser on a case of its own test suite, with the line numbers the
    test expects. *)
Example parseDiff_test_multiple_hunks :
  map (fun fd => (filePath fd, length (hunks fd), addedLines fd, removedLines fd))
      (parseDiff diff_test_multiple_hunks)
  = [ ("src/big.ts", 2%nat,
       [ {| lineNumber := 2; content := "inserted at top" |};
         {| lineNumber := 22; content := "new line 21" |} ],
       [ {| lineNumber := 21; content := "old line 21" |} ]) ].
Proof. vm_compute. reflexivity. Qed.

End ParserClaims.

(** ** The file matcher *)

Section MatcherFacts.
Import FileMatcher MatcherSpec Samples.
Local Open Scope list_scope.

(** *** The map of the candidate records: the last record of a path wins *)

Lemma buildMigrationMap_snoc (l : list FileDiff) (x : FileDiff) :
  buildMigrationMap (l ++ [x]) = <[path_of x := x]> (buildMigrationMap l).
Proof. unfold buildMigrationMap. now rewrite fold_left_app. Qed.

Lemma buildMigrationMap_Some (l : list FileDiff) (p : string) (m : FileDiff) :
  buildMigrationMap l !! p = Some m -> In m l /\ path_of m = p.
Proof.
  induction l as [|x l IH] using rev_ind.
  - unfold buildMigrationMap. cbn. rewrite lookup_empty. discriminate.
  - rewrite buildMigrationMap_snoc. destruct (decide (path_of x = p)) as [E|E].
    + rewrite E, lookup_insert_eq. intros [= <-].
      split; [apply in_or_app; right; now left|exact E].
    + rewrite lookup_insert_ne by exact E. intros H.
      destruct (IH H) as [Hin Hp]. split; [apply in_or_app; now left|exact Hp].
Qed.

Lemma buildMigrationMap_is_Some (l : list FileDiff) (r : FileDiff) :
  In r l -> is_Some (buildMigrationMap l !! path_of r).
Proof.
  induction l as [|x l IH] using rev_ind; [intros []|].
  rewrite buildMigrationMap_snoc. intros Hin.
  destruct (decide (path_of x = path_of r)) as [E|E].
  - rewrite E, lookup_insert_eq. eauto.
  - rewrite lookup_insert_ne by exact E. apply IH.
    apply in_app_or in Hin as [Hin|[->|[]]]; [exact Hin|contradiction].
Qed.

Lemma buildMigrationMap_sole (l : list FileDiff) (r : FileDiff) :
  In r l ->
  (forall r', In r' l -> path_of r' = path_of r -> r' = r) ->
  buildMigrationMap l !! path_of r = Some r.
Proof.
  intros Hin Hsole.
  destruct (buildMigrationMap_is_Some l r Hin) as [m Hm].
  destruct (buildMigrationMap_Some l _ m Hm) as [Hin' Hp].
  now rewrite Hm, (Hsole m Hin' Hp).
Qed.

(** *** The loop over the golden records *)

Lemma match_loop (M : gmap string FileDiff) (gs : list FileDiff) :
  fold_left (match_step M) gs ([], [], ∅)
  = (matched_of M gs, missed_of M gs, paths_of M gs).
Proof.
  induction gs as [|g gs IH] using rev_ind; [reflexivity|].
  rewrite fold_left_app, IH. cbn [fold_left].
  unfold match_step, matched_of, missed_of, paths_of.
  rewrite flat_map_app, !List.filter_app, map_app, list_to_set_app_L.
  cbn [flat_map List.filter map]. fold (path_of g).
  destruct (M !! path_of g) as [m|] eqn:E.
  - rewrite (bool_decide_eq_false_2 (Some m = None)) by discriminate.
    rewrite (bool_decide_eq_true_2 (is_Some (Some m))) by eauto.
    cbn [map list_to_set app]. rewrite !app_nil_r.
    f_equal. now rewrite (right_id_L ∅ (∪)).
  - rewrite (bool_decide_eq_true_2 (None = None)) by reflexivity.
    rewrite (bool_decide_eq_false_2 (is_Some None)) by (intros [? ?]; discriminate).
    cbn [map list_to_set app]. rewrite !app_nil_r.
    f_equal. now rewrite (right_id_L ∅ (∪)).
Qed.

Lemma in_matched_of (M : gmap string FileDiff) (gs : list FileDiff) (p : MatchedPair) :
  In p (matched_of M gs) <->
  In (golden p) gs /\ M !! path_of (golden p) = Some (migration p).
Proof.
  unfold matched_of. rewrite in_flat_map. split.
  - intros (g & Hg & Hp). destruct (M !! path_of g) as [m|] eqn:E; [|destruct Hp].
    destruct Hp as [<-|[]]. cbn. split; [exact Hg|exact E].
  - intros [Hg Hm]. exists (golden p). split; [exact Hg|].
    rewrite Hm. left. now destruct p.
Qed.

Lemma in_missed_of (M : gmap string FileDiff) (gs : list FileDiff) (g : FileDiff) :
  In g (missed_of M gs) <-> In g gs /\ M !! path_of g = None.
Proof.
  unfold missed_of. rewrite filter_In, bool_decide_eq_true. reflexivity.
Qed.

Lemma in_paths_of (M : gmap string FileDiff) (gs : list FileDiff) (p : string) :
  p ∈ paths_of M gs <-> exists g, In g gs /\ path_of g = p /\ is_Some (M !! p).
Proof.
  unfold paths_of. rewrite elem_of_list_to_set, list_elem_of_In, in_map_iff.
  split.
  - intros (g & Hp & Hg). apply filter_In in Hg as [Hg Hs].
    apply bool_decide_eq_true in Hs. exists g. rewrite <- Hp. auto.
  - intros (g & Hg & Hp & Hs). exists g. split; [exact Hp|].
    apply filter_In. split; [exact Hg|]. apply bool_decide_eq_true. now rewrite Hp.
Qed.

(** *** The result of [matchFiles] *)

Lemma in_kept_records (rs : list FileDiff) (r : FileDiff) :
  In r (kept_records rs) <-> In r rs /\ isExcluded (filePath r) = false.
Proof.
  unfold kept_records. rewrite filter_In, negb_true_iff. reflexivity.
Qed.

Lemma matchFiles_eq (goldenDiffs migrationDiffs : list FileDiff) :
  let M := buildMigrationMap (kept_records migrationDiffs) in
  matchFiles goldenDiffs migrationDiffs
  = {| matched := matched_of M (kept_records goldenDiffs);
       missedFiles := missed_of M (kept_records goldenDiffs);
       extraFiles :=
         List.filter
           (fun d => negb (bool_decide
                             (path_of d ∈ paths_of M (kept_records goldenDiffs))))
           (kept_records migrationDiffs) |}.
Proof.
  intros M. unfold matchFiles. fold (kept_records goldenDiffs).
  fold (kept_records migrationDiffs). fold M. now rewrite match_loop.
Qed.

(** Whether some record of a list has a given normalized path can be
    decided. *)
Lemma classic_gs (gs : list FileDiff) (p : string) :
  (exists g, In g gs /\ path_of g = p) \/ ~ (exists g, In g gs /\ path_of g = p).
Proof.
  induction gs as [|g gs [IH|IH]].
  - right. intros (g & [] & _).
  - left. destruct IH as (g' & Hg & Hp). exists g'. split; [now right|exact Hp].
  - destruct (decide (path_of g = p)) as [E|E].
    + left. exists g. split; [now left|exact E].
    + right. intros (g' & [<-|Hg] & Hp); [contradiction|]. apply IH. eauto.
Qed.

End MatcherFacts.

Section MatcherClaims.
Import FileMatcher MatcherSpec Samples.
Local Open Scope list_scope.

(** C3, as the specification words it, fails for candidate records: the
    matcher keeps one candidate record per normalized path, the last one,
    so of two candidate records with one normalized path the earlier one is
    in neither collection when a golden record has that path. *)
Lemma C3_counterexample :
  ~ (forall (goldenDiffs migrationDiffs : list FileDiff) (c : FileDiff),
       In c migrationDiffs -> isExcluded (filePath c) = false ->
       let mr := matchFiles goldenDiffs migrationDiffs in
       exactly_one (In c (matched_migrations mr)) (In c (extraFiles mr))).
Proof.
  intros H.
  specialize (H golden_foo candidates_foo candidate_a_foo).
  assert (Hin : In candidate_a_foo candidates_foo) by (left; reflexivity).
  assert (Hex : isExcluded (filePath candidate_a_foo) = false)
    by (vm_compute; reflexivity).
  specialize (H Hin Hex). cbv zeta in H.
  assert (E : matchFiles golden_foo candidates_foo
              = {| matched := [ {| golden := file_of "foo.ts";
                                   migration := file_of "foo.ts" |} ];
                   missedFiles := []; extraFiles := [] |})
    by (vm_compute; reflexivity).
  rewrite E in H. unfold matched_migrations in H. cbn in H.
  destruct H as [[[Hm|[]] _]|[_ []]]. discriminate Hm.
Qed.

(** C3.  For every pair of lists of golden and candidate records:
    every golden record that is not excluded is in exactly one of matched
    and missed; for every candidate record that is not excluded, its
    normalized path is the path of exactly one of a matched candidate and
    an extra record, the record itself is never in both matched and extra,
    and it is in exactly one of them when no other candidate record that is
    not excluded has its normalized path; a record whose normalized path is
    excluded is in none of the three collections. *)
Theorem C3_match_partition (goldenDiffs migrationDiffs : list FileDiff) :
  let mr := matchFiles goldenDiffs migrationDiffs in
  (forall g : FileDiff,
     In g goldenDiffs -> isExcluded (filePath g) = false ->
     exactly_one (In g (matched_goldens mr)) (In g (missedFiles mr))) /\
  (forall c : FileDiff,
     In c migrationDiffs -> isExcluded (filePath c) = false ->
     exactly_one (In (path_of c) (map path_of (matched_migrations mr)))
                 (In (path_of c) (map path_of (extraFiles mr))) /\
     ~ (In c (matched_migrations mr) /\ In c (extraFiles mr)) /\
     (sole_for_path migrationDiffs c ->
      exactly_one (In c (matched_migrations mr)) (In c (extraFiles mr)))) /\
  (forall r : FileDiff,
     isExcluded (filePath r) = true ->
     ~ In r (matched_goldens mr) /\ ~ In r (matched_migrations mr) /\
     ~ In r (missedFiles mr) /\ ~ In r (extraFiles mr)).
Proof.
  cbv zeta. rewrite matchFiles_eq. cbv zeta.
  set (M := buildMigrationMap (kept_records migrationDiffs)).
  set (gs := kept_records goldenDiffs).
  set (cs := kept_records migrationDiffs).
  unfold matched_goldens, matched_migrations. cbn [matched missedFiles extraFiles].
  assert (Hmg : forall g, In g (map golden (matched_of M gs))
                          <-> In g gs /\ is_Some (M !! path_of g)).
  { intros g. rewrite in_map_iff. split.
    - intros (p & <- & Hp). apply in_matched_of in Hp as [Hg Hm]. eauto.
    - intros [Hg [m Hm]]. exists {| golden := g; migration := m |}.
      split; [reflexivity|]. apply in_matched_of. cbn. auto. }
  assert (Hmm : forall c, In c (map migration (matched_of M gs))
                          <-> exists g, In g gs /\ M !! path_of g = Some c).
  { intros c. rewrite in_map_iff. split.
    - intros (p & <- & Hp). apply in_matched_of in Hp as [Hg Hm]. eauto.
    - intros (g & Hg & Hm). exists {| golden := g; migration := c |}.
      split; [reflexivity|]. apply in_matched_of. cbn. auto. }
  assert (Hex : forall c, In c (List.filter
                                  (fun d => negb (bool_decide (path_of d ∈ paths_of M gs))) cs)
                          <-> In c cs /\ ~ exists g, In g gs /\ path_of g = path_of c).
  { intros c. rewrite filter_In, negb_true_iff, bool_decide_eq_false, in_paths_of.
    split; intros [Hc Hn]; (split; [exact Hc|]).
    - intros (g & Hg & Hp). apply Hn. exists g. split; [exact Hg|]. split; [exact Hp|].
      apply buildMigrationMap_is_Some, Hc.
    - intros (g & Hg & Hp & _). apply Hn. eauto. }
  split; [|split].
  - (* golden records *)
    intros g Hg Hne.
    assert (Hgs : In g gs) by (apply in_kept_records; auto).
    unfold exactly_one. rewrite Hmg, in_missed_of.
    destruct (M !! path_of g) as [m|] eqn:E.
    + left. split; [eauto|]. intros [_ ?]. discriminate.
    + right. split; [|auto]. intros [_ [? ?]]. discriminate.
  - (* candidate records *)
    intros c Hc Hne.
    assert (Hcs : In c cs) by (apply in_kept_records; auto).
    assert (Hpm : In (path_of c) (map path_of (map migration (matched_of M gs)))
                  <-> exists g, In g gs /\ path_of g = path_of c).
    { rewrite in_map_iff. split.
      - intros (m & Hp & Hm). apply Hmm in Hm as (g & Hg & Hl).
        apply buildMigrationMap_Some in Hl as [_ Hl]. exists g. split; [exact Hg|].
        congruence.
      - intros (g & Hg & Hp).
        destruct (buildMigrationMap_is_Some cs c Hcs) as [m Hm]. fold M in Hm.
        exists m. split.
        + now apply buildMigrationMap_Some in Hm as [_ Hm'].
        + apply Hmm. exists g. split; [exact Hg|]. now rewrite Hp. }
    assert (Hpe : In (path_of c)
                     (map path_of
                        (List.filter
                           (fun d => negb (bool_decide (path_of d ∈ paths_of M gs))) cs))
                  <-> ~ exists g, In g gs /\ path_of g = path_of c).
    { rewrite in_map_iff. split.
      - intros (c' & Hp & Hc'). apply Hex in Hc' as [_ Hn]. now rewrite <- Hp.
      - intros Hn. exists c. split; [reflexivity|]. apply Hex. auto. }
    split; [|split].
    + unfold exactly_one. rewrite Hpm, Hpe.
      destruct (classic_gs gs (path_of c)) as [Hy|Hn]; [left|right]; tauto.
    + intros [Hm He]. apply Hmm in Hm as (g & Hg & Hl).
      apply Hex in He as [_ Hn]. apply Hn. exists g. split; [exact Hg|].
      now apply buildMigrationMap_Some in Hl as [_ Hl'].
    + intros Hsole.
      assert (HM : M !! path_of c = Some c).
      { apply buildMigrationMap_sole; [exact Hcs|].
        intros r' Hr' Hp. apply in_kept_records in Hr' as [Hr' Hne'].
        now apply Hsole. }
      unfold exactly_one. rewrite Hmm, Hex.
      destruct (classic_gs gs (path_of c)) as [(g & Hg & Hp)|Hn].
      * left. split; [exists g; split; [exact Hg|now rewrite Hp]|].
        intros [_ Hn]. apply Hn. eauto.
      * right. split; [|auto].
        intros (g & Hg & Hl). apply Hn. exists g. split; [exact Hg|].
        now apply buildMigrationMap_Some in Hl as [_ Hl'].
  - (* excluded records *)
    intros r Hr.
    assert (Hgs : ~ In r gs).
    { intros H. apply in_kept_records in H as [_ H]. congruence. }
    assert (Hcs : ~ In r cs).
    { intros H. apply in_kept_records in H as [_ H]. congruence. }
    split; [|split; [|split]].
    + rewrite Hmg. tauto.
    + rewrite Hmm. intros (g & Hg & Hl).
      apply buildMigrationMap_Some in Hl as [Hl _]. contradiction.
    + rewrite in_missed_of. tauto.
    + rewrite Hex. tauto.
Qed.

End MatcherClaims.

Section MatcherWitness.
Import FileMatcher MatcherSpec Samples.
Local Open Scope list_scope.

Lemma C3_match_partition_witness :
  let mr := matchFiles golden_app candidates_app in
  let c := file_of "b/src/App.tsx" in
  In c candidates_app /\ isExcluded (filePath c) = false /\
  sole_for_path candidates_app c /\
  exactly_one (In c (matched_migrations mr)) (In c (extraFiles mr)).
Proof.
  intros mr c.
  assert (Hin : In c candidates_app) by (left; reflexivity).
  assert (Hne : isExcluded (filePath c) = false) by (vm_compute; reflexivity).
  assert (Hsole : sole_for_path candidates_app c).
  { intros r' [<-|[<-|[<-|[]]]] Hex Hp; [reflexivity| |];
      vm_compute in Hp; discriminate Hp. }
  split; [exact Hin|]. split; [exact Hne|]. split; [exact Hsole|].
  exact (proj2 (proj2 (proj1 (proj2 (C3_match_partition golden_app candidates_app))
                         c Hin Hne)) Hsole).
Defined.

(** Two cases of the test suite of the matcher: lockfiles are excluded on
    both sides, and backslashes are normalized. *)
Example matchFiles_tests :
  matchFiles [ file_of "src/App.tsx"; file_of "package-lock.json" ]
             [ file_of "src/App.tsx"; file_of "yarn.lock"; file_of "pnpm-lock.yaml" ]
  = {| matched := [ {| golden := file_of "src/App.tsx";
                       migration := file_of "src/App.tsx" |} ];
       missedFiles := []; extraFiles := [] |} /\
  (let windows_path :=
     String.concat (String backslash "") [ "src"; "components"; "App.tsx" ] in
   matchFiles [ file_of windows_path ] [ file_of "src/components/App.tsx" ]
   = {| matched := [ {| golden := file_of windows_path;
                        migration := file_of "src/components/App.tsx" |} ];
        missedFiles := []; extraFiles := [] |}).
Proof. split; vm_compute; reflexivity. Qed.

End MatcherWitness.

(** ** The noise detector *)

Section NoiseFacts.
Import JsString DiffParser FileMatcher NoiseDetector MatcherSpec NoiseSpec Samples.
Local Open Scope list_scope.

(** *** Sorting lists of strings *)






(** *** Loops that push onto an array *)

Lemma fold_push {A B : Type} (f : A -> list B) (l : list A) :
  forall acc : list B,
    fold_left (fun instances x => instances ++ f x) l acc = acc ++ flat_map f l.
Proof.
  induction l as [|x l IH]; intros acc; cbn [fold_left flat_map].
  - now rewrite app_nil_r.
  - rewrite IH. now rewrite app_assoc.
Qed.

Lemma detectFormattingOnlyChanges_eq (diffs : list FileDiff) (mr : MatchResult) :
  @detectFormattingOnlyChanges Q _ diffs mr
  = flat_map (formattingOnly_step (matched_paths mr)) diffs.
Proof.
  unfold detectFormattingOnlyChanges. fold (matched_paths mr).
  now rewrite fold_push.
Qed.

Lemma scan_eq (patterns : list JsRegExp.regex) (t : NoiseType) (prefix : string)
  (diffs : list FileDiff) :
  forall acc : list (NoiseInstance Q),
    fold_left
      (fun instances diff =>
         fold_left
           (fun instances l =>
              instances ++ @scan_line Q _ patterns t prefix diff l)
           (addedLines diff) instances)
      diffs acc
    = acc ++ flat_map (fun diff => flat_map (scan_line patterns t prefix diff)
                                            (addedLines diff)) diffs.
Proof.
  induction diffs as [|diff diffs IH]; intros acc; cbn [fold_left flat_map].
  - now rewrite app_nil_r.
  - rewrite fold_push, IH. now rewrite app_assoc.
Qed.



End NoiseFacts.

Section NoiseClaims.
Import JsString DiffParser FileMatcher NoiseDetector MatcherSpec NoiseSpec Samples.
Local Open Scope list_scope.

Lemma filter_keep {A : Type} (f : A -> bool) (l : list A) :
  Forall (fun x => f x = true) l -> List.filter f l = l.
Proof.
  induction 1 as [|x l Hx _ IH]; cbn [List.filter]; [reflexivity|].
  now rewrite Hx, IH.
Qed.

Lemma filter_drop {A : Type} (f : A -> bool) (l : list A) :
  Forall (fun x => f x = false) l -> List.filter f l = [].
Proof.
  induction 1 as [|x l Hx _ IH]; cbn [List.filter]; [reflexivity|].
  now rewrite Hx, IH.
Qed.

Lemma Forall_flat_map_intro {A B : Type} (P : B -> Prop) (f : A -> list B)
  (l : list A) :
  (forall x, Forall P (f x)) -> Forall P (flat_map f l).
Proof.
  intros H. induction l as [|x l IH]; cbn [flat_map]; [constructor|].
  apply Forall_app. split; [apply H|exact IH].
Qed.







(** Two cases of the test suite of the noise detector: a change of
    whitespace only in a matched file, and one penalty for a line that
    matches two artifact patterns. *)
Example detectNoise_tests :
  @detectNoise Q _
    {| matchResult := {| matched := [ {| golden := file_of "app.ts";
                                         migration := reindented |} ];
                         missedFiles := []; extraFiles := [] |};
       migrationDiffs := [ reindented ];
       detectionResults := [] |}
  = [ formatting_instance reindented ] /\
  map (fun n => (type n, file n, line n, penalty n))
    (@detectNoise Q _
       {| matchResult := {| matched := []; missedFiles := []; extraFiles := [] |};
          migrationDiffs :=
            [ changed_file "app.ts"
                [ diff_line 1 "  console.log(1); // TODO remove" ] [] ];
          detectionResults := [] |})
  = [ (artifact, "app.ts", Some 1, 5 # 100) ].
Proof. split; vm_compute; reflexivity. Qed.

Lemma scan_line_hit (patterns : list JsRegExp.regex) (t : NoiseType)
  (prefix : string) (diff : FileDiff) (l : DiffLine) :
  existsb (fun pattern => JsRegExp.test pattern (content l)) patterns = true ->
  exists n : NoiseInstance Q,
    In n (scan_line patterns t prefix diff l) /\ type n = t /\
    file n = filePath diff /\ line n = Some (lineNumber l).
Proof.
  intros Hm. unfold scan_line.
  destruct (List.find (fun pattern => JsRegExp.test pattern (content l)) patterns)
    as [p|] eqn:E.
  - eexists. split; [left; reflexivity|]. cbn. auto.
  - apply existsb_exists in Hm as (p & Hp & Ht).
    eapply find_none in E; [|exact Hp]. cbn in E. congruence.
Qed.

(** C5, on the code: a candidate diff that touches a snapshot file.  The
    file matcher excludes the snapshot (it is neither matched nor extra),
    and the noise scanner, which sweeps the added lines of every candidate
    record it is given, still emits an artifact instance for it.  In
    general every added line of every candidate record that matches an
    artifact pattern, and every one that matches a placeholder pattern,
    gives an instance, whatever the path of the record. *)
Theorem C5_excluded_file_is_scanned :
  (let goldenDiffs := parseDiff golden_text in
   let migrationDiffs := parseDiff candidate_text in
   let mr := matchFiles goldenDiffs migrationDiffs in
   isExcluded snapshot_path = true /\
   ~ In snapshot_path (map filePath (matched_migrations mr ++ extraFiles mr)) /\
   @detectNoise Q _ {| matchResult := mr; migrationDiffs := migrationDiffs;
                       detectionResults := [] |} = [snapshot_instance]) /\
  (forall (input : NoiseDetectorInput) (diff : FileDiff) (l : DiffLine),
     In diff (migrationDiffs input) -> In l (addedLines diff) ->
     (existsb (fun pattern => JsRegExp.test pattern (content l)) ARTIFACT_PATTERNS = true ->
      exists n : NoiseInstance Q,
        In n (detectNoise input) /\ type n = artifact /\
        file n = filePath diff /\ line n = Some (lineNumber l)) /\
     (existsb (fun pattern => JsRegExp.test pattern (content l)) PLACEHOLDER_PATTERNS = true ->
      exists n : NoiseInstance Q,
        In n (detectNoise input) /\ type n = placeholder_token /\
        file n = filePath diff /\ line n = Some (lineNumber l))).
Proof.
  split.
  - cbv zeta. split; [vm_compute; reflexivity|]. split.
    + vm_compute. intros [H|[]]. discriminate H.
    + vm_compute. reflexivity.
  - intros input diff l Hd Hl. split; intros Hm.
    + destruct (scan_line_hit _ artifact "Artifact detected: " diff l Hm)
        as (n & Hn & Hprops).
      exists n. split; [|exact Hprops].
      unfold detectNoise. cbn [app]. apply in_or_app. left. apply in_or_app. right.
      unfold detectArtifacts. rewrite scan_eq. cbn [app].
      apply in_flat_map. exists diff. split; [exact Hd|].
      apply in_flat_map. exists l. split; [exact Hl|exact Hn].
    + destruct (scan_line_hit _ placeholder_token "Placeholder token detected: "
                              diff l Hm) as (n & Hn & Hprops).
      exists n. split; [|exact Hprops].
      unfold detectNoise. cbn [app]. apply in_or_app. right.
      unfold detectPlaceholderTokens. rewrite scan_eq. cbn [app].
      apply in_flat_map. exists diff. split; [exact Hd|].
      apply in_flat_map. exists l. split; [exact Hl|exact Hn].
Qed.

Lemma C5_excluded_file_is_scanned_witness :
  let diff := changed_file snapshot_path
                [ diff_line 7 "  onClick={() => console.log(1)}" ] [] in
  FileMatcher.isExcluded (filePath diff) = true /\
  exists n : NoiseInstance Q,
    In n (detectNoise {| matchResult := matchFiles [] [diff];
                         migrationDiffs := [diff]; detectionResults := [] |})
    /\ type n = artifact /\ file n = filePath diff
    /\ line n = Some 7.
Proof.
  intros diff. split; [vm_compute; reflexivity|].
  refine (proj1 (proj2 C5_excluded_file_is_scanned
            {| matchResult := matchFiles [] [diff]; migrationDiffs := [diff];
               detectionResults := [] |}
            diff (diff_line 7 "  onClick={() => console.log(1)}") _ _) _).
  - left. reflexivity.
  - left. reflexivity.
  - vm_compute. reflexivity.
Defined.

End NoiseClaims.

(** ** The theme-dark-removal detector *)

Section DetectorClaims.
Import JsString JsRegExp ThemeDarkRemoval DetectorSpec Samples.
Local Open Scope list_scope.

(** A match that starts after a prefix of the subject is found by the
    search. *)
Lemma search_app (r : regex) (pre s : string) :
  forall before : option ascii,
    matches_at r (last_before before pre, s) = true ->
    search r before (String.append pre s) = true.
Proof.
  induction pre as [|c pre IH]; intros before H.
  - change (String.append "" s) with s. cbn [last_before] in H.
    destruct s; cbn [search]; rewrite H; reflexivity.
  - change (String.append (String c pre) s) with (String c (String.append pre s)).
    cbn [search]. rewrite (IH (Some c) H). apply orb_true_r.
Qed.






End DetectorClaims.

(** ** The detector registry *)

Section RegistryClaims.
Import Registry.
Local Open Scope list_scope.

Lemma read_mutate_same (r : ref) (f : list PatternDefinition -> list PatternDefinition)
  (h : Heap) :
  is_Some (arrays h !! r) -> read r (mutate r f h) = f (read r h).
Proof.
  intros [l Hl]. unfold read, mutate. cbn [arrays].
  rewrite lookup_alter_eq, Hl. reflexivity.
Qed.

Lemma read_mutate_other (r r' : ref) (f : list PatternDefinition -> list PatternDefinition)
  (h : Heap) :
  r <> r' -> read r' (mutate r f h) = read r' h.
Proof.
  intros Hne. unfold read, mutate. cbn [arrays].
  now rewrite lookup_alter_ne.
Qed.

Lemma read_alloc_new (l : list PatternDefinition) (h : Heap) :
  read (fst (alloc l h)) (snd (alloc l h)) = l.
Proof. unfold read, alloc. cbn [fst snd arrays]. now rewrite lookup_insert_eq. Qed.

Lemma read_alloc_old (l : list PatternDefinition) (h : Heap) (r : ref) :
  r <> next h -> read r (snd (alloc l h)) = read r h.
Proof.
  intros Hne. unfold read, alloc. cbn [fst snd arrays].
  now rewrite lookup_insert_ne.
Qed.

Lemma well_formed_initial : well_formed initial.
Proof.
  split.
  - unfold initial. cbn [arrays]. rewrite lookup_singleton_eq. eauto.
  - intros r [l Hl]. unfold initial in *. cbn [arrays next] in *.
    destruct (decide (r = patterns)) as [->|Hne]; [unfold patterns; lia|].
    rewrite lookup_singleton_ne in Hl by congruence. discriminate.
Qed.

Lemma well_formed_mutate (r : ref) (f : list PatternDefinition -> list PatternDefinition)
  (h : Heap) :
  well_formed h -> well_formed (mutate r f h).
Proof.
  intros [H1 H2]. unfold well_formed, mutate. cbn [arrays next]. split.
  - destruct (decide (r = patterns)) as [->|Hne].
    + rewrite lookup_alter_eq. destruct H1 as [l ->]. cbn. eauto.
    + now rewrite lookup_alter_ne.
  - intros r' Hr'. apply H2. destruct (decide (r = r')) as [->|Hne].
    + rewrite lookup_alter_eq in Hr'. destruct Hr' as [l Hl].
      destruct (arrays h !! r'); [eauto|discriminate].
    + now rewrite lookup_alter_ne in Hr'.
Qed.

Lemma well_formed_alloc (l : list PatternDefinition) (h : Heap) :
  well_formed h -> well_formed (snd (alloc l h)) /\ fst (alloc l h) <> patterns.
Proof.
  intros [H1 H2]. pose proof (H2 _ H1) as Hlt.
  unfold well_formed, alloc. cbn [fst snd arrays next]. split; [split|].
  - rewrite lookup_insert_ne by lia. exact H1.
  - intros r Hr. destruct (decide (next h = r)) as [<-|Hne]; [lia|].
    rewrite lookup_insert_ne in Hr by exact Hne. specialize (H2 _ Hr). lia.
  - lia.
Qed.

Lemma well_formed_exec (h : Heap) (c : Call) :
  well_formed h -> well_formed (exec h c).
Proof.
  intros Hwf. destruct c as [p|f|c f|]; cbn [exec].
  - now apply well_formed_mutate.
  - unfold getPatterns.
    destruct (alloc (read patterns h) h) as [r h'] eqn:E.
    apply well_formed_mutate.
    pose proof (well_formed_alloc (read patterns h) h Hwf) as [H _].
    now rewrite E in H.
  - unfold getPatternsByComplexity.
    destruct (alloc _ h) as [r h'] eqn:E.
    apply well_formed_mutate.
    match type of E with alloc ?l h = _ =>
      pose proof (well_formed_alloc l h Hwf) as [H _] end.
    now rewrite E in H.
  - now apply well_formed_mutate.
Qed.

Lemma well_formed_run (calls : list Call) : well_formed (run calls).
Proof.
  unfold run. induction calls as [|c calls IH] using rev_ind.
  - apply well_formed_initial.
  - rewrite fold_left_app. cbn [fold_left]. now apply well_formed_exec.
Qed.

(** A call changes the catalog as the specification says, and in no other
    way: the arrays that were handed out are not the catalog. *)
Lemma read_exec (h : Heap) (c : Call) :
  well_formed h ->
  read patterns (exec h c)
  = match c with
    | CallRegister pattern => read patterns h ++ [pattern]
    | CallClear => []
    | _ => read patterns h
    end.
Proof.
  intros Hwf. pose proof Hwf as [H1 H2].
  destruct c as [p|f|c f|]; cbn [exec].
  - unfold registerPattern. now rewrite read_mutate_same.
  - unfold getPatterns.
    pose proof (well_formed_alloc (read patterns h) h Hwf) as [_ Hne].
    pose proof (read_alloc_old (read patterns h) h patterns) as Hold.
    destruct (alloc (read patterns h) h) as [r h'] eqn:E. cbn [fst snd] in *.
    rewrite read_mutate_other by exact Hne.
    apply Hold. specialize (H2 _ H1). lia.
  - unfold getPatternsByComplexity.
    match goal with |- context [alloc ?l h] =>
      pose proof (well_formed_alloc l h Hwf) as [_ Hne];
      pose proof (read_alloc_old l h patterns) as Hold;
      destruct (alloc l h) as [r h'] eqn:E end.
    cbn [fst snd] in *.
    rewrite read_mutate_other by exact Hne.
    apply Hold. specialize (H2 _ H1). lia.
  - unfold clearPatterns. now rewrite read_mutate_same.
Qed.

Lemma read_run (calls : list Call) :
  read patterns (run calls) = catalog_after calls.
Proof.
  unfold run, catalog_after. induction calls as [|c calls IH] using rev_ind.
  - cbn [fold_left]. unfold read, initial. cbn [arrays].
    now rewrite lookup_singleton_eq.
  - rewrite !fold_left_app. cbn [fold_left].
    rewrite read_exec by apply well_formed_run. rewrite IH. reflexivity.
Qed.

Lemma catalog_fold_registers (ps : list PatternDefinition) :
  forall acc : list PatternDefinition,
    fold_left (fun catalog c =>
                 match c with
                 | CallRegister pattern => catalog ++ [pattern]
                 | CallClear => []
                 | _ => catalog
                 end) (map CallRegister ps) acc
    = acc ++ ps.
Proof.
  induction ps as [|p ps IH]; intros acc; cbn [map fold_left].
  - now rewrite app_nil_r.
  - rewrite IH. now rewrite <- app_assoc.
Qed.

Lemma catalog_after_registers (calls : list Call) (ps : list PatternDefinition) :
  catalog_after (calls ++ CallClear :: map CallRegister ps) = ps.
Proof.
  unfold catalog_after. rewrite fold_left_app. cbn [fold_left].
  now rewrite catalog_fold_registers.
Qed.

(** C9.  Whatever calls the module has served, with whatever its clients
    did to the arrays they were handed: the catalog holds the definitions
    registered since the last clear, in the order of registration;
    [registerPattern] appends its argument to it; [getPatterns] returns a
    new array (not the catalog) that holds the definitions of the catalog
    in that order, and leaves the catalog as it was; whatever is then done
    to that array, the catalog is unchanged and a second [getPatterns]
    returns the same definitions; after [clearPatterns] the catalog is
    empty and [getPatterns] returns the empty list. *)
Theorem C9_registry (calls : list Call) :
  let h := run calls in
  read patterns h = catalog_after calls /\
  (forall ps : list PatternDefinition,
     catalog_after (calls ++ CallClear :: map CallRegister ps) = ps /\
     catalog_after (map CallRegister ps) = ps) /\
  (forall pattern : PatternDefinition,
     read patterns (registerPattern pattern h) = read patterns h ++ [pattern]) /\
  (let r := fst (getPatterns h) in
   let h' := snd (getPatterns h) in
   r <> patterns /\
   read r h' = read patterns h /\
   read patterns h' = read patterns h /\
   forall f : list PatternDefinition -> list PatternDefinition,
     read patterns (mutate r f h') = read patterns h /\
     read (fst (getPatterns (mutate r f h'))) (snd (getPatterns (mutate r f h')))
     = read patterns h) /\
  read patterns (clearPatterns h) = [] /\
  read (fst (getPatterns (clearPatterns h))) (snd (getPatterns (clearPatterns h)))
  = [].
Proof.
  cbv zeta. pose proof (well_formed_run calls) as Hwf.
  pose proof Hwf as [H1 H2]. set (h := run calls) in *.
  pose proof (well_formed_alloc (read patterns h) h Hwf) as [Hwf' Hne].
  assert (Hold : read patterns (snd (getPatterns h)) = read patterns h).
  { apply read_alloc_old. specialize (H2 _ H1). lia. }
  assert (Hclear : read patterns (clearPatterns h) = []).
  { unfold clearPatterns. now rewrite read_mutate_same. }
  split; [apply read_run|].
  split; [intros ps; split;
          [apply catalog_after_registers
          |unfold catalog_after; apply catalog_fold_registers]|].
  split; [intros p; unfold registerPattern; now rewrite read_mutate_same|].
  split; [|split; [exact Hclear|]].
  - split; [exact Hne|]. split; [apply read_alloc_new|]. split; [exact Hold|].
    intros f.
    assert (Hm : read patterns (mutate (fst (getPatterns h)) f (snd (getPatterns h)))
                 = read patterns h).
    { rewrite read_mutate_other by exact Hne. exact Hold. }
    split; [exact Hm|].
    unfold getPatterns at 1 4. rewrite read_alloc_new. exact Hm.
  - unfold getPatterns. rewrite read_alloc_new. exact Hclear.
Qed.

End RegistryClaims.

(* ===================================================================== *)
(** * Part III: further properties                                       *)
(* ===================================================================== *)

(** ** The scoring engine: ranges, order and monotonicity *)

Section EngineRanges.
Import Engine.
Local Open Scope Q_scope.

Lemma credit_le_1 (s : DetectionStatus) : SpecWords.credit s <= 1.
Proof. destruct s; simpl; unfold Qle; simpl; lia. Qed.

Lemma sum_credit_bounds (l : list (WeightedDetectionResult Q)) :
  Forall (fun r => 0 <= weight r) l ->
  0 <= SpecWords.sum_credit l /\ SpecWords.sum_credit l <= SpecWords.sum_weight l.
Proof.
  unfold SpecWords.sum_credit, SpecWords.sum_weight.
  induction 1 as [|r l Hr _ [IH1 IH2]]; simpl.
  - split; lra.
  - destruct (SpecWords.graded r); simpl; [|split; assumption].
    pose proof (credit_nonneg (status (result r))).
    pose proof (credit_le_1 (status (result r))).
    split; nra.
Qed.

Lemma patternScore_bounds (l : list (WeightedDetectionResult Q)) :
  Forall (fun r => 0 <= weight r) l ->
  0 <= SpecWords.patternScore l /\ SpecWords.patternScore l <= 1.
Proof.
  intros Hw. destruct (sum_credit_bounds l Hw) as [H0 H1].
  unfold SpecWords.patternScore.
  destruct (Qeq_bool (SpecWords.sum_weight l) 0) eqn:E; [split; lra|].
  apply Qeq_bool_neq in E.
  assert (Hs : 0 < SpecWords.sum_weight l) by lra.
  split.
  - apply Qle_shift_div_l; [exact Hs|lra].
  - apply Qle_shift_div_r; [exact Hs|lra].
Qed.

Lemma sum_penalties_nonneg (l : list (NoiseInstance Q)) :
  Forall (fun n => 0 <= penalty n) l -> 0 <= SpecWords.sum_penalties l.
Proof.
  induction 1 as [|n l Hn _ IH]; simpl; lra.
Qed.

Lemma sum_penalties_app (l1 l2 : list (NoiseInstance Q)) :
  SpecWords.sum_penalties (l1 ++ l2)
  == SpecWords.sum_penalties l1 + SpecWords.sum_penalties l2.
Proof.
  induction l1 as [|n l1 IH]; simpl; [ring|]. rewrite IH. ring.
Qed.

Lemma noisePenalty_bounds (l : list (NoiseInstance Q)) :
  Forall (fun n => 0 <= penalty n) l ->
  0 <= SpecWords.noisePenalty l /\ SpecWords.noisePenalty l <= 1.
Proof.
  intros Hp. pose proof (sum_penalties_nonneg l Hp).
  unfold SpecWords.noisePenalty. split.
  - apply Q.min_glb; lra.
  - apply Q.le_min_l.
Qed.

Lemma round_mono (a b : Q) : a <= b -> round a <= round b.
Proof.
  intros Hab.
  change (inject_Z (Qfloor (a * (100 # 1) + (1 # 2))) / (100 # 1)
          <= inject_Z (Qfloor (b * (100 # 1) + (1 # 2))) / (100 # 1)).
  unfold Qdiv. apply Qmult_le_compat_r; [|discriminate].
  rewrite <- Zle_Qle. apply Qfloor_resp_le. lra.
Qed.

Lemma round_range (v : Q) : 0 <= v <= 100 -> 0 <= round v /\ round v <= 100.
Proof.
  intros [H0 H1]. split.
  - apply (Qle_trans _ (round 0)); [discriminate|now apply round_mono].
  - apply (Qle_trans _ (round 100)); [now apply round_mono|discriminate].
Qed.

(** The three unrounded components, as the engine computes them. *)
Lemma components_range (input : ScoreInput Q) :
  Forall (fun r => 0 <= weight r) (weightedResults input) ->
  Forall (fun n => 0 <= penalty n) (noiseInstances input) ->
  (0 <= computeFileCoverage (matchResult input) <= 1) /\
  (0 <= computePatternScore (weightedResults input) <= 1) /\
  (0 <= computeNoisePenalty (noiseInstances input) <= 1).
Proof.
  intros Hw Hp.
  rewrite computeFileCoverage_spec, computePatternScore_spec,
    computeNoisePenalty_spec.
  split; [apply fileCoverage_bounds|].
  split; [now apply patternScore_bounds | now apply noisePenalty_bounds].
Qed.

Lemma computeScore_range (input : ScoreInput Q) :
  Forall (fun r => 0 <= weight r) (weightedResults input) ->
  Forall (fun n => 0 <= penalty n) (noiseInstances input) ->
  let s := computeScore input in
  (0 <= overallScore s /\ overallScore s <= 100) /\
  (0 <= fileCoverage s /\ fileCoverage s <= 100) /\
  (0 <= patternScore s /\ patternScore s <= 100) /\
  (0 <= noisePenalty s /\ noisePenalty s <= 100).
Proof.
  intros Hw Hp s.
  destruct (components_range input Hw Hp) as ([F0 F1] & [P0 P1] & [N0 N1]).
  revert F0 F1 P0 P1 N0 N1.
  subst s. unfold computeScore. cbn [overallScore fileCoverage patternScore noisePenalty].
  generalize (computeFileCoverage (matchResult input)) as fc.
  generalize (computePatternScore (weightedResults input)) as ps.
  generalize (computeNoisePenalty (noiseInstances input)) as np.
  intros np ps fc F0 F1 P0 P1 N0 N1.
  change (lit 100 1) with (100 # 1). change (lit 20 100) with (20 # 100).
  change (lit 65 100) with (65 # 100). change (lit 15 100) with (15 # 100).
  change (lit 1 1) with (1 # 1). change add with Qplus. change mul with Qmult.
  change sub with Qminus.
  repeat split; apply round_range; split; nra.
Qed.

(** X1.  When no weight and no penalty is negative, each of the four
    numbers of the score breakdown lies between 0 and 100. *)
Theorem X1_score_range (input : ScoreInput Q) :
  Forall (fun r => 0 <= weight r) (weightedResults input) ->
  Forall (fun n => 0 <= penalty n) (noiseInstances input) ->
  let s := computeScore input in
  (0 <= overallScore s /\ overallScore s <= 100) /\
  (0 <= fileCoverage s /\ fileCoverage s <= 100) /\
  (0 <= patternScore s /\ patternScore s <= 100) /\
  (0 <= noisePenalty s /\ noisePenalty s <= 100).
Proof. exact (computeScore_range input). Qed.

Lemma X1_score_range_witness :
  let input : ScoreInput Q :=
    {| matchResult := Samples.match_result_of 1 1;
       weightedResults :=
         [ {| result := Samples.outcome CORRECT; weight := 3 |};
           {| result := Samples.outcome MISSING; weight := 1 |} ];
       noiseInstances :=
         [ {| type := artifact; file := "f"; line := None; description := "d";
              penalty := 5 # 100 |} ] |} in
  0 <= overallScore (computeScore input) /\ overallScore (computeScore input) <= 100.
Proof.
  intros input.
  apply (X1_score_range input).
  - repeat constructor; discriminate.
  - repeat constructor; discriminate.
Defined.

End EngineRanges.

Section EngineOrder.
Import Engine.
Local Open Scope Q_scope.









(** X3.  Among outcomes of non-negative weight, replacing one graded
    outcome by a graded outcome of the same weight whose status earns at
    least as much credit never lowers the pattern score. *)
Theorem X3_pattern_score_monotone
  (l1 l2 : list (WeightedDetectionResult Q)) (r r' : WeightedDetectionResult Q) :
  Forall (fun x => 0 <= weight x) (l1 ++ l2) ->
  0 <= weight r -> weight r' == weight r ->
  status (result r) <> NOT_APPLICABLE ->
  status (result r') <> NOT_APPLICABLE ->
  default (lit 0 1) (CREDIT (status (result r)))
  <= default (lit 0 1) (CREDIT (status (result r'))) ->
  computePatternScore (l1 ++ r :: l2) <= computePatternScore (l1 ++ r' :: l2).
Proof.
  intros Hw Hr Hrr Hg Hg' Hc.
  rewrite !credit_lookup in Hc.
  rewrite !computePatternScore_spec. unfold SpecWords.patternScore.
  assert (Hgr : SpecWords.graded r = true).
  { unfold SpecWords.graded. now rewrite bool_decide_eq_false_2. }
  assert (Hgr' : SpecWords.graded r' = true).
  { unfold SpecWords.graded. now rewrite bool_decide_eq_false_2. }
  assert (HW : SpecWords.sum_weight (l1 ++ r' :: l2)
               == SpecWords.sum_weight (l1 ++ r :: l2)).
  { rewrite !sum_weight_app. unfold SpecWords.sum_weight at 2 4. simpl.
    rewrite Hgr, Hgr'. simpl. now rewrite Hrr. }
  assert (HC : SpecWords.sum_credit (l1 ++ r :: l2)
               <= SpecWords.sum_credit (l1 ++ r' :: l2)).
  { rewrite !sum_credit_app. unfold SpecWords.sum_credit at 2 4. simpl.
    rewrite Hgr, Hgr'. simpl. rewrite Hrr.
    apply Qplus_le_r. apply Qplus_le_l.
    revert Hr Hc. generalize (weight r), (SpecWords.credit (status (result r))),
      (SpecWords.credit (status (result r'))). intros; nra. }
  assert (HS : 0 <= SpecWords.sum_weight (l1 ++ r :: l2)).
  { apply Forall_app in Hw as [H1 H2].
    destruct (sum_credit_bounds (l1 ++ r :: l2)) as [B0 B1]; [|lra].
    apply Forall_app. split; [exact H1|]. constructor; assumption. }
  rewrite (Qeq_bool_proper _ (SpecWords.sum_weight (l1 ++ r :: l2)) 0 0 HW (Qeq_refl 0)).
  destruct (Qeq_bool (SpecWords.sum_weight (l1 ++ r :: l2)) 0) eqn:E; [lra|].
  apply Qeq_bool_neq in E. rewrite HW.
  unfold Qdiv. apply Qmult_le_compat_r; [exact HC|].
  apply Qinv_le_0_compat. exact HS.
Qed.

Lemma X3_pattern_score_monotone_witness :
  let a : WeightedDetectionResult Q :=
    {| result := Samples.outcome INCORRECT; weight := 2 |} in
  let r : WeightedDetectionResult Q :=
    {| result := Samples.outcome MISSING; weight := 1 |} in
  let r' : WeightedDetectionResult Q :=
    {| result := Samples.outcome CORRECT; weight := 1 |} in
  computePatternScore ([] ++ r :: [a]) <= computePatternScore ([] ++ r' :: [a]).
Proof.
  intros a r r'.
  apply (X3_pattern_score_monotone [] [a] r r').
  - repeat constructor; discriminate.
  - discriminate.
  - reflexivity.
  - discriminate.
  - discriminate.
  - discriminate.
Defined.

(** X4.  Further noise instances of non-negative penalty never lower the
    noise penalty and never raise the overall score; once the penalty has
    reached its cap of 1 they change nothing. *)
Theorem X4_noise_monotone (mr : MatchResult)
  (wr : list (WeightedDetectionResult Q)) (ns more : list (NoiseInstance Q)) :
  Forall (fun n => 0 <= penalty n) more ->
  let s := computeScore {| matchResult := mr; weightedResults := wr;
                           noiseInstances := ns |} in
  let s' := computeScore {| matchResult := mr; weightedResults := wr;
                            noiseInstances := ns ++ more |} in
  computeNoisePenalty ns <= computeNoisePenalty (ns ++ more) /\
  noisePenalty s <= noisePenalty s' /\
  overallScore s' <= overallScore s /\
  (1 <= computeNoisePenalty ns ->
   overallScore s' == overallScore s /\ noisePenalty s' == noisePenalty s).
Proof.
  intros Hm s s'.
  pose proof (sum_penalties_nonneg more Hm) as H0.
  assert (Hle : computeNoisePenalty ns <= computeNoisePenalty (ns ++ more)).
  { rewrite !computeNoisePenalty_spec. unfold SpecWords.noisePenalty.
    rewrite sum_penalties_app. apply Q.min_le_compat_l. lra. }
  assert (Hcap : 1 <= computeNoisePenalty ns ->
                 computeNoisePenalty (ns ++ more) == computeNoisePenalty ns).
  { intros H1. apply Qle_antisym; [|exact Hle].
    apply (Qle_trans _ 1); [|exact H1].
    rewrite computeNoisePenalty_spec. apply noisePenalty_le_1. }
  subst s s'. unfold computeScore.
  cbn [overallScore noisePenalty matchResult weightedResults noiseInstances].
  revert Hle Hcap.
  generalize (computeNoisePenalty (ns ++ more)) as np'.
  generalize (computeNoisePenalty ns) as np.
  generalize (@computeFileCoverage Q _ mr) as fc.
  generalize (computePatternScore wr) as ps.
  intros ps fc np np' Hle Hcap.
  change (lit 100 1) with (100 # 1). change (lit 20 100) with (20 # 100).
  change (lit 65 100) with (65 # 100). change (lit 15 100) with (15 # 100).
  change (lit 1 1) with (1 # 1). change add with Qplus. change mul with Qmult.
  change sub with Qminus.
  split; [exact Hle|]. split; [apply round_mono; lra|].
  split; [apply round_mono; lra|].
  intros H1. specialize (Hcap H1).
  split; apply round_proper; rewrite Hcap; reflexivity.
Qed.

Lemma X4_noise_monotone_witness :
  let n : NoiseInstance Q :=
    {| type := artifact; file := "f"; line := Some 3%Z; description := "d";
       penalty := 5 # 100 |} in
  computeNoisePenalty [n] <= computeNoisePenalty ([n] ++ [n; n]).
Proof.
  intros n.
  apply (X4_noise_monotone (Samples.match_result_of 1 0) [] [n] [n; n]).
  repeat constructor; discriminate.
Defined.

Lemma all_correct_sums (l : list (WeightedDetectionResult Q)) :
  Forall (fun r => status (result r) = CORRECT
                   \/ status (result r) = NOT_APPLICABLE) l ->
  SpecWords.sum_credit l == SpecWords.sum_weight l.
Proof.
  unfold SpecWords.sum_credit, SpecWords.sum_weight.
  induction 1 as [|r l Hr _ IH]; simpl; [reflexivity|].
  destruct Hr as [Hr|Hr].
  - assert (Hg : SpecWords.graded r = true)
      by (unfold SpecWords.graded; now rewrite Hr).
    rewrite Hg. simpl. rewrite Hr, IH. simpl. ring.
  - assert (Hg : SpecWords.graded r = false)
      by (unfold SpecWords.graded; now rewrite Hr).
    rewrite Hg. exact IH.
Qed.

Lemma none_graded_sums (l : list (WeightedDetectionResult Q)) :
  Forall (fun r => status (result r) = NOT_APPLICABLE) l ->
  SpecWords.sum_weight l == 0.
Proof.
  unfold SpecWords.sum_weight.
  induction 1 as [|r l Hr _ IH]; simpl; [reflexivity|].
  assert (Hg : SpecWords.graded r = false)
    by (unfold SpecWords.graded; now rewrite Hr).
  rewrite Hg. exact IH.
Qed.

(** X5.  The two ends of the scale, for an input without noise.  When no
    golden file is missed and every outcome is CORRECT or NOT_APPLICABLE
    the overall score, the coverage and the pattern score are 100.  When
    no golden file is matched, one at least is missed and every outcome is
    NOT_APPLICABLE (no detector applies), the coverage is 0, the pattern
    score is still 100 and the overall score is 80. *)
Theorem X5_extreme_scores (mr : MatchResult)
  (wr : list (WeightedDetectionResult Q)) :
  let s := computeScore {| matchResult := mr; weightedResults := wr;
                           noiseInstances := [] |} in
  (missedFiles mr = [] ->
   Forall (fun r => status (result r) = CORRECT
                    \/ status (result r) = NOT_APPLICABLE) wr ->
   overallScore s == 100 /\ fileCoverage s == 100 /\
   patternScore s == 100 /\ noisePenalty s == 0) /\
  (matched mr = [] -> missedFiles mr <> [] ->
   Forall (fun r => status (result r) = NOT_APPLICABLE) wr ->
   overallScore s == 80 /\ fileCoverage s == 0 /\
   patternScore s == 100 /\ noisePenalty s == 0).
Proof.
  intros s. split.
  - intros Hmiss Hall.
    assert (Hf : computeFileCoverage mr == 1).
    { rewrite computeFileCoverage_spec. unfold SpecWords.fileCoverage.
      rewrite Hmiss. simpl. rewrite Nat.add_0_r.
      destruct (length (matched mr)) as [|k] eqn:E; [reflexivity|].
      simpl Nat.eqb. cbv iota. apply Qmult_inv_r.
      change 0 with (inject_Z 0). rewrite inject_Z_injective. lia. }
    assert (Hp : computePatternScore wr == 1).
    { rewrite computePatternScore_spec. unfold SpecWords.patternScore.
      destruct (Qeq_bool (SpecWords.sum_weight wr) 0) eqn:E; [reflexivity|].
      apply Qeq_bool_neq in E. rewrite (all_correct_sums wr Hall).
      now apply Qmult_inv_r. }
    subst s. unfold computeScore.
    cbn [overallScore fileCoverage patternScore noisePenalty matchResult
         weightedResults noiseInstances].
    revert Hf Hp.
    generalize (@computeFileCoverage Q _ mr) as fc.
    generalize (computePatternScore wr) as ps. intros ps fc Hf Hp.
    change (computeNoisePenalty []) with (Qmin 1 0).
    change (lit 100 1) with (100 # 1). change (lit 20 100) with (20 # 100).
    change (lit 65 100) with (65 # 100). change (lit 15 100) with (15 # 100).
    change (lit 1 1) with (1 # 1). change add with Qplus. change mul with Qmult.
    change sub with Qminus.
    repeat split.
    + rewrite (round_proper _ 100); [reflexivity|].
      rewrite Hf, Hp. reflexivity.
    + rewrite (round_proper _ 100); [reflexivity|]. rewrite Hf. reflexivity.
    + rewrite (round_proper _ 100); [reflexivity|]. rewrite Hp. reflexivity.
  - intros Hmat Hmiss Hall.
    assert (Hf : computeFileCoverage mr == 0).
    { rewrite computeFileCoverage_spec. unfold SpecWords.fileCoverage.
      rewrite Hmat. simpl.
      destruct (missedFiles mr) as [|m l]; [congruence|]. reflexivity. }
    assert (Hp : computePatternScore wr == 1).
    { rewrite computePatternScore_spec. unfold SpecWords.patternScore.
      pose proof (none_graded_sums wr Hall) as Hz.
      apply Qeq_bool_iff in Hz. now rewrite Hz. }
    subst s. unfold computeScore.
    cbn [overallScore fileCoverage patternScore noisePenalty matchResult
         weightedResults noiseInstances].
    revert Hf Hp.
    generalize (@computeFileCoverage Q _ mr) as fc.
    generalize (computePatternScore wr) as ps. intros ps fc Hf Hp.
    change (computeNoisePenalty []) with (Qmin 1 0).
    change (lit 100 1) with (100 # 1). change (lit 20 100) with (20 # 100).
    change (lit 65 100) with (65 # 100). change (lit 15 100) with (15 # 100).
    change (lit 1 1) with (1 # 1). change add with Qplus. change mul with Qmult.
    change sub with Qminus.
    repeat split.
    + rewrite (round_proper _ 80); [reflexivity|].
      rewrite Hf, Hp. reflexivity.
    + rewrite (round_proper _ 0); [reflexivity|]. rewrite Hf. reflexivity.
    + rewrite (round_proper _ 100); [reflexivity|]. rewrite Hp. reflexivity.
Qed.

Lemma X5_extreme_scores_witness :
  overallScore
    (computeScore
       {| matchResult := Samples.match_result_of 0 2;
          weightedResults :=
            [ {| result := Samples.outcome NOT_APPLICABLE; weight := 1 |} ];
          noiseInstances := [] |})
  == 80.
Proof.
  apply (proj2 (X5_extreme_scores
                  (Samples.match_result_of 0 2)
                  [ {| result := Samples.outcome NOT_APPLICABLE; weight := 1 |} ])).
  - reflexivity.
  - discriminate.
  - repeat constructor.
Defined.

End EngineOrder.

(** ** The diff parser: chunks *)

Section ParserChunks.
Import JsString DiffParser ParserSpec ChunkSpec.
Local Open Scope string_scope.
Local Open Scope list_scope.

Lemma split_nonempty (sep : ascii) (s : string) : split sep s <> [].
Proof.
  destruct s as [|c s]; cbn [split]; [done|].
  destruct (Ascii.eqb c sep); [done|]. destruct (split sep s); done.
Qed.

(** [split] then [join] gives the string back. *)
Lemma join_split (s : string) : join nl (split LF s) = s.
Proof.
  unfold join. induction s as [|c s IH]; [reflexivity|].
  cbn [split]. pose proof (split_nonempty LF s) as Hne.
  destruct (Ascii.eqb c LF) eqn:E.
  - apply Ascii.eqb_eq in E. subst c.
    destruct (split LF s) as [|h t]; [done|].
    change (String.concat nl ("" :: h :: t))
      with (String LF (String.concat nl (h :: t))).
    now rewrite IH.
  - destruct (split LF s) as [|h t]; [done|].
    destruct t as [|h' t].
    + cbn [String.concat] in *. now rewrite IH.
    + change (String.concat nl (String c h :: h' :: t))
        with (String c (String.concat nl (h :: h' :: t))).
      now rewrite IH.
Qed.

Lemma split_single_line (s : string) :
  Forall (fun l => single_line l = true) (split LF s).
Proof.
  induction s as [|c s IH]; cbn [split].
  - now constructor.
  - destruct (Ascii.eqb c LF) eqn:E.
    + now constructor.
    + destruct (split LF s) as [|h t].
      * constructor; [|constructor]. unfold single_line. cbn. now rewrite E.
      * inversion IH; subst. constructor; [|assumption].
        unfold single_line in *. cbn. now rewrite E.
Qed.

Lemma split_of_single (a : string) : single_line a = true -> split LF a = [a].
Proof.
  unfold single_line. induction a as [|c a IH]; [reflexivity|].
  cbn. intros H. apply andb_prop in H as [Hc Ha].
  apply negb_true_iff in Hc. rewrite Hc. now rewrite (IH Ha).
Qed.

Lemma split_app_LF (a b : string) :
  single_line a = true ->
  split LF (String.append a (String LF b)) = a :: split LF b.
Proof.
  unfold single_line. induction a as [|c a IH]; intros H.
  - cbn. reflexivity.
  - cbn in H. apply andb_prop in H as [Hc Ha].
    apply negb_true_iff in Hc.
    change (String.append (String c a) (String LF b))
      with (String c (String.append a (String LF b))).
    cbn [split]. rewrite Hc. now rewrite (IH Ha).
Qed.

(** [join] then [split] gives the lines back. *)
Lemma split_join (ls : list string) :
  ls <> [] -> Forall (fun l => single_line l = true) ls ->
  split LF (join nl ls) = ls.
Proof.
  unfold join. induction ls as [|x ls IH]; [done|]. intros _ H.
  inversion H as [|? ? Hx Hls]; subst.
  destruct ls as [|y r].
  - cbn [String.concat]. now apply split_of_single.
  - change (String.concat nl (x :: y :: r))
      with (String.append x (String LF (String.concat nl (y :: r)))).
    rewrite split_app_LF by exact Hx. f_equal. now apply IH.
Qed.

Lemma append_assoc (a b c : string) :
  String.append (String.append a b) c = String.append a (String.append b c).
Proof.
  induction a as [|x a IH]; [reflexivity|].
  change (String x (String.append (String.append a b) c)
          = String x (String.append a (String.append b c))).
  now rewrite IH.
Qed.

Lemma join_app (a b : list string) :
  a <> [] -> b <> [] ->
  join nl (a ++ b) = String.append (join nl a) (String LF (join nl b)).
Proof.
  unfold join. induction a as [|x a IH]; [done|]. intros _ Hb.
  destruct a as [|y a].
  - destruct b as [|z b]; [done|]. reflexivity.
  - change (String.concat nl ((x :: y :: a) ++ b))
      with (String.append x (String LF (String.concat nl ((y :: a) ++ b)))).
    rewrite IH by done.
    change (String.concat nl (x :: y :: a))
      with (String.append x (String LF (String.concat nl (y :: a)))).
    rewrite append_assoc. reflexivity.
Qed.

Lemma join_concat (runs : list (list string)) :
  Forall (fun g => g <> []) runs ->
  join nl (map (join nl) runs) = join nl (concat runs).
Proof.
  induction 1 as [|g runs Hg Hr IH]; [reflexivity|].
  destruct runs as [|g' runs].
  - cbn. now rewrite app_nil_r.
  - assert (Hne : concat (g' :: runs) <> []).
    { inversion Hr; subst. destruct g'; [done|]. done. }
    cbn [concat map] in *. rewrite join_app by done. rewrite <- IH.
    reflexivity.
Qed.

(** The loop of [splitIntoFileChunks] cuts the lines into runs. *)
Lemma chunk_fold_runs (ls : list string) :
  Forall (fun l => single_line l = true) ls ->
  exists runs cur,
    fold_left chunk_step ls ([], []) = (map (join nl) runs, cur) /\
    concat runs ++ cur = ls /\
    runs_ok (runs ++ (if decide (cur = []) then [] else [cur])) /\
    (ls <> [] -> cur <> []).
Proof.
  induction ls as [|line ls IH] using rev_ind; intros Hs.
  - exists [], []. repeat split; try done; constructor.
  - apply Forall_app in Hs as [Hs Hl]. inversion Hl as [|? ? Hline _]; subst.
    destruct (IH Hs) as (runs & cur & Hf & Hc & (Hne & Htl & Hhd) & Hcur).
    rewrite fold_left_app, Hf. cbn [fold_left]. unfold chunk_step.
    fold (is_git_header line).
    destruct (is_git_header line && (0 <? length cur)%nat) eqn:E.
    + apply andb_prop in E as [Eh Ec]. apply Nat.ltb_lt in Ec.
      assert (Hcn : cur <> []) by (destruct cur; [cbn in Ec; lia|done]).
      rewrite decide_False in Hne, Htl, Hhd by exact Hcn.
      exists (runs ++ [cur]), [line]. split; [|split; [|split]].
      * now rewrite map_app.
      * rewrite concat_app. cbn [concat]. now rewrite app_nil_r, Hc.
      * rewrite decide_False by done. split; [|split].
        -- apply Forall_app. split; [exact Hne|]. now repeat constructor.
        -- apply Forall_app. split; [exact Htl|]. now repeat constructor.
        -- destruct (runs ++ [cur]) as [|g0 rest] eqn:Er.
           { destruct runs; discriminate. }
           cbn [tail app] in *. apply Forall_app. split; [exact Hhd|].
           constructor; [exact Eh|constructor].
      * done.
    + exists runs, (cur ++ [line]). split; [|split; [|split]].
      * reflexivity.
      * now rewrite app_assoc, Hc.
      * rewrite decide_False by (destruct cur; done).
        destruct (decide (cur = [])) as [->|Hcn].
        -- rewrite app_nil_r in Hne, Htl, Hhd. cbn [app].
           split; [|split].
           ++ apply Forall_app. split; [exact Hne|]. now repeat constructor.
           ++ apply Forall_app. split; [exact Htl|]. now repeat constructor.
           ++ assert (runs = []) as ->.
              { destruct ls as [|l0 ls]; [|now specialize (Hcur ltac:(done))].
                rewrite app_nil_r in Hc. destruct runs as [|g runs]; [done|].
                inversion Hne; subst. destruct g; [done|discriminate]. }
              constructor.
        -- apply Forall_app in Hne as [Hne _]. apply Forall_app in Htl as [Htl Htc].
           inversion Htc as [|? ? Htc' _]; subst.
           assert (Eh : is_git_header line = false).
           { destruct (is_git_header line); [|done].
             destruct cur; [done|discriminate E]. }
           split; [|split].
           ++ apply Forall_app. split; [exact Hne|].
              constructor; [destruct cur; done|constructor].
           ++ apply Forall_app. split; [exact Htl|]. constructor; [|constructor].
              destruct cur as [|c0 cur]; [done|]. cbn [tail app] in *.
              rewrite forallb_app, Htc'. cbn. now rewrite Eh.
           ++ destruct runs as [|g0 rest]; [constructor|].
              cbn [tail app] in *. apply Forall_app in Hhd as [Hhd Hhc].
              apply Forall_app. split; [exact Hhd|].
              inversion Hhc; subst. constructor; [|constructor].
              destruct cur; [done|]. assumption.
      * destruct cur; done.
Qed.

(** The chunks of a text are the runs of its lines. *)
Lemma splitIntoFileChunks_runs (text : string) :
  exists runs,
    splitIntoFileChunks text = map (join nl) runs /\
    concat runs = split LF text /\ runs_ok runs /\
    Forall (Forall (fun l => single_line l = true)) runs.
Proof.
  unfold splitIntoFileChunks.
  destruct (chunk_fold_runs (split LF text) (split_single_line text))
    as (runs & cur & Hf & Hc & Hok & Hcur).
  rewrite Hf. specialize (Hcur (split_nonempty LF text)).
  rewrite decide_False in Hok by exact Hcur.
  assert (E : (0 <? length cur)%nat = true).
  { apply Nat.ltb_lt. destruct cur; [done|cbn; lia]. }
  rewrite E. exists (runs ++ [cur]). split; [|split; [|split]].
  - now rewrite map_app.
  - rewrite concat_app. cbn. now rewrite app_nil_r.
  - exact Hok.
  - pose proof (split_single_line text) as Hs. rewrite <- Hc in Hs.
    apply Forall_app in Hs as [Hs1 Hs2].
    apply Forall_app. split; [|now repeat constructor].
    clear -Hs1. induction runs as [|g runs IH]; [constructor|].
    cbn in Hs1. apply Forall_app in Hs1 as [H1 H2].
    constructor; [exact H1|now apply IH].
Qed.

End ParserChunks.

(** ** The diff parser: what the chunks give *)

Section ParserRecords.
Import JsString DiffParser ParserSpec ChunkSpec.
Local Open Scope string_scope.
Local Open Scope list_scope.

Lemma run_member (runs : list (list string)) (g : list string) (l : string) :
  In g runs -> In l g -> In l (concat runs).
Proof.
  intros Hg Hl. apply in_concat. exists g. now split.
Qed.

Lemma find_existsb {A : Type} (f : A -> bool) (l : list A) :
  is_Some (List.find f l) <-> existsb f l = true.
Proof.
  induction l as [|a l IH]; cbn.
  - split; [intros [x Hx]; discriminate|discriminate].
  - destruct (f a); cbn; [split; eauto|exact IH].
Qed.

(** A chunk gives a record exactly when one of its lines is a file
    header. *)
Lemma parseFileChunk_is_Some (chunk : string) :
  is_Some (parseFileChunk chunk)
  <-> existsb is_git_header (split LF chunk) = true.
Proof.
  rewrite <- find_existsb. unfold parseFileChunk, is_git_header.
  destruct (List.find (fun l => startsWith l "diff --git ") (split LF chunk))
    as [gitDiffLine|].
  - split; [eauto|intros _]. repeat case_match; eauto.
  - split; intros [x Hx]; discriminate.
Qed.

Lemma parseDiff_fold_length (chunks : list string) :
  forall acc : list FileDiff,
    length (fold_left
              (fun files chunk =>
                 match parseFileChunk chunk with
                 | Some fileDiff => files ++ [fileDiff]
                 | None => files
                 end) chunks acc)
    = (length acc
       + length (List.filter
                   (fun c => existsb is_git_header (split LF c)) chunks))%nat.
Proof.
  induction chunks as [|c chunks IH]; intros acc; cbn [fold_left List.filter].
  - cbn [length]. lia.
  - rewrite IH. pose proof (parseFileChunk_is_Some c) as Hc.
    destruct (parseFileChunk c) as [fd|].
    + rewrite (proj1 Hc) by eauto. rewrite length_app. cbn [length]. lia.
    + destruct (existsb is_git_header (split LF c)); [|lia].
      destruct (proj2 Hc eq_refl) as [x Hx]. discriminate.
Qed.

(** A run holds a file header exactly when it begins with one, and then
    holds one only. *)
Lemma run_headers (g : list string) :
  forallb (fun l => negb (is_git_header l)) (tail g) = true ->
  length (List.filter is_git_header g)
  = if existsb is_git_header g then 1%nat else 0%nat.
Proof.
  destruct g as [|h t]; [reflexivity|]. cbn [tail]. intros Ht.
  assert (Hf : List.filter is_git_header t = [] /\ existsb is_git_header t = false).
  { induction t as [|a t IH]; [done|]. cbn in Ht.
    apply andb_prop in Ht as [Ha Ht]. apply negb_true_iff in Ha.
    cbn. rewrite Ha. now apply IH. }
  destruct Hf as [Hf He]. cbn. rewrite Hf, He.
  destruct (is_git_header h); reflexivity.
Qed.

Lemma runs_count (runs : list (list string)) :
  runs_ok runs ->
  Forall (Forall (fun l => single_line l = true)) runs ->
  length (List.filter (fun c => existsb is_git_header (split LF c))
                      (map (join nl) runs))
  = length (List.filter is_git_header (concat runs)).
Proof.
  intros (Hne & Htl & _) Hs.
  induction runs as [|g runs IH]; [reflexivity|].
  inversion Hne; inversion Htl; inversion Hs; subst.
  cbn [map concat List.filter].
  rewrite split_join by assumption.
  rewrite List.filter_app, length_app, run_headers by assumption.
  rewrite <- IH by assumption.
  destruct (existsb is_git_header g); reflexivity.
Qed.

(** *** Blank texts *)

Lemma trim_blank (s : string) : trim s = "" <-> blank s = true.
Proof.
  unfold trim, blank. induction s as [|c s IH]; [done|].
  cbn [trimStart list_ascii_of_string forallb].
  destruct (is_whitespace c) eqn:E; [exact IH|].
  cbn [trimEnd andb]. split; [|discriminate].
  destruct (trimEnd s); [rewrite E|]; discriminate.
Qed.

Lemma blank_lines (s : string) :
  blank s = true -> Forall (fun l => blank l = true) (split LF s).
Proof.
  unfold blank. induction s as [|c s IH]; cbn; intros H.
  - now constructor.
  - apply andb_prop in H as [Hc Hs]. specialize (IH Hs).
    destruct (Ascii.eqb c LF).
    + now constructor.
    + destruct (split LF s) as [|h t].
      * constructor; [|constructor]. cbn. now rewrite Hc.
      * inversion IH; subst. constructor; [|assumption]. cbn. now rewrite Hc.
Qed.

Lemma blank_no_header (l : string) :
  blank l = true -> is_git_header l = false.
Proof.
  unfold blank, is_git_header. destruct l as [|c l]; [reflexivity|].
  cbn [list_ascii_of_string forallb]. intros H. apply andb_prop in H as [Hc _].
  rewrite startsWith_String. destruct (Ascii.eqb "d" c) eqn:E; [|reflexivity].
  apply Ascii.eqb_eq in E. subst c. discriminate Hc.
Qed.

(** X6.  The chunks into which the parser cuts a text lose nothing and
    begin where the files begin: joined again by line feeds they give the
    text back, their lines are the lines of the text in the same order,
    every chunk after the first begins with a file header
    [diff --git ...], and no chunk holds a file header after its first
    line. *)
Theorem X6_chunks_partition_text (text : string) :
  let chunks := splitIntoFileChunks text in
  join nl chunks = text /\
  flat_map (split LF) chunks = split LF text /\
  Forall (fun chunk => is_git_header (hd "" (split LF chunk)) = true)
         (tail chunks) /\
  Forall (fun chunk =>
            forallb (fun l => negb (is_git_header l)) (tail (split LF chunk))
            = true) chunks.
Proof.
  cbn zeta.
  destruct (splitIntoFileChunks_runs text) as (runs & -> & Hc & Hok & Hs).
  pose proof Hok as (Hne & Htl & Hhd).
  assert (Hsplit : Forall (fun g => split LF (join nl g) = g) runs).
  { clear -Hne Hs. induction runs as [|g runs IH]; [constructor|].
    inversion Hne; inversion Hs; subst.
    constructor; [now apply split_join|now apply IH]. }
  split; [|split; [|split]].
  - rewrite join_concat by exact Hne. rewrite Hc. apply join_split.
  - rewrite <- Hc. clear -Hsplit.
    induction Hsplit as [|g runs Hg _ IH]; [reflexivity|].
    cbn [map flat_map concat]. now rewrite Hg, IH.
  - destruct runs as [|g0 runs]; [constructor|]. cbn [map tail] in *.
    inversion Hsplit as [|? ? _ Hsp]; subst. clear -Hhd Hsp.
    induction runs as [|g runs IH]; [constructor|].
    inversion Hhd; inversion Hsp; subst. cbn [map].
    constructor; [congruence|now apply IH].
  - clear -Htl Hsplit. induction runs as [|g runs IH]; [constructor|].
    inversion Htl; inversion Hsplit; subst. cbn [map].
    constructor; [congruence|now apply IH].
Qed.

(** X7.  The parser gives one record for each file header of the text:
    the number of records is the number of lines that begin with
    [diff --git ].  A text with no such line, and so a text that is empty
    or blank, gives no record. *)
Theorem X7_records_count (text : string) :
  length (parseDiff text)
  = length (List.filter is_git_header (split LF text)) /\
  (List.filter is_git_header (split LF text) = [] -> parseDiff text = []) /\
  (blank text = true -> parseDiff text = []).
Proof.
  assert (Hlen : length (parseDiff text)
                 = length (List.filter is_git_header (split LF text))).
  { unfold parseDiff. destruct (String.eqb (trim text) "") eqn:E.
    - apply String.eqb_eq, trim_blank, blank_lines in E.
      induction E as [|l ls Hl _ IH]; [reflexivity|].
      cbn [List.filter]. now rewrite (blank_no_header l Hl).
    - rewrite parseDiff_fold_length.
      destruct (splitIntoFileChunks_runs text) as (runs & -> & Hc & Hok & Hs).
      rewrite runs_count by assumption. now rewrite Hc. }
  split; [exact Hlen|]. split.
  - intros Hn. rewrite Hn in Hlen. now destruct (parseDiff text).
  - intros Hb. unfold parseDiff.
    apply trim_blank in Hb. now rewrite Hb.
Qed.

Lemma X7_records_count_witness :
  blank (String " " nl) = true /\ parseDiff (String " " nl) = [].
Proof.
  split; [reflexivity|].
  apply (proj2 (proj2 (X7_records_count (String " " nl)))). reflexivity.
Defined.

(** *** Where the entries come from *)

Lemma guarded_step_entries (ls : list string) (st st' : scan_state)
  (line : string) :
  st' = guarded_step st line ->
  (forall l, In l (snd (fst st)) -> In (String "+" (content l)) ls) ->
  (forall l, In l (snd st) -> In (String "-" (content l)) ls) ->
  In line ls ->
  (forall l, In l (snd (fst st')) -> In (String "+" (content l)) ls) /\
  (forall l, In l (snd st') -> In (String "-" (content l)) ls).
Proof.
  intros -> HA HR Hl. destruct st as [[counters A] R]. cbn [fst snd] in HA, HR.
  unfold guarded_step.
  destruct (hunkMatch line) as [[[[g1 g2] g3] g4]|]; [now split|].
  destruct counters as [[o n]|]; [|now split].
  destruct (String.eqb line no_newline_marker); [now split|].
  destruct (startsWith line "+" && negb (startsWith line "+++")) eqn:Ep.
  { apply andb_prop in Ep as [Ep _]. cbn [fst snd]. split; [|exact HR].
    intros l Hin. apply in_app_or in Hin as [Hin|[<-|[]]]; [now apply HA|].
    destruct line as [|c s]; [discriminate Ep|].
    rewrite startsWith_String, startsWith_empty, andb_true_r in Ep.
    apply Ascii.eqb_eq in Ep. subst c. exact Hl. }
  destruct (startsWith line "-" && negb (startsWith line "---")) eqn:Em.
  { apply andb_prop in Em as [Em _]. cbn [fst snd]. split; [exact HA|].
    intros l Hin. apply in_app_or in Hin as [Hin|[<-|[]]]; [now apply HR|].
    destruct line as [|c s]; [discriminate Em|].
    rewrite startsWith_String, startsWith_empty, andb_true_r in Em.
    apply Ascii.eqb_eq in Em. subst c. exact Hl. }
  destruct (startsWith line " "); now split.
Qed.

Lemma guarded_scan_entries (ls : list string) :
  (forall l, In l (snd (fst (guarded_scan ls))) -> In (String "+" (content l)) ls) /\
  (forall l, In l (snd (guarded_scan ls)) -> In (String "-" (content l)) ls).
Proof.
  unfold guarded_scan.
  assert (G : forall pre post st,
    pre ++ post = ls ->
    (forall l, In l (snd (fst st)) -> In (String "+" (content l)) ls) ->
    (forall l, In l (snd st) -> In (String "-" (content l)) ls) ->
    (forall l, In l (snd (fst (fold_left guarded_step post st))) ->
               In (String "+" (content l)) ls) /\
    (forall l, In l (snd (fold_left guarded_step post st)) ->
               In (String "-" (content l)) ls)).
  { intros pre post. revert pre.
    induction post as [|line post IH]; intros pre st Hs HA HR; [now split|].
    cbn [fold_left].
    destruct (guarded_step_entries ls st (guarded_step st line) line eq_refl HA HR)
      as [HA' HR'].
    { rewrite <- Hs. apply in_or_app. right. now left. }
    apply (IH (pre ++ [line])); [|exact HA'|exact HR'].
    now rewrite <- app_assoc. }
  apply (G [] ls); [reflexivity| |]; intros l [].
Qed.

(** X8.  The parser invents no line: in every record it gives, each
    added-line entry is the text, after its plus sign, of a line of the
    diff that begins with a plus sign, and each removed-line entry the
    text, after its minus sign, of a line that begins with a minus
    sign. *)
Theorem X8_entries_from_text (text : string) (fd : FileDiff) :
  In fd (parseDiff text) ->
  (forall l : DiffLine,
     In l (addedLines fd) -> In (String "+" (content l)) (split LF text)) /\
  (forall l : DiffLine,
     In l (removedLines fd) -> In (String "-" (content l)) (split LF text)).
Proof.
  intros Hfd. apply parseDiff_chunks in Hfd as (chunk & Hchunk & Hp).
  destruct (parseFileChunk_lines chunk fd Hp) as (Hlines & Hh & Hb).
  destruct (isBinary fd) eqn:Ebin.
  - rewrite (Hb eq_refl) in Hlines. cbn in Hlines.
    injection Hlines as -> ->. split; intros l [].
  - rewrite (Hh eq_refl), extractLines_parseHunks in Hlines.
    injection Hlines as -> ->.
    destruct (guarded_scan_entries (split LF chunk)) as [HA HR].
    assert (Hsub : forall l, In l (split LF chunk) -> In l (split LF text)).
    { destruct (splitIntoFileChunks_runs text) as (runs & Hr & Hc & Hok & Hs).
      rewrite Hr in Hchunk. apply in_map_iff in Hchunk as (g & <- & Hg).
      destruct Hok as (Hne & _ & _).
      rewrite Forall_forall in Hne, Hs.
      rewrite split_join; [|apply Hne, list_elem_of_In, Hg
                            |apply Hs, list_elem_of_In, Hg].
      intros l Hl. rewrite <- Hc. now apply (run_member runs g). }
    split; intros l Hl; apply Hsub; [now apply HA|now apply HR].
Qed.

Lemma X8_entries_from_text_witness :
  In recordA (parseDiff scenarioA) /\ In "+new" (split LF scenarioA).
Proof.
  assert (H : In recordA (parseDiff scenarioA)) by (vm_compute; now left).
  split; [exact H|].
  exact (proj1 (X8_entries_from_text scenarioA recordA H)
               {| lineNumber := 1; content := "new" |} (or_introl eq_refl)).
Defined.

End ParserRecords.

(** ** The file matcher: pairs, accounting and extreme inputs *)

Section MatcherExtras.
Import Engine FileMatcher MatcherSpec Samples.
Local Open Scope list_scope.

(** The record the map holds for a path is the last record of that path. *)
Lemma buildMigrationMap_last (l : list FileDiff) (p : string) (m : FileDiff) :
  buildMigrationMap l !! p = Some m ->
  exists l1 l2, l = l1 ++ m :: l2 /\ path_of m = p /\
                Forall (fun r => path_of r <> p) l2.
Proof.
  induction l as [|x l IH] using rev_ind.
  - unfold buildMigrationMap. cbn. rewrite lookup_empty. discriminate.
  - rewrite buildMigrationMap_snoc. destruct (decide (path_of x = p)) as [E|E].
    + rewrite E, lookup_insert_eq. intros [= <-].
      exists l, []. repeat split; [exact E|constructor].
    + rewrite lookup_insert_ne by exact E. intros H.
      destruct (IH H) as (l1 & l2 & -> & Hp & Hl2).
      exists l1, (l2 ++ [x]). split; [now rewrite <- app_assoc|].
      split; [exact Hp|]. apply Forall_app. split; [exact Hl2|].
      now repeat constructor.
Qed.

Lemma sublist_List_filter {A : Type} (f : A -> bool) (l : list A) :
  List.filter f l `sublist_of` l.
Proof.
  induction l as [|a l IH]; cbn; [constructor|].
  destruct (f a); now constructor.
Qed.

Lemma matched_goldens_of (M : gmap string FileDiff) (gs : list FileDiff) :
  map golden (matched_of M gs)
  = List.filter (fun g => bool_decide (is_Some (M !! path_of g))) gs.
Proof.
  unfold matched_of. induction gs as [|g gs IH]; [reflexivity|].
  cbn [flat_map List.filter]. rewrite map_app, IH.
  destruct (M !! path_of g) as [m|].
  - rewrite (bool_decide_eq_true_2 (is_Some (Some m))) by eauto. reflexivity.
  - rewrite (bool_decide_eq_false_2 (is_Some None)) by (intros [? ?]; discriminate).
    reflexivity.
Qed.

Lemma partition_perm {A : Type} (f g : A -> bool) (l : list A) :
  (forall a, g a = negb (f a)) ->
  Permutation (List.filter f l ++ List.filter g l) l /\
  (length (List.filter f l) + length (List.filter g l) = length l)%nat.
Proof.
  intros Hfg. induction l as [|a l [IH1 IH2]]; cbn [List.filter].
  - split; [constructor|reflexivity].
  - rewrite Hfg. destruct (f a); cbn [negb app length].
    + split; [now constructor|lia].
    + split; [|lia]. apply Permutation_sym, Permutation_cons_app.
      now apply Permutation_sym.
Qed.

(** X9.  The two records of a matched pair come from the two lists, are
    not excluded and have the same normalized path; and the candidate
    record of the pair is the last candidate record, among those not
    excluded, that has this path. *)
Theorem X9_matched_pairs (goldenDiffs migrationDiffs : list FileDiff)
  (p : MatchedPair) :
  In p (matched (matchFiles goldenDiffs migrationDiffs)) ->
  In (golden p) goldenDiffs /\ In (migration p) migrationDiffs /\
  isExcluded (filePath (golden p)) = false /\
  isExcluded (filePath (migration p)) = false /\
  normalizePath (filePath (golden p)) = normalizePath (filePath (migration p)) /\
  exists l1 l2 : list FileDiff,
    kept_records migrationDiffs = l1 ++ migration p :: l2 /\
    Forall (fun r => normalizePath (filePath r)
                     <> normalizePath (filePath (migration p))) l2.
Proof.
  rewrite matchFiles_eq. cbn [matched]. rewrite in_matched_of.
  intros [Hg HM]. apply in_kept_records in Hg as [Hg Hgx].
  destruct (buildMigrationMap_last _ _ _ HM) as (l1 & l2 & Hl & Hp & Hl2).
  assert (Hm : In (migration p) (kept_records migrationDiffs)).
  { rewrite Hl. apply in_or_app. right. now left. }
  apply in_kept_records in Hm as [Hm Hmx].
  repeat split; try assumption.
  - symmetry. exact Hp.
  - exists l1, l2. split; [exact Hl|].
    eapply Forall_impl; [exact Hl2|]. intros r Hr. cbn in Hr.
    unfold path_of in *. congruence.
Qed.

Lemma X9_matched_pairs_witness :
  let p := {| golden := file_of "foo.ts"; migration := file_of "foo.ts" |} in
  normalizePath (filePath (golden p)) = normalizePath (filePath (migration p)).
Proof.
  intros p.
  assert (H : In p (matched (matchFiles golden_foo candidates_foo)))
    by (vm_compute; now left).
  exact (proj1 (proj2 (proj2 (proj2 (proj2
           (X9_matched_pairs golden_foo candidates_foo p H)))))).
Defined.

(** X10.  Every golden record that is not excluded is counted once: the
    matched golden records and the missed records are sublists of the
    golden list (the order of the list is kept), together they are the
    records that are not excluded, and the numbers of matched pairs and of
    missed records add up to the number of those records.  The extra
    records are a sublist of the candidate list. *)
Theorem X10_golden_accounting (goldenDiffs migrationDiffs : list FileDiff) :
  let mr := matchFiles goldenDiffs migrationDiffs in
  (length (matched mr) + length (missedFiles mr)
   = length (kept_records goldenDiffs))%nat /\
  Permutation (matched_goldens mr ++ missedFiles mr) (kept_records goldenDiffs) /\
  matched_goldens mr `sublist_of` goldenDiffs /\
  missedFiles mr `sublist_of` goldenDiffs /\
  extraFiles mr `sublist_of` migrationDiffs.
Proof.
  cbn zeta. rewrite matchFiles_eq. unfold matched_goldens.
  cbn [matched missedFiles extraFiles].
  set (M := buildMigrationMap (kept_records migrationDiffs)).
  rewrite <- (length_map golden), matched_goldens_of. unfold missed_of.
  destruct (partition_perm
              (fun g => bool_decide (is_Some (M !! path_of g)))
              (fun g => bool_decide (M !! path_of g = None))
              (kept_records goldenDiffs)) as [HP HL].
  { intros g. destruct (M !! path_of g) as [m|].
    - rewrite (bool_decide_eq_true_2 (is_Some (Some m))) by eauto.
      now rewrite bool_decide_eq_false_2 by discriminate.
    - rewrite (bool_decide_eq_false_2 (is_Some None)) by (intros [? ?]; discriminate).
      now rewrite bool_decide_eq_true_2. }
  split; [exact HL|]. split; [exact HP|].
  split; [|split].
  - etrans; [apply sublist_List_filter|apply sublist_List_filter].
  - etrans; [apply sublist_List_filter|apply sublist_List_filter].
  - etrans; [apply sublist_List_filter|apply sublist_List_filter].
Qed.

(** X11.  A diff measured against itself misses nothing and has nothing
    in excess: every record that is not excluded is matched, in the order
    of the list, no record is missed or extra, and the coverage is 1. *)
Theorem X11_self_match (diffs : list FileDiff) :
  let mr := matchFiles diffs diffs in
  matched_goldens mr = kept_records diffs /\
  missedFiles mr = [] /\ extraFiles mr = [] /\
  (@computeFileCoverage Q _ mr == 1)%Q.
Proof.
  cbn zeta. rewrite matchFiles_eq. unfold matched_goldens.
  cbn [matched missedFiles extraFiles].
  set (K := kept_records diffs). set (M := buildMigrationMap K).
  assert (HM : forall r, In r K -> is_Some (M !! path_of r)).
  { intros r Hr. now apply buildMigrationMap_is_Some. }
  assert (H1 : map golden (matched_of M K) = K).
  { rewrite matched_goldens_of. apply filter_keep.
    apply Forall_forall. intros r Hr%list_elem_of_In.
    apply bool_decide_eq_true. now apply HM. }
  assert (H2 : missed_of M K = []).
  { unfold missed_of. apply filter_drop.
    apply Forall_forall. intros r Hr%list_elem_of_In.
    apply bool_decide_eq_false. destruct (HM r Hr) as [m Hm]. congruence. }
  assert (H3 : List.filter
                 (fun d => negb (bool_decide (path_of d ∈ paths_of M K))) K = []).
  { apply filter_drop.
    apply Forall_forall. intros r Hr%list_elem_of_In.
    apply negb_false_iff, bool_decide_eq_true, in_paths_of.
    exists r. split; [exact Hr|]. split; [reflexivity|now apply HM]. }
  split; [exact H1|]. split; [exact H2|]. split; [exact H3|].
  unfold computeFileCoverage. cbn [matched missedFiles].
  rewrite H2. cbn [length]. rewrite Nat.add_0_r.
  destruct (length (matched_of M K)) as [|k] eqn:E; [reflexivity|].
  cbn [Nat.eqb]. unfold of_nat. cbn [lit div Q_JsNumber].
  apply Qmult_inv_r. unfold Qeq; cbn. lia.
Qed.

Lemma matchFiles_disjoint (goldenDiffs migrationDiffs : list FileDiff) :
  (forall g m : FileDiff,
     In g (kept_records goldenDiffs) -> In m (kept_records migrationDiffs) ->
     normalizePath (filePath g) <> normalizePath (filePath m)) ->
  matchFiles goldenDiffs migrationDiffs
  = {| matched := [];
       missedFiles := kept_records goldenDiffs;
       extraFiles := kept_records migrationDiffs |}.
Proof.
  intros Hd. rewrite matchFiles_eq. cbn zeta.
  set (G := kept_records goldenDiffs). set (K := kept_records migrationDiffs).
  set (M := buildMigrationMap K).
  assert (HM : forall g, In g G -> M !! path_of g = None).
  { intros g Hg. destruct (M !! path_of g) as [m|] eqn:E; [|reflexivity].
    apply buildMigrationMap_Some in E as [Hm Hp].
    exfalso. apply (Hd g m Hg Hm). symmetry. exact Hp. }
  assert (H1 : matched_of M G = []).
  { unfold matched_of. clear -HM. induction G as [|g G IH]; [reflexivity|].
    cbn [flat_map]. rewrite (HM g) by now left.
    cbn [app]. apply IH. intros g' Hg'. apply HM. now right. }
  assert (H2 : missed_of M G = G).
  { unfold missed_of. apply filter_keep.
    apply Forall_forall. intros r Hr%list_elem_of_In.
    apply bool_decide_eq_true. now apply HM. }
  assert (H3 : List.filter
                 (fun d => negb (bool_decide (path_of d ∈ paths_of M G))) K = K).
  { apply filter_keep.
    apply Forall_forall. intros r Hr%list_elem_of_In.
    apply negb_true_iff, bool_decide_eq_false. rewrite in_paths_of.
    intros (g & Hg & Hp & [m Hm]). rewrite <- Hp, (HM g Hg) in Hm. discriminate. }
  now rewrite H1, H2, H3.
Qed.

(** X12.  When no golden record and no candidate record share a
    normalized path (for one, when one of the two lists is empty), nothing
    is matched: every golden record that is not excluded is missed and
    every candidate record that is not excluded is extra. *)
Theorem X12_no_common_path (goldenDiffs migrationDiffs : list FileDiff) :
  (forall g m : FileDiff,
     In g (kept_records goldenDiffs) -> In m (kept_records migrationDiffs) ->
     normalizePath (filePath g) <> normalizePath (filePath m)) ->
  matchFiles goldenDiffs migrationDiffs
  = {| matched := [];
       missedFiles := kept_records goldenDiffs;
       extraFiles := kept_records migrationDiffs |}.
Proof. exact (matchFiles_disjoint goldenDiffs migrationDiffs). Qed.

Lemma X12_no_common_path_witness :
  matchFiles golden_app []
  = {| matched := []; missedFiles := kept_records golden_app;
       extraFiles := kept_records [] |}.
Proof.
  apply (X12_no_common_path golden_app []).
  intros g m _ [].
Defined.

End MatcherExtras.

(** ** Regular expressions: what the patterns accept *)

Section RegexFacts.
Import JsString JsRegExp DetectorSpec RegExpSpec.
Local Open Scope list_scope.

Lemma matches_at_iff (r : regex) (p : pos) :
  matches_at r p = true <-> exists q, In q (run r p).
Proof.
  unfold matches_at. destruct (run r p) as [|q l].
  - split; [discriminate|intros [q []]].
  - split; [intros _; exists q; now left|reflexivity].
Qed.

Lemma in_run_Seq (r1 r2 : regex) (p q : pos) :
  In q (run (Seq r1 r2) p) <-> exists m, In m (run r1 p) /\ In q (run r2 m).
Proof. cbn [run]. apply in_flat_map. Qed.

Lemma in_run_Alt (r1 r2 : regex) (p q : pos) :
  In q (run (Alt r1 r2) p) <-> In q (run r1 p) \/ In q (run r2 p).
Proof. cbn [run]. apply in_app_iff. Qed.

(** A literal matches at the head of the subject, and nowhere else. *)
Lemma run_Str_app (s t : string) :
  forall b : option ascii,
    run (Str s) (b, String.append s t) = [(last_before b s, t)].
Proof.
  induction s as [|c s IH]; intros b; [reflexivity|].
  change (String.append (String c s) t) with (String c (String.append s t)).
  cbn [Str run snd last_before]. rewrite Ascii.eqb_refl.
  cbn [flat_map]. rewrite IH. apply app_nil_r.
Qed.

Lemma run_Str_inv (s : string) :
  forall (b : option ascii) (t : string) (q : pos),
    In q (run (Str s) (b, t)) ->
    exists t', t = String.append s t' /\ q = (last_before b s, t').
Proof.
  induction s as [|c s IH]; intros b t q Hq.
  - destruct Hq as [<-|[]]. exists t. now split.
  - cbn [Str] in Hq. apply in_run_Seq in Hq as (m & Hm & Hq).
    cbn [run snd] in Hm. destruct t as [|c' t]; [destruct Hm|].
    destruct (Ascii.eqb c c') eqn:E; [|destruct Hm].
    apply Ascii.eqb_eq in E. subst c'. destruct Hm as [<-|[]].
    apply IH in Hq as (t' & -> & ->). exists t'. now split.
Qed.

(** The search finds exactly the matches that start somewhere in the
    subject. *)
Lemma search_iff (r : regex) (s : string) :
  forall b : option ascii,
    search r b s = true
    <-> exists pre post, s = String.append pre post /\
                         matches_at r (last_before b pre, post) = true.
Proof.
  intros b. split.
  - revert b. induction s as [|c s IH]; intros b H; cbn [search] in H.
    + rewrite orb_false_r in H. exists "", ""%string. now split.
    + apply orb_prop in H as [H|H].
      * exists ""%string, (String c s). now split.
      * apply IH in H as (pre & post & -> & H).
        exists (String c pre), post. now split.
  - intros (pre & post & -> & H). now apply search_app.
Qed.

Lemma search_mono (r1 r2 : regex) (s : string) :
  (forall p, matches_at r1 p = true -> matches_at r2 p = true) ->
  forall b, search r1 b s = true -> search r2 b s = true.
Proof.
  intros Hm. induction s as [|c s IH]; intros b H; cbn [search] in *.
  - rewrite orb_false_r in *. now apply Hm.
  - apply orb_prop in H as [H|H].
    + now rewrite (Hm _ H).
    + rewrite (IH _ H). apply orb_true_r.
Qed.

(** *** Iteration of a class *)

Lemma run_Star (r : regex) (p : pos) :
  run (Star r) p = star_iter r (String.length (snd p)) p.
Proof. reflexivity. Qed.

Lemma star_iter_head (r : regex) (fuel : nat) (p : pos) :
  In p (star_iter r fuel p).
Proof. destruct fuel; now left. Qed.

Lemma star_cls_in (f : ascii -> bool) (w : string) :
  forall (fuel : nat) (b : option ascii) (rest : string),
    all_chars f w = true -> (String.length w <= fuel)%nat ->
    In (last_before b w, rest)
       (star_iter (Cls f) fuel (b, String.append w rest)).
Proof.
  unfold all_chars. induction w as [|c w IH]; intros fuel b rest Hw Hf.
  - apply star_iter_head.
  - cbn in Hw. apply andb_prop in Hw as [Hc Hw].
    destruct fuel as [|fuel]; [cbn in Hf; lia|].
    change (String.append (String c w) rest) with (String c (String.append w rest)).
    cbn [star_iter]. right. cbn [run snd]. rewrite Hc. cbn [flat_map snd].
    rewrite app_nil_r.
    assert (E : (String.length (String.append w rest)
                 <? String.length (String c (String.append w rest)))%nat = true).
    { apply Nat.ltb_lt. cbn. lia. }
    rewrite E. cbn [last_before]. apply IH; [exact Hw|cbn in Hf; lia].
Qed.

Lemma star_cls_inv (f : ascii -> bool) (fuel : nat) :
  forall (b : option ascii) (s : string) (q : pos),
    In q (star_iter (Cls f) fuel (b, s)) ->
    exists w, s = String.append w (snd q) /\ all_chars f w = true /\
              fst q = last_before b w.
Proof.
  induction fuel as [|fuel IH]; intros b s q Hq.
  - destruct Hq as [<-|[]]. exists ""%string. now repeat split.
  - cbn [star_iter] in Hq. destruct Hq as [<-|Hq].
    { exists ""%string. now repeat split. }
    cbn [run snd] in Hq. destruct s as [|c s]; [destruct Hq|].
    destruct (f c) eqn:Hc; [|destruct Hq].
    cbn [flat_map snd] in Hq. rewrite app_nil_r in Hq.
    destruct (String.length s <? String.length (String c s))%nat; [|destruct Hq].
    apply IH in Hq as (w & -> & Hw & Hb).
    exists (String c w). split; [reflexivity|]. split; [|exact Hb].
    unfold all_chars in *. cbn. now rewrite Hc, Hw.
Qed.

Lemma run_Star_cls_in (f : ascii -> bool) (w rest : string) (b : option ascii) :
  all_chars f w = true ->
  In (last_before b w, rest) (run (Star (Cls f)) (b, String.append w rest)).
Proof.
  intros Hw. rewrite run_Star. apply star_cls_in; [exact Hw|].
  cbn [snd]. clear. induction w as [|c w IH]; [cbn; lia|].
  change (String.append (String c w) rest) with (String c (String.append w rest)).
  cbn [String.length]. lia.
Qed.

Lemma run_Star_cls_inv (f : ascii -> bool) (b : option ascii) (s : string) (q : pos) :
  In q (run (Star (Cls f)) (b, s)) ->
  exists w, s = String.append w (snd q) /\ all_chars f w = true /\
            fst q = last_before b w.
Proof. rewrite run_Star. apply star_cls_inv. Qed.

End RegexFacts.

(** ** The excluded paths *)

Section ExcludedPaths.
Import JsString JsRegExp FileMatcher DetectorSpec RegExpSpec.
Local Open Scope list_scope.

Lemma append_nil_r (s : string) : String.append s "" = s.
Proof.
  induction s as [|c s IH]; [reflexivity|].
  change (String c (String.append s "") = String c s). now rewrite IH.
Qed.

Lemma suffix_matches_at (s t : string) (b : option ascii) :
  matches_at (Seq (Str s) Eol) (b, t) = true <-> t = s.
Proof.
  rewrite matches_at_iff. split.
  - intros (q & Hq). apply in_run_Seq in Hq as (m & Hm & Hq).
    apply run_Str_inv in Hm as (t' & -> & ->).
    cbn [run snd] in Hq. destruct t'; [|destruct Hq]. apply append_nil_r.
  - intros ->. exists (last_before b s, ""%string). apply in_run_Seq.
    exists (last_before b s, ""%string). split; [|now left].
    pose proof (run_Str_app s "" b) as H. rewrite append_nil_r in H.
    rewrite H. now left.
Qed.

Lemma suffix_test (s t : string) :
  test (Seq (Str s) Eol) t = true <-> ends_with t s.
Proof.
  unfold test, ends_with. rewrite search_iff. split.
  - intros (pre & post & -> & H). apply suffix_matches_at in H as ->. now exists pre.
  - intros (pre & ->). exists pre, s. split; [reflexivity|].
    now apply suffix_matches_at.
Qed.

(** X13.  A path is excluded exactly when, once normalized, it ends with
    one of [.snap], [package-lock.json], [yarn.lock] and
    [pnpm-lock.yaml]: the four patterns look at the end of the path only,
    whatever precedes it. *)
Theorem X13_excluded_suffix (filePath : string) :
  isExcluded filePath = true
  <-> exists suffix : string,
        In suffix excluded_suffixes /\ ends_with (normalizePath filePath) suffix.
Proof.
  unfold isExcluded.
  change EXCLUDED_PATTERNS with (map (fun s => Seq (Str s) Eol) excluded_suffixes).
  rewrite existsb_exists. split.
  - intros (r & Hr & Ht). apply in_map_iff in Hr as (s & <- & Hs).
    exists s. split; [exact Hs|]. now apply suffix_test.
  - intros (s & Hs & He). exists (Seq (Str s) Eol).
    split; [apply in_map_iff; now exists s|]. now apply suffix_test.
Qed.

Lemma X13_excluded_suffix_witness : isExcluded "b/web/yarn.lock" = true.
Proof.
  apply (proj2 (X13_excluded_suffix "b/web/yarn.lock")).
  exists "yarn.lock"%string. split.
  - unfold excluded_suffixes. do 2 right. now left.
  - exists "web/"%string. reflexivity.
Defined.

End ExcludedPaths.

(** ** The detectors: what their patterns accept *)

Section DetectorPatterns.
Import JsString JsRegExp ThemeDarkRemoval DetectorSpec RegExpSpec.
Local Open Scope list_scope.

Lemma dark_value_matches (v post : string) (b : option ascii) :
  In v dark_values ->
  matches_at
    (Alt (Seq (Chr dq) (Seq (Str "dark") (Chr dq)))
    (Alt (Seq (Chr "{") (Seq (Chr sq) (Seq (Str "dark") (Seq (Chr sq) (Chr "}")))))
    (Alt (Seq (Chr sq) (Seq (Str "dark") (Chr sq)))
    (Alt (Seq (Chr "{")
              (Seq (Cls (fun c => Ascii.eqb c sq || Ascii.eqb c dq))
                   (Seq (Str "dark")
                        (Seq (Cls (fun c => Ascii.eqb c sq || Ascii.eqb c dq))
                             (Chr "}")))))
         (Str "{ThemeVariant.dark}")))))
    (b, String.append v post) = true.
Proof.
  unfold dark_values. cbv zeta. intros Hv.
  repeat (destruct Hv as [<-|Hv]; [reflexivity|]). destruct Hv.
Qed.

(** X14.  The pattern of the theme-dark-removal detector finds the prop
    in a line wherever it stands, with any whitespace on either side of
    the equals sign and with the value in any of the spellings it lists;
    and a line in which it finds a match holds the word [theme] followed,
    after whitespace only, by an equals sign. *)
Theorem X14_theme_dark_spellings :
  (forall pre w1 w2 v post : string,
     all_chars is_whitespace w1 = true ->
     all_chars is_whitespace w2 = true ->
     In v dark_values ->
     test THEME_DARK_RE
       (String.append pre
          (String.append "theme"
             (String.append w1
                (String.append "=" (String.append w2 (String.append v post))))))
     = true) /\
  (forall s : string,
     test THEME_DARK_RE s = true ->
     exists pre w1 rest : string,
       all_chars is_whitespace w1 = true /\
       s = String.append pre
             (String.append "theme" (String.append w1 (String.append "=" rest)))).
Proof.
  split.
  - intros pre w1 w2 v post H1 H2 Hv. unfold test. apply search_app.
    apply matches_at_iff.
    set (b := last_before None pre).
    pose proof (dark_value_matches v post (last_before (Some "="%char) w2) Hv) as Hm.
    apply matches_at_iff in Hm as (q & Hq).
    exists q. unfold THEME_DARK_RE. cbv zeta.
    apply in_run_Seq. eexists. split; [rewrite run_Str_app; now left|].
    apply in_run_Seq. eexists. split; [now apply run_Star_cls_in|].
    apply in_run_Seq. exists (Some "="%char, String.append w2 (String.append v post)).
    split; [now left|].
    apply in_run_Seq. eexists. split; [now apply run_Star_cls_in|].
    exact Hq.
  - intros s H. unfold test in H. apply search_iff in H as (pre & post & -> & H).
    apply matches_at_iff in H as (q & Hq).
    unfold THEME_DARK_RE in Hq. cbv zeta in Hq.
    apply in_run_Seq in Hq as (m1 & Hm1 & Hq).
    apply run_Str_inv in Hm1 as (t1 & -> & ->).
    apply in_run_Seq in Hq as (m2 & Hm2 & Hq).
    apply run_Star_cls_inv in Hm2 as (w1 & -> & Hw1 & _).
    apply in_run_Seq in Hq as (m3 & Hm3 & _).
    destruct m2 as [b2 t2]. cbn [run snd] in Hm3.
    destruct t2 as [|c t2]; [destruct Hm3|].
    destruct (Ascii.eqb "=" c) eqn:E; [|destruct Hm3].
    apply Ascii.eqb_eq in E. subst c.
    exists pre, w1, t2. split; [exact Hw1|reflexivity].
Qed.

Lemma X14_theme_dark_spellings_witness :
  test THEME_DARK_RE
    (String.append "<Page "
       (String.append "theme"
          (String.append " "
             (String.append "=" (String.append "  "
                (String.append "{ThemeVariant.dark}" ">"))))))
  = true.
Proof.
  apply (proj1 X14_theme_dark_spellings "<Page " " " "  " "{ThemeVariant.dark}" ">").
  - reflexivity.
  - reflexivity.
  - unfold dark_values. cbv zeta. do 6 right. now left.
Defined.

(** *** Utility classes are classes *)

Lemma longer_literal (s1 s2 : string) (c : ascii) (f : ascii -> bool)
  (r : regex) (p : pos) :
  f c = true ->
  matches_at (Seq WordB (Seq (Str (String.append s1 (String c s2))) r)) p = true ->
  matches_at (Seq WordB (Seq (Str s1) (Plus (Cls f)))) p = true.
Proof.
  intros Hc H. apply matches_at_iff in H as (q & Hq).
  apply in_run_Seq in Hq as (m0 & Hm0 & Hq).
  apply in_run_Seq in Hq as (m1 & Hm1 & _).
  assert (Hp : m0 = p).
  { cbn [run] in Hm0. destruct (at_word_boundary p); [|destruct Hm0].
    now destruct Hm0 as [<-|[]]. }
  subst m0. destruct p as [b t].
  apply run_Str_inv in Hm1 as (t' & -> & _).
  rewrite append_assoc in Hm0 |- *.
  change (String.append (String c s2) t')
    with (String c (String.append s2 t')) in Hm0 |- *.
  apply matches_at_iff.
  exists (Some c, String.append s2 t').
  apply in_run_Seq. eexists. split; [exact Hm0|].
  apply in_run_Seq. eexists. split; [rewrite run_Str_app; now left|].
  unfold Plus. apply in_run_Seq. exists (Some c, String.append s2 t').
  split.
  - cbn [run snd]. rewrite Hc. now left.
  - rewrite run_Star. apply star_iter_head.
Qed.

Lemma existsb_impl {A : Type} (f g : A -> bool) (l : list A) :
  (forall x, f x = true -> g x = true) ->
  existsb f l = true -> existsb g l = true.
Proof.
  intros Hfg. induction l as [|a l IH]; cbn; [done|].
  intros H. apply orb_prop in H as [H|H].
  - now rewrite (Hfg a H).
  - rewrite (IH H). apply orb_true_r.
Qed.

Lemma utility_class_5 (s : string) :
  test UtilityClassRename.PF5_UTILITY_RE s = true ->
  test CssClassPrefix.PF5_CLASS_RE s = true.
Proof.
  unfold test. apply search_mono. intros p.
  apply (longer_literal "pf-v5-" "-" "u"). reflexivity.
Qed.

Lemma utility_class_6 (s : string) :
  test UtilityClassRename.PF6_UTILITY_RE s = true ->
  test CssClassPrefix.PF6_CLASS_RE s = true.
Proof.
  unfold test. apply search_mono. intros p.
  apply (longer_literal "pf-v6-" "-" "u"). reflexivity.
Qed.

(** X15.  Every line in which the utility-class-rename detector finds a
    [pf-v5-u-] (or [pf-v6-u-]) utility class is a line in which the
    css-class-prefix detector finds a [pf-v5-] (or [pf-v6-]) class.  So
    wherever the first detector applies the second applies too, and
    wherever the first answers CORRECT so does the second: a renamed
    utility class is graded by both. *)
Theorem X15_utility_classes_graded_twice :
  (forall s : string,
     (test UtilityClassRename.PF5_UTILITY_RE s = true ->
      test CssClassPrefix.PF5_CLASS_RE s = true) /\
     (test UtilityClassRename.PF6_UTILITY_RE s = true ->
      test CssClassPrefix.PF6_CLASS_RE s = true)) /\
  (forall (g : FileDiff) (m : option FileDiff),
     status (UtilityClassRename.detect g m) <> NOT_APPLICABLE ->
     status (CssClassPrefix.detect g m) <> NOT_APPLICABLE) /\
  (forall (g : FileDiff) (m : option FileDiff),
     status (UtilityClassRename.detect g m) = CORRECT ->
     status (CssClassPrefix.detect g m) = CORRECT).
Proof.
  split; [intros s; split; [apply utility_class_5|apply utility_class_6]|].
  assert (H5 : forall ls,
    existsb (fun l => test UtilityClassRename.PF5_UTILITY_RE (content l)) ls = true ->
    existsb (fun l => test CssClassPrefix.PF5_CLASS_RE (content l)) ls = true).
  { intros ls. apply existsb_impl. intros l. apply utility_class_5. }
  assert (H6 : forall ls,
    existsb (fun l => test UtilityClassRename.PF6_UTILITY_RE (content l)) ls = true ->
    existsb (fun l => test CssClassPrefix.PF6_CLASS_RE (content l)) ls = true).
  { intros ls. apply existsb_impl. intros l. apply utility_class_6. }
  split; intros g m; unfold UtilityClassRename.detect, CssClassPrefix.detect;
    cbv zeta;
    pose proof (H5 (removedLines g)) as G5; pose proof (H6 (addedLines g)) as G6;
    destruct (existsb _ (removedLines g)), (existsb _ (addedLines g)),
      (existsb _ (removedLines g)), (existsb _ (addedLines g));
    try (specialize (G5 eq_refl)); try (specialize (G6 eq_refl));
    try discriminate; cbn [negb andb status]; try congruence;
    (destruct m as [m|]; cbn [status]; [|congruence]);
    pose proof (H5 (removedLines m)) as M5; pose proof (H6 (addedLines m)) as M6;
    destruct (existsb _ (removedLines m)), (existsb _ (addedLines m)),
      (existsb _ (removedLines m)), (existsb _ (addedLines m));
    try (specialize (M5 eq_refl)); try (specialize (M6 eq_refl));
    try discriminate; cbn [negb andb status]; congruence.
Qed.

Lemma X15_utility_classes_graded_twice_witness :
  let g := Samples.changed_file "src/App.tsx"
             [ Samples.diff_line 3 "<div className='pf-v6-u-mt-md'>" ]
             [ Samples.diff_line 3 "<div className='pf-v5-u-mt-md'>" ] in
  status (CssClassPrefix.detect g (Some g)) = CORRECT.
Proof.
  intros g.
  apply (proj2 (proj2 X15_utility_classes_graded_twice) g (Some g)).
  reflexivity.
Defined.

End DetectorPatterns.

(** ** The noise detector: counts and penalties *)

Section NoiseTotals.
Import JsString JsRegExp FileMatcher NoiseDetector MatcherSpec NoiseSpec NoiseCount.
Local Open Scope list_scope.

(** The five loops, one after the other. *)
Lemma detectNoise_blocks (input : NoiseDetectorInput) :
  @detectNoise Q _ input
  = detectUnnecessaryChanges (matchResult input)
    ++ flat_map (formattingOnly_step (matched_paths (matchResult input)))
                (migrationDiffs input)
    ++ detectIncorrectMigrations (detectionResults input)
    ++ flat_map (fun diff =>
                   flat_map (scan_line ARTIFACT_PATTERNS artifact
                                       "Artifact detected: " diff)
                            (addedLines diff))
                (migrationDiffs input)
    ++ flat_map (fun diff =>
                   flat_map (scan_line PLACEHOLDER_PATTERNS placeholder_token
                                       "Placeholder token detected: " diff)
                            (addedLines diff))
                (migrationDiffs input).
Proof.
  unfold detectNoise. cbn [app]. rewrite detectFormattingOnlyChanges_eq.
  unfold detectArtifacts, detectPlaceholderTokens. rewrite !scan_eq. cbn [app].
  now rewrite <- !app_assoc.
Qed.

Lemma scan_line_cases (patterns : list regex) (t : NoiseType) (prefix : string)
  (diff : FileDiff) (l : DiffLine) :
  @scan_line Q _ patterns t prefix diff l
  = if existsb (fun pattern => test pattern (content l)) patterns
    then [ {| type := t; file := filePath diff; line := Some (lineNumber l);
              description := String.append prefix (trim (content l));
              penalty := PENALTY t |} ]
    else [].
Proof.
  unfold scan_line.
  pose proof (find_existsb (fun pattern => test pattern (content l)) patterns) as H.
  destruct (List.find _ patterns) as [r|].
  - now rewrite (proj1 H) by eauto.
  - destruct (existsb _ patterns); [|reflexivity].
    destruct (proj2 H eq_refl) as [x Hx]. discriminate.
Qed.

(** One instance for each flagged line, however many patterns match it. *)
Lemma scan_length (patterns : list regex) (t : NoiseType) (prefix : string)
  (diffs : list FileDiff) :
  length (flat_map (fun diff =>
                      flat_map (@scan_line Q _ patterns t prefix diff)
                               (addedLines diff)) diffs)
  = length (flagged patterns diffs).
Proof.
  unfold flagged. induction diffs as [|d diffs IH]; [reflexivity|].
  cbn [flat_map]. rewrite !length_app, IH. f_equal. rewrite length_map.
  induction (addedLines d) as [|l ls IHl]; [reflexivity|].
  cbn [flat_map List.filter]. rewrite length_app, IHl, scan_line_cases.
  destruct (existsb _ patterns); reflexivity.
Qed.

Lemma scan_types (patterns : list regex) (t : NoiseType) (prefix : string)
  (diffs : list FileDiff) :
  Forall (fun n => type n = t /\ penalty n = PENALTY t)
         (flat_map (fun diff =>
                      flat_map (@scan_line Q _ patterns t prefix diff)
                               (addedLines diff)) diffs).
Proof.
  apply Forall_flat_map_intro. intros d. apply Forall_flat_map_intro. intros l.
  rewrite scan_line_cases. destruct (existsb _ patterns); repeat constructor.
Qed.

Lemma formatting_types (paths : gset string) (diffs : list FileDiff) :
  Forall (fun n => type n = formatting_only /\ penalty n = PENALTY formatting_only)
         (flat_map (@formattingOnly_step Q _ paths) diffs).
Proof.
  apply Forall_flat_map_intro. intros d. unfold formattingOnly_step.
  repeat case_match; repeat constructor.
Qed.

Lemma of_type_app (t : NoiseType) (a b : list (NoiseInstance Q)) :
  of_type t (a ++ b) = of_type t a ++ of_type t b.
Proof. apply List.filter_app. Qed.

Lemma of_type_block (t t' : NoiseType) (ns : list (NoiseInstance Q)) :
  Forall (fun n => type n = t' /\ penalty n = PENALTY t') ns ->
  of_type t ns = if decide (t' = t) then ns else [].
Proof.
  intros H. unfold of_type. destruct (decide (t' = t)) as [->|Hne].
  - apply filter_keep. eapply Forall_impl; [exact H|].
    intros n [Hn _]. now apply bool_decide_eq_true.
  - apply filter_drop. eapply Forall_impl; [exact H|].
    intros n [Hn _]. apply bool_decide_eq_false. congruence.
Qed.

(** The sum of penalties that follow the table. *)
Lemma sum_by_type (ns : list (NoiseInstance Q)) :
  Forall (fun n => penalty n = PENALTY (type n)) ns ->
  (SpecWords.sum_penalties ns
   == (1 # 100) * count unnecessary_change ns
      + (2 # 100) * count formatting_only ns
      + (3 # 100) * count incorrect_migration ns
      + (5 # 100) * (count artifact ns + count placeholder_token ns))%Q.
Proof.
  unfold count, of_type.
  induction 1 as [|n ns Hn _ IH]; [reflexivity|].
  cbn [SpecWords.sum_penalties fold_right List.filter].
  change (fold_right (fun n s => (penalty n + s)%Q) 0%Q ns)
    with (SpecWords.sum_penalties ns).
  rewrite IH, Hn. clear IH Hn.
  destruct (type n); cbn [bool_decide decide_rel]; 
    repeat (rewrite (bool_decide_eq_true_2 _ eq_refl)
            || rewrite bool_decide_eq_false_2 by discriminate);
    cbn [length]; rewrite Nat2Z.inj_succ; unfold Z.succ;
    rewrite inject_Z_plus; cbn [PENALTY lit Q_JsNumber]; ring.
Qed.

(** X16.  Every noise instance carries the penalty that the table gives
    to its rule.  There is one unnecessary_change instance for each extra
    record, one incorrect_migration instance for each INCORRECT outcome,
    and one artifact (placeholder_token) instance for each added line in
    which an artifact (placeholder) pattern finds a match, however many of
    the patterns match the line.  So the sum of the penalties is 0.01 for
    each unnecessary change, 0.02 for each formatting-only record, 0.03
    for each incorrect migration and 0.05 for each artifact and each
    placeholder. *)
Theorem X16_noise_totals (input : NoiseDetectorInput) :
  let ns := @detectNoise Q _ input in
  Forall (fun n => penalty n = PENALTY (type n)) ns /\
  length (of_type unnecessary_change ns)
  = length (extraFiles (matchResult input)) /\
  length (of_type incorrect_migration ns)
  = length (List.filter (fun r => bool_decide (status r = INCORRECT))
                        (detectionResults input)) /\
  length (of_type artifact ns)
  = length (flagged ARTIFACT_PATTERNS (migrationDiffs input)) /\
  length (of_type placeholder_token ns)
  = length (flagged PLACEHOLDER_PATTERNS (migrationDiffs input)) /\
  (SpecWords.sum_penalties ns
   == (1 # 100) * count unnecessary_change ns
      + (2 # 100) * count formatting_only ns
      + (3 # 100) * count incorrect_migration ns
      + (5 # 100) * (count artifact ns + count placeholder_token ns))%Q.
Proof.
  cbn zeta. rewrite detectNoise_blocks.
  set (U := detectUnnecessaryChanges (matchResult input)).
  set (F := flat_map _ (migrationDiffs input)).
  set (I := detectIncorrectMigrations (detectionResults input)).
  set (A := flat_map _ (migrationDiffs input)).
  set (P := flat_map _ (migrationDiffs input)).
  assert (HU : Forall (fun n : NoiseInstance Q =>
                         type n = unnecessary_change
                         /\ penalty n = PENALTY unnecessary_change) U).
  { apply Forall_map, Forall_forall. intros d _. now split. }
  assert (HF : Forall (fun n : NoiseInstance Q =>
                         type n = formatting_only
                         /\ penalty n = PENALTY formatting_only) F)
    by apply formatting_types.
  assert (HI : Forall (fun n : NoiseInstance Q =>
                         type n = incorrect_migration
                         /\ penalty n = PENALTY incorrect_migration) I).
  { apply Forall_map, Forall_forall. intros d _. now split. }
  assert (HA : Forall (fun n : NoiseInstance Q =>
                         type n = artifact /\ penalty n = PENALTY artifact) A)
    by apply scan_types.
  assert (HP : Forall (fun n : NoiseInstance Q =>
                         type n = placeholder_token
                         /\ penalty n = PENALTY placeholder_token) P)
    by apply scan_types.
  assert (Hall : Forall (fun n : NoiseInstance Q => penalty n = PENALTY (type n))
                        (U ++ F ++ I ++ A ++ P)).
  { repeat (apply Forall_app; split);
      (eapply Forall_impl; [eassumption|]); intros n [-> ->]; reflexivity. }
  split; [exact Hall|].
  rewrite !of_type_app.
  rewrite !(of_type_block _ _ U HU), !(of_type_block _ _ F HF),
    !(of_type_block _ _ I HI), !(of_type_block _ _ A HA),
    !(of_type_block _ _ P HP).
  repeat (rewrite decide_True by reflexivity
          || rewrite decide_False by discriminate).
  cbn [app]. rewrite !app_nil_r.
  split; [apply length_map|]. split; [apply length_map|].
  split; [apply scan_length|]. split; [apply scan_length|].
  now apply sum_by_type.
Qed.

(** X17.  With the match result of [matchFiles] for the same candidate
    list, no unnecessary_change instance and no formatting_only instance
    concerns an excluded path: these two rules honour the exclusion. *)
Theorem X17_rules_honour_exclusion (goldenDiffs migrationDiffs : list FileDiff)
  (results : list DetectionResult) (n : NoiseInstance Q) :
  In n (detectNoise {| matchResult := matchFiles goldenDiffs migrationDiffs;
                       migrationDiffs := migrationDiffs;
                       detectionResults := results |}) ->
  type n = unnecessary_change \/ type n = formatting_only ->
  isExcluded (file n) = false.
Proof.
  rewrite detectNoise_blocks. cbn [matchResult NoiseDetector.migrationDiffs detectionResults].
  set (mr := matchFiles goldenDiffs migrationDiffs).
  intros Hn Ht.
  apply in_app_or in Hn as [Hn|Hn].
  { unfold detectUnnecessaryChanges in Hn. apply in_map_iff in Hn as (d & <- & Hd).
    cbn [file]. subst mr. rewrite matchFiles_eq in Hd. cbn [extraFiles] in Hd.
    apply filter_In in Hd as [Hd _]. now apply in_kept_records in Hd as [_ Hx]. }
  apply in_app_or in Hn as [Hn|Hn].
  { apply in_flat_map in Hn as (d & Hd & Hn). unfold formattingOnly_step in Hn.
    destruct (bool_decide (filePath d ∈ matched_paths mr)) eqn:E;
      [|destruct Hn].
    cbn [negb] in Hn. apply bool_decide_eq_true in E.
    assert (Hx : isExcluded (filePath d) = false).
    { unfold matched_paths in E.
      apply elem_of_list_to_set, list_elem_of_In, in_map_iff in E
        as (p & Hp & Hin).
      rewrite <- Hp. subst mr. rewrite matchFiles_eq in Hin. cbn [matched] in Hin.
      apply in_matched_of in Hin as [_ HM].
      apply buildMigrationMap_Some in HM as [Hm _].
      now apply in_kept_records in Hm as [_ Hx]. }
    destruct ((length (addedLines d) =? 0)%nat
              && (length (removedLines d) =? 0)%nat); [destruct Hn|].
    destruct (isFormattingOnly d); [|destruct Hn].
    destruct Hn as [<-|[]]. exact Hx. }
  exfalso. apply in_app_or in Hn as [Hn|Hn].
  { unfold detectIncorrectMigrations in Hn. apply in_map_iff in Hn as (d & <- & _).
    destruct Ht; discriminate. }
  assert (G : forall patterns t prefix,
    t <> unnecessary_change -> t <> formatting_only ->
    ~ In n (flat_map (fun diff =>
                        flat_map (@scan_line Q _ patterns t prefix diff)
                                 (addedLines diff)) migrationDiffs)).
  { intros patterns t prefix H1 H2 Hin.
    pose proof (scan_types patterns t prefix migrationDiffs) as Hs.
    rewrite Forall_forall in Hs. apply list_elem_of_In, Hs in Hin as [Hty _].
    destruct Ht; congruence. }
  apply in_app_or in Hn as [Hn|Hn]; revert Hn; apply G; discriminate.
Qed.

Lemma X17_rules_honour_exclusion_witness :
  let extra := Samples.file_of "extra.ts" in
  let n : NoiseInstance Q :=
    {| type := unnecessary_change; file := "extra.ts"; line := None;
       description := "File changed in migration but not in golden PR";
       penalty := 1 # 100 |} in
  isExcluded (file n) = false.
Proof.
  intros extra n.
  apply (X17_rules_honour_exclusion golden_app candidates_app [] n).
  - vm_compute. now left.
  - now left.
Defined.

End NoiseTotals.

(** ** The registry: definitions by complexity *)

Section RegistryTiers.
Import Registry.
Local Open Scope list_scope.

Lemma tiers_partition (l : list PatternDefinition) :
  let tier c := List.filter (fun p => bool_decide (complexity p = c)) l in
  Permutation (tier trivial ++ tier moderate ++ tier complex) l /\
  (length (tier trivial) + length (tier moderate) + length (tier complex)
   = length l)%nat.
Proof.
  cbn zeta. induction l as [|p l [IHp IHl]]; [split; [constructor|reflexivity]|].
  cbn [List.filter]. destruct (complexity p);
    repeat (rewrite (bool_decide_eq_true_2 _ eq_refl)
            || rewrite bool_decide_eq_false_2 by discriminate);
    cbn [app length].
  - split; [now constructor|lia].
  - split; [|lia]. apply Permutation_sym, Permutation_cons_app.
    now apply Permutation_sym.
  - split; [|lia]. apply Permutation_sym.
    rewrite app_assoc. apply Permutation_cons_app. rewrite <- app_assoc.
    now apply Permutation_sym.
Qed.

(** X18.  Whatever calls the module has served: [getPatternsByComplexity]
    returns a new array (not the catalog) that holds the definitions of
    the catalog that have the given complexity, in the order of the
    catalog, and leaves the catalog as it was, whatever is then done to
    the array returned.  Each definition of the catalog is in one of the
    three arrays, for trivial, moderate and complex. *)
Theorem X18_patterns_by_complexity (calls : list Call) (c : Complexity) :
  let h := run calls in
  let r := fst (getPatternsByComplexity c h) in
  let h' := snd (getPatternsByComplexity c h) in
  let tier c := List.filter (fun p => bool_decide (complexity p = c))
                            (catalog_after calls) in
  r <> patterns /\
  read r h' = tier c /\
  read patterns h' = catalog_after calls /\
  (forall f : list PatternDefinition -> list PatternDefinition,
     read patterns (mutate r f h') = catalog_after calls) /\
  Permutation (tier trivial ++ tier moderate ++ tier complex)
              (catalog_after calls) /\
  (length (tier trivial) + length (tier moderate) + length (tier complex)
   = length (catalog_after calls))%nat.
Proof.
  cbn zeta. unfold getPatternsByComplexity.
  pose proof (well_formed_run calls) as Hwf.
  set (h := run calls) in *.
  set (l := List.filter (fun p => bool_decide (complexity p = c))
                        (read patterns h)).
  destruct (well_formed_alloc l h Hwf) as [Hwf' Hne].
  assert (Hold : read patterns (snd (alloc l h)) = catalog_after calls).
  { rewrite read_alloc_old; [apply read_run|].
    destruct Hwf as [Hp Hlt]. specialize (Hlt patterns Hp). lia. }
  split; [exact Hne|]. split.
  { rewrite read_alloc_new. subst l h. now rewrite read_run. }
  split; [exact Hold|]. split.
  { intros f. rewrite read_mutate_other by exact Hne. exact Hold. }
  apply tiers_partition.
Qed.

End RegistryTiers.

(** ** The detectors: what every one of them guarantees *)

Section DetectorContract.
Import DetectorFamily.
Local Open Scope list_scope.

Ltac atom c k :=
  lazymatch c with
  | negb ?b => atom b k
  | andb ?a _ => atom a k
  | orb ?a _ => atom a k
  | _ => k c
  end.

Ltac settle :=
  cbv zeta;
  repeat (first
            [ match goal with
              | |- context [if ?c then _ else _] => atom c ltac:(fun b => destruct b)
              end
            | case_match ];
          cbn [status patternId negb andb orb length app Nat.ltb Nat.leb] in * );
  try discriminate; try reflexivity; try tauto; try (intuition congruence).

Ltac contract_of detect :=
  intros g m; unfold detect; (split; [|split; [|split; [|split; [|split]]]]);
  [ settle
  | settle
  | destruct m; settle
  | settle
  | destruct m; [settle|reflexivity]
  | settle ].

Lemma contract_css_class_prefix :
  contract CssClassPrefix.PATTERN_ID CssClassPrefix.detect.
Proof. contract_of CssClassPrefix.detect. Qed.

Lemma contract_utility_class_rename :
  contract UtilityClassRename.PATTERN_ID UtilityClassRename.detect.
Proof. contract_of UtilityClassRename.detect. Qed.

Lemma contract_theme_dark_removal :
  contract ThemeDarkRemoval.PATTERN_ID ThemeDarkRemoval.detect.
Proof. contract_of ThemeDarkRemoval.detect. Qed.

Lemma contract_ouia_component_id :
  contract OuiaComponentId.PATTERN_ID OuiaComponentId.detect.
Proof. contract_of OuiaComponentId.detect. Qed.

Lemma contract_split_button_items :
  contract SplitButtonItems.PATTERN_ID SplitButtonItems.detect.
Proof. contract_of SplitButtonItems.detect. Qed.

Lemma contract_modal_import_path :
  contract ModalImportPath.PATTERN_ID ModalImportPath.detect.
Proof. contract_of ModalImportPath.detect. Qed.

Lemma contract_toolbar_variant :
  contract ToolbarVariant.PATTERN_ID ToolbarVariant.detect.
Proof. contract_of ToolbarVariant.detect. Qed.

Lemma contract_chips_to_labels :
  contract ChipsToLabels.PATTERN_ID ChipsToLabels.detect.
Proof. contract_of ChipsToLabels.detect. Qed.

Lemma contract_inner_ref_to_ref :
  contract InnerRefToRef.PATTERN_ID InnerRefToRef.detect.
Proof. contract_of InnerRefToRef.detect. Qed.

Lemma contract_is_action_cell :
  contract IsActionCell.PATTERN_ID IsActionCell.detect.
Proof. contract_of IsActionCell.detect. Qed.

Lemma contract_css_logical_properties :
  contract CssLogicalProperties.PATTERN_ID CssLogicalProperties.detect.
Proof. contract_of CssLogicalProperties.detect. Qed.

Lemma contract_page_section_variant :
  contract PageSectionVariant.PATTERN_ID PageSectionVariant.detect.
Proof. contract_of PageSectionVariant.detect. Qed.

Lemma contract_react_tokens_icon_status :
  contract ReactTokensIconStatus.PATTERN_ID ReactTokensIconStatus.detect.
Proof. contract_of ReactTokensIconStatus.detect. Qed.

Lemma contract_align_right_to_end :
  contract AlignRightToEnd.PATTERN_ID AlignRightToEnd.detect.
Proof. contract_of AlignRightToEnd.detect. Qed.

Lemma contract_space_items_removal :
  contract SpaceItemsRemoval.PATTERN_ID SpaceItemsRemoval.detect.
Proof. contract_of SpaceItemsRemoval.detect. Qed.

Lemma contract_toolbar_gap :
  contract ToolbarGap.PATTERN_ID ToolbarGap.detect.
Proof. contract_of ToolbarGap.detect. Qed.

Lemma contract_page_masthead :
  contract PageMasthead.PATTERN_ID PageMasthead.detect.
Proof. contract_of PageMasthead.detect. Qed.

Lemma contract_text_content_consolidation :
  contract TextContentConsolidation.PATTERN_ID TextContentConsolidation.detect.
Proof. contract_of TextContentConsolidation.detect. Qed.

Lemma contract_test_selector_rewrite :
  contract TestSelectorRewrite.PATTERN_ID TestSelectorRewrite.detect.
Proof.
  intros g m. unfold TestSelectorRewrite.detect.
  destruct (TestSelectorRewrite.hasTestSelectorChanges _ _); cbn [negb].
  2:{ repeat split; intros; try easy; auto. }
  split; [|split; [|split; [|split; [|split]]]].
  - destruct m; [|reflexivity]. cbv zeta. repeat case_match; reflexivity.
  - destruct m; [|discriminate]. cbv zeta. repeat case_match; discriminate.
  - destruct m; [|easy]. cbv zeta. split; [|discriminate].
    repeat case_match; discriminate.
  - now right.
  - destruct m; [|reflexivity]. cbv zeta. repeat case_match; discriminate.
  - right; left. cbv zeta.
    destruct (TestSelectorRewrite.hasTestIdChanges _ _),
      (TestSelectorRewrite.hasAriaLabelChanges _ _),
      (TestSelectorRewrite.hasPF5CSSSelectors (removedLines g)),
      (TestSelectorRewrite.hasPF6CSSSelectors (addedLines g)),
      (TestSelectorRewrite.hasTestQueryChanges _ _),
      (TestSelectorRewrite.hasPF5CSSSelectors (addedLines g)); reflexivity.
Qed.

(** X19.  Each of the detectors css-class-prefix, utility-class-rename,
    theme-dark-removal, ouia-component-id, split-button-items,
    modal-import-path, toolbar-variant, chips-to-labels, inner-ref-to-ref,
    is-action-cell, css-logical-properties, page-section-variant,
    react-tokens-icon-status, align-right-to-end, space-items-removal,
    toolbar-gap, page-masthead, text-content-consolidation and
    test-selector-rewrite (those that read the two records only), for
    every golden record and
    every candidate (a record, or none when the file is missing): signs
    its outcome with its own identifier; never answers UNNECESSARY;
    answers NOT_APPLICABLE for one candidate exactly when it does for any
    other (applicability is read from the golden record alone); for a
    missing file answers NOT_APPLICABLE or FILE_MISSING, and answers
    FILE_MISSING for a missing file only; and, given the golden record
    itself as the candidate, never answers MISSING. *)
Theorem X19_detector_contract :
  Forall (fun d => contract (fst d) (snd d)) detectors.
Proof.
  unfold detectors.
  apply Forall_cons_2; [exact contract_css_class_prefix|].
  apply Forall_cons_2; [exact contract_utility_class_rename|].
  apply Forall_cons_2; [exact contract_theme_dark_removal|].
  apply Forall_cons_2; [exact contract_ouia_component_id|].
  apply Forall_cons_2; [exact contract_split_button_items|].
  apply Forall_cons_2; [exact contract_modal_import_path|].
  apply Forall_cons_2; [exact contract_toolbar_variant|].
  apply Forall_cons_2; [exact contract_chips_to_labels|].
  apply Forall_cons_2; [exact contract_inner_ref_to_ref|].
  apply Forall_cons_2; [exact contract_is_action_cell|].
  apply Forall_cons_2; [exact contract_css_logical_properties|].
  apply Forall_cons_2; [exact contract_page_section_variant|].
  apply Forall_cons_2; [exact contract_react_tokens_icon_status|].
  apply Forall_cons_2; [exact contract_align_right_to_end|].
  apply Forall_cons_2; [exact contract_space_items_removal|].
  apply Forall_cons_2; [exact contract_toolbar_gap|].
  apply Forall_cons_2; [exact contract_page_masthead|].
  apply Forall_cons_2; [exact contract_text_content_consolidation|].
  apply Forall_cons_2; [exact contract_test_selector_rewrite|].
  apply Forall_nil_2.
Qed.


(** *** The definitions, with the syntax trees *)

Lemma sound_of_contract (pattern : Registry.PatternDefinition)
  (detect : FileDiff -> option FileDiff -> DetectionResult) :
  contract (Registry.id pattern) detect ->
  (forall g m ga ma, Registry.detect pattern g m ga ma = detect g m) ->
  sound pattern.
Proof.
  intros Hc Hd g m ga ma. cbv zeta. rewrite !Hd.
  destruct (Hc g m) as (H1 & H2 & H3 & H4 & H5 & _).
  split; [exact H1|]. split; [exact H2|]. split; [exact H3|].
  split; [now intros ->|]. split; [exact H5|].
  intros -> _. destruct (Hc g (Some g)) as (_ & _ & _ & _ & _ & [H6|[H6|H6]]);
    rewrite H6; discriminate.
Qed.

(** The shape of the detectors that look at the syntax trees first. *)
Lemma sound_with_trees (pattern : Registry.PatternDefinition)
  (applies : FileDiff -> bool)
  (withAST : Registry.ASTRepresentation -> Registry.ASTRepresentation ->
             option DetectionResult)
  (fromDiff : FileDiff -> FileDiff -> DetectionResult)
  (notApplicable fileMissing : DetectionResult) :
  (forall g m ga ma,
     Registry.detect pattern g m ga ma
     = if applies g then
         match m with
         | None => fileMissing
         | Some m =>
             match match ga, ma with
                   | Some a, Some b => withAST a b
                   | _, _ => None
                   end with
             | Some r => r
             | None => fromDiff g m
             end
         end
       else notApplicable) ->
  patternId notApplicable = Registry.id pattern ->
  status notApplicable = NOT_APPLICABLE ->
  patternId fileMissing = Registry.id pattern ->
  status fileMissing = FILE_MISSING ->
  (forall a b r, withAST a b = Some r ->
                 patternId r = Registry.id pattern /\
                 (status r = CORRECT \/ status r = INCORRECT
                  \/ status r = MISSING)) ->
  (forall a r, withAST a a = Some r -> status r <> MISSING) ->
  (forall g d, patternId (fromDiff g d) = Registry.id pattern /\
               (status (fromDiff g d) = CORRECT
                \/ status (fromDiff g d) = INCORRECT
                \/ status (fromDiff g d) = MISSING)) ->
  (forall g, applies g = true -> status (fromDiff g g) <> MISSING) ->
  sound pattern.
Proof.
  intros Hd Hn1 Hn2 Hf1 Hf2 Hast Hsame Hdiff Hself g m ga ma. cbv zeta.
  rewrite !Hd.
  destruct (applies g) eqn:Eg.
  2:{ rewrite Hn2. repeat split; intros; try easy; auto. }
  destruct m as [m|].
  2:{ rewrite Hf2. repeat split; intros; try easy; auto. }
  rewrite Hf2.
  destruct ga as [a|], ma as [b|];
    try (destruct (Hdiff g m) as (Hid & Hs);
         repeat split; intros; try easy;
         try (destruct Hs as [Hs|[Hs|Hs]]; rewrite Hs in *; easy);
         repeat match goal with
                | H : Some _ = Some _ |- _ => injection H as ->
                | H : None = Some _ |- _ => discriminate H
                | H : Some _ = None |- _ => discriminate H
                end;
         now apply Hself).
  destruct (withAST a b) as [r|] eqn:E.
  - destruct (Hast a b r E) as (Hid & Hs).
    repeat split; intros; try easy;
      try (destruct Hs as [Hs|[Hs|Hs]]; rewrite Hs in *; easy).
    repeat match goal with H : Some _ = Some _ |- _ => injection H as -> end.
    now apply (Hsame a r).
  - destruct (Hdiff g m) as (Hid & Hs).
    repeat split; intros; try easy;
      try (destruct Hs as [Hs|[Hs|Hs]]; rewrite Hs in *; easy).
    repeat match goal with H : Some _ = Some _ |- _ => injection H as -> end.
    now apply Hself.
Qed.

Lemma sound_button_icon_prop : sound ButtonIconProp.pattern.
Proof.
  apply (sound_with_trees ButtonIconProp.pattern
           (fun g => ButtonIconProp.hasButtonIconChanges (removedLines g) (addedLines g))
           ButtonIconProp.detectWithAST
           (fun _ m => ButtonIconProp.detectFromDiff m)
           {| patternId := ButtonIconProp.PATTERN_ID;
              status := NOT_APPLICABLE;
              message := "No Button icon prop changes in golden diff";
              details := None |}
           {| patternId := ButtonIconProp.PATTERN_ID;
              status := FILE_MISSING;
              message := "Migration file is missing";
              details := None |}); try reflexivity.
  - intros g m ga ma.
    change (Registry.detect ButtonIconProp.pattern) with ButtonIconProp.detect.
    unfold ButtonIconProp.detect. cbv zeta.
    now destruct (ButtonIconProp.hasButtonIconChanges _ _).
  - intros a b r. unfold ButtonIconProp.detectWithAST. cbv zeta.
    repeat case_match; intros [= <-]; cbn; auto.
  - intros a r. unfold ButtonIconProp.detectWithAST. cbv zeta.
    repeat case_match; intros [= <-]; cbn; discriminate.
  - intros _ d. unfold ButtonIconProp.detectFromDiff. cbv zeta.
    repeat case_match; cbn; auto.
  - intros g Eg. unfold ButtonIconProp.detectFromDiff. cbv zeta. now rewrite Eg.
Qed.

Lemma sound_empty_state_restructure : sound EmptyStateRestructure.pattern.
Proof.
  apply (sound_with_trees EmptyStateRestructure.pattern
           (fun g => negb (negb (EmptyStateRestructure.hasEmptyStateChildren
                                   (removedLines g))
                           && negb (EmptyStateRestructure.removesImports
                                      (removedLines g))))
           EmptyStateRestructure.detectWithAST
           (fun _ m => EmptyStateRestructure.detectFromDiff m)
           {| patternId := EmptyStateRestructure.PATTERN_ID;
              status := NOT_APPLICABLE;
              message := "No EmptyState restructuring in golden diff";
              details := None |}
           {| patternId := EmptyStateRestructure.PATTERN_ID;
              status := FILE_MISSING;
              message := "Migration file is missing";
              details := None |}); try reflexivity.
  - intros g m ga ma.
    change (Registry.detect EmptyStateRestructure.pattern)
      with EmptyStateRestructure.detect.
    unfold EmptyStateRestructure.detect. cbv zeta.
    now destruct (negb _ && negb _).
  - intros a b r. unfold EmptyStateRestructure.detectWithAST. cbv zeta.
    repeat case_match; intros [= <-]; cbn; auto.
  - intros a r. unfold EmptyStateRestructure.detectWithAST. cbv zeta.
    repeat case_match; intros [= <-]; cbn; discriminate.
  - intros _ d. unfold EmptyStateRestructure.detectFromDiff. cbv zeta.
    repeat case_match; cbn; auto.
  - intros g Eg. unfold EmptyStateRestructure.detectFromDiff. cbv zeta.
    apply negb_true_iff in Eg.
    destruct (EmptyStateRestructure.hasEmptyStateChildren (removedLines g)),
      (EmptyStateRestructure.removesImports (removedLines g));
      try discriminate; cbn [orb andb];
      repeat case_match; cbn; discriminate.
Qed.

Lemma sound_masthead_reorganization : sound MastheadReorganization.pattern.
Proof.
  apply (sound_with_trees MastheadReorganization.pattern
           (fun g => MastheadReorganization.hasReorganizationSignals
                       (removedLines g) (addedLines g))
           MastheadReorganization.detectWithAST
           MastheadReorganization.detectFromDiff
           {| patternId := MastheadReorganization.PATTERN_ID;
              status := NOT_APPLICABLE;
              message := "No Masthead hierarchy reorganization in golden diff";
              details := None |}
           {| patternId := MastheadReorganization.PATTERN_ID;
              status := FILE_MISSING;
              message := "Migration file is missing";
              details := None |}); try reflexivity.
  - intros g m ga ma.
    change (Registry.detect MastheadReorganization.pattern)
      with MastheadReorganization.detect.
    unfold MastheadReorganization.detect. cbv zeta.
    now destruct (MastheadReorganization.hasReorganizationSignals _ _).
  - intros a b r. unfold MastheadReorganization.detectWithAST. cbv zeta.
    repeat case_match; intros [= <-]; cbn; auto.
  - intros a r. unfold MastheadReorganization.detectWithAST. cbv zeta.
    repeat case_match; intros [= <-]; cbn; discriminate.
  - intros g d. unfold MastheadReorganization.detectFromDiff. cbv zeta.
    repeat case_match; cbn; auto.
  - intros g Eg. unfold MastheadReorganization.detectFromDiff. cbv zeta.
    unfold MastheadReorganization.hasReorganizationSignals in Eg. cbv zeta in Eg.
    destruct (MastheadReorganization.hasMastheadLogo (addedLines g));
      [discriminate|].
    cbn [orb] in Eg. rewrite Eg. cbn. discriminate.
Qed.

Lemma sound_avatar_adoption : sound AvatarAdoption.pattern.
Proof.
  apply (sound_with_trees AvatarAdoption.pattern
           (fun g => AvatarAdoption.hasAvatarChanges (removedLines g) (addedLines g))
           AvatarAdoption.detectWithAST
           AvatarAdoption.detectFromDiff
           {| patternId := AvatarAdoption.PATTERN_ID;
              status := NOT_APPLICABLE;
              message := "No Avatar component changes in golden diff";
              details := None |}
           {| patternId := AvatarAdoption.PATTERN_ID;
              status := FILE_MISSING;
              message := "Migration file is missing";
              details := None |}); try reflexivity.
  - intros g m ga ma.
    change (Registry.detect AvatarAdoption.pattern) with AvatarAdoption.detect.
    unfold AvatarAdoption.detect. cbv zeta.
    now destruct (AvatarAdoption.hasAvatarChanges _ _).
  - intros a b r. unfold AvatarAdoption.detectWithAST. cbv zeta.
    repeat case_match; intros [= <-]; cbn; auto.
  - intros a r. unfold AvatarAdoption.detectWithAST. cbv zeta.
    destruct (length _ =? 0)%nat; [discriminate|].
    repeat case_match; intros [= <-]; cbn; discriminate.
  - intros g d. unfold AvatarAdoption.detectFromDiff. cbv zeta.
    repeat case_match; cbn; auto.
  - intros g Eg. unfold AvatarAdoption.detectFromDiff. cbv zeta. rewrite Eg.
    cbn [negb].
    destruct (existsb (fun l => JsRegExp.test AvatarAdoption.AVATAR_BORDER_RE
                                                (content l)) _),
      (existsb (fun l => JsRegExp.test AvatarAdoption.AVATAR_SIZE_RE (content l)) _);
      cbn; discriminate.
Qed.

Lemma sound_select_rewrite : sound SelectRewrite.pattern.
Proof.
  apply (sound_with_trees SelectRewrite.pattern
           (fun g => negb (negb (SelectRewrite.hasSelectUsage (removedLines g)
                                 || SelectRewrite.hasSelectUsage (addedLines g))
                           || (negb (SelectRewrite.hasOldSelectAPI (removedLines g))
                               && negb (SelectRewrite.hasNewSelectAPI (addedLines g)))))
           SelectRewrite.detectWithAST
           (fun _ m => SelectRewrite.detectFromDiff m)
           {| patternId := SelectRewrite.PATTERN_ID;
              status := NOT_APPLICABLE;
              message := "No Select component rewrite in golden diff";
              details := None |}
           {| patternId := SelectRewrite.PATTERN_ID;
              status := FILE_MISSING;
              message := "Migration file is missing";
              details := None |}); try reflexivity.
  - intros g m ga ma.
    change (Registry.detect SelectRewrite.pattern) with SelectRewrite.detect.
    unfold SelectRewrite.detect. cbv zeta.
    now destruct (negb _ || _).
  - intros a b r. unfold SelectRewrite.detectWithAST. cbv zeta.
    repeat case_match; intros [= <-]; cbn; auto.
  - intros a r. unfold SelectRewrite.detectWithAST. cbv zeta.
    repeat case_match; intros [= <-]; cbn; discriminate.
  - intros _ d. unfold SelectRewrite.detectFromDiff. cbv zeta.
    repeat case_match; cbn; auto.
  - intros g Eg. unfold SelectRewrite.detectFromDiff. cbv zeta.
    apply negb_true_iff in Eg.
    destruct (SelectRewrite.hasOldSelectAPI (removedLines g)),
      (SelectRewrite.hasNewSelectAPI (addedLines g)),
      (SelectRewrite.hasOldSelectAPI (addedLines g));
      cbn [negb andb orb] in *; try discriminate;
      rewrite ?orb_false_r, ?orb_true_r in Eg; discriminate.
Qed.

Lemma catalog_registered (calls : list Registry.Call)
  (pattern : Registry.PatternDefinition) :
  In pattern (Registry.catalog_after calls) ->
  In (Registry.CallRegister pattern) calls.
Proof.
  unfold Registry.catalog_after.
  induction calls as [|c calls IH] using rev_ind; [intros []|].
  rewrite fold_left_app. cbn [fold_left]. intros H. apply in_or_app.
  destruct c as [p| | |]; try (left; now apply IH).
  apply in_app_or in H as [H|[<-|[]]]; [left; now apply IH|right; now left].
Qed.

Lemma sound_answers_missing (pattern : Registry.PatternDefinition) :
  sound pattern -> Cli.answers_missing pattern.
Proof.
  intros Hs g ga. now apply (Hs g None ga None).
Qed.

(** X28.  The definitions of css-class-prefix, utility-class-rename,
    theme-dark-removal, ouia-component-id, split-button-items,
    modal-import-path, toolbar-variant, chips-to-labels, inner-ref-to-ref,
    is-action-cell, css-logical-properties, page-section-variant,
    react-tokens-icon-status, align-right-to-end, space-items-removal,
    toolbar-gap, page-masthead, text-content-consolidation,
    test-selector-rewrite, button-icon-prop, empty-state-restructure,
    masthead-reorganization, avatar-adoption and select-rewrite (all the
    detectors that the driver loads) have distinct identifiers and the
    weight of their
    complexity (1 for trivial, 2 for moderate, 3 for complex).
    With or without syntax trees, each signs its outcome with its
    identifier, never answers UNNECESSARY, answers NOT_APPLICABLE exactly
    when it does without candidate and without trees (applicability is
    read from the golden record alone), answers NOT_APPLICABLE or
    FILE_MISSING for a missing file and FILE_MISSING for a missing file
    only, and never answers MISSING when the candidate record is the
    golden record and the candidate tree the golden tree.  So after any
    sequence of calls that registers only definitions among these, every registered detector answers
    NOT_APPLICABLE or FILE_MISSING for a missing file and has a positive
    weight. *)
Theorem X28_definitions_sound :
  Forall sound definitions /\
  NoDup (map Registry.id definitions) /\
  Forall (fun pattern =>
            Registry.weight pattern = weight_of (Registry.complexity pattern))
         definitions /\
  forall calls : list Registry.Call,
    (forall pattern, In (Registry.CallRegister pattern) calls ->
                     In pattern definitions) ->
    Forall Cli.answers_missing
           (Registry.read Registry.patterns (Registry.run calls)) /\
    Forall (fun pattern => (0 < Registry.weight pattern)%Z)
           (Registry.read Registry.patterns (Registry.run calls)).
Proof.
  assert (Hsound : Forall sound definitions).
  { unfold definitions.
    apply Forall_cons_2; [now apply (sound_of_contract CssClassPrefix.pattern _ contract_css_class_prefix)|].
    apply Forall_cons_2; [now apply (sound_of_contract UtilityClassRename.pattern _ contract_utility_class_rename)|].
    apply Forall_cons_2; [now apply (sound_of_contract theme_dark_removal _ contract_theme_dark_removal)|].
    apply Forall_cons_2; [now apply (sound_of_contract OuiaComponentId.pattern _ contract_ouia_component_id)|].
    apply Forall_cons_2; [now apply (sound_of_contract SplitButtonItems.pattern _ contract_split_button_items)|].
    apply Forall_cons_2; [now apply (sound_of_contract ModalImportPath.pattern _ contract_modal_import_path)|].
    apply Forall_cons_2; [now apply (sound_of_contract ToolbarVariant.pattern _ contract_toolbar_variant)|].
    apply Forall_cons_2; [now apply (sound_of_contract ChipsToLabels.pattern _ contract_chips_to_labels)|].
    apply Forall_cons_2; [now apply (sound_of_contract InnerRefToRef.pattern _ contract_inner_ref_to_ref)|].
    apply Forall_cons_2; [now apply (sound_of_contract IsActionCell.pattern _ contract_is_action_cell)|].
    apply Forall_cons_2; [now apply (sound_of_contract CssLogicalProperties.pattern _ contract_css_logical_properties)|].
    apply Forall_cons_2; [now apply (sound_of_contract PageSectionVariant.pattern _ contract_page_section_variant)|].
    apply Forall_cons_2; [now apply (sound_of_contract ReactTokensIconStatus.pattern _ contract_react_tokens_icon_status)|].
    apply Forall_cons_2; [now apply (sound_of_contract AlignRightToEnd.pattern _ contract_align_right_to_end)|].
    apply Forall_cons_2; [now apply (sound_of_contract SpaceItemsRemoval.pattern _ contract_space_items_removal)|].
    apply Forall_cons_2; [now apply (sound_of_contract ToolbarGap.pattern _ contract_toolbar_gap)|].
    apply Forall_cons_2; [now apply (sound_of_contract PageMasthead.pattern _ contract_page_masthead)|].
    apply Forall_cons_2; [now apply (sound_of_contract TextContentConsolidation.pattern _ contract_text_content_consolidation)|].
    apply Forall_cons_2; [now apply (sound_of_contract TestSelectorRewrite.pattern _ contract_test_selector_rewrite)|].
    apply Forall_cons_2; [exact sound_button_icon_prop|].
    apply Forall_cons_2; [exact sound_empty_state_restructure|].
    apply Forall_cons_2; [exact sound_masthead_reorganization|].
    apply Forall_cons_2; [exact sound_avatar_adoption|].
    apply Forall_cons_2; [exact sound_select_rewrite|].
    apply Forall_nil_2. }
  assert (Hweight : Forall (fun pattern =>
                              Registry.weight pattern
                              = weight_of (Registry.complexity pattern))
                           definitions).
  { unfold definitions. repeat (apply Forall_cons_2; [reflexivity|]).
    apply Forall_nil_2. }
  split; [exact Hsound|]. split; [|split; [exact Hweight|]].
  - apply (bool_decide_unpack _). vm_compute. exact I.
  - intros calls Hcalls. rewrite read_run.
    assert (Hin : Forall (fun pattern => In pattern definitions)
                         (Registry.catalog_after calls)).
    { apply Forall_forall. intros p Hp%list_elem_of_In.
      now apply Hcalls, catalog_registered. }
    rewrite Forall_forall in Hsound, Hweight. split.
    + eapply Forall_impl; [exact Hin|]. intros p Hp. cbv beta in Hp.
      apply sound_answers_missing, Hsound. now apply list_elem_of_In.
    + eapply Forall_impl; [exact Hin|]. intros p Hp. cbv beta in Hp |- *.
      apply list_elem_of_In in Hp. rewrite (Hweight p Hp).
      now destruct (Registry.complexity p).
Qed.

End DetectorContract.

(** ** The letter grade *)

Section Grades.
Import Engine MarkdownReporter GradeSpec.
Local Open Scope Q_scope.

Lemma ge_spec (a b : Q) : ge a b = true <-> b <= a.
Proof. apply Qle_bool_iff. Qed.

Ltac grade_cases :=
  unfold scoreToGrade;
  repeat match goal with
         | |- context [ge ?a ?b] =>
             let E := fresh "E" in
             destruct (ge a b) eqn:E;
             [apply ge_spec in E
             |apply not_true_iff_false in E; rewrite ge_spec in E]
         end;
  change (lit 90 1) with (90 # 1) in *; change (lit 80 1) with (80 # 1) in *;
  change (lit 70 1) with (70 # 1) in *; change (lit 60 1) with (60 # 1) in *.

Lemma scoreToGrade_mono (s1 s2 : Q) :
  s1 <= s2 -> (rank (scoreToGrade s1) <= rank (scoreToGrade s2))%nat.
Proof.
  intros Hs. grade_cases;
    first [ exfalso; lra | vm_compute; lia ].
Qed.

Lemma noisePenalty_app_le (ns more : list (NoiseInstance Q)) :
  Forall (fun n => 0 <= penalty n) more ->
  computeNoisePenalty ns <= computeNoisePenalty (ns ++ more).
Proof.
  intros Hm. pose proof (sum_penalties_nonneg more Hm) as H0.
  rewrite !computeNoisePenalty_spec. unfold SpecWords.noisePenalty.
  rewrite sum_penalties_app. apply Q.min_le_compat_l. lra.
Qed.

(** X20.  The letter grade is one of A, B, C, D and F; it is A from 90,
    B from 80, C from 70, D from 60 and F below; a higher score never
    gets a lower grade; and so further noise instances of non-negative
    penalty never improve the grade of an evaluation. *)
Theorem X20_grade_monotone :
  (forall s : Q,
     In (scoreToGrade s) ["A"; "B"; "C"; "D"; "F"]%string /\
     (scoreToGrade s = "A"%string <-> 90 <= s) /\
     (scoreToGrade s = "F"%string <-> s < 60)) /\
  (forall s1 s2 : Q,
     s1 <= s2 -> (rank (scoreToGrade s1) <= rank (scoreToGrade s2))%nat) /\
  (forall (mr : MatchResult) (wr : list (WeightedDetectionResult Q))
          (ns more : list (NoiseInstance Q)),
     Forall (fun n => 0 <= penalty n) more ->
     (rank (scoreToGrade
              (overallScore
                 (computeScore {| matchResult := mr; weightedResults := wr;
                                  noiseInstances := ns ++ more |})))
      <= rank (scoreToGrade
                 (overallScore
                    (computeScore {| matchResult := mr; weightedResults := wr;
                                     noiseInstances := ns |}))))%nat).
Proof.
  split; [|split].
  - intros s. split; [|split].
    + grade_cases; cbn; tauto.
    + grade_cases; split; intros; try discriminate; try reflexivity; try lra;
        exfalso; lra.
    + grade_cases; split; intros; try discriminate; try reflexivity; try lra;
        exfalso; lra.
  - exact scoreToGrade_mono.
  - intros mr wr ns more Hm. apply scoreToGrade_mono.
    pose proof (noisePenalty_app_le ns more Hm) as Hle.
    unfold computeScore.
    cbn [overallScore matchResult weightedResults noiseInstances].
    revert Hle.
    generalize (computeNoisePenalty (ns ++ more)) as np'.
    generalize (computeNoisePenalty ns) as np.
    generalize (@computeFileCoverage Q _ mr) as fc.
    generalize (computePatternScore wr) as ps.
    intros ps fc np np' Hle.
    change (lit 100 1) with (100 # 1). change (lit 20 100) with (20 # 100).
    change (lit 65 100) with (65 # 100). change (lit 15 100) with (15 # 100).
    change (lit 1 1) with (1 # 1). change add with Qplus. change mul with Qmult.
    change sub with Qminus.
    apply round_mono. lra.
Qed.

Lemma X20_grade_monotone_witness :
  (rank (scoreToGrade (7999 # 100)) <= rank (scoreToGrade (80 # 1)))%nat.
Proof.
  apply (proj1 (proj2 X20_grade_monotone) (7999 # 100) (80 # 1)).
  discriminate.
Defined.

End Grades.

(** ** The text rebuilt from a diff *)

Section Reconstruct.
Import JsString DiffParser ParserSpec AstAnalyzer.
Local Open Scope list_scope.

Lemma insert_by_line_perm (x : DiffLine) (l : list DiffLine) :
  Permutation (insert_by_line x l) (x :: l).
Proof.
  induction l as [|y l IH]; cbn [insert_by_line]; [reflexivity|].
  destruct (lineNumber x <=? lineNumber y)%Z; [reflexivity|].
  rewrite IH. apply perm_swap.
Qed.

Lemma insert_by_line_sorted (x : DiffLine) (l : list DiffLine) :
  in_line_order l -> in_line_order (insert_by_line x l).
Proof.
  unfold in_line_order. induction 1 as [|y l Hs IH Hh]; cbn [insert_by_line].
  - repeat constructor.
  - destruct (lineNumber x <=? lineNumber y)%Z eqn:E.
    + apply Z.leb_le in E. constructor; [now constructor|now constructor].
    + apply Z.leb_gt in E. constructor; [exact IH|].
      destruct l as [|z l]; cbn [insert_by_line].
      * constructor. lia.
      * destruct (lineNumber x <=? lineNumber z)%Z; constructor; [lia|].
        now inversion Hh.
Qed.

Lemma insert_by_line_at (n : Z) (x : DiffLine) (l : list DiffLine) :
  at_line n (insert_by_line x l) = at_line n (x :: l).
Proof.
  unfold at_line. induction l as [|y l IH]; cbn [insert_by_line]; [reflexivity|].
  destruct (lineNumber x <=? lineNumber y)%Z eqn:E; [reflexivity|].
  apply Z.leb_gt in E. cbn [List.filter] in *. rewrite IH.
  destruct (lineNumber x =? n)%Z eqn:Ex, (lineNumber y =? n)%Z eqn:Ey;
    try reflexivity.
  apply Z.eqb_eq in Ex, Ey. lia.
Qed.

Lemma sort_by_line_spec (l : list DiffLine) :
  in_line_order (sort_by_line l) /\ Permutation (sort_by_line l) l /\
  forall n, at_line n (sort_by_line l) = at_line n l.
Proof.
  unfold sort_by_line. induction l as [|x l (IH1 & IH2 & IH3)]; cbn [fold_right].
  - repeat split; constructor.
  - split; [now apply insert_by_line_sorted|]. split.
    + rewrite insert_by_line_perm. now constructor.
    + intros n. rewrite insert_by_line_at. unfold at_line in *.
      cbn [List.filter]. now rewrite IH3.
Qed.

Lemma sort_by_line_id (l : list DiffLine) :
  in_line_order l -> sort_by_line l = l.
Proof.
  unfold in_line_order, sort_by_line. induction 1 as [|x l Hs IH Hh]; [reflexivity|].
  cbn [fold_right]. rewrite IH. destruct Hh as [|y l Hxy]; [reflexivity|].
  cbn [insert_by_line]. apply Z.leb_le in Hxy. now rewrite Hxy.
Qed.

Lemma increasing_in_line_order (l : list DiffLine) :
  strictly_increasing (map lineNumber l) = true -> in_line_order l.
Proof.
  unfold in_line_order. induction l as [|a [|b l] IH]; intros H.
  - constructor.
  - repeat constructor.
  - cbn [map strictly_increasing] in H. apply andb_prop in H as [Hab H].
    apply Z.ltb_lt in Hab. constructor; [now apply IH|]. constructor. lia.
Qed.

Lemma reconstruct_id (diff : FileDiff) :
  in_line_order (addedLines diff) ->
  reconstructContentFromDiff diff
  = (join nl (map content (addedLines diff)), diff).
Proof.
  intros Ho. unfold reconstructContentFromDiff. cbv zeta.
  rewrite (sort_by_line_id _ Ho). now destruct diff.
Qed.

(** X21.  [reconstructContentFromDiff] returns the texts of the added
    lines in the order of their line numbers, joined by line feeds, and
    sorts the added lines of the record in place: afterwards the record
    has the same fields but for its added lines, which are the same
    entries in the order of their line numbers, the entries of one line
    number keeping their order.  So a record whose added lines are
    already in the order of their line numbers is left as it was; such are
    the records that [parseDiff] gives for a text in which every hunk
    starts no earlier than the previous one ended. *)
Theorem X21_reconstructed_content (diff : FileDiff) :
  let rebuilt := fst (reconstructContentFromDiff diff) in
  let after := snd (reconstructContentFromDiff diff) in
  (filePath after = filePath diff /\ oldPath after = oldPath diff /\
   removedLines after = removedLines diff /\ hunks after = hunks diff /\
   isBinary after = isBinary diff /\ isRenamed after = isRenamed diff) /\
  in_line_order (addedLines after) /\
  Permutation (addedLines after) (addedLines diff) /\
  (forall n : Z, at_line n (addedLines after) = at_line n (addedLines diff)) /\
  rebuilt = join nl (map content (addedLines after)) /\
  (in_line_order (addedLines diff) ->
   after = diff /\ rebuilt = join nl (map content (addedLines diff))) /\
  (forall diffText : string,
     In diff (parseDiff diffText) -> hunks_advance (hunks diff) = true ->
     after = diff).
Proof.
  cbn zeta.
  destruct (sort_by_line_spec (addedLines diff)) as (H1 & H2 & H3).
  split; [now repeat split|]. split; [exact H1|]. split; [exact H2|].
  split; [exact H3|]. split; [reflexivity|]. split.
  - intros Ho. now rewrite (reconstruct_id diff Ho).
  - intros text Hin Hadv.
    destruct (parseDiff_chunks text diff Hin) as (chunk & _ & Hp).
    destruct (parseFileChunk_lines chunk diff Hp) as (Hl & _ & _).
    rewrite extractLines_concat in Hl. injection Hl as Ha _.
    destruct (hunks_advance_sorted (hunks diff) Hadv) as [Sa _].
    rewrite <- Ha in Sa. apply strictly_increasing_sorted in Sa.
    now rewrite (reconstruct_id diff (increasing_in_line_order _ Sa)).
Qed.

End Reconstruct.

(** ** The command: references and records *)

Section CliRefs.
Import JsString FileMatcher MatcherSpec Cli.
Local Open Scope list_scope.

Lemma objects_snd (l : list FileDiff) : map snd (objects l) = l.
Proof.
  unfold objects. change (snd <$> imap pair l = l).
  rewrite fmap_imap, (imap_ext _ (const id)) by reflexivity.
  rewrite imap_const. apply list_fmap_id.
Qed.

Lemma objects_lookup (l : list FileDiff) :
  Forall (fun o => l !! fst o = Some (snd o)) (objects l).
Proof.
  apply Forall_forall. intros o Ho.
  apply elem_of_lookup_imap_1 in Ho as (i & y & -> & Hy). exact Hy.
Qed.

Lemma Forall_List_filter {A : Type} (P : A -> Prop) (f : A -> bool) (l : list A) :
  Forall P l -> Forall P (List.filter f l).
Proof.
  induction 1 as [|a l Ha _ IH]; cbn [List.filter]; [constructor|].
  destruct (f a); [now constructor|exact IH].
Qed.

Lemma refs_values (l : list FileDiff) (os : list (nat * FileDiff)) :
  Forall (fun o => l !! fst o = Some (snd o)) os ->
  map (fun i => l !!! i) (map fst os) = map snd os.
Proof.
  induction 1 as [|o os Ho _ IH]; cbn [map]; [reflexivity|].
  now rewrite IH, (list_lookup_total_correct _ _ _ Ho).
Qed.

Lemma buildMigrationRefs_lookup (M : list FileDiff) (os : list (nat * FileDiff)) :
  Forall (fun o => M !! fst o = Some (snd o)) os ->
  forall p : string,
    buildMigrationMap (map snd os) !! p
    = (fun j => M !!! j) <$> (buildMigrationRefs os !! p).
Proof.
  induction os as [|o os IH] using rev_ind; intros Hos p.
  - unfold buildMigrationMap, buildMigrationRefs. cbn [map fold_left].
    now rewrite !lookup_empty.
  - apply Forall_app in Hos as [Hos Ho]. apply Forall_cons_1 in Ho as [Ho _].
    rewrite map_app. cbn [map]. rewrite buildMigrationMap_snoc.
    unfold buildMigrationRefs. rewrite fold_left_app. cbn [fold_left].
    fold (buildMigrationRefs os). unfold path_of.
    rewrite !lookup_insert. destruct (decide _) as [E|E].
    + cbn. now rewrite (list_lookup_total_correct _ _ _ Ho).
    + now apply IH.
Qed.

(** The pair of records behind a pair of references. *)
Lemma match_ref_loop (G M : list FileDiff)
  (mapR : gmap string nat) (mapV : gmap string FileDiff) :
  (forall p, mapV !! p = (fun j => M !!! j) <$> (mapR !! p)) ->
  forall (os : list (nat * FileDiff)),
    Forall (fun o => G !! fst o = Some (snd o)) os ->
    forall st : list (nat * nat) * list nat * gset string,
      fold_left (match_step mapV) (map snd os)
        (map (fun ij => {| golden := G !!! fst ij; migration := M !!! snd ij |})
             (fst (fst st)),
         map (fun i => G !!! i) (snd (fst st)), snd st)
      = let st' := fold_left (match_ref_step mapR) os st in
        (map (fun ij => {| golden := G !!! fst ij; migration := M !!! snd ij |})
             (fst (fst st')),
         map (fun i => G !!! i) (snd (fst st')), snd st').
Proof.
  intros Hmap os. induction 1 as [|o os Ho _ IH]; intros [[mR sR] P].
  - reflexivity.
  - cbn [map fold_left fst snd]. rewrite <- IH. f_equal.
    unfold match_step, match_ref_step. rewrite Hmap.
    destruct (mapR !! normalizePath (filePath (snd o))) as [j|]; cbn [fmap option_fmap option_map fst snd].
    + rewrite map_app. cbn [map fst snd].
      now rewrite (list_lookup_total_correct _ _ _ Ho).
    + rewrite map_app. cbn [map].
      now rewrite (list_lookup_total_correct _ _ _ Ho).
Qed.

(** The references that [matchFileRefs] hands out stand for the records
    that [matchFiles] returns. *)
Lemma deref_matchFileRefs (G M : list FileDiff) :
  deref G M (matchFileRefs G M) = matchFiles G M.
Proof.
  unfold matchFileRefs, matchFiles, deref.
  set (osG := List.filter _ (objects G)).
  set (osM := List.filter _ (objects M)).
  assert (HG : Forall (fun o => G !! fst o = Some (snd o)) osG)
    by apply Forall_List_filter, objects_lookup.
  assert (HM : Forall (fun o => M !! fst o = Some (snd o)) osM)
    by apply Forall_List_filter, objects_lookup.
  assert (EG : List.filter (fun d => negb (isExcluded (filePath d))) G = map snd osG).
  { subst osG. rewrite <- (objects_snd G) at 1. apply filter_map_swap. }
  assert (EM : List.filter (fun d => negb (isExcluded (filePath d))) M = map snd osM).
  { subst osM. rewrite <- (objects_snd M) at 1. apply filter_map_swap. }
  rewrite EG, EM.
  pose proof (match_ref_loop G M (buildMigrationRefs osM)
                (buildMigrationMap (map snd osM))
                (buildMigrationRefs_lookup M osM HM) osG HG ([], [], ∅)) as HL.
  cbn [fst snd map] in HL. rewrite HL. clear HL.
  destruct (fold_left _ osG _) as [[mR sR] P]. cbn [fst snd matchedRefs missedRefs extraRefs].
  f_equal. rewrite filter_map_swap. rewrite <- refs_values with (l := M).
  - reflexivity.
  - now apply Forall_List_filter.
Qed.

End CliRefs.

(** ** The command: the two loops over the files *)

Section CliLoops.
Import JsString FileMatcher MatcherSpec AstAnalyzer Cli.
Local Open Scope list_scope.

Variable analyzeAST : string -> string -> Registry.ASTRepresentation.
Variable goldenFileContents migrationFileContents : option (gmap string string).
Variable patterns : list Registry.PatternDefinition.

Lemma touched_refl (d : FileDiff) : touched d d.
Proof. now left. Qed.

Lemma touched_filePath (a b : FileDiff) : touched a b -> filePath b = filePath a.
Proof. now intros [->| ->]. Qed.

(** Sorting twice is sorting once. *)
Lemma reconstruct_twice (d : FileDiff) :
  reconstructContentFromDiff (snd (reconstructContentFromDiff d))
  = reconstructContentFromDiff d.
Proof.
  rewrite (reconstruct_id (snd (reconstructContentFromDiff d)));
    [reflexivity|apply sort_by_line_spec].
Qed.

Lemma touched_trans (a b c : FileDiff) : touched a b -> touched b c -> touched a c.
Proof.
  intros [->| ->]; [easy|]. intros [->| ->]; [now right|]. right.
  now rewrite reconstruct_twice.
Qed.

Lemma kept_by_touched (contents : option (gmap string string)) (a b : FileDiff) :
  kept_by contents a b -> touched a b.
Proof. intros [->|[_ ->]]; [now left|now right]. Qed.

Lemma analyzeFileDiff_touched (d d' : FileDiff) :
  touched d d' -> analyzeFileDiff analyzeAST d' = analyzeFileDiff analyzeAST d.
Proof.
  intros [->| ->]; [reflexivity|]. unfold analyzeFileDiff.
  now rewrite reconstruct_twice.
Qed.

Lemma analyzeFileDiff_touches (d : FileDiff) :
  touched d (snd (analyzeFileDiff analyzeAST d)).
Proof. now right. Qed.

(** [astFor] gives the same tree and the same record for a record and for
    what the loop over the matched pairs has made of it. *)
Lemma astFor_kept (contents : option (gmap string string)) (d d' : FileDiff) :
  kept_by contents d d' ->
  astFor analyzeAST contents d' = astFor analyzeAST contents d.
Proof.
  intros [->|[Hc ->]]; [reflexivity|]. unfold astFor.
  change (filePath (snd (reconstructContentFromDiff d))) with (filePath d).
  rewrite Hc. apply analyzeFileDiff_touched. now right.
Qed.

Lemma astFor_keeps (contents : option (gmap string string)) (d : FileDiff) :
  kept_by contents d (snd (astFor analyzeAST contents d)).
Proof.
  unfold astFor. destruct (contents ≫= _) eqn:E; [now left|now right].
Qed.

Lemma store_lookup (R : FileDiff -> FileDiff -> Prop) (G0 G : list FileDiff)
  (i : nat) :
  (forall d, R d d) -> Forall2 R G0 G -> R (G0 !!! i) (G !!! i).
Proof.
  intros Hrefl HG. rewrite !list_lookup_total_alt.
  destruct (proj1 (Forall2_lookup _ _ _) HG i) as [x y Hxy|];
    [exact Hxy|apply Hrefl].
Qed.

Lemma store_insert (R : FileDiff -> FileDiff -> Prop) (G0 G : list FileDiff)
  (i : nat) (d : FileDiff) :
  Forall2 R G0 G -> R (G0 !!! i) d -> Forall2 R G0 (<[i:=d]> G).
Proof.
  intros HG Hd. destruct (G0 !! i) as [x|] eqn:E.
  - rewrite <- (list_insert_id G0 i x E).
    apply Forall2_insert; [exact HG|].
    now rewrite (list_lookup_total_correct _ _ _ E) in Hd.
  - apply lookup_ge_None in E. rewrite list_insert_ge; [exact HG|].
    apply Forall2_length in HG. lia.
Qed.

Lemma store_same (R : FileDiff -> FileDiff -> Prop) (G : list FileDiff) :
  (forall d, R d d) -> Forall2 R G G.
Proof. intros Hrefl. induction G; constructor; auto. Qed.

Lemma store_weaken (R R' : FileDiff -> FileDiff -> Prop) (G0 G : list FileDiff) :
  (forall a b, R a b -> R' a b) -> Forall2 R G0 G -> Forall2 R' G0 G.
Proof. intros H HG. eapply Forall2_impl; [exact HG|exact H]. Qed.

Lemma concat_replicate_end {A : Type} (n : nat) (x : list A) :
  concat (replicate (n + 1) x) = concat (replicate n x) ++ x.
Proof.
  induction n as [|n IH]; cbn [Nat.add replicate concat].
  - now rewrite app_nil_r.
  - now rewrite IH, app_assoc.
Qed.

Lemma weighted_results (run : Registry.PatternDefinition -> DetectionResult) :
  map Engine.result (weighted (num := Q) patterns run) = map run patterns /\
  map Engine.weight (weighted (num := Q) patterns run)
  = map (fun pattern => lit (Registry.weight pattern) 1) patterns /\
  Forall (fun w => exists pattern,
                     In pattern patterns /\
                     Engine.weight w = lit (Registry.weight pattern) 1)
         (weighted (num := Q) patterns run).
Proof.
  unfold weighted. split; [|split].
  - rewrite map_map. reflexivity.
  - rewrite map_map. reflexivity.
  - apply Forall_forall. intros w Hw%list_elem_of_In.
    apply in_map_iff in Hw as (p & <- & Hp). now exists p.
Qed.

(** One turn of the loop over the matched pairs. *)
Lemma matched_step_done (G0 M0 : list FileDiff) (pairs : list MatchedPair)
  (st : Loop Q) (ij : nat * nat) :
  Forall2 (kept_by goldenFileContents) G0 (goldenObjs st) ->
  Forall2 (kept_by migrationFileContents) M0 (migrationObjs st) ->
  results_done analyzeAST goldenFileContents migrationFileContents patterns
               pairs [] st ->
  let st' := matched_step analyzeAST goldenFileContents migrationFileContents
                          patterns st ij in
  Forall2 (kept_by goldenFileContents) G0 (goldenObjs st') /\
  Forall2 (kept_by migrationFileContents) M0 (migrationObjs st') /\
  results_done analyzeAST goldenFileContents migrationFileContents patterns
    (pairs ++ [ {| golden := G0 !!! fst ij; migration := M0 !!! snd ij |} ]) [] st'.
Proof.
  intros HG HM (HF & HD & HW & HWp & HWw). cbv zeta. unfold matched_step.
  rewrite (astFor_kept goldenFileContents (G0 !!! fst ij) (goldenObjs st !!! fst ij))
    by (apply store_lookup; [now left|exact HG]).
  rewrite (astFor_kept migrationFileContents (M0 !!! snd ij)
             (migrationObjs st !!! snd ij))
    by (apply store_lookup; [now left|exact HM]).
  pose proof (astFor_keeps goldenFileContents (G0 !!! fst ij)) as Kg.
  pose proof (astFor_keeps migrationFileContents (M0 !!! snd ij)) as Km.
  assert (Eo : outcomes_pair analyzeAST goldenFileContents migrationFileContents
                 patterns {| golden := G0 !!! fst ij; migration := M0 !!! snd ij |}
               = let '(ga, g) := astFor analyzeAST goldenFileContents (G0 !!! fst ij) in
                 let '(ma, m) := astFor analyzeAST migrationFileContents
                                        (M0 !!! snd ij) in
                 map (fun pattern =>
                        Registry.detect pattern g (Some m) (Some ga) (Some ma))
                     patterns) by reflexivity.
  destruct (astFor analyzeAST goldenFileContents (G0 !!! fst ij)) as [ga g].
  destruct (astFor analyzeAST migrationFileContents (M0 !!! snd ij)) as [ma m].
  cbn [snd] in Kg, Km.
  destruct (weighted_results
              (fun pattern => Registry.detect pattern g (Some m) (Some ga) (Some ma)))
    as (W1 & W3 & W2).
  unfold results_done. cbv zeta.
  cbn [goldenObjs migrationObjs allWeightedResults allDetectionResults loopFileResults].
  split; [now apply store_insert|]. split; [now apply store_insert|].
  split; [|split; [|split; [|split]]].
  - rewrite map_app, HF. cbn [map golden]. rewrite Eo.
    now rewrite (touched_filePath _ _ (kept_by_touched _ _ _ Kg)).
  - cbn [map concat] in *. rewrite app_nil_r in *.
    rewrite map_app, concat_app, HD. cbn [map concat]. rewrite Eo.
    now rewrite app_nil_r.
  - now rewrite map_app, HW, W1.
  - apply Forall_app. now split.
  - rewrite map_app, HWw, W3, length_app. cbn [length].
    rewrite !Nat.add_0_r. apply eq_sym, concat_replicate_end.
Qed.

(** One turn of the loop over the missed files. *)
Lemma missed_step_done (G0 : list FileDiff) (pairs : list MatchedPair)
  (missed : list FileDiff) (st : Loop Q) (i : nat) :
  Forall2 touched G0 (goldenObjs st) ->
  results_done analyzeAST goldenFileContents migrationFileContents patterns
               pairs missed st ->
  let st' := missed_step analyzeAST patterns st i in
  Forall2 touched G0 (goldenObjs st') /\
  migrationObjs st' = migrationObjs st /\
  results_done analyzeAST goldenFileContents migrationFileContents patterns
    pairs (missed ++ [G0 !!! i]) st'.
Proof.
  intros HG (HF & HD & HW & HWp & HWw). cbv zeta. unfold missed_step.
  rewrite (analyzeFileDiff_touched (G0 !!! i) (goldenObjs st !!! i))
    by (apply store_lookup; [now left|exact HG]).
  pose proof (analyzeFileDiff_touches (G0 !!! i)) as Tg.
  assert (Eo : outcomes_missed analyzeAST patterns (G0 !!! i)
               = let '(ga, g) := analyzeFileDiff analyzeAST (G0 !!! i) in
                 map (fun pattern => Registry.detect pattern g None (Some ga) None)
                     patterns) by reflexivity.
  destruct (analyzeFileDiff analyzeAST (G0 !!! i)) as [ga g]. cbn [snd] in Tg.
  destruct (weighted_results
              (fun pattern => Registry.detect pattern g None (Some ga) None))
    as (W1 & W3 & W2).
  unfold results_done. cbv zeta.
  cbn [goldenObjs migrationObjs allWeightedResults allDetectionResults loopFileResults].
  split; [now apply store_insert|]. split; [reflexivity|].
  split; [exact HF|]. split; [|split; [|split]].
  - rewrite map_app, concat_app, HD. cbn [map concat]. rewrite Eo.
    now rewrite app_nil_r, app_assoc.
  - now rewrite map_app, HW, W1.
  - apply Forall_app. now split.
  - rewrite map_app, HWw, W3, length_app. cbn [length].
    rewrite Nat.add_assoc. apply eq_sym, concat_replicate_end.
Qed.

Lemma matched_loop_done (G0 M0 : list FileDiff) (refs : list (nat * nat)) :
  forall (pairs : list MatchedPair) (st : Loop Q),
    Forall2 (kept_by goldenFileContents) G0 (goldenObjs st) ->
    Forall2 (kept_by migrationFileContents) M0 (migrationObjs st) ->
    results_done analyzeAST goldenFileContents migrationFileContents patterns
                 pairs [] st ->
    let st' := fold_left (matched_step analyzeAST goldenFileContents
                                       migrationFileContents patterns) refs st in
    Forall2 (kept_by goldenFileContents) G0 (goldenObjs st') /\
    Forall2 (kept_by migrationFileContents) M0 (migrationObjs st') /\
    results_done analyzeAST goldenFileContents migrationFileContents patterns
      (pairs ++ map (fun ij => {| golden := G0 !!! fst ij;
                                  migration := M0 !!! snd ij |}) refs) [] st'.
Proof.
  induction refs as [|ij refs IH]; intros pairs st HG HM Hst; cbn [map fold_left].
  - now rewrite app_nil_r.
  - rewrite (app_assoc pairs [_] _ : pairs ++ _ :: _ = (pairs ++ [_]) ++ _).
    destruct (matched_step_done G0 M0 pairs st ij HG HM Hst) as (HG' & HM' & Hst').
    now apply IH.
Qed.

Lemma missed_loop_done (G0 : list FileDiff) (pairs : list MatchedPair)
  (refs : list nat) :
  forall (missed : list FileDiff) (st : Loop Q),
    Forall2 touched G0 (goldenObjs st) ->
    results_done analyzeAST goldenFileContents migrationFileContents patterns
                 pairs missed st ->
    let st' := fold_left (missed_step analyzeAST patterns) refs st in
    Forall2 touched G0 (goldenObjs st') /\
    migrationObjs st' = migrationObjs st /\
    results_done analyzeAST goldenFileContents migrationFileContents patterns
      pairs (missed ++ map (fun i => G0 !!! i) refs) st'.
Proof.
  induction refs as [|i refs IH]; intros missed st HG Hst; cbn [map fold_left].
  - now rewrite app_nil_r.
  - rewrite (app_assoc missed [_] _ : missed ++ _ :: _ = (missed ++ [_]) ++ _).
    destruct (missed_step_done G0 pairs missed st i HG Hst) as (HG' & HM' & Hst').
    destruct (IH _ _ HG' Hst') as (HG2 & HM2 & Hst2).
    split; [exact HG2|]. split; [now rewrite HM2|exact Hst2].
Qed.

(** The two loops, from the start: what they collect is what the
    detectors answer for the matched pairs and the missed files of
    [matchFiles], on the records as they were read; the arrays hold the
    same records, some with their added lines sorted. *)
Lemma loops_from_start (G M : list FileDiff) :
  let refs := matchFileRefs G M in
  let st0 : Loop Q :=
    {| goldenObjs := G; migrationObjs := M; allWeightedResults := [];
       allDetectionResults := []; loopFileResults := [] |} in
  let st :=
    fold_left (missed_step analyzeAST patterns) (missedRefs refs)
      (fold_left (matched_step analyzeAST goldenFileContents migrationFileContents
                               patterns) (matchedRefs refs) st0) in
  Forall2 touched G (goldenObjs st) /\
  Forall2 (kept_by migrationFileContents) M (migrationObjs st) /\
  results_done analyzeAST goldenFileContents migrationFileContents patterns
    (matched (matchFiles G M)) (missedFiles (matchFiles G M)) st.
Proof.
  intros refs st0 st. rewrite <- (deref_matchFileRefs G M). fold refs.
  cbn [deref matched missedFiles].
  assert (H0 : results_done analyzeAST goldenFileContents migrationFileContents
                 patterns [] [] st0).
  { unfold results_done, st0. cbv zeta.
    cbn [allWeightedResults allDetectionResults loopFileResults map concat app length
         Nat.add replicate].
    repeat split; constructor. }
  destruct (matched_loop_done G M (matchedRefs refs) [] st0
              (store_same _ G (fun d => or_introl eq_refl))
              (store_same _ M (fun d => or_introl eq_refl)) H0)
    as (HG1 & HM1 & H1).
  cbn [app] in H1.
  destruct (missed_loop_done G _ (missedRefs refs) [] _
              (store_weaken _ _ _ _ (kept_by_touched goldenFileContents) HG1) H1)
    as (HG2 & HM2 & H2).
  cbn [app] in H2. subst st.
  split; [exact HG2|]. split; [now rewrite HM2|exact H2].
Qed.

End CliLoops.

(** ** The command: the report *)

Section CliReport.
Import JsString FileMatcher MatcherSpec NoiseDetector NoiseSpec AstAnalyzer Cli.
Local Open Scope list_scope.

Variable analyzeAST : string -> string -> Registry.ASTRepresentation.
Variable goldenFileContents migrationFileContents : option (gmap string string).

(** The state the two loops leave. *)
Lemma evaluate_eq (registry : Registry.Heap) (G M : list FileDiff) :
  let patterns := Registry.read Registry.patterns registry in
  let refs := matchFileRefs G M in
  let st : Loop Q :=
    fold_left (missed_step analyzeAST patterns) (missedRefs refs)
      (fold_left (matched_step analyzeAST goldenFileContents migrationFileContents
                               patterns) (matchedRefs refs)
         {| goldenObjs := G; migrationObjs := M; allWeightedResults := [];
            allDetectionResults := []; loopFileResults := [] |}) in
  let matchResultNow := deref (goldenObjs st) (migrationObjs st) refs in
  let noise :=
    detectNoise {| matchResult := matchResultNow;
                   migrationDiffs := migrationObjs st;
                   detectionResults := allDetectionResults st |} in
  let score :=
    Engine.computeScore
      {| Engine.matchResult := matchResultNow;
         Engine.weightedResults := allWeightedResults st;
         Engine.noiseInstances := noise |} in
  evaluate analyzeAST goldenFileContents migrationFileContents registry G M
  = {| summary := score;
       fileResults := fold_left (fun frs n => assign_noise n frs) noise
                                (loopFileResults st);
       patternBreakdown := allDetectionResults st;
       noiseInstances := noise;
       grade := printed_grade (Engine.overallScore score);
       goldenAfter := goldenObjs st;
       migrationAfter := migrationObjs st |}.
Proof.
  intros patterns refs st matchResultNow noise score. unfold evaluate.
  pose proof (read_alloc_new patterns registry) as E.
  unfold Registry.getPatterns. fold patterns.
  destruct (Registry.alloc patterns registry) as [r h]. cbn [fst snd] in E.
  rewrite E. reflexivity.
Qed.

Lemma noise_for_snoc (ns : list (NoiseInstance Q)) (n : NoiseInstance Q)
  (seen : list string) (path : string) :
  noise_for (ns ++ [n]) seen path
  = noise_for ns seen path
    ++ (if existsb (String.eqb path) seen then []
        else if String.eqb path (file n) then [n] else []).
Proof.
  unfold noise_for. destruct (existsb _ seen); [reflexivity|].
  rewrite List.filter_app. cbn [List.filter]. now destruct (String.eqb path (file n)).
Qed.

Lemma attach_nil (seen : list string) (frs : list (FileResult Q)) :
  attach [] seen frs = frs.
Proof.
  revert seen. induction frs as [|fr frs IH]; intros seen; cbn [attach]; [reflexivity|].
  rewrite IH. unfold noise_for. cbn [List.filter].
  destruct (existsb _ seen); rewrite app_nil_r; now destruct fr.
Qed.

Lemma attach_snoc (ns : list (NoiseInstance Q)) (n : NoiseInstance Q)
  (frs : list (FileResult Q)) :
  forall seen : list string,
    attach (ns ++ [n]) seen frs
    = if existsb (String.eqb (file n)) seen then attach ns seen frs
      else assign_noise n (attach ns seen frs).
Proof.
  induction frs as [|fr frs IH]; intros seen; cbn [attach].
  - now destruct (existsb _ seen).
  - rewrite IH, noise_for_snoc. cbn [existsb assign_noise fr_filePath].
    rewrite (String.eqb_sym (file n) (fr_filePath fr)).
    destruct (existsb (String.eqb (file n)) seen) eqn:En.
    + rewrite orb_true_r.
      destruct (existsb (String.eqb (fr_filePath fr)) seen) eqn:Ef;
        [now rewrite app_nil_r|].
      destruct (String.eqb (fr_filePath fr) (file n)) eqn:E;
        [|now rewrite app_nil_r].
      apply String.eqb_eq in E. rewrite E in Ef. congruence.
    + rewrite orb_false_r.
      destruct (String.eqb (fr_filePath fr) (file n)) eqn:E.
      * apply String.eqb_eq in E. rewrite E at 3. rewrite En.
        cbn [fr_detections fr_noiseInstances]. now rewrite app_assoc.
      * destruct (existsb (String.eqb (fr_filePath fr)) seen);
          now rewrite app_nil_r.
Qed.

(** The loop that hands the noise to the file results, in closed form. *)
Lemma assign_noise_fold (ns : list (NoiseInstance Q)) (frs : list (FileResult Q)) :
  fold_left (fun frs n => assign_noise n frs) ns frs = attach ns [] frs.
Proof.
  induction ns as [|n ns IH] using rev_ind.
  - now rewrite attach_nil.
  - rewrite fold_left_app. cbn [fold_left]. now rewrite IH, attach_snoc.
Qed.

Lemma attach_fields (ns : list (NoiseInstance Q)) (frs : list (FileResult Q)) :
  forall seen : list string,
    map fr_filePath (attach ns seen frs) = map fr_filePath frs /\
    map fr_detections (attach ns seen frs) = map fr_detections frs.
Proof.
  induction frs as [|fr frs IH]; intros seen; cbn [attach map]; [easy|].
  destruct (IH (fr_filePath fr :: seen)) as [-> ->]. easy.
Qed.

Lemma existsb_eqb_In (path : string) (seen : list string) :
  existsb (String.eqb path) seen = true <-> In path seen.
Proof.
  rewrite existsb_exists. split.
  - intros (x & Hx & E). apply String.eqb_eq in E. now subst.
  - intros Hin. exists path. split; [exact Hin|apply String.eqb_refl].
Qed.

Lemma attach_lookup (ns : list (NoiseInstance Q)) (frs : list (FileResult Q)) :
  Forall (fun fr => fr_noiseInstances fr = []) frs ->
  forall (seen : list string) (k : nat) (fr : FileResult Q),
    attach ns seen frs !! k = Some fr ->
    fr_noiseInstances fr
    = noise_for ns (rev (map fr_filePath (take k frs)) ++ seen) (fr_filePath fr).
Proof.
  induction 1 as [|fr0 frs H0 _ IH]; intros seen k fr; cbn [attach].
  - discriminate.
  - destruct k as [|k]; cbn [lookup list_lookup take map rev app].
    + intros [= <-]. cbn [fr_noiseInstances fr_filePath]. now rewrite H0.
    + intros Hk. rewrite (IH _ _ _ Hk). now rewrite <- app_assoc.
Qed.

(** An instance of the type unnecessary_change names an extra file. *)
Lemma unnecessary_from_extra (input : NoiseDetectorInput) (n : NoiseInstance Q) :
  In n (detectNoise input) -> type n = unnecessary_change ->
  In (file n) (map filePath (extraFiles (matchResult input))).
Proof.
  rewrite detectNoise_blocks. intros Hn Ht.
  apply in_app_or in Hn as [Hn|Hn].
  { unfold detectUnnecessaryChanges in Hn. apply in_map_iff in Hn as (d & <- & Hd).
    cbn [file]. now apply in_map. }
  exfalso. apply in_app_or in Hn as [Hn|Hn].
  { pose proof (formatting_types (matched_paths (matchResult input))
                  (migrationDiffs input)) as Hs.
    rewrite Forall_forall in Hs. apply list_elem_of_In, Hs in Hn as [Hty _].
    congruence. }
  apply in_app_or in Hn as [Hn|Hn].
  { unfold detectIncorrectMigrations in Hn. apply in_map_iff in Hn as (d & <- & _).
    discriminate. }
  apply in_app_or in Hn as [Hn|Hn].
  - pose proof (scan_types ARTIFACT_PATTERNS artifact "Artifact detected: "
                  (migrationDiffs input)) as Hs.
    rewrite Forall_forall in Hs. apply list_elem_of_In, Hs in Hn as [Hty _].
    congruence.
  - pose proof (scan_types PLACEHOLDER_PATTERNS placeholder_token
                  "Placeholder token detected: " (migrationDiffs input)) as Hs.
    rewrite Forall_forall in Hs. apply list_elem_of_In, Hs in Hn as [Hty _].
    congruence.
Qed.

(** An instance of the type incorrect_migration names a pattern. *)
Lemma incorrect_from_results (input : NoiseDetectorInput) (n : NoiseInstance Q) :
  In n (detectNoise input) -> type n = incorrect_migration ->
  exists r : DetectionResult,
    In r (detectionResults input) /\ status r = INCORRECT /\ file n = patternId r.
Proof.
  rewrite detectNoise_blocks. intros Hn Ht.
  apply in_app_or in Hn as [Hn|Hn].
  { unfold detectUnnecessaryChanges in Hn. apply in_map_iff in Hn as (d & <- & Hd).
    discriminate. }
  apply in_app_or in Hn as [Hn|Hn].
  { exfalso.
    pose proof (formatting_types (matched_paths (matchResult input))
                  (migrationDiffs input)) as Hs.
    rewrite Forall_forall in Hs. apply list_elem_of_In, Hs in Hn as [Hty _].
    congruence. }
  apply in_app_or in Hn as [Hn|Hn].
  { unfold detectIncorrectMigrations in Hn. apply in_map_iff in Hn as (r & <- & Hr).
    apply filter_In in Hr as [Hr Hs]. apply bool_decide_eq_true in Hs.
    exists r. now repeat split. }
  exfalso. apply in_app_or in Hn as [Hn|Hn].
  - pose proof (scan_types ARTIFACT_PATTERNS artifact "Artifact detected: "
                  (migrationDiffs input)) as Hs.
    rewrite Forall_forall in Hs. apply list_elem_of_In, Hs in Hn as [Hty _].
    congruence.
  - pose proof (scan_types PLACEHOLDER_PATTERNS placeholder_token
                  "Placeholder token detected: " (migrationDiffs input)) as Hs.
    rewrite Forall_forall in Hs. apply list_elem_of_In, Hs in Hn as [Hty _].
    congruence.
Qed.

(** The records behind the references, before and after the loops. *)
Lemma deref_touched (G G' M M' : list FileDiff) (refs : MatchRefs) :
  Forall2 touched G G' -> Forall2 touched M M' ->
  let before := deref G M refs in
  let after := deref G' M' refs in
  Forall2 (fun p q => touched (golden p) (golden q)
                      /\ touched (migration p) (migration q))
          (matched before) (matched after) /\
  Forall2 touched (missedFiles before) (missedFiles after) /\
  Forall2 touched (extraFiles before) (extraFiles after).
Proof.
  intros HG HM. cbn zeta. unfold deref. cbn [matched missedFiles extraFiles].
  repeat split.
  - induction (matchedRefs refs) as [|ij l IH]; cbn [map]; constructor; [|exact IH].
    cbn [golden migration]. split; apply store_lookup; auto using touched_refl.
  - induction (missedRefs refs) as [|i l IH]; cbn [map]; constructor; [|exact IH].
    apply store_lookup; auto using touched_refl.
  - induction (extraRefs refs) as [|i l IH]; cbn [map]; constructor; [|exact IH].
    apply store_lookup; auto using touched_refl.
Qed.

Lemma touched_paths (l l' : list FileDiff) :
  Forall2 touched l l' -> map filePath l' = map filePath l.
Proof.
  induction 1 as [|a b l l' Hab _ IH]; cbn [map]; [reflexivity|].
  now rewrite IH, (touched_filePath a b Hab).
Qed.

(** The path of an extra record is the path of no matched golden record. *)
Lemma extra_not_matched (G M : list FileDiff) (e : FileDiff) (p : MatchedPair) :
  In e (extraFiles (matchFiles G M)) -> In p (matched (matchFiles G M)) ->
  filePath e <> filePath (golden p).
Proof.
  rewrite matchFiles_eq. cbn [extraFiles matched].
  intros He Hp E. apply filter_In in He as [_ He].
  apply negb_true_iff, bool_decide_eq_false in He. apply He.
  apply in_matched_of in Hp as [Hg HM]. apply in_paths_of.
  exists (golden p). unfold path_of in *. rewrite E.
  split; [exact Hg|]. split; [reflexivity|]. rewrite HM. eauto.
Qed.

Lemma concat_length_each {A B : Type} (n : nat) (f : A -> list B) (l : list A) :
  (forall a, length (f a) = n) ->
  length (concat (map f l)) = (n * length l)%nat.
Proof.
  intros Hf. induction l as [|a l IH]; cbn [map concat length]; [lia|].
  rewrite length_app, IH, Hf. lia.
Qed.

Lemma outcomes_pair_length (patterns : list Registry.PatternDefinition)
  (pair : MatchedPair) :
  length (outcomes_pair analyzeAST goldenFileContents migrationFileContents
                        patterns pair)
  = length patterns.
Proof.
  unfold outcomes_pair. repeat case_match. apply length_map.
Qed.

Lemma outcomes_missed_length (patterns : list Registry.PatternDefinition)
  (g : FileDiff) :
  length (outcomes_missed analyzeAST patterns g) = length patterns.
Proof.
  unfold outcomes_missed. case_match. apply length_map.
Qed.

(** X22.  The detections of a run.  The command makes one file result
    for each matched pair of [matchFiles], in that order, with the path of
    the golden record of the pair and the answers of all the registered
    detectors for the pair; the pattern breakdown of the report holds
    these answers, then the answers of the detectors for each missed file
    with no candidate record; so it has as many entries as detectors times
    matched pairs and missed files.  The answers are those for the records
    as they were read, each with the tree and in the state that [astFor]
    (for a pair) or [analyzeFileDiff] (for a missed file) gives for it:
    that records are sorted in place, and that one candidate record can
    serve several pairs, makes no difference.  The two lists are left
    with the same records, some with their added lines sorted. *)
Theorem X22_detections_of_a_run (registry : Registry.Heap) (G M : list FileDiff) :
  let ev := evaluate (num := Q) analyzeAST goldenFileContents migrationFileContents
                     registry G M in
  let mr := matchFiles G M in
  let patterns := Registry.read Registry.patterns registry in
  let outcomes :=
    outcomes_pair analyzeAST goldenFileContents migrationFileContents patterns in
  map fr_filePath (fileResults ev)
  = map (fun pair => filePath (golden pair)) (matched mr) /\
  map fr_detections (fileResults ev) = map outcomes (matched mr) /\
  patternBreakdown ev
  = concat (map outcomes (matched mr))
    ++ concat (map (outcomes_missed analyzeAST patterns) (missedFiles mr)) /\
  length (patternBreakdown ev)
  = (length patterns * (length (matched mr) + length (missedFiles mr)))%nat /\
  Forall2 touched G (goldenAfter ev) /\ Forall2 touched M (migrationAfter ev).
Proof.
  intros ev mr patterns outcomes. subst ev. rewrite evaluate_eq. fold patterns.
  cbn [fileResults patternBreakdown goldenAfter migrationAfter].
  pose proof (loops_from_start analyzeAST goldenFileContents migrationFileContents
                patterns G M) as (HG & HM & HF & HD & _).
  cbv zeta in HG, HM, HF, HD. fold mr outcomes in HF, HD.
  set (st := fold_left (missed_step analyzeAST patterns) _ _) in *.
  rewrite assign_noise_fold.
  set (noise := detectNoise _).
  destruct (attach_fields noise (loopFileResults st) []) as [Ep Ed].
  rewrite Ep, Ed, HF, HD, !map_map. cbn [fr_filePath fr_detections].
  split; [reflexivity|]. split; [reflexivity|]. split; [reflexivity|].
  split.
  - rewrite length_app.
    rewrite (concat_length_each (length patterns) outcomes)
      by apply outcomes_pair_length.
    rewrite (concat_length_each (length patterns) (outcomes_missed analyzeAST patterns))
      by apply outcomes_missed_length.
    lia.
  - split; [exact HG|].
    eapply Forall2_impl; [exact HM|]. apply kept_by_touched.
Qed.

(** X23.  Where the noise goes.  The file results have the paths of the
    golden records of the matched pairs.  A noise instance is handed to
    the first file result whose path is the file of the instance: such a
    file result holds exactly the instances of the report for its path,
    in the order of the report, a later file result of the same path
    holds none, and an instance for any other file is in no file result.
    No file result ever holds an unnecessary_change instance: the extra
    files are, by construction, not among the matched ones.  And an
    incorrect_migration instance names a pattern, not a file: a file
    result holds one only when its path is the identifier of a pattern
    with an INCORRECT outcome in the breakdown. *)
Theorem X23_noise_attachment (registry : Registry.Heap) (G M : list FileDiff) :
  let ev := evaluate (num := Q) analyzeAST goldenFileContents migrationFileContents
                     registry G M in
  map fr_filePath (fileResults ev)
  = map (fun pair => filePath (golden pair)) (matched (matchFiles G M)) /\
  forall (k : nat) (fr : FileResult Q),
    fileResults ev !! k = Some fr ->
    (In (fr_filePath fr) (map fr_filePath (take k (fileResults ev))) ->
     fr_noiseInstances fr = []) /\
    (~ In (fr_filePath fr) (map fr_filePath (take k (fileResults ev))) ->
     fr_noiseInstances fr
     = List.filter (fun n => String.eqb (fr_filePath fr) (file n))
                   (noiseInstances ev)) /\
    Forall (fun n => type n <> unnecessary_change /\
                     (type n = incorrect_migration ->
                      exists r : DetectionResult,
                        In r (patternBreakdown ev) /\ status r = INCORRECT /\
                        patternId r = fr_filePath fr))
           (fr_noiseInstances fr).
Proof.
  intros ev. subst ev. rewrite evaluate_eq.
  cbn [fileResults noiseInstances patternBreakdown].
  set (patterns := Registry.read Registry.patterns registry).
  pose proof (loops_from_start analyzeAST goldenFileContents migrationFileContents
                patterns G M) as (HG & HM & HF & _).
  cbv zeta in HG, HM, HF.
  apply (store_weaken _ _ _ _ (kept_by_touched migrationFileContents)) in HM.
  set (st := fold_left (missed_step analyzeAST patterns) _ _) in *.
  rewrite assign_noise_fold.
  set (input := {| matchResult := _ |}).
  set (noise := detectNoise input).
  destruct (attach_fields noise (loopFileResults st) []) as [Ep _].
  assert (Epaths : map fr_filePath (loopFileResults st)
                   = map (fun pair => filePath (golden pair)) (matched (matchFiles G M))).
  { rewrite HF, map_map. reflexivity. }
  assert (Hnone : Forall (fun fr : FileResult Q => fr_noiseInstances fr = [])
                         (loopFileResults st)).
  { rewrite HF. apply Forall_map, Forall_forall. now intros p _. }
  split; [now rewrite Ep|].
  intros k fr Hk.
  pose proof (attach_lookup noise _ Hnone [] k fr Hk) as Hn.
  rewrite app_nil_r in Hn.
  assert (Etake : map fr_filePath (take k (attach noise [] (loopFileResults st)))
                  = map fr_filePath (take k (loopFileResults st))).
  { change (fr_filePath <$> take k (attach noise [] (loopFileResults st))
            = fr_filePath <$> take k (loopFileResults st)).
    rewrite !fmap_take. f_equal. exact Ep. }
  rewrite Etake.
  unfold noise_for in Hn.
  split; [|split].
  - intros Hin. apply in_rev, existsb_eqb_In in Hin. now rewrite Hin in Hn.
  - intros Hin. destruct (existsb _ _) eqn:Ex; [|exact Hn].
    exfalso. apply Hin, in_rev. now apply existsb_eqb_In.
  - assert (Hsub : Forall (fun n => In n noise /\ file n = fr_filePath fr)
                          (fr_noiseInstances fr)).
    { rewrite Hn. destruct (existsb _ _); [constructor|].
      apply Forall_forall. intros n Hin%list_elem_of_In.
      apply filter_In in Hin as [Hin E]. apply String.eqb_eq in E. now split. }
    eapply Forall_impl; [exact Hsub|]. cbn. intros n [Hin Hfile].
    split.
    2:{ intros Hty.
        destruct (incorrect_from_results input n Hin Hty) as (r & Hr & Hs & Hf).
        exists r. subst input. cbn [detectionResults] in Hr.
        split; [exact Hr|]. split; [exact Hs|]. congruence. }
    intros Hty.
    pose proof (unnecessary_from_extra input n Hin Hty) as Hex.
    subst input. cbn [matchResult] in Hex.
    destruct (deref_touched G (goldenObjs st) M (migrationObjs st)
                (matchFileRefs G M) HG HM) as (_ & _ & HE).
    rewrite deref_matchFileRefs in HE.
    rewrite (touched_paths _ _ HE) in Hex.
    apply in_map_iff in Hex as (e & He & Hein).
    assert (Hp : In (fr_filePath fr)
                    (map (fun pair => filePath (golden pair))
                         (matched (matchFiles G M)))).
    { rewrite <- Epaths, <- Ep. apply in_map.
      apply list_elem_of_In. eapply list_elem_of_lookup_2. exact Hk. }
    apply in_map_iff in Hp as (p & Hp & Hpin).
    apply (extra_not_matched G M e p Hein Hpin). congruence.
Qed.

End CliReport.

(** ** The command: the numbers of the report *)

Section CliSummary.
Import JsString FileMatcher MatcherSpec NoiseDetector NoiseSpec AstAnalyzer Cli.
Import MarkdownReporter CliSamples.
Local Open Scope list_scope.

Variable analyzeAST : string -> string -> Registry.ASTRepresentation.
Variable goldenFileContents migrationFileContents : option (gmap string string).

Lemma PENALTY_nonneg (t : NoiseType) : (0 <= PENALTY t)%Q.
Proof. now destruct t. Qed.

Lemma detectNoise_penalties (input : NoiseDetectorInput) :
  Forall (fun n : NoiseInstance Q => (0 <= penalty n)%Q) (detectNoise input).
Proof.
  rewrite detectNoise_blocks.
  repeat (apply Forall_app; split).
  - apply Forall_map, Forall_forall. intros d _. apply PENALTY_nonneg.
  - eapply Forall_impl; [apply formatting_types|].
    intros n [_ ->]. apply PENALTY_nonneg.
  - apply Forall_map, Forall_forall. intros d _. apply PENALTY_nonneg.
  - eapply Forall_impl; [apply scan_types|]. intros n [_ ->]. apply PENALTY_nonneg.
  - eapply Forall_impl; [apply scan_types|]. intros n [_ ->]. apply PENALTY_nonneg.
Qed.

Lemma computeFileCoverage_lengths (a b : MatchResult) :
  length (matched a) = length (matched b) ->
  length (missedFiles a) = length (missedFiles b) ->
  @Engine.computeFileCoverage Q _ a = Engine.computeFileCoverage b.
Proof. intros E1 E2. unfold Engine.computeFileCoverage. now rewrite E1, E2. Qed.

Lemma printed_grade_scoreToGrade (score : Q) :
  printed_grade score = scoreToGrade score.
Proof. reflexivity. Qed.

(** X24.  The numbers of a run.  The summary of the report is the score
    of the engine for the match result of [matchFiles] on the two lists
    as they were read, the outcomes of the pattern breakdown, each with
    the weight of its detector (the weights of the registered detectors,
    in order, once for each matched pair and each missed file), and the
    noise instances of the report.  The grade printed on the console is
    the grade of the Markdown report.  And when no registered weight is
    negative, the four numbers of the summary lie between 0 and 100. *)
Theorem X24_summary_of_a_run (registry : Registry.Heap) (G M : list FileDiff) :
  Forall (fun pattern => (0 <= Registry.weight pattern)%Z)
         (Registry.read Registry.patterns registry) ->
  let ev := evaluate (num := Q) analyzeAST goldenFileContents migrationFileContents
                     registry G M in
  let mr := matchFiles G M in
  let weights :=
    map (fun pattern => lit (Registry.weight pattern) 1)
        (Registry.read Registry.patterns registry) in
  (exists W : list (Engine.WeightedDetectionResult Q),
     map Engine.result W = patternBreakdown ev /\
     map Engine.weight W
     = concat (replicate (length (matched mr) + length (missedFiles mr)) weights) /\
     summary ev
     = Engine.computeScore
         {| Engine.matchResult := mr; Engine.weightedResults := W;
            Engine.noiseInstances := noiseInstances ev |}) /\
  grade ev = scoreToGrade (Engine.overallScore (summary ev)) /\
  ((0 <= Engine.overallScore (summary ev) /\ Engine.overallScore (summary ev) <= 100) /\
   (0 <= Engine.fileCoverage (summary ev) /\ Engine.fileCoverage (summary ev) <= 100) /\
   (0 <= Engine.patternScore (summary ev) /\ Engine.patternScore (summary ev) <= 100) /\
   (0 <= Engine.noisePenalty (summary ev) /\ Engine.noisePenalty (summary ev) <= 100))%Q.
Proof.
  intros Hw ev mr weights. subst ev weights. rewrite evaluate_eq.
  cbn [summary patternBreakdown noiseInstances grade].
  set (patterns := Registry.read Registry.patterns registry) in *.
  pose proof (loops_from_start analyzeAST goldenFileContents migrationFileContents
                patterns G M) as (HG & HM & HF & _ & HW & HWp & HWw).
  cbv zeta in HG, HM, HF, HW, HWp, HWw. fold mr in HWw.
  apply (store_weaken _ _ _ _ (kept_by_touched migrationFileContents)) in HM.
  set (st := fold_left (missed_step analyzeAST patterns) _ _) in *.
  set (now := deref (goldenObjs st) (migrationObjs st) (matchFileRefs G M)).
  set (noise := detectNoise _).
  destruct (deref_touched G (goldenObjs st) M (migrationObjs st)
              (matchFileRefs G M) HG HM) as (H1 & H2 & _).
  rewrite deref_matchFileRefs in H1, H2. fold now mr in H1, H2.
  assert (Hcov : @Engine.computeFileCoverage Q _ now = Engine.computeFileCoverage mr).
  { apply computeFileCoverage_lengths; symmetry; eapply Forall2_length; eassumption. }
  split; [|split].
  - exists (allWeightedResults st). split; [exact HW|]. split; [exact HWw|].
    unfold Engine.computeScore.
    cbn [Engine.matchResult Engine.weightedResults Engine.noiseInstances].
    now rewrite Hcov.
  - reflexivity.
  - apply (computeScore_range
             {| Engine.matchResult := now;
                Engine.weightedResults := allWeightedResults st;
                Engine.noiseInstances := noise |}).
    + cbn [Engine.weightedResults]. eapply Forall_impl; [exact HWp|].
      cbn. intros w (p & Hp & ->).
      rewrite Forall_forall in Hw. apply list_elem_of_In, Hw in Hp.
      change (lit (Registry.weight p) 1) with (Registry.weight p # 1).
      unfold Qle. cbn. lia.
    + cbn [Engine.noiseInstances]. apply detectNoise_penalties.
Qed.

Lemma matchFiles_no_candidate (G : list FileDiff) :
  matchFiles G []
  = {| matched := []; missedFiles := kept_records G; extraFiles := [] |}.
Proof. apply (matchFiles_disjoint G []). intros g m _ []. Qed.

Lemma missed_statuses (patterns : list Registry.PatternDefinition)
  (l : list FileDiff) :
  Forall answers_missing patterns ->
  Forall (fun r => status r = NOT_APPLICABLE \/ status r = FILE_MISSING)
         (concat (map (outcomes_missed analyzeAST patterns) l)).
Proof.
  intros Hp. induction l as [|g l IH]; cbn [map concat]; [constructor|].
  apply Forall_app. split; [|exact IH].
  unfold outcomes_missed. destruct (analyzeFileDiff analyzeAST g) as [ga g'].
  apply Forall_map. eapply Forall_impl; [exact Hp|].
  intros p Hpm. apply Hpm.
Qed.

Lemma filter_incorrect_none (D : list DetectionResult) :
  Forall (fun r => status r = NOT_APPLICABLE \/ status r = FILE_MISSING) D ->
  List.filter (fun r => bool_decide (status r = INCORRECT)) D = [].
Proof.
  induction 1 as [|r D Hr _ IH]; cbn [List.filter]; [reflexivity|].
  rewrite bool_decide_eq_false_2; [exact IH|]. destruct Hr as [-> | ->]; discriminate.
Qed.

Lemma no_credit_sums (l : list (Engine.WeightedDetectionResult Q)) :
  Forall (fun r => status (Engine.result r) = NOT_APPLICABLE
                   \/ status (Engine.result r) = FILE_MISSING) l ->
  (SpecWords.sum_credit l == 0)%Q.
Proof.
  unfold SpecWords.sum_credit.
  induction 1 as [|r l Hr _ IH]; simpl; [reflexivity|].
  destruct Hr as [Hr|Hr].
  - assert (Hg : SpecWords.graded r = false)
      by (unfold SpecWords.graded; now rewrite Hr).
    rewrite Hg. exact IH.
  - assert (Hg : SpecWords.graded r = true)
      by (unfold SpecWords.graded; now rewrite Hr).
    rewrite Hg. simpl. rewrite Hr, IH. simpl. ring.
Qed.

Lemma sum_weight_ge_0 (l : list (Engine.WeightedDetectionResult Q)) :
  Forall (fun r => (0 < Engine.weight r)%Q) l -> (0 <= SpecWords.sum_weight l)%Q.
Proof.
  unfold SpecWords.sum_weight.
  induction 1 as [|r l Hr _ IH]; simpl; [lra|].
  destruct (SpecWords.graded r); simpl; lra.
Qed.

Lemma sum_weight_pos (l : list (Engine.WeightedDetectionResult Q)) :
  Forall (fun r => (0 < Engine.weight r)%Q) l ->
  Exists (fun r => status (Engine.result r) = FILE_MISSING) l ->
  (0 < SpecWords.sum_weight l)%Q.
Proof.
  intros Hw He. induction He as [r l Hr|r l _ IH].
  - apply Forall_cons_1 in Hw as [Hr0 Hl].
    pose proof (sum_weight_ge_0 l Hl) as H0.
    unfold SpecWords.sum_weight in *. simpl.
    assert (Hg : SpecWords.graded r = true)
      by (unfold SpecWords.graded; now rewrite Hr).
    rewrite Hg. simpl. lra.
  - apply Forall_cons_1 in Hw as [Hr0 Hl]. specialize (IH Hl).
    unfold SpecWords.sum_weight in *. simpl.
    destruct (SpecWords.graded r); simpl; lra.
Qed.

(** The overall score without noise, from the two other components. *)
Lemma overall_without_noise (input : Engine.ScoreInput Q) (fc ps : Q) :
  (Engine.computeFileCoverage (Engine.matchResult input) == fc)%Q ->
  (Engine.computePatternScore (Engine.weightedResults input) == ps)%Q ->
  Engine.noiseInstances input = [] ->
  (Engine.overallScore (Engine.computeScore input)
   == Engine.round (((20 # 100) * fc + (65 # 100) * ps + (15 # 100)) * 100))%Q.
Proof.
  intros Hf Hp Hn. unfold Engine.computeScore. cbn [Engine.overallScore].
  rewrite Hn. revert Hf Hp.
  generalize (@Engine.computeFileCoverage Q _ (Engine.matchResult input)) as fc'.
  generalize (Engine.computePatternScore (Engine.weightedResults input)) as ps'.
  intros ps' fc' Hf Hp.
  change (Engine.computeNoisePenalty []) with (Qmin 1 0).
  change (lit 100 1) with (100 # 1). change (lit 20 100) with (20 # 100).
  change (lit 65 100) with (65 # 100). change (lit 15 100) with (15 # 100).
  change (lit 1 1) with (1 # 1). change add with Qplus. change mul with Qmult.
  change sub with Qminus.
  apply round_proper. rewrite Hf, Hp. change (Qmin 1 0) with 0%Q. ring.
Qed.

Lemma printed_grade_proper (a b : Q) :
  (a == b)%Q -> printed_grade a = printed_grade b.
Proof.
  intros E. unfold printed_grade.
  change (@ge Q _) with (fun x y : Q => Qle_bool y x). cbv beta.
  assert (H : forall c : Q, Qle_bool c a = Qle_bool c b).
  { intros c. apply eq_true_iff_eq. rewrite !Qle_bool_iff. now rewrite E. }
  now rewrite !H.
Qed.

(** X25.  A candidate that changes nothing.  When every registered
    detector answers NOT_APPLICABLE or FILE_MISSING for a missing file and
    has a positive weight, the run against an empty candidate diff has no
    file result and no noise; the breakdown holds one outcome for each
    detector and each golden record that is not excluded, NOT_APPLICABLE
    or FILE_MISSING; and the overall score is 100 (grade A) when the
    golden diff has no record to migrate, 80 (grade B) when it has but no
    detector applies to any of them, and 15 (grade F) as soon as one
    detector applies. *)
Theorem X25_empty_candidate (registry : Registry.Heap) (G : list FileDiff) :
  Forall answers_missing (Registry.read Registry.patterns registry) ->
  Forall (fun pattern => (0 < Registry.weight pattern)%Z)
         (Registry.read Registry.patterns registry) ->
  let ev := evaluate (num := Q) analyzeAST goldenFileContents migrationFileContents
                     registry G [] in
  fileResults ev = [] /\ noiseInstances ev = [] /\
  length (patternBreakdown ev)
  = (length (Registry.read Registry.patterns registry)
     * length (kept_records G))%nat /\
  Forall (fun r => status r = NOT_APPLICABLE \/ status r = FILE_MISSING)
         (patternBreakdown ev) /\
  (kept_records G = [] ->
   (Engine.overallScore (summary ev) == 100)%Q /\ grade ev = "A"%string) /\
  (kept_records G <> [] ->
   Forall (fun r => status r = NOT_APPLICABLE) (patternBreakdown ev) ->
   (Engine.overallScore (summary ev) == 80)%Q /\ grade ev = "B"%string) /\
  (Exists (fun r => status r = FILE_MISSING) (patternBreakdown ev) ->
   (Engine.overallScore (summary ev) == 15)%Q /\ grade ev = "F"%string).
Proof.
  intros Hmiss Hpos ev. subst ev. rewrite evaluate_eq.
  cbn [summary fileResults patternBreakdown noiseInstances grade].
  set (patterns := Registry.read Registry.patterns registry) in *.
  pose proof (loops_from_start analyzeAST goldenFileContents migrationFileContents
                patterns G []) as (HG & HM & HF & HD & HW & HWp & _).
  cbv zeta in HG, HM, HF, HD, HW, HWp.
  apply (store_weaken _ _ _ _ (kept_by_touched migrationFileContents)) in HM.
  set (st := fold_left (missed_step analyzeAST patterns) _ _) in *.
  destruct (deref_touched G (goldenObjs st) [] (migrationObjs st)
              (matchFileRefs G []) HG HM) as (H1 & H2 & H3).
  rewrite deref_matchFileRefs in H1, H2, H3.
  set (now := deref (goldenObjs st) (migrationObjs st) (matchFileRefs G [])) in *.
  rewrite matchFiles_no_candidate in HF, HD, H1, H2, H3.
  cbn [matched missedFiles extraFiles map concat app] in HF, HD, H1, H2, H3.
  apply Forall2_nil_inv_l in HM, H1, H3.
  assert (Hst : Forall (fun r => status r = NOT_APPLICABLE \/ status r = FILE_MISSING)
                       (allDetectionResults st)).
  { rewrite HD. now apply missed_statuses. }
  assert (Hnoise : detectNoise {| matchResult := now;
                                  migrationDiffs := migrationObjs st;
                                  detectionResults := allDetectionResults st |}
                   = ([] : list (NoiseInstance Q))).
  { rewrite detectNoise_blocks. cbn [matchResult migrationDiffs detectionResults].
    unfold detectUnnecessaryChanges, detectIncorrectMigrations.
    now rewrite H3, HM, (filter_incorrect_none _ Hst). }
  rewrite Hnoise, HF. cbn [fold_left].
  assert (Hlen : length (allDetectionResults st)
                 = (length patterns * length (kept_records G))%nat).
  { rewrite HD. apply concat_length_each. apply outcomes_missed_length. }
  assert (HWst : Forall (fun r => status (Engine.result r) = NOT_APPLICABLE
                                  \/ status (Engine.result r) = FILE_MISSING)
                        (allWeightedResults st)).
  { rewrite <- HW in Hst. now apply Forall_map in Hst. }
  assert (HWpos : Forall (fun r => (0 < Engine.weight r)%Q) (allWeightedResults st)).
  { eapply Forall_impl; [exact HWp|]. cbn. intros w (p & Hp & ->).
    rewrite Forall_forall in Hpos. apply list_elem_of_In, Hpos in Hp.
    change (lit (Registry.weight p) 1) with (Registry.weight p # 1).
    unfold Qlt. cbn. lia. }
  assert (Hcov : (Engine.computeFileCoverage now
                  == SpecWords.fileCoverage 0 (length (kept_records G)))%Q).
  { rewrite computeFileCoverage_spec, H1.
    now rewrite <- (Forall2_length _ _ _ H2). }
  set (input := {| Engine.matchResult := now;
                   Engine.weightedResults := allWeightedResults st;
                   Engine.noiseInstances := [] |}).
  assert (Hall : Forall (fun r => status r = NOT_APPLICABLE) (allDetectionResults st) ->
                 (Engine.computePatternScore (allWeightedResults st) == 1)%Q).
  { intros Hna. rewrite computePatternScore_spec. unfold SpecWords.patternScore.
    rewrite <- HW in Hna. apply Forall_map in Hna.
    pose proof (none_graded_sums _ Hna) as Hz.
    apply Qeq_bool_iff in Hz. now rewrite Hz. }
  split; [reflexivity|]. split; [reflexivity|]. split; [exact Hlen|].
  split; [exact Hst|]. split; [|split].
  - intros Hk. rewrite Hk in Hcov, Hlen. cbn [length] in Hcov, Hlen.
    rewrite Nat.mul_0_r in Hlen. apply nil_length_inv in Hlen.
    assert (Hs : (Engine.overallScore (Engine.computeScore input) == 100)%Q).
    { rewrite (overall_without_noise input 1 1); [reflexivity|exact Hcov| |reflexivity].
      apply Hall. rewrite Hlen. constructor. }
    split; [exact Hs|]. now rewrite (printed_grade_proper _ _ Hs).
  - intros Hk Hna.
    assert (Hc0 : (Engine.computeFileCoverage now == 0)%Q).
    { rewrite Hcov. destruct (kept_records G); [congruence|reflexivity]. }
    assert (Hs : (Engine.overallScore (Engine.computeScore input) == 80)%Q).
    { rewrite (overall_without_noise input 0 1);
        [reflexivity|exact Hc0|now apply Hall|reflexivity]. }
    split; [exact Hs|]. now rewrite (printed_grade_proper _ _ Hs).
  - intros Hex.
    assert (Hk : kept_records G <> []).
    { intros Hk. rewrite Hk in Hlen. cbn [length] in Hlen.
      rewrite Nat.mul_0_r in Hlen. apply nil_length_inv in Hlen.
      rewrite Hlen in Hex. inversion Hex. }
    assert (Hc0 : (Engine.computeFileCoverage now == 0)%Q).
    { rewrite Hcov. destruct (kept_records G); [congruence|reflexivity]. }
    assert (Hp0 : (Engine.computePatternScore (allWeightedResults st) == 0)%Q).
    { rewrite computePatternScore_spec. unfold SpecWords.patternScore.
      rewrite <- HW in Hex. apply Exists_fmap in Hex.
      pose proof (sum_weight_pos _ HWpos Hex) as Hsw.
      destruct (Qeq_bool (SpecWords.sum_weight (allWeightedResults st)) 0) eqn:E.
      - apply Qeq_bool_iff in E. lra.
      - rewrite (no_credit_sums _ HWst). unfold Qdiv. ring. }
    assert (Hs : (Engine.overallScore (Engine.computeScore input) == 15)%Q).
    { rewrite (overall_without_noise input 0 0);
        [reflexivity|exact Hc0|exact Hp0|reflexivity]. }
    split; [exact Hs|]. now rewrite (printed_grade_proper _ _ Hs).
Qed.

End CliSummary.

Lemma X24_summary_of_a_run_witness :
  let ev := Cli.evaluate (num := Q) CliSamples.no_ast None None
              CliSamples.registry_css CliSamples.golden_button
              CliSamples.candidate_button in
  (0 <= Engine.overallScore (Cli.summary ev)
   /\ Engine.overallScore (Cli.summary ev) <= 100)%Q.
Proof.
  intros ev.
  assert (H : Forall (fun pattern => (0 <= Registry.weight pattern)%Z)
                     [CssClassPrefix.pattern])
    by (repeat constructor; easy).
  pose proof (X24_summary_of_a_run CliSamples.no_ast None None
                CliSamples.registry_css CliSamples.golden_button
                CliSamples.candidate_button H) as K.
  cbv zeta in K. fold ev in K. destruct K as (_ & _ & K & _). exact K.
Defined.

Lemma X25_empty_candidate_witness :
  let ev := Cli.evaluate (num := Q) CliSamples.no_ast None None
              CliSamples.registry_css CliSamples.golden_button [] in
  (Engine.overallScore (Cli.summary ev) == 15)%Q /\ Cli.grade ev = "F"%string.
Proof.
  intros ev.
  assert (H1 : Forall Cli.answers_missing [CssClassPrefix.pattern]).
  { apply Forall_cons_2; [|apply Forall_nil_2]. intros g ga.
    exact (proj1 (proj2 (proj2 (proj2 (contract_css_class_prefix g None))))). }
  assert (H2 : Forall (fun pattern => (0 < Registry.weight pattern)%Z)
                      [CssClassPrefix.pattern])
    by (repeat constructor; easy).
  pose proof (X25_empty_candidate CliSamples.no_ast None None
                CliSamples.registry_css CliSamples.golden_button H1 H2) as K.
  cbv zeta in K. fold ev in K. destruct K as (_ & _ & _ & _ & _ & _ & K).
  apply K. subst ev. vm_compute. constructor. reflexivity.
Defined.

(** ** The address of a pull request *)

Section PullRequestUrl.
Import JsString JsRegExp DetectorSpec RegExpSpec PrFetcher.
Local Open Scope string_scope.
Local Open Scope list_scope.

(** One or more code units of a class. *)
Lemma run_Plus_cls_in (f : ascii -> bool) (w rest : string) (b : option ascii) :
  w <> "" -> all_chars f w = true ->
  In (last_before b w, rest) (run (Plus (Cls f)) (b, String.append w rest)).
Proof.
  destruct w as [|c w]; [congruence|]. intros _ Hw.
  unfold all_chars in Hw. cbn [list_ascii_of_string forallb] in Hw.
  apply andb_prop in Hw as [Hc Hw].
  unfold Plus. apply in_run_Seq.
  exists (Some c, String.append w rest). split.
  - change (String.append (String c w) rest) with (String c (String.append w rest)).
    cbn [run snd]. rewrite Hc. now left.
  - cbn [last_before]. now apply run_Star_cls_in.
Qed.

Lemma run_Plus_cls_inv (f : ascii -> bool) (b : option ascii) (s : string) (q : pos) :
  In q (run (Plus (Cls f)) (b, s)) ->
  exists w, w <> "" /\ s = String.append w (snd q) /\ all_chars f w = true.
Proof.
  unfold Plus. intros Hq. apply in_run_Seq in Hq as (m & Hm & Hq).
  cbn [run snd] in Hm. destruct s as [|c s]; [destruct Hm|].
  destruct (f c) eqn:Hc; [|destruct Hm]. destruct Hm as [<-|[]].
  apply run_Star_cls_inv in Hq as (w & Hs & Hw & _). cbn [snd] in Hs.
  exists (String c w). split; [discriminate|]. split.
  - change (String.append (String c w) (snd q)) with (String c (String.append w (snd q))).
    now rewrite Hs.
  - unfold all_chars in *. cbn [list_ascii_of_string forallb]. now rewrite Hc, Hw.
Qed.

(** X26.  [isValidPRUrl] accepts exactly the addresses
    [https://github.com/OWNER/REPO/pull/NUMBER], with or without one
    final slash, where OWNER and REPO are non-empty and made of letters,
    digits, underscores, dots and hyphens, and NUMBER is a non-empty run
    of digits.  Nothing may come before or after: no other scheme or
    host, no further path, query or fragment, no white space. *)
Theorem X26_valid_pr_url (url : string) :
  isValidPRUrl url = true
  <-> exists owner repo number slash : string,
        url = pr_url owner repo number slash /\
        owner <> "" /\ all_chars name_char owner = true /\
        repo <> "" /\ all_chars name_char repo = true /\
        number <> "" /\ all_chars is_digit number = true /\
        (slash = "" \/ slash = "/").
Proof.
  unfold isValidPRUrl, pr_url. rewrite matches_at_iff. split.
  - intros (q & Hq). unfold PR_URL_RE in Hq.
    apply in_run_Seq in Hq as (m1 & H1 & Hq).
    apply run_Str_inv in H1 as (t1 & -> & ->).
    apply in_run_Seq in Hq as (m2 & H2 & Hq).
    apply run_Plus_cls_inv in H2 as (owner & Ho & -> & Howner).
    apply in_run_Seq in Hq as (m3 & H3 & Hq).
    destruct m2 as [b2 t2]. cbn [snd].
    apply run_Str_inv in H3 as (t3 & -> & ->).
    apply in_run_Seq in Hq as (m4 & H4 & Hq).
    apply run_Plus_cls_inv in H4 as (repo & Hr & -> & Hrepo).
    apply in_run_Seq in Hq as (m5 & H5 & Hq).
    destruct m4 as [b4 t4]. cbn [snd].
    apply run_Str_inv in H5 as (t5 & -> & ->).
    apply in_run_Seq in Hq as (m6 & H6 & Hq).
    apply run_Plus_cls_inv in H6 as (number & Hn & -> & Hnumber).
    apply in_run_Seq in Hq as (m7 & H7 & Hq).
    destruct m6 as [b6 t6]. cbn [snd].
    exists owner, repo, number, t6. split; [reflexivity|].
    repeat (split; [assumption|]).
    apply in_run_Alt in H7 as [H7|H7].
    + apply run_Str_inv in H7 as (t7 & -> & ->).
      cbn [run snd] in Hq. destruct t7; [now right|destruct Hq].
    + destruct H7 as [<-|[]]. cbn [run snd] in Hq.
      destruct t6; [now left|destruct Hq].
  - intros (owner & repo & number & slash & -> & Ho & Howner & Hr & Hrepo
            & Hn & Hnumber & Hslash).
    assert (Hend : exists q, In q (run (Seq (Alt (Str "/") Eps) Eol)
                                       (last_before (last_before (last_before
                                          (last_before (last_before (last_before None
                                             "https://github.com/") owner) "/") repo)
                                          "/pull/") number, slash))).
    { destruct Hslash as [-> | ->]; eexists; apply in_run_Seq; eexists.
      - split; [apply in_run_Alt; right; now left|]. cbn [run snd]. now left.
      - split; [apply in_run_Alt; left; now left|]. cbn [run snd]. now left. }
    destruct Hend as [q Hend]. exists q. unfold PR_URL_RE.
    apply in_run_Seq. eexists. split; [rewrite run_Str_app; now left|].
    apply in_run_Seq. eexists. split; [now apply run_Plus_cls_in|].
    apply in_run_Seq. eexists. split; [rewrite run_Str_app; now left|].
    apply in_run_Seq. eexists. split; [now apply run_Plus_cls_in|].
    apply in_run_Seq. eexists. split; [rewrite run_Str_app; now left|].
    apply in_run_Seq. eexists. split; [now apply run_Plus_cls_in|].
    exact Hend.
Qed.

Lemma X26_valid_pr_url_witness :
  isValidPRUrl "https://github.com/patternfly/patternfly-react/pull/10431/" = true.
Proof.
  apply (proj2 (X26_valid_pr_url
                  "https://github.com/patternfly/patternfly-react/pull/10431/")).
  exists "patternfly", "patternfly-react", "10431", "/".
  repeat split; try discriminate; try reflexivity. now right.
Defined.

End PullRequestUrl.

(** ** react-tokens-icon-status: old imports that count as new *)

Section IconImports.
Import JsString JsRegExp DetectorSpec RegExpSpec ReactTokensIconStatus.
Local Open Scope string_scope.
Local Open Scope list_scope.

Lemma from_quote_mono (r1 r2 : regex) :
  (forall p, matches_at r1 p = true -> matches_at r2 p = true) ->
  forall p, matches_at (from_quote r1) p = true ->
            matches_at (from_quote r2) p = true.
Proof.
  intros Hr p H. apply matches_at_iff in H as (q & Hq). unfold from_quote in *.
  apply in_run_Seq in Hq as (m1 & H1 & Hq).
  apply in_run_Seq in Hq as (m2 & H2 & Hq).
  apply in_run_Seq in Hq as (m3 & H3 & Hq).
  assert (Hm : matches_at r1 m3 = true) by (apply matches_at_iff; eauto).
  apply Hr, matches_at_iff in Hm as (q' & Hq').
  apply matches_at_iff. exists q'.
  apply in_run_Seq. exists m1. split; [exact H1|].
  apply in_run_Seq. exists m2. split; [exact H2|].
  apply in_run_Seq. exists m3. split; [exact H3|exact Hq'].
Qed.

(** A literal followed by more, cut where a word ends. *)
Lemma literal_cut (s1 s2 : string) (c : ascii) (r : regex) :
  (forall (b : option ascii) (rest : string),
     at_word_boundary (last_before b s1, String c rest) = true) ->
  forall p, matches_at (Seq (Str (String.append s1 (String c s2))) r) p = true ->
            matches_at (Seq (Str s1) WordB) p = true.
Proof.
  intros Hb [b t] H. apply matches_at_iff in H as (q & Hq).
  apply in_run_Seq in Hq as (m & Hm & _).
  apply run_Str_inv in Hm as (t' & -> & _).
  rewrite append_assoc.
  change (String.append (String c s2) t') with (String c (String.append s2 t')).
  apply matches_at_iff. eexists.
  apply in_run_Seq. eexists. split; [rewrite run_Str_app; now left|].
  cbn [run]. rewrite Hb. now left.
Qed.

Lemma old_icon_is_old_status (s : string) :
  test OLD_ICON_IMPORT_RE s = true -> test OLD_STATUS_IMPORT_RE s = true.
Proof.
  unfold test. apply search_mono. apply from_quote_mono.
  apply (literal_cut "@patternfly/react-icons/dist" "" "/"). reflexivity.
Qed.

Lemma old_status_is_new_icon (s : string) :
  test OLD_STATUS_IMPORT_RE s = true -> test NEW_ICON_IMPORT_RE s = true.
Proof.
  unfold test. apply search_mono. apply from_quote_mono.
  apply (literal_cut "@patternfly/react-icons" "dist" "/"). reflexivity.
Qed.

Lemma old_status_lines (ls : list DiffLine) :
  existsb (fun l => test OLD_STATUS_IMPORT_RE (content l)) ls = true ->
  hasOldTokenOrIconPatterns ls = true /\ hasNewTokenOrIconPatterns ls = true.
Proof.
  intros H. split.
  - revert H. apply existsb_impl. intros l Hl. rewrite Hl. apply orb_true_r.
  - revert H. apply existsb_impl. intros l Hl.
    rewrite (old_status_is_new_icon _ Hl). apply orb_true_r.
Qed.

(** X27.  In react-tokens-icon-status the pattern for the new icon
    imports also accepts the old ones: a line with an import from
    [@patternfly/react-icons/dist/js/icons] or [.../dist/esm/icons] is a
    line with an import from [@patternfly/react-icons/dist], and such a
    line is a line with an import from [@patternfly/react-icons].  So
    added lines that hold an old icon import count both as old and as new
    patterns: a golden record that only adds such a line makes the
    detector applicable, and a candidate that removes an old icon import
    and adds one is told that old import paths were re-added, never that
    new import paths were not added. *)
Theorem X27_old_icon_imports_count_as_new :
  (forall s : string,
     (test OLD_ICON_IMPORT_RE s = true -> test OLD_STATUS_IMPORT_RE s = true) /\
     (test OLD_STATUS_IMPORT_RE s = true -> test NEW_ICON_IMPORT_RE s = true)) /\
  (forall ls : list DiffLine,
     existsb (fun l => test OLD_STATUS_IMPORT_RE (content l)) ls = true ->
     hasOldTokenOrIconPatterns ls = true /\ hasNewTokenOrIconPatterns ls = true) /\
  (forall (g : FileDiff) (m : option FileDiff),
     existsb (fun l => test OLD_STATUS_IMPORT_RE (content l)) (addedLines g) = true ->
     status (detect g m) <> NOT_APPLICABLE) /\
  (forall g m : FileDiff,
     status (detect g None) <> NOT_APPLICABLE ->
     existsb (fun l => test OLD_STATUS_IMPORT_RE (content l)) (addedLines m) = true ->
     status (detect g (Some m)) = INCORRECT /\
     details (detect g (Some m))
     = Some ["Old react-tokens/icon import paths re-added in migration"]).
Proof.
  split; [intros s; split; [apply old_icon_is_old_status|apply old_status_is_new_icon]|].
  split; [exact old_status_lines|]. split.
  - intros g m H. destruct (old_status_lines _ H) as [_ Hn].
    unfold detect. cbv zeta. rewrite Hn, andb_false_r.
    destruct m as [m|]; [|discriminate].
    destruct (negb _ && negb _); [discriminate|].
    destruct (0 <? _)%nat; discriminate.
  - intros g m Hg H. destruct (old_status_lines _ H) as [Ho Hn].
    unfold detect in *. cbv zeta in *.
    destruct (negb (hasOldTokenOrIconPatterns (removedLines g))
              && negb (hasNewTokenOrIconPatterns (addedLines g))) eqn:E;
      [now cbn in Hg|].
    rewrite Hn, Ho, !andb_false_r. cbn [negb andb app length Nat.ltb Nat.leb].
    now split.
Qed.

Lemma X27_old_icon_imports_count_as_new_witness :
  test NEW_ICON_IMPORT_RE
    "import CheckIcon from '@patternfly/react-icons/dist/esm/icons/check-icon';"
  = true.
Proof.
  apply (proj2 (proj1 X27_old_icon_imports_count_as_new _)).
  apply (proj1 (proj1 X27_old_icon_imports_count_as_new _)).
  reflexivity.
Defined.

End IconImports.

(** ** Lookaheads that follow a word boundary *)

Section Lookaheads.
Import JsString JsRegExp JsLookahead DetectorSpec RegExpSpec.
Local Open Scope string_scope.
Local Open Scope list_scope.

Lemma search_unless_ext (r n r' : regex) (s : string) :
  (forall p, matches_at_unless r n p = matches_at r' p) ->
  forall b, search_unless r n b s = search r' b s.
Proof.
  intros H. induction s as [|c s IH]; intros b; cbn [search_unless search].
  - now rewrite H.
  - now rewrite H, IH.
Qed.

Lemma unless_never (r n : regex) :
  (forall p q, In q (run r p) -> matches_at n q = false) ->
  forall p, matches_at_unless r n p = matches_at r p.
Proof.
  intros H p. unfold matches_at_unless.
  change (matches_at r p) with (match run r p with [] => false | _ => true end).
  specialize (H p). destruct (run r p) as [|q l]; [reflexivity|].
  cbn [existsb]. rewrite (H q) by now left. reflexivity.
Qed.

(** After a word between two word boundaries comes no word character. *)
Lemma after_word (w : string) (p q : pos) :
  (forall b, exists d, last_before b w = Some d /\ is_word d = true) ->
  In q (run (Seq WordB (Seq (Str w) WordB)) p) ->
  match snd q with
  | EmptyString => True
  | String c _ => is_word c = false
  end.
Proof.
  intros Hw Hq. apply in_run_Seq in Hq as (m0 & _ & Hq).
  apply in_run_Seq in Hq as (m1 & H1 & Hq).
  destruct m0 as [b t]. apply run_Str_inv in H1 as (t' & -> & ->).
  cbn [run] in Hq.
  destruct (at_word_boundary (last_before b w, t')) eqn:E; [|destruct Hq].
  destruct Hq as [<-|[]]. cbn [snd].
  destruct (Hw b) as (d & Hd & Hdw).
  unfold at_word_boundary in E. cbn [fst snd] in E. rewrite Hd in E.
  cbn [from_option] in E. rewrite Hdw in E.
  destruct t' as [|c t']; [exact I|]. now destruct (is_word c).
Qed.

(** A literal that begins with a word character finds no match there. *)
Lemma no_literal_after_word (c0 : ascii) (s0 : string) (q : pos) :
  is_word c0 = true ->
  match snd q with
  | EmptyString => True
  | String c _ => is_word c = false
  end ->
  run (Str (String c0 s0)) q = [].
Proof.
  intros Hc Hq. cbn [Str run]. destruct (snd q) as [|c t]; [reflexivity|].
  destruct (Ascii.eqb c0 c) eqn:E; [|reflexivity].
  apply Ascii.eqb_eq in E. subst c. congruence.
Qed.

Ltac no_lookahead w c :=
  intros s; unfold test_unless, test, c; cbn [fst snd];
  apply search_unless_ext; apply unless_never; intros p q Hq;
  apply (after_word w) in Hq; [|intros b; eexists; split; reflexivity];
  unfold matches_at; cbn [run];
  rewrite ?no_literal_after_word by (reflexivity || exact Hq); reflexivity.

Lemma text_lookahead (s : string) :
  test_unless (fst TextContentConsolidation.PF5_TEXT_COMPONENT)
              (snd TextContentConsolidation.PF5_TEXT_COMPONENT) s
  = test (fst TextContentConsolidation.PF5_TEXT_COMPONENT) s.
Proof. revert s. no_lookahead "Text" TextContentConsolidation.PF5_TEXT_COMPONENT. Qed.

Lemma content_lookahead (s : string) :
  test_unless (fst TextContentConsolidation.PF6_CONTENT)
              (snd TextContentConsolidation.PF6_CONTENT) s
  = test (fst TextContentConsolidation.PF6_CONTENT) s.
Proof. revert s. no_lookahead "Content" TextContentConsolidation.PF6_CONTENT. Qed.

Lemma masthead_lookahead (s : string) :
  test_unless (fst PageMasthead.MASTHEAD_COMPONENT_RE)
              (snd PageMasthead.MASTHEAD_COMPONENT_RE) s
  = test (fst PageMasthead.MASTHEAD_COMPONENT_RE) s.
Proof. revert s. no_lookahead "Masthead" PageMasthead.MASTHEAD_COMPONENT_RE. Qed.

Lemma select_lookahead (s : string) :
  test_unless (fst SelectRewrite.SELECT_TAG_RE) (snd SelectRewrite.SELECT_TAG_RE) s
  = test (fst SelectRewrite.SELECT_TAG_RE) s.
Proof. revert s. no_lookahead "Select" SelectRewrite.SELECT_TAG_RE. Qed.

(** The word [Content] alone is one of the names. *)
Lemma content_is_a_name (s : string) :
  test (fst TextContentConsolidation.PF6_CONTENT) s = true ->
  test TextContentConsolidation.PF6_CONTENT_NAMES s = true.
Proof.
  unfold test. apply search_mono. intros p H.
  apply matches_at_iff in H as (q & Hq). apply matches_at_iff. exists q.
  cbn [fst TextContentConsolidation.PF6_CONTENT] in Hq.
  unfold TextContentConsolidation.PF6_CONTENT_NAMES.
  apply in_run_Seq in Hq as (m0 & H0 & Hq).
  apply in_run_Seq in Hq as (m1 & H1 & Hq).
  apply in_run_Seq. exists m0. split; [exact H0|].
  apply in_run_Seq. exists m1. split; [|exact Hq].
  apply in_run_Alt. now left.
Qed.

(** X29.  The negative lookaheads of text-content-consolidation, of
    page-masthead and of select-rewrite never reject anything:
    [/\bText\b(?!Content|List|Variants|Props)/] accepts the lines that
    [/\bText\b/] accepts, [/\bContent\b(?!Variants|Props)/] those of
    [/\bContent\b/], [/\bMasthead\b(?!Content|Brand|Toggle|Main)/] those
    of [/\bMasthead\b/], and [/\bSelect\b(?!Option|List|Group|Variant)/]
    those of [/\bSelect\b/]: what follows the word boundary cannot be the
    head of one of the names.  And a line with the word [Content] is a line with
    one of the names [Content], [ContentVariants], [ContentProps]: the
    first of the two tests of [hasContentComponent] adds nothing to the
    second. *)
Theorem X29_lookaheads_never_reject :
  (forall s : string,
     test_unless (fst TextContentConsolidation.PF5_TEXT_COMPONENT)
                 (snd TextContentConsolidation.PF5_TEXT_COMPONENT) s
     = test (Seq WordB (Seq (Str "Text") WordB)) s) /\
  (forall s : string,
     test_unless (fst TextContentConsolidation.PF6_CONTENT)
                 (snd TextContentConsolidation.PF6_CONTENT) s
     = test (Seq WordB (Seq (Str "Content") WordB)) s) /\
  (forall s : string,
     test_unless (fst PageMasthead.MASTHEAD_COMPONENT_RE)
                 (snd PageMasthead.MASTHEAD_COMPONENT_RE) s
     = test (Seq WordB (Seq (Str "Masthead") WordB)) s) /\
  (forall s : string,
     test_unless (fst SelectRewrite.SELECT_TAG_RE)
                 (snd SelectRewrite.SELECT_TAG_RE) s
     = test (Seq WordB (Seq (Str "Select") WordB)) s) /\
  (forall lines : list DiffLine,
     TextContentConsolidation.hasContentComponent lines
     = existsb (fun l => test TextContentConsolidation.PF6_CONTENT_NAMES (content l))
               lines).
Proof.
  split; [exact text_lookahead|]. split; [exact content_lookahead|].
  split; [exact masthead_lookahead|]. split; [exact select_lookahead|].
  intros lines. unfold TextContentConsolidation.hasContentComponent.
  induction lines as [|l lines IH]; [reflexivity|]. cbn [existsb]. rewrite IH.
  f_equal. rewrite content_lookahead.
  destruct (test (fst TextContentConsolidation.PF6_CONTENT) (content l)) eqn:E;
    [|reflexivity].
  now rewrite (content_is_a_name _ E).
Qed.

End Lookaheads.

(** ** The command: a diff measured against itself *)

Section CliSelf.
Import JsString FileMatcher MatcherSpec NoiseDetector NoiseSpec AstAnalyzer Cli.
Import DetectorFamily.
Local Open Scope list_scope.

Variable analyzeAST : string -> string -> Registry.ASTRepresentation.
Variable contents : option (gmap string string).

Lemma NoDup_map_eq {A B : Type} (f : A -> B) (l : list A) (a b : A) :
  NoDup (map f l) -> In a l -> In b l -> f a = f b -> a = b.
Proof.
  induction l as [|x l IH]; [intros _ []|].
  cbn [map]. intros Hnd Ha Hb E. apply NoDup_cons in Hnd as [Hx Hnd].
  rewrite list_elem_of_In in Hx.
  destruct Ha as [<-|Ha], Hb as [<-|Hb]; [reflexivity| | |now apply IH].
  - exfalso. apply Hx. rewrite E. now apply in_map.
  - exfalso. apply Hx. rewrite <- E. now apply in_map.
Qed.

(** When no two records have the same normalized path, each record that
    is not excluded is matched with itself. *)
Lemma self_match_pairs (G : list FileDiff) :
  NoDup (map path_of (kept_records G)) ->
  matchFiles G G
  = {| matched := map (fun g => {| golden := g; migration := g |}) (kept_records G);
       missedFiles := [];
       extraFiles := [] |}.
Proof.
  intros Hnd. rewrite matchFiles_eq. cbv zeta.
  set (K := kept_records G) in *. set (M := buildMigrationMap K).
  assert (HM : forall r, In r K -> M !! path_of r = Some r).
  { intros r Hr. apply buildMigrationMap_sole; [exact Hr|].
    intros r' Hr' E. now apply (NoDup_map_eq path_of K). }
  assert (H1 : matched_of M K = map (fun g => {| golden := g; migration := g |}) K).
  { unfold matched_of. clearbody M. clear -HM.
    induction K as [|g K IH]; [reflexivity|].
    cbn [flat_map map]. rewrite (HM g) by now left. cbn [app]. f_equal.
    apply IH. intros r Hr. apply HM. now right. }
  assert (H2 : missed_of M K = []).
  { unfold missed_of. apply filter_drop.
    apply Forall_forall. intros r Hr%list_elem_of_In.
    apply bool_decide_eq_false. rewrite (HM r Hr). discriminate. }
  assert (H3 : List.filter
                 (fun d => negb (bool_decide (path_of d ∈ paths_of M K))) K = []).
  { apply filter_drop.
    apply Forall_forall. intros r Hr%list_elem_of_In.
    apply negb_false_iff, bool_decide_eq_true, in_paths_of.
    exists r. split; [exact Hr|]. split; [reflexivity|]. rewrite (HM r Hr). eauto. }
  now rewrite H1, H2, H3.
Qed.

Lemma self_outcomes (patterns : list Registry.PatternDefinition) (g : FileDiff) :
  Forall sound patterns ->
  Forall (fun r => status r = NOT_APPLICABLE \/ status r = CORRECT
                   \/ status r = INCORRECT)
         (outcomes_pair analyzeAST contents contents patterns
                        {| golden := g; migration := g |}).
Proof.
  intros Hs. unfold outcomes_pair. cbn [golden migration].
  destruct (astFor analyzeAST contents g) as [a g'].
  apply Forall_map. eapply Forall_impl; [exact Hs|].
  intros p Hp. cbv beta.
  destruct (Hp g' (Some g') (Some a) (Some a)) as (_ & H2 & _ & _ & H5 & H6).
  cbv zeta in *. specialize (H6 eq_refl eq_refl).
  destruct (status (Registry.detect p g' (Some g') (Some a) (Some a)));
    try tauto.
  specialize (H5 eq_refl). discriminate.
Qed.

(** X30.  A diff measured against itself.  When no two records of the
    diff that are not excluded have the same normalized path, and every
    registered definition keeps the contract of the detectors, the run of
    the command with the same diff and the same file contents on both
    sides reports a file coverage of 100 and one file result for each
    record that is not excluded; no outcome of the breakdown is MISSING,
    FILE_MISSING or UNNECESSARY; and no noise instance is an
    unnecessary_change. *)
Theorem X30_self_evaluation (registry : Registry.Heap) (G : list FileDiff) :
  Forall sound (Registry.read Registry.patterns registry) ->
  NoDup (map path_of (kept_records G)) ->
  let ev := evaluate (num := Q) analyzeAST contents contents registry G G in
  (Engine.fileCoverage (summary ev) == 100)%Q /\
  length (fileResults ev) = length (kept_records G) /\
  Forall (fun r => status r = NOT_APPLICABLE \/ status r = CORRECT
                   \/ status r = INCORRECT)
         (patternBreakdown ev) /\
  Forall (fun n => type n <> unnecessary_change) (noiseInstances ev).
Proof.
  intros Hsound Hnd ev. subst ev. rewrite evaluate_eq.
  cbn [summary fileResults patternBreakdown noiseInstances].
  set (patterns := Registry.read Registry.patterns registry) in *.
  pose proof (loops_from_start analyzeAST contents contents patterns G G)
    as (HG & HM & HF & HD & _).
  cbv zeta in HG, HM, HF, HD.
  apply (store_weaken _ _ _ _ (kept_by_touched contents)) in HM.
  set (st := fold_left (missed_step analyzeAST patterns) _ _) in *.
  destruct (deref_touched G (goldenObjs st) G (migrationObjs st)
              (matchFileRefs G G) HG HM) as (H1 & H2 & H3).
  rewrite deref_matchFileRefs in H1, H2, H3.
  set (now := deref (goldenObjs st) (migrationObjs st) (matchFileRefs G G)) in *.
  rewrite (self_match_pairs G Hnd) in HF, HD, H1, H2, H3.
  cbn [matched missedFiles extraFiles] in HF, HD, H1, H2, H3.
  apply Forall2_nil_inv_l in H2, H3.
  set (input := {| matchResult := now |}).
  split; [|split; [|split]].
  - unfold Engine.computeScore.
    cbn [Engine.fileCoverage Engine.matchResult].
    assert (Hc : (Engine.computeFileCoverage now == 1)%Q).
    { rewrite computeFileCoverage_spec, H2. cbn [length].
      unfold SpecWords.fileCoverage. rewrite Nat.add_0_r.
      destruct (length (matched now)) as [|k]; [reflexivity|].
      cbn [Nat.eqb]. apply Qmult_inv_r. unfold Qeq; cbn. lia. }
    change (lit 100 1) with (100 # 1). change mul with Qmult.
    rewrite (round_proper _ 100); [reflexivity|]. rewrite Hc. reflexivity.
  - rewrite assign_noise_fold.
    rewrite <- (length_map fr_filePath).
    rewrite (proj1 (attach_fields _ _ _)), HF, !length_map. reflexivity.
  - rewrite HD. cbn [map concat]. rewrite app_nil_r.
    assert (Hall : forall K : list FileDiff,
              Forall (fun r => status r = NOT_APPLICABLE \/ status r = CORRECT
                               \/ status r = INCORRECT)
                     (concat (map (outcomes_pair analyzeAST contents contents patterns)
                                  (map (fun g => {| golden := g; migration := g |})
                                       K)))).
    { intros K. induction K as [|g K IH]; cbn [map concat]; [constructor|].
      apply Forall_app. split; [now apply self_outcomes|exact IH]. }
    apply Hall.
  - apply Forall_forall. intros n Hn%list_elem_of_In Hty.
    pose proof (unnecessary_from_extra input n Hn Hty) as Hex.
    subst input. cbn [matchResult] in Hex. rewrite H3 in Hex. destruct Hex.
Qed.

End CliSelf.

Lemma X30_self_evaluation_witness :
  let ev := Cli.evaluate (num := Q) CliSamples.no_ast None None
              CliSamples.registry_css CliSamples.golden_button
              CliSamples.golden_button in
  (Engine.fileCoverage (Cli.summary ev) == 100)%Q.
Proof.
  intros ev.
  assert (H1 : Forall DetectorFamily.sound [CssClassPrefix.pattern]).
  { apply Forall_cons_2; [|apply Forall_nil_2].
    now apply (sound_of_contract CssClassPrefix.pattern _ contract_css_class_prefix). }
  assert (H2 : NoDup (map MatcherSpec.path_of
                          (MatcherSpec.kept_records CliSamples.golden_button))).
  { vm_compute. apply NoDup_cons. split; [apply not_elem_of_nil|apply NoDup_nil_2]. }
  pose proof (X30_self_evaluation CliSamples.no_ast None CliSamples.registry_css
                CliSamples.golden_button H1 H2) as K.
  cbv zeta in K. fold ev in K. exact (proj1 K).
Defined.
